(** * The BTM security manager (stack/btm/btm_sec.cc)

    A shallow embedding of the per-device security procedure engine, the
    pending request queue, the callback delivery and the bonding entry
    points of [btm_sec.cc], with the properties of the specification that
    concern them.

    The control block [btm_cb] is threaded explicitly through every
    function.  Pointers to device records are indices into
    [sec_dev_rec]; HCI commands, timers, posted tasks and calls into the
    neighbouring layers are recorded, in order, in the ghost field
    [effects].  Functions of other translation units (the device record
    store of btm_dev.cc, the ACL layer, the controller interface, SMP,
    L2CAP) are parameters, gathered in [Externals]; the numeric values
    of the header constants are parameters too, gathered in
    [Constants]. *)

From Stdlib Require Import ZArith Lia Bool.
From stdpp Require Import base decidable option list numbers.

Local Open Scope Z_scope.

(** ** Scalar types *)

Definition RawAddress := Z.
(** A [tBTM_SEC_CALLBACK*]: the identity of the function pointed to. *)
Definition tBTM_SEC_CALLBACK := nat.
(** The opaque [void* p_ref_data]. *)
Definition RefData := Z.

Inductive tBTM_STATUS :=
| BTM_SUCCESS
| BTM_CMD_STARTED
| BTM_BUSY
| BTM_NO_RESOURCES
| BTM_MODE_UNSUPPORTED
| BTM_ILLEGAL_VALUE
| BTM_WRONG_MODE
| BTM_UNKNOWN_ADDR
| BTM_DEVICE_TIMEOUT
| BTM_ILLEGAL_ACTION
| BTM_NOT_AUTHORIZED
| BTM_ERR_PROCESSING
| BTM_FAILED_ON_SECURITY
| BTM_MODE4_LEVEL4_NOT_SUPPORTED
| BTM_DELAY_CHECK
| BTM_SUCCESS_NO_SECURITY.

Inductive tSECURITY_STATE :=
| BTM_SEC_STATE_IDLE
| BTM_SEC_STATE_AUTHENTICATING
| BTM_SEC_STATE_ENCRYPTING
| BTM_SEC_STATE_GETTING_NAME
| BTM_SEC_STATE_AUTHORIZING
| BTM_SEC_STATE_DISCONNECTING
| BTM_SEC_STATE_DELAY_FOR_ENC
| BTM_SEC_STATE_DISCONNECTING_BLE
| BTM_SEC_STATE_DISCONNECTING_BOTH
| BTM_SEC_STATE_LE_ENCRYPTING.

Inductive tBTM_PAIRING_STATE :=
| BTM_PAIR_STATE_IDLE
| BTM_PAIR_STATE_GET_REM_NAME
| BTM_PAIR_STATE_WAIT_PIN_REQ
| BTM_PAIR_STATE_WAIT_LOCAL_PIN
| BTM_PAIR_STATE_WAIT_NUMERIC_CONFIRM
| BTM_PAIR_STATE_KEY_ENTRY
| BTM_PAIR_STATE_WAIT_LOCAL_OOB_RSP
| BTM_PAIR_STATE_WAIT_LOCAL_IOCAPS
| BTM_PAIR_STATE_INCOMING_SSP
| BTM_PAIR_STATE_WAIT_AUTH_COMPLETE
| BTM_PAIR_STATE_WAIT_DISCONNECT.

Inductive tBT_TRANSPORT :=
| BT_TRANSPORT_AUTO
| BT_TRANSPORT_BR_EDR
| BT_TRANSPORT_LE.

Inductive tBTM_BOND_TYPE :=
| BOND_TYPE_UNKNOWN
| BOND_TYPE_PERSISTENT
| BOND_TYPE_TEMPORARY.

(** The HCI status codes the security manager tells apart; every other
    code is [HCI_ERR_OTHER] with its number. *)
Inductive tHCI_STATUS :=
| HCI_SUCCESS
| HCI_ERR_KEY_MISSING
| HCI_ERR_AUTH_FAILURE
| HCI_ERR_COMMAND_DISALLOWED
| HCI_ERR_PEER_USER
| HCI_ERR_CONN_CAUSE_LOCAL_HOST
| HCI_ERR_LMP_ERR_TRANS_COLLISION
| HCI_ERR_DIFF_TRANSACTION_COLLISION
| HCI_ERR_ENCRY_MODE_NOT_ACCEPTABLE
| HCI_ERR_HOST_REJECT_SECURITY
| HCI_ERR_MEMORY_FULL
| HCI_ERR_UNDEFINED
| HCI_ERR_OTHER (code : Z).

Inductive tHCI_ROLE :=
| HCI_ROLE_CENTRAL
| HCI_ROLE_PERIPHERAL
| HCI_ROLE_UNKNOWN.

Inductive tBTM_BLE_SEC_ACT :=
| BTM_BLE_SEC_NONE
| BTM_BLE_SEC_ENCRYPT
| BTM_BLE_SEC_ENCRYPT_NO_MITM
| BTM_BLE_SEC_ENCRYPT_MITM.

#[global] Instance tBTM_STATUS_eq_dec : EqDecision tBTM_STATUS.
Proof. solve_decision. Defined.
#[global] Instance tSECURITY_STATE_eq_dec : EqDecision tSECURITY_STATE.
Proof. solve_decision. Defined.
#[global] Instance tBTM_PAIRING_STATE_eq_dec : EqDecision tBTM_PAIRING_STATE.
Proof. solve_decision. Defined.
#[global] Instance tBT_TRANSPORT_eq_dec : EqDecision tBT_TRANSPORT.
Proof. solve_decision. Defined.
#[global] Instance tBTM_BOND_TYPE_eq_dec : EqDecision tBTM_BOND_TYPE.
Proof. solve_decision. Defined.
#[global] Instance tHCI_STATUS_eq_dec : EqDecision tHCI_STATUS.
Proof. solve_decision. Defined.
#[global] Instance tHCI_ROLE_eq_dec : EqDecision tHCI_ROLE.
Proof. solve_decision. Defined.
#[global] Instance tBTM_BLE_SEC_ACT_eq_dec : EqDecision tBTM_BLE_SEC_ACT.
Proof. solve_decision. Defined.

(** ** Header constants

    The bit masks and codes of btm_api_types.h, security_device_record.h,
    btm_sec_int_types.h and hcidefs.h.  The headers are not among the
    sources, so the development is parametric in their values. *)

Class Constants := {
  (* tBTM_SEC_DEV_REC::sec_flags *)
  BTM_SEC_AUTHENTICATED : Z;
  BTM_SEC_ENCRYPTED : Z;
  BTM_SEC_NAME_KNOWN : Z;
  BTM_SEC_LINK_KEY_KNOWN : Z;
  BTM_SEC_LINK_KEY_AUTHED : Z;
  BTM_SEC_ROLE_SWITCHED : Z;
  BTM_SEC_16_DIGIT_PIN_AUTHED : Z;
  BTM_SEC_LE_AUTHENTICATED : Z;
  BTM_SEC_LE_ENCRYPTED : Z;
  BTM_SEC_LE_LINK_KEY_KNOWN : Z;
  BTM_SEC_LE_LINK_KEY_AUTHED : Z;
  (* security requirements of a service *)
  BTM_SEC_NONE : Z;
  BTM_SEC_IN_AUTHENTICATE : Z;
  BTM_SEC_IN_ENCRYPT : Z;
  BTM_SEC_OUT_AUTHENTICATE : Z;
  BTM_SEC_OUT_ENCRYPT : Z;
  BTM_SEC_MODE4_LEVEL4 : Z;
  BTM_SEC_IN_MITM : Z;
  BTM_SEC_OUT_MITM : Z;
  BTM_SEC_IN_MIN_16_DIGIT_PIN : Z;
  BTM_SEC_OUT_FLAGS : Z;
  BTM_SEC_IN_FLAGS : Z;
  (* tBTM_SEC_DEV_REC::sm4 *)
  BTM_SM4_UNKNOWN : Z;
  BTM_SM4_KNOWN : Z;
  BTM_SM4_TRUE : Z;
  BTM_SM4_REQ_PEND : Z;
  BTM_SM4_UPGRADE : Z;
  BTM_SM4_RETRY : Z;
  BTM_SM4_CONN_PEND : Z;
  (* link key types, IO capabilities, authentication requirements *)
  BTM_LKEY_TYPE_UNAUTH_COMB : Z;
  BTM_LKEY_TYPE_AUTH_COMB : Z;
  BTM_LKEY_TYPE_UNAUTH_COMB_P_256 : Z;
  BTM_LKEY_TYPE_AUTH_COMB_P_256 : Z;
  BTM_IO_CAP_MAX : Z;
  BTM_AUTH_SP_NO : Z;
  BTM_LE_KEY_NONE : Z;
  (* btm_cb.security_mode *)
  BTM_SEC_MODE_SERVICE : Z;
  BTM_SEC_MODE_SP : Z;
  BTM_SEC_MODE_SC : Z;
  (* btm_cb.pairing_flags *)
  BTM_PAIR_FLAGS_WE_STARTED_DD : Z;
  BTM_PAIR_FLAGS_PEER_STARTED_DD : Z;
  BTM_PAIR_FLAGS_DISC_WHEN_DONE : Z;
  BTM_PAIR_FLAGS_PIN_REQD : Z;
  BTM_PAIR_FLAGS_REJECTED_CONNECT : Z;
  BTM_PAIR_FLAGS_LE_ACTIVE : Z;
  (* class of device *)
  BTM_COD_MAJOR_CLASS_MASK : Z;
  BTM_COD_MINOR_CLASS_MASK : Z;
  BTM_COD_MAJOR_PERIPHERAL : Z;
  BTM_COD_MAJOR_AUDIO : Z;
  BTM_COD_MINOR_KEYBOARD : Z;
  BTM_COD_MINOR_CONFM_HANDSFREE : Z;
  BTM_COD_MINOR_CAR_AUDIO : Z;
  (* device types *)
  BT_DEVICE_TYPE_BREDR : Z;
  BT_DEVICE_TYPE_BLE : Z;
  BLE_ADDR_PUBLIC : Z;
  (* miscellaneous *)
  HCI_INVALID_HANDLE : Z;
  HCI_PIN_TYPE_FIXED : Z;
  PIN_CODE_LEN : Z;
  BT_PSM_SDP : Z;
  BT_PSM_RFCOMM : Z;
  BT_1SEC_TIMEOUT_MS : Z;
  BTM_SEC_TIMEOUT_VALUE : Z;
  L2CAP_FIXED_CHNL_SMP_BR_BIT : Z;
  (* the compile-time switch of bt_target.h *)
  BTM_SEC_FORCE_RNR_FOR_DBOND : bool;
  RawAddress_kAny : RawAddress
}.

(** The one constant btm_sec.cc defines itself. *)
Definition BTM_SEC_MAX_COLLISION_DELAY : Z := 5000.

(** ** Bit operations on the unsigned fields *)

Definition u8 (x : Z) : Z := Z.land x 255.
Definition u16 (x : Z) : Z := Z.land x 65535.

(** [x & mask], read as a C condition *)
Definition flag (x mask : Z) : bool := negb (Z.land x mask =? 0).
(** [x |= mask] on a 16-bit and on an 8-bit field *)
Definition set16 (x mask : Z) : Z := u16 (Z.lor x mask).
Definition set8 (x mask : Z) : Z := u8 (Z.lor x mask).
(** [x &= ~mask] on a 16-bit and on an 8-bit field *)
Definition clr16 (x mask : Z) : Z := u16 (Z.land x (Z.lnot mask)).
Definition clr8 (x mask : Z) : Z := u8 (Z.land x (Z.lnot mask)).

(** ** The pending request queue entry

    [btm_sec_queue_encrypt_request] leaves [is_orig] and
    [rfcomm_security_requirement] unwritten; they are never read for an
    entry with [psm = 0]. *)

Record tBTM_SEC_QUEUE_ENTRY := mk_queue_entry {
  e_bd_addr : RawAddress;
  e_psm : Z;
  e_is_orig : bool;
  e_p_callback : option tBTM_SEC_CALLBACK;
  e_p_ref_data : RefData;
  e_rfcomm_security_requirement : Z;
  e_transport : tBT_TRANSPORT;
  e_sec_act : tBTM_BLE_SEC_ACT
}.

(** ** Effects on the outside of the security manager *)

Inductive tALARM := sec_collision_timer | pairing_timer.
Inductive tALARM_CB := alarm_btm_sec_collision_timeout | alarm_btm_sec_pairing_timeout.

Inductive Effect :=
(* HCI commands *)
| E_SendRemoteNameRequest (bd_addr : RawAddress)
| E_btsnd_hcic_auth_request (handle : Z)
| E_btsnd_hcic_set_conn_encrypt (handle : Z) (enable : bool)
| E_btsnd_hcic_write_auth_enable (enable : bool)
| E_btsnd_hcic_write_pin_type (pin_type : Z)
| E_btsnd_hcic_pin_code_neg_reply (bd_addr : RawAddress)
| E_btsnd_hcic_pin_code_req_reply (bd_addr : RawAddress) (pin_len : Z) (pin : list Z)
| E_acl_disconnect_after_role_switch (handle : Z) (reason : tHCI_STATUS)
| E_acl_set_disconnect_reason (reason : tHCI_STATUS)
(* tasks and timers *)
| E_do_in_main_thread_delayed_auth_timer (bd_addr : RawAddress) (delay_ms : Z)
| E_do_in_main_thread (f : tBTM_SEC_CALLBACK) (bd_addr : RawAddress)
    (transport : tBT_TRANSPORT) (ref_data : RefData) (status : tBTM_STATUS)
| E_alarm_set_on_mloop (alarm : tALARM) (ms : Z) (cb : tALARM_CB)
| E_alarm_cancel (alarm : tALARM)
(* the security callback called in place, [( *p_callback)(...)] *)
| E_callback (f : tBTM_SEC_CALLBACK) (bd_addr : RawAddress)
    (transport : tBT_TRANSPORT) (ref_data : RefData) (status : tBTM_STATUS)
(* the callbacks of the application, [btm_cb.api] *)
| E_p_auth_complete_callback (bd_addr : RawAddress) (status : tHCI_STATUS)
| E_p_pin_callback (bd_addr : RawAddress) (min_16_digit : bool)
(* calls into L2CAP, SMP, the ACL layer and the inquiry database *)
| E_l2cu_resubmit_pending_sec_req (bd_addr : option RawAddress)
| E_l2cu_update_lcb_4_bonding (bd_addr : RawAddress) (is_bonding : bool)
| E_l2cu_start_post_bond_timer (handle : Z)
| E_l2cu_ConnectAclForSecurity (bd_addr : RawAddress)
| E_btm_inq_clear_ssp
| E_BTM_DeleteStoredLinkKey (bd_addr : RawAddress)
| E_BTM_ReadRemoteDeviceName (bd_addr : RawAddress)
| E_BTM_SwitchRoleToCentral (bd_addr : RawAddress)
| E_SMP_Pair (bd_addr : RawAddress) (addr_type : Z)
| E_SMP_BR_PairWith (bd_addr : RawAddress)
| E_btm_ble_set_encryption (bd_addr : RawAddress) (sec_act : tBTM_BLE_SEC_ACT)
    (link_role : Z)
| E_btm_ble_link_encrypted (bd_addr : RawAddress) (encr_enable : bool).

(** ** The device record and the control block *)

Record tBTM_SEC_DEV_REC := mk_dev_rec {
  bd_addr : RawAddress;
  ble_pseudo_addr : RawAddress;
  dev_class : list Z;
  hci_handle : Z;
  ble_hci_handle : Z;
  sec_flags : Z;
  security_required : Z;
  required_security_flags_for_pairing : Z;
  link_key_type : Z;
  pin_code_length : Z;
  enc_key_size : Z;
  sm4 : Z;
  rmt_io_caps : Z;
  rmt_auth_req : Z;
  sec_state : tSECURITY_STATE;
  sec_status : tHCI_STATUS;
  is_originator : bool;
  bond_type : tBTM_BOND_TYPE;
  remote_supports_secure_connections : bool;
  new_encryption_key_is_p256 : bool;
  ble_key_type : Z;
  p_callback : option tBTM_SEC_CALLBACK;
  p_ref_data : RefData
}.

Definition set_hci_handle (v : Z) (r : tBTM_SEC_DEV_REC) : tBTM_SEC_DEV_REC :=
  mk_dev_rec (bd_addr r) (ble_pseudo_addr r) (dev_class r) v
    (ble_hci_handle r) (sec_flags r) (security_required r)
    (required_security_flags_for_pairing r) (link_key_type r)
    (pin_code_length r) (enc_key_size r) (sm4 r) (rmt_io_caps r)
    (rmt_auth_req r) (sec_state r) (sec_status r) (is_originator r)
    (bond_type r) (remote_supports_secure_connections r)
    (new_encryption_key_is_p256 r) (ble_key_type r) (p_callback r)
    (p_ref_data r).

Definition set_sec_flags (v : Z) (r : tBTM_SEC_DEV_REC) : tBTM_SEC_DEV_REC :=
  mk_dev_rec (bd_addr r) (ble_pseudo_addr r) (dev_class r) (hci_handle r)
    (ble_hci_handle r) v (security_required r)
    (required_security_flags_for_pairing r) (link_key_type r)
    (pin_code_length r) (enc_key_size r) (sm4 r) (rmt_io_caps r)
    (rmt_auth_req r) (sec_state r) (sec_status r) (is_originator r)
    (bond_type r) (remote_supports_secure_connections r)
    (new_encryption_key_is_p256 r) (ble_key_type r) (p_callback r)
    (p_ref_data r).

Definition set_security_required (v : Z) (r : tBTM_SEC_DEV_REC) : tBTM_SEC_DEV_REC :=
  mk_dev_rec (bd_addr r) (ble_pseudo_addr r) (dev_class r) (hci_handle r)
    (ble_hci_handle r) (sec_flags r) v (required_security_flags_for_pairing r)
    (link_key_type r) (pin_code_length r) (enc_key_size r) (sm4 r)
    (rmt_io_caps r) (rmt_auth_req r) (sec_state r) (sec_status r)
    (is_originator r) (bond_type r) (remote_supports_secure_connections r)
    (new_encryption_key_is_p256 r) (ble_key_type r) (p_callback r)
    (p_ref_data r).

Definition set_required_security_flags_for_pairing (v : Z) (r : tBTM_SEC_DEV_REC) : tBTM_SEC_DEV_REC :=
  mk_dev_rec (bd_addr r) (ble_pseudo_addr r) (dev_class r) (hci_handle r)
    (ble_hci_handle r) (sec_flags r) (security_required r) v (link_key_type r)
    (pin_code_length r) (enc_key_size r) (sm4 r) (rmt_io_caps r)
    (rmt_auth_req r) (sec_state r) (sec_status r) (is_originator r)
    (bond_type r) (remote_supports_secure_connections r)
    (new_encryption_key_is_p256 r) (ble_key_type r) (p_callback r)
    (p_ref_data r).

Definition set_pin_code_length (v : Z) (r : tBTM_SEC_DEV_REC) : tBTM_SEC_DEV_REC :=
  mk_dev_rec (bd_addr r) (ble_pseudo_addr r) (dev_class r) (hci_handle r)
    (ble_hci_handle r) (sec_flags r) (security_required r)
    (required_security_flags_for_pairing r) (link_key_type r) v
    (enc_key_size r) (sm4 r) (rmt_io_caps r) (rmt_auth_req r) (sec_state r)
    (sec_status r) (is_originator r) (bond_type r)
    (remote_supports_secure_connections r) (new_encryption_key_is_p256 r)
    (ble_key_type r) (p_callback r) (p_ref_data r).

Definition set_enc_key_size (v : Z) (r : tBTM_SEC_DEV_REC) : tBTM_SEC_DEV_REC :=
  mk_dev_rec (bd_addr r) (ble_pseudo_addr r) (dev_class r) (hci_handle r)
    (ble_hci_handle r) (sec_flags r) (security_required r)
    (required_security_flags_for_pairing r) (link_key_type r)
    (pin_code_length r) v (sm4 r) (rmt_io_caps r) (rmt_auth_req r)
    (sec_state r) (sec_status r) (is_originator r) (bond_type r)
    (remote_supports_secure_connections r) (new_encryption_key_is_p256 r)
    (ble_key_type r) (p_callback r) (p_ref_data r).

Definition set_sm4 (v : Z) (r : tBTM_SEC_DEV_REC) : tBTM_SEC_DEV_REC :=
  mk_dev_rec (bd_addr r) (ble_pseudo_addr r) (dev_class r) (hci_handle r)
    (ble_hci_handle r) (sec_flags r) (security_required r)
    (required_security_flags_for_pairing r) (link_key_type r)
    (pin_code_length r) (enc_key_size r) v (rmt_io_caps r) (rmt_auth_req r)
    (sec_state r) (sec_status r) (is_originator r) (bond_type r)
    (remote_supports_secure_connections r) (new_encryption_key_is_p256 r)
    (ble_key_type r) (p_callback r) (p_ref_data r).

Definition set_sec_state (v : tSECURITY_STATE) (r : tBTM_SEC_DEV_REC) : tBTM_SEC_DEV_REC :=
  mk_dev_rec (bd_addr r) (ble_pseudo_addr r) (dev_class r) (hci_handle r)
    (ble_hci_handle r) (sec_flags r) (security_required r)
    (required_security_flags_for_pairing r) (link_key_type r)
    (pin_code_length r) (enc_key_size r) (sm4 r) (rmt_io_caps r)
    (rmt_auth_req r) v (sec_status r) (is_originator r) (bond_type r)
    (remote_supports_secure_connections r) (new_encryption_key_is_p256 r)
    (ble_key_type r) (p_callback r) (p_ref_data r).

Definition set_sec_status (v : tHCI_STATUS) (r : tBTM_SEC_DEV_REC) : tBTM_SEC_DEV_REC :=
  mk_dev_rec (bd_addr r) (ble_pseudo_addr r) (dev_class r) (hci_handle r)
    (ble_hci_handle r) (sec_flags r) (security_required r)
    (required_security_flags_for_pairing r) (link_key_type r)
    (pin_code_length r) (enc_key_size r) (sm4 r) (rmt_io_caps r)
    (rmt_auth_req r) (sec_state r) v (is_originator r) (bond_type r)
    (remote_supports_secure_connections r) (new_encryption_key_is_p256 r)
    (ble_key_type r) (p_callback r) (p_ref_data r).

Definition set_is_originator (v : bool) (r : tBTM_SEC_DEV_REC) : tBTM_SEC_DEV_REC :=
  mk_dev_rec (bd_addr r) (ble_pseudo_addr r) (dev_class r) (hci_handle r)
    (ble_hci_handle r) (sec_flags r) (security_required r)
    (required_security_flags_for_pairing r) (link_key_type r)
    (pin_code_length r) (enc_key_size r) (sm4 r) (rmt_io_caps r)
    (rmt_auth_req r) (sec_state r) (sec_status r) v (bond_type r)
    (remote_supports_secure_connections r) (new_encryption_key_is_p256 r)
    (ble_key_type r) (p_callback r) (p_ref_data r).

Definition set_new_encryption_key_is_p256 (v : bool) (r : tBTM_SEC_DEV_REC) : tBTM_SEC_DEV_REC :=
  mk_dev_rec (bd_addr r) (ble_pseudo_addr r) (dev_class r) (hci_handle r)
    (ble_hci_handle r) (sec_flags r) (security_required r)
    (required_security_flags_for_pairing r) (link_key_type r)
    (pin_code_length r) (enc_key_size r) (sm4 r) (rmt_io_caps r)
    (rmt_auth_req r) (sec_state r) (sec_status r) (is_originator r)
    (bond_type r) (remote_supports_secure_connections r) v (ble_key_type r)
    (p_callback r) (p_ref_data r).

Definition set_ble_key_type (v : Z) (r : tBTM_SEC_DEV_REC) : tBTM_SEC_DEV_REC :=
  mk_dev_rec (bd_addr r) (ble_pseudo_addr r) (dev_class r) (hci_handle r)
    (ble_hci_handle r) (sec_flags r) (security_required r)
    (required_security_flags_for_pairing r) (link_key_type r)
    (pin_code_length r) (enc_key_size r) (sm4 r) (rmt_io_caps r)
    (rmt_auth_req r) (sec_state r) (sec_status r) (is_originator r)
    (bond_type r) (remote_supports_secure_connections r)
    (new_encryption_key_is_p256 r) v (p_callback r) (p_ref_data r).

Definition set_p_callback (v : option tBTM_SEC_CALLBACK) (r : tBTM_SEC_DEV_REC) : tBTM_SEC_DEV_REC :=
  mk_dev_rec (bd_addr r) (ble_pseudo_addr r) (dev_class r) (hci_handle r)
    (ble_hci_handle r) (sec_flags r) (security_required r)
    (required_security_flags_for_pairing r) (link_key_type r)
    (pin_code_length r) (enc_key_size r) (sm4 r) (rmt_io_caps r)
    (rmt_auth_req r) (sec_state r) (sec_status r) (is_originator r)
    (bond_type r) (remote_supports_secure_connections r)
    (new_encryption_key_is_p256 r) (ble_key_type r) v (p_ref_data r).

Definition set_p_ref_data (v : RefData) (r : tBTM_SEC_DEV_REC) : tBTM_SEC_DEV_REC :=
  mk_dev_rec (bd_addr r) (ble_pseudo_addr r) (dev_class r) (hci_handle r)
    (ble_hci_handle r) (sec_flags r) (security_required r)
    (required_security_flags_for_pairing r) (link_key_type r)
    (pin_code_length r) (enc_key_size r) (sm4 r) (rmt_io_caps r)
    (rmt_auth_req r) (sec_state r) (sec_status r) (is_originator r)
    (bond_type r) (remote_supports_secure_connections r)
    (new_encryption_key_is_p256 r) (ble_key_type r) (p_callback r) v.

Definition set_ble_pseudo_addr (v : RawAddress) (r : tBTM_SEC_DEV_REC) : tBTM_SEC_DEV_REC :=
  mk_dev_rec (bd_addr r) v (dev_class r) (hci_handle r) (ble_hci_handle r)
    (sec_flags r) (security_required r)
    (required_security_flags_for_pairing r) (link_key_type r)
    (pin_code_length r) (enc_key_size r) (sm4 r) (rmt_io_caps r)
    (rmt_auth_req r) (sec_state r) (sec_status r) (is_originator r)
    (bond_type r) (remote_supports_secure_connections r)
    (new_encryption_key_is_p256 r) (ble_key_type r) (p_callback r)
    (p_ref_data r).

Record tBTM_CB := mk_btm_cb {
  pairing_state : tBTM_PAIRING_STATE;
  pairing_bda : RawAddress;
  pairing_flags : Z;
  pin_code_len : Z;
  pin_code : list Z;
  security_mode : Z;
  security_mode_changed : bool;
  pin_type_changed : bool;
  cfg_pin_type : Z;
  devcb_loc_io_caps : Z;
  devcb_loc_auth_req : Z;
  api_p_auth_complete_callback : bool;
  api_p_pin_callback : bool;
  sec_req_pending : bool;
  sec_pending_q : list tBTM_SEC_QUEUE_ENTRY;
  sec_dev_rec : list tBTM_SEC_DEV_REC;
  collision_start_time : Z;
  p_collided_dev_rec : option nat;
  effects : list Effect
}.

Definition set_pairing_state (v : tBTM_PAIRING_STATE) (r : tBTM_CB) : tBTM_CB :=
  mk_btm_cb v (pairing_bda r) (pairing_flags r) (pin_code_len r) (pin_code r)
    (security_mode r) (security_mode_changed r) (pin_type_changed r)
    (cfg_pin_type r) (devcb_loc_io_caps r) (devcb_loc_auth_req r)
    (api_p_auth_complete_callback r) (api_p_pin_callback r)
    (sec_req_pending r) (sec_pending_q r) (sec_dev_rec r)
    (collision_start_time r) (p_collided_dev_rec r) (effects r).

Definition set_pairing_bda (v : RawAddress) (r : tBTM_CB) : tBTM_CB :=
  mk_btm_cb (pairing_state r) v (pairing_flags r) (pin_code_len r)
    (pin_code r) (security_mode r) (security_mode_changed r)
    (pin_type_changed r) (cfg_pin_type r) (devcb_loc_io_caps r)
    (devcb_loc_auth_req r) (api_p_auth_complete_callback r)
    (api_p_pin_callback r) (sec_req_pending r) (sec_pending_q r)
    (sec_dev_rec r) (collision_start_time r) (p_collided_dev_rec r)
    (effects r).

Definition set_pairing_flags (v : Z) (r : tBTM_CB) : tBTM_CB :=
  mk_btm_cb (pairing_state r) (pairing_bda r) v (pin_code_len r) (pin_code r)
    (security_mode r) (security_mode_changed r) (pin_type_changed r)
    (cfg_pin_type r) (devcb_loc_io_caps r) (devcb_loc_auth_req r)
    (api_p_auth_complete_callback r) (api_p_pin_callback r)
    (sec_req_pending r) (sec_pending_q r) (sec_dev_rec r)
    (collision_start_time r) (p_collided_dev_rec r) (effects r).

Definition set_pin_code_len (v : Z) (r : tBTM_CB) : tBTM_CB :=
  mk_btm_cb (pairing_state r) (pairing_bda r) (pairing_flags r) v (pin_code r)
    (security_mode r) (security_mode_changed r) (pin_type_changed r)
    (cfg_pin_type r) (devcb_loc_io_caps r) (devcb_loc_auth_req r)
    (api_p_auth_complete_callback r) (api_p_pin_callback r)
    (sec_req_pending r) (sec_pending_q r) (sec_dev_rec r)
    (collision_start_time r) (p_collided_dev_rec r) (effects r).

Definition set_pin_code (v : list Z) (r : tBTM_CB) : tBTM_CB :=
  mk_btm_cb (pairing_state r) (pairing_bda r) (pairing_flags r)
    (pin_code_len r) v (security_mode r) (security_mode_changed r)
    (pin_type_changed r) (cfg_pin_type r) (devcb_loc_io_caps r)
    (devcb_loc_auth_req r) (api_p_auth_complete_callback r)
    (api_p_pin_callback r) (sec_req_pending r) (sec_pending_q r)
    (sec_dev_rec r) (collision_start_time r) (p_collided_dev_rec r)
    (effects r).

Definition set_security_mode_changed (v : bool) (r : tBTM_CB) : tBTM_CB :=
  mk_btm_cb (pairing_state r) (pairing_bda r) (pairing_flags r)
    (pin_code_len r) (pin_code r) (security_mode r) v (pin_type_changed r)
    (cfg_pin_type r) (devcb_loc_io_caps r) (devcb_loc_auth_req r)
    (api_p_auth_complete_callback r) (api_p_pin_callback r)
    (sec_req_pending r) (sec_pending_q r) (sec_dev_rec r)
    (collision_start_time r) (p_collided_dev_rec r) (effects r).

Definition set_pin_type_changed (v : bool) (r : tBTM_CB) : tBTM_CB :=
  mk_btm_cb (pairing_state r) (pairing_bda r) (pairing_flags r)
    (pin_code_len r) (pin_code r) (security_mode r) (security_mode_changed r)
    v (cfg_pin_type r) (devcb_loc_io_caps r) (devcb_loc_auth_req r)
    (api_p_auth_complete_callback r) (api_p_pin_callback r)
    (sec_req_pending r) (sec_pending_q r) (sec_dev_rec r)
    (collision_start_time r) (p_collided_dev_rec r) (effects r).

Definition set_sec_req_pending (v : bool) (r : tBTM_CB) : tBTM_CB :=
  mk_btm_cb (pairing_state r) (pairing_bda r) (pairing_flags r)
    (pin_code_len r) (pin_code r) (security_mode r) (security_mode_changed r)
    (pin_type_changed r) (cfg_pin_type r) (devcb_loc_io_caps r)
    (devcb_loc_auth_req r) (api_p_auth_complete_callback r)
    (api_p_pin_callback r) v (sec_pending_q r) (sec_dev_rec r)
    (collision_start_time r) (p_collided_dev_rec r) (effects r).

Definition set_sec_pending_q (v : list tBTM_SEC_QUEUE_ENTRY) (r : tBTM_CB) : tBTM_CB :=
  mk_btm_cb (pairing_state r) (pairing_bda r) (pairing_flags r)
    (pin_code_len r) (pin_code r) (security_mode r) (security_mode_changed r)
    (pin_type_changed r) (cfg_pin_type r) (devcb_loc_io_caps r)
    (devcb_loc_auth_req r) (api_p_auth_complete_callback r)
    (api_p_pin_callback r) (sec_req_pending r) v (sec_dev_rec r)
    (collision_start_time r) (p_collided_dev_rec r) (effects r).

Definition set_sec_dev_rec (v : list tBTM_SEC_DEV_REC) (r : tBTM_CB) : tBTM_CB :=
  mk_btm_cb (pairing_state r) (pairing_bda r) (pairing_flags r)
    (pin_code_len r) (pin_code r) (security_mode r) (security_mode_changed r)
    (pin_type_changed r) (cfg_pin_type r) (devcb_loc_io_caps r)
    (devcb_loc_auth_req r) (api_p_auth_complete_callback r)
    (api_p_pin_callback r) (sec_req_pending r) (sec_pending_q r) v
    (collision_start_time r) (p_collided_dev_rec r) (effects r).

Definition set_collision_start_time (v : Z) (r : tBTM_CB) : tBTM_CB :=
  mk_btm_cb (pairing_state r) (pairing_bda r) (pairing_flags r)
    (pin_code_len r) (pin_code r) (security_mode r) (security_mode_changed r)
    (pin_type_changed r) (cfg_pin_type r) (devcb_loc_io_caps r)
    (devcb_loc_auth_req r) (api_p_auth_complete_callback r)
    (api_p_pin_callback r) (sec_req_pending r) (sec_pending_q r)
    (sec_dev_rec r) v (p_collided_dev_rec r) (effects r).

Definition set_p_collided_dev_rec (v : option nat) (r : tBTM_CB) : tBTM_CB :=
  mk_btm_cb (pairing_state r) (pairing_bda r) (pairing_flags r)
    (pin_code_len r) (pin_code r) (security_mode r) (security_mode_changed r)
    (pin_type_changed r) (cfg_pin_type r) (devcb_loc_io_caps r)
    (devcb_loc_auth_req r) (api_p_auth_complete_callback r)
    (api_p_pin_callback r) (sec_req_pending r) (sec_pending_q r)
    (sec_dev_rec r) (collision_start_time r) v (effects r).

Definition set_effects (v : list Effect) (r : tBTM_CB) : tBTM_CB :=
  mk_btm_cb (pairing_state r) (pairing_bda r) (pairing_flags r)
    (pin_code_len r) (pin_code r) (security_mode r) (security_mode_changed r)
    (pin_type_changed r) (cfg_pin_type r) (devcb_loc_io_caps r)
    (devcb_loc_auth_req r) (api_p_auth_complete_callback r)
    (api_p_pin_callback r) (sec_req_pending r) (sec_pending_q r)
    (sec_dev_rec r) (collision_start_time r) (p_collided_dev_rec r) v.

(** ** Functions of the neighbouring modules

    What the security manager calls but does not define.  The queries
    are functions of their arguments; [callback_body] is what a security
    callback does to the control block when it is called in place (it
    may re-enter the security manager), and [BTM_ReadDevInfo] may touch
    the control block as well. *)

Class Externals := {
  (* btm_dev.cc: the device record store *)
  btm_find_dev : RawAddress -> list tBTM_SEC_DEV_REC -> option nat;
  btm_find_dev_by_handle : Z -> list tBTM_SEC_DEV_REC -> option nat;
  btm_find_or_alloc_dev :
    RawAddress -> list tBTM_SEC_DEV_REC -> list tBTM_SEC_DEV_REC * option nat;
  BTM_ReadDevInfo : RawAddress -> tBTM_CB -> tBTM_CB * Z * Z;
  btm_ble_init_pseudo_addr : tBTM_SEC_DEV_REC -> RawAddress -> tBTM_SEC_DEV_REC;
  (* the ACL layer and the controller *)
  BTM_IsDeviceUp : bool;
  BTM_IsAclConnectionUp : RawAddress -> tBT_TRANSPORT -> bool;
  BTM_IsAclConnectionUpAndHandleValid : RawAddress -> tBT_TRANSPORT -> bool;
  BTM_GetHCIConnHandle : RawAddress -> tBT_TRANSPORT -> Z;
  BTM_IsBleConnection : Z -> bool;
  BTM_UseLeLink : RawAddress -> bool;
  BTM_GetRole : RawAddress -> tHCI_ROLE;
  controller_get_is_ready : bool;
  controller_supports_simple_pairing : bool;
  controller_supports_secure_connections : bool;
  BTM_DeleteStoredLinkKey : RawAddress -> tBTM_STATUS;
  BTM_ReadRemoteDeviceName : RawAddress -> tBTM_STATUS;
  (* L2CAP and SMP *)
  l2cu_ConnectAclForSecurity : RawAddress -> tBTM_STATUS;
  L2CA_GetBleConnRole : RawAddress -> Z;
  L2CA_GetPeerFeatures : RawAddress -> option Z;
  SMP_Pair_started : RawAddress -> Z -> bool;
  btm_ble_set_encryption : RawAddress -> tBTM_BLE_SEC_ACT -> Z -> tBTM_STATUS;
  (* the main loop, the clock and the system properties *)
  do_in_main_thread_delayed_ok : bool;
  delay_auth : Z;
  time_get_os_boottime_ms : Z;
  concurrentPeerAuthIsEnabled : bool;
  handleUnexpectedEncryptionChange : bool;
  (* the body of a security callback *)
  callback_body :
    tBTM_SEC_CALLBACK -> RawAddress -> tBT_TRANSPORT -> RefData -> tBTM_STATUS ->
    tBTM_CB -> tBTM_CB
}.

(** ** Access to the device records through a pointer *)

Definition dev0 : tBTM_SEC_DEV_REC :=
  mk_dev_rec 0 0 [] 0 0 0 0 0 0 0 0 0 0 0 BTM_SEC_STATE_IDLE HCI_SUCCESS
    false BOND_TYPE_UNKNOWN false false 0 None 0.

(** [*p_dev_rec] *)
Definition dev (cb : tBTM_CB) (p : nat) : tBTM_SEC_DEV_REC :=
  default dev0 (sec_dev_rec cb !! p).

(** an assignment through [p_dev_rec->] *)
Definition upd_dev (p : nat) (f : tBTM_SEC_DEV_REC -> tBTM_SEC_DEV_REC)
    (cb : tBTM_CB) : tBTM_CB :=
  set_sec_dev_rec (alter f p (sec_dev_rec cb)) cb.

Definition emit (e : Effect) (cb : tBTM_CB) : tBTM_CB :=
  set_effects (effects cb ++ [e]) cb.

(** ** Inline members of tBTM_SEC_DEV_REC

    The accessors of security_device_record.h, which is not among the
    sources. *)

(** Modelled from the spec: "[is_originator] (who initiated)". *)
Definition IsLocallyInitiated (r : tBTM_SEC_DEV_REC) : bool := is_originator r.

(** Modelled from the spec: "[bond_type] {temporary, persistent}". *)
Definition is_bond_type_temporary (r : tBTM_SEC_DEV_REC) : bool :=
  bool_decide (bond_type r = BOND_TYPE_TEMPORARY).

(** Modelled from the spec: the peer's "supports secure connections"
    property, as the record caches it. *)
Definition SupportsSecureConnections (r : tBTM_SEC_DEV_REC) : bool :=
  remote_supports_secure_connections r.

(** Modelled from the spec: [sec_state] is ENCRYPTING, the BR/EDR one of
    the two encrypting states. *)
Definition is_security_state_bredr_encrypting (r : tBTM_SEC_DEV_REC) : bool :=
  bool_decide (sec_state r = BTM_SEC_STATE_ENCRYPTING).

Section SecurityManager.
Context `{Consts : Constants} `{Ext : Externals}.

(** ** Predicates on a device record *)

Definition btm_dev_authenticated (r : tBTM_SEC_DEV_REC) : bool :=
  flag (sec_flags r) BTM_SEC_AUTHENTICATED.

Definition btm_dev_encrypted (r : tBTM_SEC_DEV_REC) : bool :=
  flag (sec_flags r) BTM_SEC_ENCRYPTED.

Definition btm_dev_16_digit_authenticated (r : tBTM_SEC_DEV_REC) : bool :=
  flag (sec_flags r) BTM_SEC_16_DIGIT_PIN_AUTHED.

Definition access_secure_service_from_temp_bond (r : tBTM_SEC_DEV_REC)
    (locally_initiated : bool) (security_req : Z) : bool :=
  negb locally_initiated && flag security_req BTM_SEC_IN_AUTHENTICATE
  && is_bond_type_temporary r.

Definition BTM_SEC_IS_SM4 (sm : Z) : bool :=
  BTM_SM4_TRUE =? Z.land sm BTM_SM4_TRUE.

Definition BTM_SEC_IS_SM4_UNKNOWN (sm : Z) : bool :=
  BTM_SM4_UNKNOWN =? Z.land sm BTM_SM4_TRUE.

Definition BTM_SEC_LE_MASK : Z :=
  Z.lor (Z.lor (Z.lor BTM_SEC_LE_AUTHENTICATED BTM_SEC_LE_ENCRYPTED)
           BTM_SEC_LE_LINK_KEY_KNOWN) BTM_SEC_LE_LINK_KEY_AUTHED.

(** ** The per-device security procedure engine *)

Definition btm_sec_start_get_name (p : nat) (cb : tBTM_CB) : bool * tBTM_CB :=
  if negb BTM_IsDeviceUp then (false, cb)
  else
    let cb := upd_dev p (set_sec_state BTM_SEC_STATE_GETTING_NAME) cb in
    (true, emit (E_SendRemoteNameRequest (bd_addr (dev cb p))) cb).

Definition btm_sec_auth_timer_timeout (addr : RawAddress) (cb : tBTM_CB)
    : tBTM_CB :=
  match btm_find_dev addr (sec_dev_rec cb) with
  | None => cb
  | Some p =>
    if btm_dev_authenticated (dev cb p) then cb
    else if bool_decide (sec_state (dev cb p) = BTM_SEC_STATE_AUTHENTICATING)
    then cb
    else
      let cb := upd_dev p (set_sec_state BTM_SEC_STATE_AUTHENTICATING) cb in
      emit (E_btsnd_hcic_auth_request (hci_handle (dev cb p))) cb
  end.

Definition btm_sec_wait_and_start_authentication (p : nat) (cb : tBTM_CB)
    : tBTM_CB :=
  let addr := bd_addr (dev cb p) in
  if do_in_main_thread_delayed_ok
  then emit (E_do_in_main_thread_delayed_auth_timer addr delay_auth) cb
  else btm_sec_auth_timer_timeout addr cb.

(** the [start_auth] flag computed by [btm_sec_execute_procedure] *)
Definition start_auth (r : tBTM_SEC_DEV_REC) : bool :=
  let start_auth := false in
  let start_auth :=
    if negb (flag (sec_flags r) BTM_SEC_AUTHENTICATED) then
      if IsLocallyInitiated r then
        if flag (security_required r)
             (Z.lor BTM_SEC_OUT_AUTHENTICATE BTM_SEC_OUT_ENCRYPT)
        then true else start_auth
      else
        if flag (security_required r)
             (Z.lor BTM_SEC_IN_AUTHENTICATE BTM_SEC_IN_ENCRYPT)
        then true else start_auth
    else start_auth in
  let start_auth :=
    if negb (flag (sec_flags r) BTM_SEC_16_DIGIT_PIN_AUTHED) then
      if negb (IsLocallyInitiated r) then
        if flag (security_required r) BTM_SEC_IN_MIN_16_DIGIT_PIN
        then true else start_auth
      else start_auth
    else start_auth in
  start_auth.

Definition btm_sec_execute_procedure (p : nat) (cb : tBTM_CB)
    : tBTM_STATUS * tBTM_CB :=
  let r := dev cb p in
  if negb (bool_decide (sec_state r = BTM_SEC_STATE_IDLE))
     && negb (bool_decide (sec_state r = BTM_SEC_STATE_LE_ENCRYPTING))
  then (BTM_CMD_STARTED, cb)
  (* If any security is required, get the name first *)
  else if negb (flag (sec_flags r) BTM_SEC_NAME_KNOWN)
          && negb (hci_handle r =? HCI_INVALID_HANDLE)
  then
    let '(started, cb) := btm_sec_start_get_name p cb in
    if negb started then (BTM_NO_RESOURCES, cb) else (BTM_CMD_STARTED, cb)
  (* If connection is not authenticated and authentication is required *)
  else if negb (hci_handle r =? HCI_INVALID_HANDLE) && start_auth r
  then
    let cb :=
      if flag (sec_flags r) BTM_SEC_LINK_KEY_KNOWN
         && (negb (flag (sec_flags r) BTM_SEC_16_DIGIT_PIN_AUTHED)
             && (negb (IsLocallyInitiated r)
                 && flag (security_required r) BTM_SEC_IN_MIN_16_DIGIT_PIN))
      then
        upd_dev p (fun r => set_sec_flags
          (clr16 (sec_flags r)
             (Z.lor (Z.lor BTM_SEC_LINK_KEY_KNOWN BTM_SEC_LINK_KEY_AUTHED)
                BTM_SEC_AUTHENTICATED)) r) cb
      else cb in
    (BTM_CMD_STARTED, btm_sec_wait_and_start_authentication p cb)
  (* If connection is not encrypted and encryption is required *)
  else if negb (flag (sec_flags r) BTM_SEC_ENCRYPTED)
          && ((IsLocallyInitiated r
               && flag (security_required r) BTM_SEC_OUT_ENCRYPT)
              || (negb (IsLocallyInitiated r)
                  && flag (security_required r) BTM_SEC_IN_ENCRYPT))
          && negb (hci_handle r =? HCI_INVALID_HANDLE)
  then
    let cb := emit (E_btsnd_hcic_set_conn_encrypt (hci_handle r) true) cb in
    (BTM_CMD_STARTED, upd_dev p (set_sec_state BTM_SEC_STATE_ENCRYPTING) cb)
  else if flag (security_required r) BTM_SEC_MODE4_LEVEL4
          && negb (link_key_type r =? BTM_LKEY_TYPE_AUTH_COMB_P_256)
  then (BTM_FAILED_ON_SECURITY, cb)
  else if access_secure_service_from_temp_bond r (IsLocallyInitiated r)
            (security_required r)
  then (BTM_FAILED_ON_SECURITY, cb)
  else
    (* All required security procedures already established *)
    (BTM_SUCCESS,
     upd_dev p (fun r => set_security_required
       (clr16 (security_required r)
          (Z.lor (Z.lor (Z.lor BTM_SEC_OUT_AUTHENTICATE BTM_SEC_IN_AUTHENTICATE)
                    BTM_SEC_OUT_ENCRYPT) BTM_SEC_IN_ENCRYPT)) r) cb).

(** ** Calling and posting a security callback *)

(** [( *p_callback)(bd_addr, transport, p_ref_data, status)], run in place.
    The source guards most calls by [if (p_callback)]; where it does not,
    its callers never pass NULL. *)
Definition call_callback (callback : option tBTM_SEC_CALLBACK)
    (addr : RawAddress) (transport : tBT_TRANSPORT) (ref_data : RefData)
    (status : tBTM_STATUS) (cb : tBTM_CB) : tBTM_CB :=
  match callback with
  | None => cb
  | Some f =>
    callback_body f addr transport ref_data status
      (emit (E_callback f addr transport ref_data status) cb)
  end.

(** [if (p_callback) do_in_main_thread(FROM_HERE, base::Bind(p_callback, ...))] *)
Definition post_callback (callback : option tBTM_SEC_CALLBACK)
    (addr : RawAddress) (transport : tBT_TRANSPORT) (ref_data : RefData)
    (status : tBTM_STATUS) (cb : tBTM_CB) : tBTM_CB :=
  match callback with
  | None => cb
  | Some f => emit (E_do_in_main_thread f addr transport ref_data status) cb
  end.

(** ** The pending request queue *)

Definition btm_sec_queue_mx_request (addr : RawAddress) (psm : Z)
    (is_orig : bool) (security_req : Z) (callback : option tBTM_SEC_CALLBACK)
    (ref_data : RefData) (cb : tBTM_CB) : tBTM_CB :=
  let p_e :=
    {| e_psm := psm; e_is_orig := is_orig; e_p_callback := callback;
       e_p_ref_data := ref_data; e_transport := BT_TRANSPORT_BR_EDR;
       e_sec_act := BTM_BLE_SEC_NONE; e_bd_addr := addr;
       e_rfcomm_security_requirement := security_req |} in
  set_sec_pending_q (sec_pending_q cb ++ [p_e]) cb.

Definition btm_sec_queue_encrypt_request (addr : RawAddress)
    (transport : tBT_TRANSPORT) (callback : option tBTM_SEC_CALLBACK)
    (ref_data : RefData) (sec_act : tBTM_BLE_SEC_ACT) (cb : tBTM_CB)
    : tBTM_CB :=
  let p_e :=
    {| e_psm := 0; e_p_callback := callback; e_p_ref_data := ref_data;
       e_transport := transport; e_sec_act := sec_act; e_bd_addr := addr;
       e_is_orig := false; e_rfcomm_security_requirement := 0 |} in
  set_sec_pending_q (sec_pending_q cb ++ [p_e]) cb.

(** ** BTM_SetEncryption *)

(** the first [switch (transport)]: the status of an early return *)
Definition BTM_SetEncryption_early (r : tBTM_SEC_DEV_REC)
    (transport : tBT_TRANSPORT) : option tBTM_STATUS :=
  match transport with
  | BT_TRANSPORT_BR_EDR =>
    if hci_handle r =? HCI_INVALID_HANDLE then Some BTM_WRONG_MODE
    else if flag (sec_flags r) BTM_SEC_ENCRYPTED then Some BTM_SUCCESS
    else None
  | BT_TRANSPORT_LE =>
    if ble_hci_handle r =? HCI_INVALID_HANDLE then Some BTM_WRONG_MODE
    else if flag (sec_flags r) BTM_SEC_LE_ENCRYPTED then Some BTM_SUCCESS
    else None
  | _ => None
  end.

Definition BTM_SetEncryption (addr : RawAddress) (transport : tBT_TRANSPORT)
    (callback : option tBTM_SEC_CALLBACK) (ref_data : RefData)
    (sec_act : tBTM_BLE_SEC_ACT) (cb : tBTM_CB) : tBTM_STATUS * tBTM_CB :=
  match btm_find_dev addr (sec_dev_rec cb) with
  | None => (BTM_WRONG_MODE, cb)
  | Some p =>
    match BTM_SetEncryption_early (dev cb p) transport with
    | Some status =>
      (status, post_callback callback addr transport ref_data status cb)
    | None =>
      (* enqueue security request if security is active *)
      if bool_decide (p_callback (dev cb p) <> None)
         || negb (bool_decide (sec_state (dev cb p) = BTM_SEC_STATE_IDLE))
      then
        (BTM_CMD_STARTED,
         btm_sec_queue_encrypt_request addr transport callback ref_data
           sec_act cb)
      else
        let cb := upd_dev p (set_p_callback callback) cb in
        let cb := upd_dev p (set_p_ref_data ref_data) cb in
        let cb := upd_dev p (fun r => set_security_required
          (set16 (security_required r)
             (Z.lor BTM_SEC_IN_AUTHENTICATE BTM_SEC_IN_ENCRYPT)) r) cb in
        let cb := upd_dev p (set_is_originator false) cb in
        let '(rc, cb) :=
          match transport with
          | BT_TRANSPORT_LE =>
            if BTM_IsAclConnectionUp addr BT_TRANSPORT_LE then
              (btm_ble_set_encryption addr sec_act (L2CA_GetBleConnRole addr),
               emit (E_btm_ble_set_encryption addr sec_act
                       (L2CA_GetBleConnRole addr)) cb)
            else (BTM_WRONG_MODE, cb)
          | BT_TRANSPORT_BR_EDR => btm_sec_execute_procedure p cb
          | _ => (BTM_SUCCESS, cb)
          end in
        match rc with
        | BTM_CMD_STARTED | BTM_BUSY => (rc, cb)
        | _ =>
          match callback with
          | Some f =>
            let cb := upd_dev p (set_p_callback None) cb in
            (rc, emit (E_do_in_main_thread f addr transport
                         (p_ref_data (dev cb p)) rc) cb)
          | None => (rc, cb)
          end
        end
    end
  end.

(** ** Link key upgrade *)

Definition btm_sec_io_map : list (list bool) :=
  (*             OUT    IO     IN     NONE *)
  [ (* OUT  *) [false; false; true; false];
    (* IO   *) [false; true; true; false];
    (* IN   *) [true; true; true; false];
    (* NONE *) [false; false; false; false] ].

Definition btm_sec_io_map_at (rmt loc : Z) : bool :=
  nth (Z.to_nat loc) (nth (Z.to_nat rmt) btm_sec_io_map []) false.

Definition btm_sec_is_upgrade_possible (r : tBTM_SEC_DEV_REC)
    (is_orig : bool) (cb : tBTM_CB) : bool :=
  let mtm_check := if is_orig then BTM_SEC_OUT_MITM else BTM_SEC_IN_MITM in
  if flag (sec_flags r) BTM_SEC_LINK_KEY_KNOWN then
    if flag (security_required r) mtm_check
       && ((link_key_type r =? BTM_LKEY_TYPE_UNAUTH_COMB)
           || (link_key_type r =? BTM_LKEY_TYPE_UNAUTH_COMB_P_256))
       && (rmt_io_caps r <? BTM_IO_CAP_MAX)
       && btm_sec_io_map_at (rmt_io_caps r) (devcb_loc_io_caps cb)
    then true else false
  else true.

Definition btm_sec_check_upgrade (p : nat) (is_orig : bool) (cb : tBTM_CB)
    : tBTM_CB :=
  (* Only check if link key already exists *)
  if negb (flag (sec_flags (dev cb p)) BTM_SEC_LINK_KEY_KNOWN) then cb
  else if btm_sec_is_upgrade_possible (dev cb p) is_orig cb then
    let cb := upd_dev p (fun r => set_sm4 (set8 (sm4 r) BTM_SM4_UPGRADE) r) cb in
    let cb := upd_dev p (fun r => set_sec_flags
      (clr16 (sec_flags r)
         (Z.lor BTM_SEC_LINK_KEY_KNOWN BTM_SEC_LINK_KEY_AUTHED)) r) cb in
    upd_dev p (fun r => set_sec_flags
      (clr16 (sec_flags r) BTM_SEC_AUTHENTICATED) r) cb
  else cb.

(** ** The access requests of L2CAP and of the multiplexing protocols *)

(** The source dereferences the result of [btm_find_or_alloc_dev]
    unchecked in the two access requests.  A NULL result is given the
    index past the last record, where reads yield [dev0] and writes are
    lost. *)
Definition find_or_alloc_unchecked (addr : RawAddress) (cb : tBTM_CB)
    : nat * tBTM_CB :=
  let '(recs, o) := btm_find_or_alloc_dev addr (sec_dev_rec cb) in
  (default (length recs) o, set_sec_dev_rec recs cb).

(** "SM4 with a key that must be P-256": the block both access requests
    run before the procedure starts *)
Definition prepare_link_key (p : nat) (is_orig : bool) (cb : tBTM_CB)
    : tBTM_CB :=
  if flag (security_required (dev cb p)) BTM_SEC_MODE4_LEVEL4
     && negb (link_key_type (dev cb p) =? BTM_LKEY_TYPE_AUTH_COMB_P_256)
  then
    let cb :=
      if negb (Z.land (sec_flags (dev cb p)) BTM_SEC_LINK_KEY_KNOWN =? 0)
      then upd_dev p (fun r => set_sm4 (set8 (sm4 r) BTM_SM4_UPGRADE) r) cb
      else cb in
    upd_dev p (fun r => set_sec_flags
      (clr16 (sec_flags r)
         (Z.lor (Z.lor BTM_SEC_LINK_KEY_KNOWN BTM_SEC_LINK_KEY_AUTHED)
            BTM_SEC_AUTHENTICATED)) r) cb
  else btm_sec_check_upgrade p is_orig cb.

Definition btm_sec_l2cap_access_req_by_requirement (addr : RawAddress)
    (security_req : Z) (is_orig : bool) (callback : option tBTM_SEC_CALLBACK)
    (ref_data : RefData) (cb : tBTM_CB) : tBTM_STATUS * tBTM_CB :=
  let transport := BT_TRANSPORT_BR_EDR in
  (* Find or get oldest record *)
  let '(p, cb) := find_or_alloc_unchecked addr cb in
  let cb :=
    upd_dev p (set_hci_handle (BTM_GetHCIConnHandle addr BT_TRANSPORT_BR_EDR))
      cb in
  if negb is_orig && flag security_req BTM_SEC_MODE4_LEVEL4
     && (negb controller_supports_secure_connections
         || negb (SupportsSecureConnections (dev cb p)))
  then
    (BTM_MODE4_LEVEL4_NOT_SUPPORTED,
     call_callback callback addr transport ref_data
       BTM_MODE4_LEVEL4_NOT_SUPPORTED cb)
  (* we will process one after another *)
  else if bool_decide (p_callback (dev cb p) <> None)
          || negb (bool_decide (pairing_state cb = BTM_PAIR_STATE_IDLE))
  then
    let rc := BTM_CMD_STARTED in
    let legacy :=
      (security_mode cb =? BTM_SEC_MODE_SERVICE)
      || (BTM_SM4_KNOWN =? sm4 (dev cb p))
      || (BTM_SEC_IS_SM4 (sm4 (dev cb p))
          && negb (btm_sec_is_upgrade_possible (dev cb p) is_orig cb)) in
    let rc :=
      if legacy then
        (* legacy mode - local is legacy or local is lisbon/peer is legacy
           or SM4 with no possibility of link key upgrade *)
        let rc :=
          if is_orig then
            if (Z.land security_req BTM_SEC_OUT_FLAGS =? 0)
               || ((Z.land security_req BTM_SEC_OUT_FLAGS
                      =? BTM_SEC_OUT_AUTHENTICATE)
                   && btm_dev_authenticated (dev cb p))
               || ((Z.land security_req BTM_SEC_OUT_FLAGS
                      =? Z.lor BTM_SEC_OUT_AUTHENTICATE BTM_SEC_OUT_ENCRYPT)
                   && btm_dev_encrypted (dev cb p))
            then BTM_SUCCESS else rc
          else
            if (Z.land security_req BTM_SEC_IN_FLAGS =? 0)
               || ((Z.land security_req BTM_SEC_IN_FLAGS
                      =? BTM_SEC_IN_AUTHENTICATE)
                   && btm_dev_authenticated (dev cb p))
               || ((Z.land security_req BTM_SEC_IN_FLAGS
                      =? Z.lor BTM_SEC_IN_AUTHENTICATE BTM_SEC_IN_ENCRYPT)
                   && btm_dev_encrypted (dev cb p))
            then
              (* Check for 16 digits (or MITM) *)
              if (Z.land security_req BTM_SEC_IN_MIN_16_DIGIT_PIN =? 0)
                 || ((Z.land security_req BTM_SEC_IN_MIN_16_DIGIT_PIN
                        =? BTM_SEC_IN_MIN_16_DIGIT_PIN)
                     && btm_dev_16_digit_authenticated (dev cb p))
              then BTM_SUCCESS else rc
            else rc in
        if bool_decide (rc = BTM_SUCCESS)
           && flag security_req BTM_SEC_MODE4_LEVEL4
           && negb (link_key_type (dev cb p) =? BTM_LKEY_TYPE_AUTH_COMB_P_256)
        then BTM_CMD_STARTED else rc
      else rc in
    if legacy && bool_decide (rc = BTM_SUCCESS) then
      let rc :=
        if access_secure_service_from_temp_bond (dev cb p) is_orig security_req
        then BTM_FAILED_ON_SECURITY else rc in
      (rc, call_callback callback addr transport ref_data rc cb)
    else (BTM_CMD_STARTED, set_sec_req_pending true cb)
  else
    (* Save the security requirements in case a pairing is needed *)
    let cb :=
      upd_dev p (set_required_security_flags_for_pairing security_req) cb in
    (* Modify security_required in btm_sec_l2cap_access_req for Lisbon *)
    let lisbon :=
      (security_mode cb =? BTM_SEC_MODE_SP)
      || (security_mode cb =? BTM_SEC_MODE_SC) in
    if lisbon && negb (BTM_SEC_IS_SM4 (sm4 (dev cb p)))
       && negb (flag BTM_SM4_KNOWN (sm4 (dev cb p)))
    then
      (* the remote features are not known yet *)
      (BTM_CMD_STARTED,
       upd_dev p (fun r => set_sm4 (set8 (sm4 r) BTM_SM4_REQ_PEND) r) cb)
    else
      let sm4_to_sm4 := lisbon && BTM_SEC_IS_SM4 (sm4 (dev cb p)) in
      let chk_acp_auth_done := sm4_to_sm4 && negb is_orig in
      let security_req :=
        if sm4_to_sm4 then
          (* SM4 to SM4 -> always encrypt *)
          if is_orig then set16 security_req BTM_SEC_OUT_ENCRYPT
          else set16 security_req BTM_SEC_IN_ENCRYPT
        else security_req in
      let cb := upd_dev p (set_security_required security_req) cb in
      let cb := upd_dev p (set_p_ref_data ref_data) cb in
      let cb := upd_dev p (set_is_originator is_orig) cb in
      if chk_acp_auth_done
         && ((0 =? Z.land (sec_flags (dev cb p)) BTM_SEC_AUTHENTICATED)
             || (0 =? Z.land (sec_flags (dev cb p)) BTM_SEC_ENCRYPTED))
      then
        (* peer should have initiated security process by now *)
        let rc := BTM_DELAY_CHECK in
        let cb := upd_dev p (set_p_callback callback) cb in
        let cb := upd_dev p (set_sec_state BTM_SEC_STATE_DELAY_FOR_ENC) cb in
        (BTM_SUCCESS, call_callback callback addr transport ref_data rc cb)
      else
        let cb := upd_dev p (set_p_callback callback) cb in
        let cb :=
          if BTM_SEC_IS_SM4 (sm4 (dev cb p))
          then prepare_link_key p is_orig cb else cb in
        let '(rc, cb) := btm_sec_execute_procedure p cb in
        if negb (bool_decide (rc = BTM_CMD_STARTED)) then
          let cb := upd_dev p (set_p_callback None) cb in
          (rc, call_callback callback addr transport
                 (p_ref_data (dev cb p)) rc cb)
        else (rc, cb).

Definition btm_sec_mx_access_request (addr : RawAddress) (is_orig : bool)
    (security_req : Z) (callback : option tBTM_SEC_CALLBACK)
    (ref_data : RefData) (cb : tBTM_CB) : tBTM_STATUS * tBTM_CB :=
  (* [bool transport = false], passed where a tBT_TRANSPORT is expected *)
  let transport := BT_TRANSPORT_AUTO in
  (* Find or get oldest record *)
  let '(p, cb) := find_or_alloc_unchecked addr cb in
  (* we will process one after another *)
  if bool_decide (p_callback (dev cb p) <> None)
     || negb (bool_decide (pairing_state cb = BTM_PAIR_STATE_IDLE))
  then
    let rc := BTM_CMD_STARTED in
    let rc :=
      if (security_mode cb =? BTM_SEC_MODE_SERVICE)
         || (BTM_SM4_KNOWN =? sm4 (dev cb p))
         || (BTM_SEC_IS_SM4 (sm4 (dev cb p))
             && negb (btm_sec_is_upgrade_possible (dev cb p) is_orig cb))
      then
        (* legacy mode - local is legacy or local is lisbon/peer is legacy
           or SM4 with no possibility of link key upgrade *)
        let rc :=
          if is_orig then
            if (Z.land security_req BTM_SEC_OUT_FLAGS =? 0)
               || ((Z.land security_req BTM_SEC_OUT_FLAGS
                      =? BTM_SEC_OUT_AUTHENTICATE)
                   && btm_dev_authenticated (dev cb p))
               || ((Z.land security_req BTM_SEC_OUT_FLAGS
                      =? Z.lor BTM_SEC_OUT_AUTHENTICATE BTM_SEC_OUT_ENCRYPT)
                   && btm_dev_encrypted (dev cb p))
            then BTM_SUCCESS else rc
          else
            if (Z.land security_req BTM_SEC_IN_FLAGS =? 0)
               || ((Z.land security_req BTM_SEC_IN_FLAGS
                      =? BTM_SEC_IN_AUTHENTICATE)
                   && btm_dev_authenticated (dev cb p))
               || ((Z.land security_req BTM_SEC_IN_FLAGS
                      =? Z.lor BTM_SEC_IN_AUTHENTICATE BTM_SEC_IN_ENCRYPT)
                   && btm_dev_encrypted (dev cb p))
            then
              (* Check for 16 digits (or MITM) *)
              if (Z.land security_req BTM_SEC_IN_MIN_16_DIGIT_PIN =? 0)
                 || ((Z.land security_req BTM_SEC_IN_MIN_16_DIGIT_PIN
                        =? BTM_SEC_IN_MIN_16_DIGIT_PIN)
                     && btm_dev_16_digit_authenticated (dev cb p))
              then BTM_SUCCESS else rc
            else rc in
        if bool_decide (rc = BTM_SUCCESS)
           && flag security_req BTM_SEC_MODE4_LEVEL4
           && negb (link_key_type (dev cb p) =? BTM_LKEY_TYPE_AUTH_COMB_P_256)
        then BTM_CMD_STARTED else rc
      else rc in
    (* the new security request *)
    let rc :=
      if negb (bool_decide (sec_state (dev cb p) = BTM_SEC_STATE_IDLE))
      then BTM_CMD_STARTED else rc in
    if bool_decide (rc = BTM_CMD_STARTED) then
      (rc, btm_sec_queue_mx_request addr BT_PSM_RFCOMM is_orig security_req
             callback ref_data cb)
    else (* rc == BTM_SUCCESS *)
      let rc :=
        if access_secure_service_from_temp_bond (dev cb p) is_orig security_req
        then BTM_FAILED_ON_SECURITY else rc in
      (rc, call_callback callback addr transport ref_data rc cb)
  else if negb is_orig
          && (flag security_req BTM_SEC_MODE4_LEVEL4
              || (security_mode cb =? BTM_SEC_MODE_SC))
          && (negb controller_supports_secure_connections
              || negb (SupportsSecureConnections (dev cb p)))
  then
    (BTM_MODE4_LEVEL4_NOT_SUPPORTED,
     call_callback callback addr transport ref_data
       BTM_MODE4_LEVEL4_NOT_SUPPORTED cb)
  else
    let security_req :=
      if flag security_req BTM_SEC_OUT_AUTHENTICATE
      then set16 security_req BTM_SEC_OUT_MITM else security_req in
    let security_req :=
      if flag security_req BTM_SEC_IN_AUTHENTICATE
      then set16 security_req BTM_SEC_IN_MITM else security_req in
    let cb :=
      upd_dev p (set_required_security_flags_for_pairing security_req) cb in
    let cb := upd_dev p (set_security_required security_req) cb in
    let cb :=
      if ((security_mode cb =? BTM_SEC_MODE_SP)
          || (security_mode cb =? BTM_SEC_MODE_SC))
         && BTM_SEC_IS_SM4 (sm4 (dev cb p))
      then prepare_link_key p is_orig cb else cb in
    let cb := upd_dev p (set_is_originator is_orig) cb in
    let cb := upd_dev p (set_p_callback callback) cb in
    let cb := upd_dev p (set_p_ref_data ref_data) cb in
    let '(rc, cb) := btm_sec_execute_procedure p cb in
    if negb (bool_decide (rc = BTM_CMD_STARTED)) then
      match callback with
      | Some _ =>
        let cb := upd_dev p (set_p_callback None) cb in
        (rc, call_callback callback addr transport ref_data rc cb)
      | None => (rc, cb)
      end
    else (rc, cb).

(** ** Draining the pending request queue *)

(** the body of the [while] loop of [btm_sec_check_pending_reqs], for the
    entry [p_e] just dequeued *)
Definition resubmit_pending_req (p_e : tBTM_SEC_QUEUE_ENTRY) (cb : tBTM_CB)
    : tBTM_CB :=
  (* Check that the ACL is still up before starting security procedures *)
  if BTM_IsAclConnectionUp (e_bd_addr p_e) (e_transport p_e) then
    if negb (e_psm p_e =? 0) then
      snd (btm_sec_mx_access_request (e_bd_addr p_e) (e_is_orig p_e)
             (e_rfcomm_security_requirement p_e) (e_p_callback p_e)
             (e_p_ref_data p_e) cb)
    else
      snd (BTM_SetEncryption (e_bd_addr p_e) (e_transport p_e)
             (e_p_callback p_e) (e_p_ref_data p_e) (e_sec_act p_e) cb)
  else cb.

(** [while ((p_e = fixed_queue_try_dequeue(bq)) != NULL)] over the
    detached queue [bq] *)
Fixpoint drain_pending_reqs (bq : list tBTM_SEC_QUEUE_ENTRY) (cb : tBTM_CB)
    : tBTM_CB :=
  match bq with
  | [] => cb
  | p_e :: bq => drain_pending_reqs bq (resubmit_pending_req p_e cb)
  end.

Definition btm_sec_check_pending_reqs (cb : tBTM_CB) : tBTM_CB :=
  if bool_decide (pairing_state cb = BTM_PAIR_STATE_IDLE) then
    (* First, resubmit L2CAP requests *)
    let cb :=
      if sec_req_pending cb then
        emit (E_l2cu_resubmit_pending_sec_req None)
          (set_sec_req_pending false cb)
      else cb in
    (* Now, re-submit anything in the mux queue *)
    let bq := sec_pending_q cb in
    let cb := set_sec_pending_q [] cb in
    drain_pending_reqs bq cb
  else cb.

(** ** Callback delivery *)

Definition btm_sec_dev_rec_cback_event (p : nat) (btm_status : tBTM_STATUS)
    (is_le_transport : bool) (cb : tBTM_CB) : tBTM_CB :=
  let callback := p_callback (dev cb p) in
  let cb := upd_dev p (set_p_callback None) cb in
  let cb :=
    match callback with
    | Some _ =>
      if is_le_transport then
        call_callback callback (ble_pseudo_addr (dev cb p)) BT_TRANSPORT_LE
          (p_ref_data (dev cb p)) btm_status cb
      else
        call_callback callback (bd_addr (dev cb p)) BT_TRANSPORT_BR_EDR
          (p_ref_data (dev cb p)) btm_status cb
    | None => cb
    end in
  btm_sec_check_pending_reqs cb.

(** ** The pairing state machine *)

Definition btm_restore_mode (cb : tBTM_CB) : tBTM_CB :=
  let cb :=
    if security_mode_changed cb then
      emit (E_btsnd_hcic_write_auth_enable false)
        (set_security_mode_changed false cb)
    else cb in
  if pin_type_changed cb then
    emit (E_btsnd_hcic_write_pin_type (cfg_pin_type cb))
      (set_pin_type_changed false cb)
  else cb.

Definition btm_sec_change_pairing_state (new_state : tBTM_PAIRING_STATE)
    (cb : tBTM_CB) : tBTM_CB :=
  let old_state := pairing_state cb in
  let cb := set_pairing_state new_state cb in
  if bool_decide (new_state = BTM_PAIR_STATE_IDLE) then
    let cb := emit (E_alarm_cancel pairing_timer) cb in
    let cb := set_pairing_flags 0 cb in
    let cb := set_pin_code_len 0 cb in
    (* Make sure the the lcb shows we are not bonding *)
    let cb := emit (E_l2cu_update_lcb_4_bonding (pairing_bda cb) false) cb in
    let cb := btm_restore_mode cb in
    let cb := btm_sec_check_pending_reqs cb in
    let cb := emit E_btm_inq_clear_ssp cb in
    set_pairing_bda RawAddress_kAny cb
  else
    (* If transitioning out of idle, mark the lcb as bonding *)
    let cb :=
      if bool_decide (old_state = BTM_PAIR_STATE_IDLE)
      then emit (E_l2cu_update_lcb_4_bonding (pairing_bda cb) true) cb
      else cb in
    emit (E_alarm_set_on_mloop pairing_timer (BTM_SEC_TIMEOUT_VALUE * 1000)
            alarm_btm_sec_pairing_timeout) cb.

Definition NotifyBondingChange (r : tBTM_SEC_DEV_REC) (status : tHCI_STATUS)
    (cb : tBTM_CB) : tBTM_CB :=
  if api_p_auth_complete_callback cb
  then emit (E_p_auth_complete_callback (bd_addr r) status) cb
  else cb.

Definition btm_sec_dd_create_conn (p : nat) (cb : tBTM_CB)
    : tBTM_STATUS * tBTM_CB :=
  let status := l2cu_ConnectAclForSecurity (bd_addr (dev cb p)) in
  let cb := emit (E_l2cu_ConnectAclForSecurity (bd_addr (dev cb p))) cb in
  if bool_decide (status = BTM_CMD_STARTED) then
    (BTM_CMD_STARTED,
     btm_sec_change_pairing_state BTM_PAIR_STATE_WAIT_PIN_REQ cb)
  else if bool_decide (status = BTM_NO_RESOURCES) then (BTM_NO_RESOURCES, cb)
  else
    (* set up the control block to indicated dedicated bonding *)
    let cb :=
      set_pairing_flags
        (set8 (pairing_flags cb) BTM_PAIR_FLAGS_DISC_WHEN_DONE) cb in
    (BTM_CMD_STARTED,
     btm_sec_change_pairing_state BTM_PAIR_STATE_WAIT_PIN_REQ cb).

Definition BTM_PINCodeReply (addr : RawAddress) (res : tBTM_STATUS)
    (pin_len : Z) (p_pin : option (list Z)) (cb : tBTM_CB) : tBTM_CB :=
  (* If timeout already expired or has been canceled, ignore the reply *)
  if negb (bool_decide (pairing_state cb = BTM_PAIR_STATE_WAIT_LOCAL_PIN))
  then cb
  else if negb (addr =? pairing_bda cb) then cb
  else
    match btm_find_dev addr (sec_dev_rec cb) with
    | None => cb
    | Some p =>
      let res :=
        if (PIN_CODE_LEN <? pin_len) || (pin_len =? 0)
           || bool_decide (p_pin = None)
        then BTM_ILLEGAL_VALUE else res in
      if negb (bool_decide (res = BTM_SUCCESS)) then
        (* if peer started dd OR we started dd and pre-fetch pin was not
           used send negative reply *)
        if flag (pairing_flags cb) BTM_PAIR_FLAGS_PEER_STARTED_DD
           || (flag (pairing_flags cb) BTM_PAIR_FLAGS_WE_STARTED_DD
               && flag (pairing_flags cb) BTM_PAIR_FLAGS_DISC_WHEN_DONE)
        then
          let cb :=
            btm_sec_change_pairing_state BTM_PAIR_STATE_WAIT_AUTH_COMPLETE
              cb in
          let cb :=
            emit (E_acl_set_disconnect_reason HCI_ERR_HOST_REJECT_SECURITY)
              cb in
          emit (E_btsnd_hcic_pin_code_neg_reply addr) cb
        else
          let cb := upd_dev p (set_security_required BTM_SEC_NONE) cb in
          btm_sec_change_pairing_state BTM_PAIR_STATE_IDLE cb
      else
        let cb := upd_dev p (fun r => set_sec_flags
          (set16 (sec_flags r) BTM_SEC_LINK_KEY_AUTHED) r) cb in
        let cb := upd_dev p (set_pin_code_length pin_len) cb in
        let cb :=
          if 16 <=? pin_len then
            upd_dev p (fun r => set_sec_flags
              (set16 (sec_flags r) BTM_SEC_16_DIGIT_PIN_AUTHED) r) cb
          else cb in
        if flag (pairing_flags cb) BTM_PAIR_FLAGS_WE_STARTED_DD
           && (hci_handle (dev cb p) =? HCI_INVALID_HANDLE)
           && negb (security_mode_changed cb)
        then
          (* This is start of the dedicated bonding if local device is 2.0 *)
          let cb := set_pin_code_len pin_len cb in
          let cb :=
            set_pin_code
              (take (Z.to_nat pin_len) (default [] p_pin)
               ++ drop (Z.to_nat pin_len) (pin_code cb)) cb in
          let cb := set_security_mode_changed true cb in
          let cb := emit (E_btsnd_hcic_write_auth_enable true) cb in
          let cb := emit (E_acl_set_disconnect_reason HCI_ERR_UNDEFINED) cb in
          if flag (pairing_flags cb) BTM_PAIR_FLAGS_REJECTED_CONNECT then
            btm_sec_change_pairing_state BTM_PAIR_STATE_WAIT_PIN_REQ cb
          else if flag (sm4 (dev cb p)) BTM_SM4_CONN_PEND then
            btm_sec_change_pairing_state BTM_PAIR_STATE_WAIT_PIN_REQ cb
          else
            let '(status, cb) := btm_sec_dd_create_conn p cb in
            if negb (bool_decide (status = BTM_CMD_STARTED)) then
              let cb :=
                btm_sec_change_pairing_state BTM_PAIR_STATE_IDLE cb in
              let cb := upd_dev p (fun r => set_sec_flags
                (clr16 (sec_flags r) BTM_SEC_LINK_KEY_AUTHED) r) cb in
              NotifyBondingChange (dev cb p) HCI_ERR_AUTH_FAILURE cb
            else cb
        else
          let cb :=
            btm_sec_change_pairing_state BTM_PAIR_STATE_WAIT_AUTH_COMPLETE
              cb in
          let cb := emit (E_acl_set_disconnect_reason HCI_SUCCESS) cb in
          emit (E_btsnd_hcic_pin_code_req_reply addr pin_len
                  (default [] p_pin)) cb
    end.

Definition btm_sec_check_prefetch_pin (p : nat) (cb : tBTM_CB)
    : bool * tBTM_CB :=
  let major :=
    u8 (Z.land (nth 1 (dev_class (dev cb p)) 0) BTM_COD_MAJOR_CLASS_MASK) in
  let minor :=
    u8 (Z.land (nth 2 (dev_class (dev cb p)) 0) BTM_COD_MINOR_CLASS_MASK) in
  if (major =? BTM_COD_MAJOR_AUDIO)
     && ((minor =? BTM_COD_MINOR_CONFM_HANDSFREE)
         || (minor =? BTM_COD_MINOR_CAR_AUDIO))
  then
    if negb (security_mode_changed cb) then
      (false, emit (E_btsnd_hcic_write_auth_enable true)
                (set_security_mode_changed true cb))
    else (false, cb)
  else
    let cb := btm_sec_change_pairing_state BTM_PAIR_STATE_WAIT_LOCAL_PIN cb in
    (* If we got a PIN, use that, else try to get one *)
    if negb (pin_code_len cb =? 0) then
      (true, BTM_PINCodeReply (bd_addr (dev cb p)) BTM_SUCCESS
               (pin_code_len cb) (Some (pin_code cb)) cb)
    else
      (* pin was not supplied - pre-fetch pin code now *)
      if api_p_pin_callback cb
         && (Z.land (pairing_flags cb) BTM_PAIR_FLAGS_PIN_REQD =? 0)
      then
        let cb :=
          if BTM_IsAclConnectionUp (bd_addr (dev cb p)) BT_TRANSPORT_BR_EDR
          then set_pairing_flags
                 (set8 (pairing_flags cb) BTM_PAIR_FLAGS_PIN_REQD) cb
          else cb in
        (true, emit (E_p_pin_callback (bd_addr (dev cb p))
                       (flag (required_security_flags_for_pairing (dev cb p))
                          BTM_SEC_IN_MIN_16_DIGIT_PIN)) cb)
      else (true, cb).

(** ** Bonding *)

Definition btm_sec_bond_by_transport (addr : RawAddress) (addr_type : Z)
    (transport : tBT_TRANSPORT) (pin_len : Z) (p_pin : option (list Z))
    (cb : tBTM_CB) : tBTM_STATUS * tBTM_CB :=
  (* Other security process is in progress *)
  if negb (bool_decide (pairing_state cb = BTM_PAIR_STATE_IDLE))
  then (BTM_WRONG_MODE, cb)
  else
    let '(recs, o) := btm_find_or_alloc_dev addr (sec_dev_rec cb) in
    let cb := set_sec_dev_rec recs cb in
    match o with
    | None => (BTM_NO_RESOURCES, cb)
    | Some p =>
      if negb controller_get_is_ready then (BTM_NO_RESOURCES, cb)
      (* Finished if connection is active and already paired *)
      else if (negb (hci_handle (dev cb p) =? HCI_INVALID_HANDLE)
               && bool_decide (transport = BT_TRANSPORT_BR_EDR)
               && flag (sec_flags (dev cb p)) BTM_SEC_AUTHENTICATED)
              || (negb (ble_hci_handle (dev cb p) =? HCI_INVALID_HANDLE)
                  && bool_decide (transport = BT_TRANSPORT_LE)
                  && flag (sec_flags (dev cb p)) BTM_SEC_LE_AUTHENTICATED)
      then (BTM_SUCCESS, cb)
      else
        (* Tell controller to get rid of the link key if it has one stored *)
        let cb := emit (E_BTM_DeleteStoredLinkKey addr) cb in
        if negb (bool_decide (BTM_DeleteStoredLinkKey addr = BTM_SUCCESS))
        then (BTM_NO_RESOURCES, cb)
        else
          (* Save the PIN code if we got a valid one *)
          let cb :=
            match p_pin with
            | Some pin =>
              if (pin_len <=? PIN_CODE_LEN) && negb (pin_len =? 0) then
                let cb := set_pin_code_len pin_len cb in
                let cb := upd_dev p (set_pin_code_length pin_len) cb in
                set_pin_code (take (Z.to_nat PIN_CODE_LEN) pin) cb
              else cb
            | None => cb
            end in
          let cb := set_pairing_bda addr cb in
          let cb := set_pairing_flags BTM_PAIR_FLAGS_WE_STARTED_DD cb in
          let cb :=
            upd_dev p (set_security_required BTM_SEC_OUT_AUTHENTICATE) cb in
          let cb := upd_dev p (set_is_originator true) cb in
          if bool_decide (transport = BT_TRANSPORT_LE) then
            let cb := upd_dev p (fun r => btm_ble_init_pseudo_addr r addr) cb in
            let cb := upd_dev p (fun r => set_sec_flags
              (clr16 (sec_flags r) BTM_SEC_LE_MASK) r) cb in
            let cb := emit (E_SMP_Pair addr addr_type) cb in
            if SMP_Pair_started addr addr_type then
              let cb :=
                set_pairing_flags
                  (set8 (pairing_flags cb) BTM_PAIR_FLAGS_LE_ACTIVE) cb in
              let cb :=
                upd_dev p (set_sec_state BTM_SEC_STATE_AUTHENTICATING) cb in
              (BTM_CMD_STARTED,
               btm_sec_change_pairing_state BTM_PAIR_STATE_WAIT_AUTH_COMPLETE
                 cb)
            else (BTM_NO_RESOURCES, set_pairing_flags 0 cb)
          else
            let cb := upd_dev p (fun r => set_sec_flags
              (clr16 (sec_flags r)
                 (Z.lor (Z.lor (Z.lor (Z.lor BTM_SEC_LINK_KEY_KNOWN
                    BTM_SEC_AUTHENTICATED) BTM_SEC_ENCRYPTED)
                    BTM_SEC_ROLE_SWITCHED) BTM_SEC_LINK_KEY_AUTHED)) r) cb in
            let cb :=
              (* The special case when we authenticate keyboard.  Set pin
                 type to fixed *)
              if negb controller_supports_simple_pairing
                 && (Z.land (nth 1 (dev_class (dev cb p)) 0)
                       BTM_COD_MAJOR_CLASS_MASK =? BTM_COD_MAJOR_PERIPHERAL)
                 && flag (nth 2 (dev_class (dev cb p)) 0)
                      BTM_COD_MINOR_KEYBOARD
                 && negb (cfg_pin_type cb =? HCI_PIN_TYPE_FIXED)
              then
                emit (E_btsnd_hcic_write_pin_type HCI_PIN_TYPE_FIXED)
                  (set_pin_type_changed true cb)
              else cb in
            let cb :=
              if BTM_SEC_FORCE_RNR_FOR_DBOND then
                upd_dev p (fun r => set_sec_flags
                  (clr16 (sec_flags r) BTM_SEC_NAME_KNOWN) r) cb
              else cb in
            (* If connection already exists... *)
            if BTM_IsAclConnectionUpAndHandleValid addr transport then
              let cb := btm_sec_wait_and_start_authentication p cb in
              let cb :=
                btm_sec_change_pairing_state BTM_PAIR_STATE_WAIT_PIN_REQ cb in
              (* Mark lcb as bonding *)
              (BTM_CMD_STARTED, emit (E_l2cu_update_lcb_4_bonding addr true) cb)
            else
              let '(prefetched, cb) :=
                if negb controller_supports_simple_pairing
                   || (sm4 (dev cb p) =? BTM_SM4_KNOWN)
                then btm_sec_check_prefetch_pin p cb
                else (false, cb) in
              if prefetched then (BTM_CMD_STARTED, cb)
              else
                let '(status, cb) :=
                  if ((security_mode cb =? BTM_SEC_MODE_SP)
                      || (security_mode cb =? BTM_SEC_MODE_SC))
                     && BTM_SEC_IS_SM4_UNKNOWN (sm4 (dev cb p))
                  then
                    (* local is 2.1 and peer is unknown *)
                    if Z.land (sm4 (dev cb p)) BTM_SM4_CONN_PEND =? 0 then
                      (* we are not accepting connection request from peer
                         -> RNR (to learn if peer is 2.1) *)
                      let cb :=
                        btm_sec_change_pairing_state
                          BTM_PAIR_STATE_GET_REM_NAME cb in
                      (BTM_ReadRemoteDeviceName addr,
                       emit (E_BTM_ReadRemoteDeviceName addr) cb)
                    else
                      (* We are accepting connection request from peer *)
                      (BTM_CMD_STARTED,
                       btm_sec_change_pairing_state
                         BTM_PAIR_STATE_WAIT_PIN_REQ cb)
                  else
                    (* both local and peer are 2.1 *)
                    btm_sec_dd_create_conn p cb in
                if negb (bool_decide (status = BTM_CMD_STARTED)) then
                  (status,
                   btm_sec_change_pairing_state BTM_PAIR_STATE_IDLE cb)
                else (status, cb)
    end.

Definition BTM_SecBond (addr : RawAddress) (addr_type : Z)
    (transport : tBT_TRANSPORT) (device_type : Z) (pin_len : Z)
    (p_pin : option (list Z)) (cb : tBTM_CB) : tBTM_STATUS * tBTM_CB :=
  let transport :=
    if bool_decide (transport = BT_TRANSPORT_AUTO) then
      if addr_type =? BLE_ADDR_PUBLIC then
        if BTM_UseLeLink addr then BT_TRANSPORT_LE else BT_TRANSPORT_BR_EDR
      else BT_TRANSPORT_LE
    else transport in
  let '(cb, dev_type, addr_type) := BTM_ReadDevInfo addr cb in
  (* LE device, do SMP pairing *)
  if (bool_decide (transport = BT_TRANSPORT_LE)
      && (Z.land dev_type BT_DEVICE_TYPE_BLE =? 0))
     || (bool_decide (transport = BT_TRANSPORT_BR_EDR)
         && (Z.land dev_type BT_DEVICE_TYPE_BREDR =? 0))
  then (BTM_ILLEGAL_ACTION, cb)
  else btm_sec_bond_by_transport addr addr_type transport pin_len p_pin cb.

(** ** Collisions and retries *)

(** Modelled from the spec: [list_foreach] of osi/list.h with the
    predicate [is_sec_state_equal] is "functionally a find-first-matching
    operation": the first record whose [sec_state] is [state]. *)
Fixpoint find_sec_state (state : tSECURITY_STATE)
    (recs : list tBTM_SEC_DEV_REC) (i : nat) : option nat :=
  match recs with
  | [] => None
  | r :: recs =>
    if bool_decide (sec_state r = state) then Some i
    else find_sec_state state recs (S i)
  end.

Definition btm_sec_find_dev_by_sec_state (state : tSECURITY_STATE)
    (cb : tBTM_CB) : option nat :=
  find_sec_state state (sec_dev_rec cb) 0%nat.

(** the difference of two [uint64_t] clock readings *)
Definition u64_sub (a b : Z) : Z := (a - b) mod 2 ^ 64.

Definition btm_sec_auth_collision (handle : Z) (cb : tBTM_CB) : tBTM_CB :=
  let cb :=
    if collision_start_time cb =? 0
    then set_collision_start_time time_get_os_boottime_ms cb
    else cb in
  if u64_sub time_get_os_boottime_ms (collision_start_time cb)
     <? BTM_SEC_MAX_COLLISION_DELAY
  then
    let p_dev_rec :=
      if handle =? HCI_INVALID_HANDLE then
        match btm_sec_find_dev_by_sec_state BTM_SEC_STATE_AUTHENTICATING cb with
        | None => btm_sec_find_dev_by_sec_state BTM_SEC_STATE_ENCRYPTING cb
        | Some p => Some p
        end
      else btm_find_dev_by_handle handle (sec_dev_rec cb) in
    match p_dev_rec with
    | Some p =>
      (* We will restart authentication after timeout *)
      let cb :=
        if bool_decide (sec_state (dev cb p) = BTM_SEC_STATE_AUTHENTICATING)
           || is_security_state_bredr_encrypting (dev cb p)
        then upd_dev p (set_sec_state BTM_SEC_STATE_IDLE) cb
        else cb in
      let cb := set_p_collided_dev_rec (Some p) cb in
      emit (E_alarm_set_on_mloop sec_collision_timer BT_1SEC_TIMEOUT_MS
              alarm_btm_sec_collision_timeout) cb
    | None => cb
    end
  else cb.

(** The expiry of [sec_collision_timer].  [btm_sec_execute_procedure]
    starts with [CHECK(p_dev_rec != nullptr)]: without a collided record
    the process stops, and nothing more happens to the control block. *)
Definition btm_sec_collision_timeout (cb : tBTM_CB) : tBTM_CB :=
  match p_collided_dev_rec cb with
  | None => cb
  | Some p =>
    let '(status, cb) := btm_sec_execute_procedure p cb in
    (* If result is pending reply from the user or from the device is
       pending *)
    if negb (bool_decide (status = BTM_CMD_STARTED)) then
      (* There is no next procedure or start of procedure failed, notify
         the waiting layer *)
      match p_collided_dev_rec cb with
      | Some p => btm_sec_dev_rec_cback_event p status false cb
      | None => cb
      end
    else cb
  end.

Definition btm_sec_auth_retry (handle : Z) (status : tHCI_STATUS)
    (cb : tBTM_CB) : bool * tBTM_CB :=
  match btm_find_dev_by_handle handle (sec_dev_rec cb) with
  | None => (false, cb)
  | Some p =>
    (* keep the old sm4 flag and clear the retry bit in control block *)
    let old_sm4 := sm4 (dev cb p) in
    let cb := upd_dev p (fun r => set_sm4 (clr8 (sm4 r) BTM_SM4_RETRY) r) cb in
    if bool_decide (pairing_state cb = BTM_PAIR_STATE_IDLE)
       && (Z.land old_sm4 BTM_SM4_RETRY =? 0)
       && bool_decide (HCI_ERR_KEY_MISSING = status)
       && BTM_SEC_IS_SM4 (sm4 (dev cb p))
    then
      (* This retry for missing key is for Lisbon or later only. *)
      let cb := set_collision_start_time 0 cb in
      let cb := btm_restore_mode cb in
      let cb := upd_dev p (fun r => set_sm4 (set8 (sm4 r) BTM_SM4_RETRY) r) cb in
      let cb := upd_dev p (fun r => set_sec_flags
        (clr16 (sec_flags r) BTM_SEC_LINK_KEY_KNOWN) r) cb in
      let cb := upd_dev p (set_sec_state BTM_SEC_STATE_IDLE) cb in
      (true, snd (btm_sec_execute_procedure p cb))
    else (false, cb)
  end.

Definition btm_sec_send_hci_disconnect (p : nat) (reason : tHCI_STATUS)
    (conn_handle : Z) (cb : tBTM_CB) : tBTM_STATUS * tBTM_CB :=
  let send cb :=
    (BTM_CMD_STARTED,
     emit (E_acl_disconnect_after_role_switch conn_handle reason) cb) in
  (* send HCI_Disconnect on a transport only once *)
  match sec_state (dev cb p) with
  | BTM_SEC_STATE_DISCONNECTING =>
    if conn_handle =? hci_handle (dev cb p) then (BTM_CMD_STARTED, cb)
    else send (upd_dev p (set_sec_state BTM_SEC_STATE_DISCONNECTING_BOTH) cb)
  | BTM_SEC_STATE_DISCONNECTING_BLE =>
    if conn_handle =? ble_hci_handle (dev cb p) then (BTM_CMD_STARTED, cb)
    else send (upd_dev p (set_sec_state BTM_SEC_STATE_DISCONNECTING_BOTH) cb)
  | BTM_SEC_STATE_DISCONNECTING_BOTH => (BTM_CMD_STARTED, cb)
  | _ =>
    send (upd_dev p (set_sec_state
            (if conn_handle =? hci_handle (dev cb p)
             then BTM_SEC_STATE_DISCONNECTING
             else BTM_SEC_STATE_DISCONNECTING_BLE)) cb)
  end.

(** ** The authentication complete event *)

Definition is_collision (status : tHCI_STATUS) : bool :=
  bool_decide (status = HCI_ERR_LMP_ERR_TRANS_COLLISION)
  || bool_decide (status = HCI_ERR_DIFF_TRANSACTION_COLLISION).

(** [btm_sec_auth_complete] from the reset of [collision_start_time] on,
    for a handle with a device record [p] *)
Definition btm_sec_auth_complete_known (old_state : tBTM_PAIRING_STATE)
    (p : nat) (status : tHCI_STATUS) (cb : tBTM_CB) : tBTM_CB :=
  let was_authenticating :=
    bool_decide (sec_state (dev cb p) = BTM_SEC_STATE_AUTHENTICATING) in
  let '(status, cb) :=
    if was_authenticating then
      let cb := upd_dev p (set_sec_state BTM_SEC_STATE_IDLE) cb in
      (* we can not do authentication on the encrypted link *)
      let status :=
        if bool_decide (status = HCI_ERR_COMMAND_DISALLOWED)
           && (Z.land (sec_flags (dev cb p))
                 (Z.lor BTM_SEC_AUTHENTICATED BTM_SEC_ENCRYPTED)
               =? Z.lor BTM_SEC_AUTHENTICATED BTM_SEC_ENCRYPTED)
        then HCI_SUCCESS else status in
      if bool_decide (status = HCI_SUCCESS) then
        (status, upd_dev p (fun r => set_sec_flags
           (set16 (sec_flags r) BTM_SEC_AUTHENTICATED) r) cb)
      else (status, cb)
    else (status, cb) in
  let '(are_bonding, cb) :=
    if negb (bool_decide (pairing_state cb = BTM_PAIR_STATE_IDLE))
       && (bd_addr (dev cb p) =? pairing_bda cb)
    then
      (flag (pairing_flags cb) BTM_PAIR_FLAGS_WE_STARTED_DD,
       btm_sec_change_pairing_state BTM_PAIR_STATE_IDLE cb)
    else (false, cb) in
  if negb was_authenticating then
    if negb (bool_decide (status = HCI_SUCCESS))
       && negb (bool_decide (old_state = BTM_PAIR_STATE_IDLE))
    then NotifyBondingChange (dev cb p) status cb
    else cb
  else
    let cb :=
      (* report the suthentication status *)
      if api_p_auth_complete_callback cb
         && (negb (bool_decide (old_state = BTM_PAIR_STATE_IDLE))
             || negb (bool_decide (status = HCI_SUCCESS)))
      then emit (E_p_auth_complete_callback (bd_addr (dev cb p)) status) cb
      else cb in
    (* If this is a bonding procedure can disconnect the link now *)
    if are_bonding then
      let cb := upd_dev p (fun r => set_security_required
        (clr16 (security_required r) BTM_SEC_OUT_AUTHENTICATE) r) cb in
      if negb (bool_decide (status = HCI_SUCCESS)) then
        if negb (bool_decide (status = HCI_ERR_PEER_USER))
           && negb (bool_decide (status = HCI_ERR_CONN_CAUSE_LOCAL_HOST))
        then
          snd (btm_sec_send_hci_disconnect p HCI_ERR_PEER_USER
                 (hci_handle (dev cb p)) cb)
        else cb
      else
        let cb :=
          match BTM_GetRole (bd_addr (dev cb p)) with
          | HCI_ROLE_CENTRAL =>
            (* Encryption is required to start SM over BR/EDR *)
            snd (BTM_SetEncryption (bd_addr (dev cb p)) BT_TRANSPORT_BR_EDR
                   None 0 BTM_BLE_SEC_NONE cb)
          | _ =>
            if IsLocallyInitiated (dev cb p)
            then emit (E_BTM_SwitchRoleToCentral (bd_addr (dev cb p))) cb
            else cb
          end in
        emit (E_l2cu_start_post_bond_timer (hci_handle (dev cb p))) cb
    (* If authentication failed, notify the waiting layer *)
    else if negb (bool_decide (status = HCI_SUCCESS)) then
      let cb := btm_sec_dev_rec_cback_event p BTM_ERR_PROCESSING false cb in
      if flag (pairing_flags cb) BTM_PAIR_FLAGS_DISC_WHEN_DONE then
        snd (btm_sec_send_hci_disconnect p HCI_ERR_AUTH_FAILURE
               (hci_handle (dev cb p)) cb)
      else cb
    else
      let cb :=
        if (16 <=? pin_code_length (dev cb p))
           || (link_key_type (dev cb p) =? BTM_LKEY_TYPE_AUTH_COMB)
           || (link_key_type (dev cb p) =? BTM_LKEY_TYPE_AUTH_COMB_P_256)
        then
          (* If we have MITM protection we have a higher level of security
             than provided by 16 digits PIN *)
          upd_dev p (fun r => set_sec_flags
            (set16 (sec_flags r) BTM_SEC_16_DIGIT_PIN_AUTHED) r) cb
        else cb in
      (* Authentication succeeded, execute the next security procedure *)
      let '(btm_status, cb) := btm_sec_execute_procedure p cb in
      (* If there is no next procedure, or procedure failed to start,
         notify the caller *)
      if negb (bool_decide (btm_status = BTM_CMD_STARTED))
      then btm_sec_dev_rec_cback_event p btm_status false cb
      else cb.

Definition btm_sec_auth_complete (handle : Z) (status : tHCI_STATUS)
    (cb : tBTM_CB) : tBTM_CB :=
  let old_state := pairing_state cb in
  let p_dev_rec := btm_find_dev_by_handle handle (sec_dev_rec cb) in
  (* For transaction collision we need to wait and repeat. *)
  if is_collision status then btm_sec_auth_collision handle cb
  else
    let '(retried, cb) := btm_sec_auth_retry handle status cb in
    if retried then cb
    else
      let cb := set_collision_start_time 0 cb in
      let cb := btm_restore_mode cb in
      match p_dev_rec with
      | None => cb
      | Some p =>
        (* Check if connection was made just to do bonding. *)
        let cb :=
          if flag (pairing_flags cb) BTM_PAIR_FLAGS_WE_STARTED_DD
             && negb (flag (pairing_flags cb) BTM_PAIR_FLAGS_DISC_WHEN_DONE)
          then
            let cb := upd_dev p (fun r => set_security_required
              (clr16 (security_required r) BTM_SEC_OUT_AUTHENTICATE) r) cb in
            emit (E_l2cu_start_post_bond_timer (hci_handle (dev cb p))) cb
          else cb in
        btm_sec_auth_complete_known old_state p status cb
      end.

(** ** The encryption change event *)

#[global] Instance tBTM_SEC_QUEUE_ENTRY_eq_dec : EqDecision tBTM_SEC_QUEUE_ENTRY.
Proof. solve_decision. Defined.

(** [fixed_queue_try_remove_from_queue (btm_cb.sec_pending_q, p_e)] *)
Fixpoint remove_from_queue (p_e : tBTM_SEC_QUEUE_ENTRY)
    (q : list tBTM_SEC_QUEUE_ENTRY) : list tBTM_SEC_QUEUE_ENTRY :=
  match q with
  | [] => []
  | x :: q => if decide (x = p_e) then q else x :: remove_from_queue p_e q
  end.

(** The [for] loop of [btm_sec_check_pending_enc_req] over the nodes that
    the queue holds when the loop starts. *)
Fixpoint check_pending_enc_req_loop (nodes : list tBTM_SEC_QUEUE_ENTRY)
    (p : nat) (transport : tBT_TRANSPORT) (encr_enable : Z)
    (res : tBTM_STATUS) (cb : tBTM_CB) : tBTM_CB :=
  match nodes with
  | [] => cb
  | p_e :: nodes =>
    let cb :=
      if (e_bd_addr p_e =? bd_addr (dev cb p)) && (e_psm p_e =? 0)
         && bool_decide (e_transport p_e = transport)
         && ((encr_enable =? 0)
             || bool_decide (transport = BT_TRANSPORT_BR_EDR)
             || bool_decide (e_sec_act p_e = BTM_BLE_SEC_ENCRYPT)
             || bool_decide (e_sec_act p_e = BTM_BLE_SEC_ENCRYPT_NO_MITM)
             || (bool_decide (e_sec_act p_e = BTM_BLE_SEC_ENCRYPT_MITM)
                 && flag (sec_flags (dev cb p)) BTM_SEC_LE_AUTHENTICATED))
      then
        let cb :=
          call_callback (e_p_callback p_e) (bd_addr (dev cb p)) transport
            (e_p_ref_data p_e) res cb in
        set_sec_pending_q (remove_from_queue p_e (sec_pending_q cb)) cb
      else cb in
    check_pending_enc_req_loop nodes p transport encr_enable res cb
  end.

Definition btm_sec_check_pending_enc_req (p : nat) (transport : tBT_TRANSPORT)
    (encr_enable : Z) (cb : tBTM_CB) : tBTM_CB :=
  let res :=
    if negb (encr_enable =? 0) then BTM_SUCCESS else BTM_ERR_PROCESSING in
  check_pending_enc_req_loop (sec_pending_q cb) p transport encr_enable res cb.

Definition btm_sec_use_smp_br_chnl (r : tBTM_SEC_DEV_REC) : bool :=
  if negb (link_key_type r =? BTM_LKEY_TYPE_UNAUTH_COMB_P_256)
     && negb (link_key_type r =? BTM_LKEY_TYPE_AUTH_COMB_P_256)
  then false
  else
    match L2CA_GetPeerFeatures (bd_addr r) with
    | None => false
    | Some chnl_mask0 => flag chnl_mask0 L2CAP_FIXED_CHNL_SMP_BR_BIT
    end.

(** [btm_sec_encrypt_change] after the update of [sec_flags], for the
    BR/EDR transport *)
Definition btm_sec_encrypt_change_bredr (p : nat) (handle : Z)
    (status : tHCI_STATUS) (encr_enable : Z) (cb : tBTM_CB) : tBTM_CB :=
  (* BR/EDR connection, update the encryption key size to be 16 as always *)
  let cb := upd_dev p (set_enc_key_size 16) cb in
  let cb :=
    if bool_decide (status = HCI_SUCCESS) && negb (encr_enable =? 0)
       && (hci_handle (dev cb p) =? handle)
    then
      (* if BR key is temporary no need for LE LTK derivation *)
      let derive_ltk :=
        negb ((rmt_auth_req (dev cb p) =? BTM_AUTH_SP_NO)
              && (devcb_loc_auth_req cb =? BTM_AUTH_SP_NO)) in
      let role := BTM_GetRole (bd_addr (dev cb p)) in
      if new_encryption_key_is_p256 (dev cb p)
         && (btm_sec_use_smp_br_chnl (dev cb p)
             && bool_decide (role = HCI_ROLE_CENTRAL)
             && (negb (flag (sec_flags (dev cb p)) BTM_SEC_LE_LINK_KEY_KNOWN)
                 || (negb (flag (sec_flags (dev cb p))
                             BTM_SEC_LE_LINK_KEY_AUTHED)
                     && flag (sec_flags (dev cb p)) BTM_SEC_LINK_KEY_AUTHED))
             && derive_ltk)
      then
        (* BR/EDR is encrypted with LK that can be used to derive LE LTK *)
        let cb := upd_dev p (set_new_encryption_key_is_p256 false) cb in
        emit (E_SMP_BR_PairWith (bd_addr (dev cb p))) cb
      else cb
    else cb in
  let finish cb :=
    let cb := upd_dev p (set_sec_state BTM_SEC_STATE_IDLE) cb in
    (* If encryption setup failed, notify the waiting layer *)
    if negb (bool_decide (status = HCI_SUCCESS)) then
      btm_sec_dev_rec_cback_event p BTM_ERR_PROCESSING false cb
    else
      (* Encryption setup succeeded, execute the next security procedure *)
      let '(btm_status, cb) := btm_sec_execute_procedure p cb in
      (* The source tests [status != BTM_CMD_STARTED] on the HCI status,
         which is HCI_SUCCESS here: the test cannot fail. *)
      btm_sec_dev_rec_cback_event p btm_status false cb in
  (* If this encryption was started by peer do not need to do anything *)
  if negb (is_security_state_bredr_encrypting (dev cb p)) then
    if bool_decide (BTM_SEC_STATE_DELAY_FOR_ENC = sec_state (dev cb p)) then
      let cb := upd_dev p (set_sec_state BTM_SEC_STATE_IDLE) cb in
      let cb := upd_dev p (set_p_callback None) cb in
      emit (E_l2cu_resubmit_pending_sec_req (Some (bd_addr (dev cb p)))) cb
    else if negb concurrentPeerAuthIsEnabled
            && bool_decide
                 (sec_state (dev cb p) = BTM_SEC_STATE_AUTHENTICATING)
    then upd_dev p (set_sec_state BTM_SEC_STATE_IDLE) cb
    else if negb handleUnexpectedEncryptionChange then cb
    else finish cb
  else finish cb.

Definition btm_sec_encrypt_change (handle : Z) (status : tHCI_STATUS)
    (encr_enable : Z) (cb : tBTM_CB) : tBTM_CB :=
  (* For transaction collision we need to wait and repeat. *)
  if is_collision status then btm_sec_auth_collision handle cb
  else
    let cb := set_collision_start_time 0 cb in
    match btm_find_dev_by_handle handle (sec_dev_rec cb) with
    | None => cb
    | Some p =>
      let transport :=
        if BTM_IsBleConnection handle
        then BT_TRANSPORT_LE else BT_TRANSPORT_BR_EDR in
      let ignore :=
        bool_decide (status = HCI_SUCCESS) && negb (encr_enable =? 0)
        && (hci_handle (dev cb p) =? handle)
        && flag (sec_flags (dev cb p)) BTM_SEC_AUTHENTICATED
        && flag (sec_flags (dev cb p)) BTM_SEC_ENCRYPTED in
      (* Link is authenticated & encrypted, ignoring this enc change event *)
      if ignore then cb
      else
        let cb :=
          if bool_decide (status = HCI_SUCCESS) then
            if negb (encr_enable =? 0) then
              if hci_handle (dev cb p) =? handle then (* classic *)
                let cb := upd_dev p (fun r => set_sec_flags
                  (set16 (sec_flags r)
                     (Z.lor BTM_SEC_AUTHENTICATED BTM_SEC_ENCRYPTED)) r) cb in
                if (16 <=? pin_code_length (dev cb p))
                   || (link_key_type (dev cb p) =? BTM_LKEY_TYPE_AUTH_COMB)
                   || (link_key_type (dev cb p)
                         =? BTM_LKEY_TYPE_AUTH_COMB_P_256)
                then
                  upd_dev p (fun r => set_sec_flags
                    (set16 (sec_flags r) BTM_SEC_16_DIGIT_PIN_AUTHED) r) cb
                else cb
              else if ble_hci_handle (dev cb p) =? handle then (* BLE *)
                upd_dev p (fun r => set_sec_flags
                  (set16 (sec_flags r) BTM_SEC_LE_ENCRYPTED) r) cb
              else cb
            else
              (* mark link not to be encrypted, so that when we execute
                 security next time it will kick in again *)
              if hci_handle (dev cb p) =? handle then
                upd_dev p (fun r => set_sec_flags
                  (clr16 (sec_flags r) BTM_SEC_ENCRYPTED) r) cb
              else if ble_hci_handle (dev cb p) =? handle then
                upd_dev p (fun r => set_sec_flags
                  (clr16 (sec_flags r) BTM_SEC_LE_ENCRYPTED) r) cb
              else cb
          else cb in
        let cb := btm_sec_check_pending_enc_req p transport encr_enable cb in
        if bool_decide (transport = BT_TRANSPORT_LE) then
          let cb :=
            if bool_decide (status = HCI_ERR_KEY_MISSING)
               || bool_decide (status = HCI_ERR_AUTH_FAILURE)
               || bool_decide (status = HCI_ERR_ENCRY_MODE_NOT_ACCEPTABLE)
            then
              let cb := upd_dev p (fun r => set_sec_flags
                (clr16 (sec_flags r) BTM_SEC_LE_LINK_KEY_KNOWN) r) cb in
              upd_dev p (set_ble_key_type BTM_LE_KEY_NONE) cb
            else cb in
          let cb := upd_dev p (set_sec_status status) cb in
          emit (E_btm_ble_link_encrypted (ble_pseudo_addr (dev cb p))
                  (negb (encr_enable =? 0))) cb
        else btm_sec_encrypt_change_bredr p handle status encr_enable cb
    end.

End SecurityManager.

(** * Further functions of btm_sec.cc

    The queries on a device record, the abort of an access request, the
    role change event, the service security records with the access
    request of L2CAP that reads them, the PIN type, the replies of the
    user during a pairing, the cancellation of a bonding, the
    disconnection request and the pairing timeout. *)

(** ** Further header constants *)

Class MoreConstants := {
  (* tBTM_SEC_SERV_REC::security_flags and the service records *)
  BTM_SEC_IN_USE : Z;
  BTM_SEC_OUT_LEVEL4_FLAGS : Z;
  BTM_SEC_IN_LEVEL4_FLAGS : Z;
  BT_MAX_SERVICE_NAME_LEN : Z;
  BTM_SEC_SERVICE_RFC_MUX : Z;
  BTM_SEC_PROTO_RFCOMM : Z;
  (* the security flags of one transport *)
  BTM_SEC_FLAG_ENCRYPTED : Z;
  BTM_SEC_FLAG_LKEY_KNOWN : Z;
  BTM_SEC_FLAG_LKEY_AUTHED : Z;
  BTM_LKEY_TYPE_IGNORE : Z;
  (* pairing *)
  BTM_PAIR_FLAGS_WE_CANCEL_DD : Z;
  BTM_PAIR_FLAGS_PRE_FETCH_PIN : Z;
  BTM_IO_CAP_NONE : Z;
  BTM_AUTH_AP_NO : Z;
  BTM_AUTH_AP_YES : Z;
  BTM_OOB_NONE : Z;
  BTM_MAX_PASSKEY_VAL : Z;
  (* the number of the HCI status code HCI_ERR_CONNECTION_TOUT *)
  HCI_ERR_CONNECTION_TOUT_code : Z
}.

(** The one constant of the service records btm_sec.cc defines itself. *)
Definition BTM_NO_AVAIL_SEC_SERVICES : Z := 0xffff.

(** ** C strings

    A string is the list of its characters before the terminator. *)

(** a length argument, read as a [size_t] *)
Definition size_t (n : Z) : nat := Z.to_nat (n mod 2 ^ 64).

(** [!strncmp(a, b, n)] *)
Definition strncmp_eq (a b : list Z) (n : Z) : bool :=
  bool_decide (take (size_t n) a = take (size_t n) b).

(** [dst] after [strlcpy(dst, src, size)] *)
Definition strlcpy (dst src : list Z) (size : Z) : list Z :=
  match size_t size with
  | O => dst
  | S n => take n src
  end.

(** ** The service security record *)

Record tBTM_SEC_SERV_REC := mk_serv_rec {
  s_mx_proto_id : Z;
  s_orig_mx_chan_id : Z;
  s_term_mx_chan_id : Z;
  s_psm : Z;
  s_security_flags : Z;
  s_service_id : Z;
  s_orig_service_name : list Z;
  s_term_service_name : list Z
}.

#[global] Instance tBTM_SEC_SERV_REC_eq_dec : EqDecision tBTM_SEC_SERV_REC.
Proof. solve_decision. Defined.

Definition set_s_mx_proto_id (v : Z) (s : tBTM_SEC_SERV_REC) : tBTM_SEC_SERV_REC :=
  mk_serv_rec v (s_orig_mx_chan_id s) (s_term_mx_chan_id s) (s_psm s)
    (s_security_flags s) (s_service_id s) (s_orig_service_name s)
    (s_term_service_name s).

Definition set_s_orig_mx_chan_id (v : Z) (s : tBTM_SEC_SERV_REC) : tBTM_SEC_SERV_REC :=
  mk_serv_rec (s_mx_proto_id s) v (s_term_mx_chan_id s) (s_psm s)
    (s_security_flags s) (s_service_id s) (s_orig_service_name s)
    (s_term_service_name s).

Definition set_s_term_mx_chan_id (v : Z) (s : tBTM_SEC_SERV_REC) : tBTM_SEC_SERV_REC :=
  mk_serv_rec (s_mx_proto_id s) (s_orig_mx_chan_id s) v (s_psm s)
    (s_security_flags s) (s_service_id s) (s_orig_service_name s)
    (s_term_service_name s).

Definition set_s_psm (v : Z) (s : tBTM_SEC_SERV_REC) : tBTM_SEC_SERV_REC :=
  mk_serv_rec (s_mx_proto_id s) (s_orig_mx_chan_id s) (s_term_mx_chan_id s) v
    (s_security_flags s) (s_service_id s) (s_orig_service_name s)
    (s_term_service_name s).

Definition set_s_security_flags (v : Z) (s : tBTM_SEC_SERV_REC) : tBTM_SEC_SERV_REC :=
  mk_serv_rec (s_mx_proto_id s) (s_orig_mx_chan_id s) (s_term_mx_chan_id s)
    (s_psm s) v (s_service_id s) (s_orig_service_name s)
    (s_term_service_name s).

Definition set_s_service_id (v : Z) (s : tBTM_SEC_SERV_REC) : tBTM_SEC_SERV_REC :=
  mk_serv_rec (s_mx_proto_id s) (s_orig_mx_chan_id s) (s_term_mx_chan_id s)
    (s_psm s) (s_security_flags s) v (s_orig_service_name s)
    (s_term_service_name s).

Definition set_s_orig_service_name (v : list Z) (s : tBTM_SEC_SERV_REC) : tBTM_SEC_SERV_REC :=
  mk_serv_rec (s_mx_proto_id s) (s_orig_mx_chan_id s) (s_term_mx_chan_id s)
    (s_psm s) (s_security_flags s) (s_service_id s) v (s_term_service_name s).

Definition set_s_term_service_name (v : list Z) (s : tBTM_SEC_SERV_REC) : tBTM_SEC_SERV_REC :=
  mk_serv_rec (s_mx_proto_id s) (s_orig_mx_chan_id s) (s_term_mx_chan_id s)
    (s_psm s) (s_security_flags s) (s_service_id s) (s_orig_service_name s) v.

(** a record after [memset(p_srec, 0, sizeof(tBTM_SEC_SERV_REC))] *)
Definition serv_rec0 : tBTM_SEC_SERV_REC := mk_serv_rec 0 0 0 0 0 0 [] [].

(** ** Effects of the functions below

    The HCI commands and the calls that [Effect] has no constructor for.
    They are recorded in a log of their own, each with the number of
    entries that [effects] had when it was issued, which fixes the order
    between the two logs. *)

Inductive MoreEffect :=
| E_btsnd_hcic_user_conf_reply (bd_addr : RawAddress) (is_yes : bool)
| E_btsnd_hcic_user_passkey_reply (bd_addr : RawAddress) (value : Z)
| E_btsnd_hcic_user_passkey_neg_reply (bd_addr : RawAddress)
| E_btsnd_hcic_rem_oob_reply (bd_addr : RawAddress) (c r : list Z)
| E_btsnd_hcic_rem_oob_neg_reply (bd_addr : RawAddress)
| E_btsnd_hcic_io_cap_req_reply (bd_addr : RawAddress)
    (capability oob_present auth_req : Z)
| E_btsnd_hcic_create_conn_cancel (dest : RawAddress)
| E_acl_disconnect_from_handle (handle : Z) (reason : tHCI_STATUS)
| E_BTM_CancelRemoteDeviceName
| E_SMP_PairCancel (bd_addr : RawAddress)
| E_p_bond_cancel_cmpl_callback (result : tBTM_STATUS).

(** ** The control block with its further fields

    [base_cb] holds the fields modelled so far; the others are the
    service records with [p_out_serv], a pointer into them, the
    configured PIN code and the bond cancel callback of the
    application. *)

Record tBTM_CB_EXT := mk_btm_cb_ext {
  base_cb : tBTM_CB;
  sec_serv_rec : list tBTM_SEC_SERV_REC;
  p_out_serv : option nat;
  cfg_pin_code_len : Z;
  cfg_pin_code : list Z;
  api_p_bond_cancel_cmpl_callback : bool;
  more_effects : list (nat * MoreEffect)
}.

Definition set_base_cb (v : tBTM_CB) (x : tBTM_CB_EXT) : tBTM_CB_EXT :=
  mk_btm_cb_ext v (sec_serv_rec x) (p_out_serv x) (cfg_pin_code_len x)
    (cfg_pin_code x) (api_p_bond_cancel_cmpl_callback x) (more_effects x).

Definition set_sec_serv_rec (v : list tBTM_SEC_SERV_REC) (x : tBTM_CB_EXT) : tBTM_CB_EXT :=
  mk_btm_cb_ext (base_cb x) v (p_out_serv x) (cfg_pin_code_len x)
    (cfg_pin_code x) (api_p_bond_cancel_cmpl_callback x) (more_effects x).

Definition set_p_out_serv (v : option nat) (x : tBTM_CB_EXT) : tBTM_CB_EXT :=
  mk_btm_cb_ext (base_cb x) (sec_serv_rec x) v (cfg_pin_code_len x)
    (cfg_pin_code x) (api_p_bond_cancel_cmpl_callback x) (more_effects x).



Definition set_more_effects (v : list (nat * MoreEffect)) (x : tBTM_CB_EXT) : tBTM_CB_EXT :=
  mk_btm_cb_ext (base_cb x) (sec_serv_rec x) (p_out_serv x)
    (cfg_pin_code_len x) (cfg_pin_code x) (api_p_bond_cancel_cmpl_callback x)
    v.


(** a step of the functions modelled so far, in the whole control block *)
Definition on_base (f : tBTM_CB -> tBTM_CB) (x : tBTM_CB_EXT) : tBTM_CB_EXT :=
  set_base_cb (f (base_cb x)) x.

Definition on_base_ret {A : Type} (f : tBTM_CB -> A * tBTM_CB)
    (x : tBTM_CB_EXT) : A * tBTM_CB_EXT :=
  (fst (f (base_cb x)), set_base_cb (snd (f (base_cb x))) x).

Definition emit_more (e : MoreEffect) (x : tBTM_CB_EXT) : tBTM_CB_EXT :=
  set_more_effects
    (more_effects x ++ [(length (effects (base_cb x)), e)]) x.

(** [*p_srec] and an assignment through [p_srec->] *)
Definition serv (x : tBTM_CB_EXT) (i : nat) : tBTM_SEC_SERV_REC :=
  default serv_rec0 (sec_serv_rec x !! i).

Definition upd_serv (i : nat) (f : tBTM_SEC_SERV_REC -> tBTM_SEC_SERV_REC)
    (x : tBTM_CB_EXT) : tBTM_CB_EXT :=
  set_sec_serv_rec (alter f i (sec_serv_rec x)) x.

(** ** Functions of the neighbouring modules, continued *)

Class MoreExternals := {
  (* smp_api.cc: true when a pairing with the peer was there to cancel *)
  SMP_PairCancel : RawAddress -> bool
}.

Section SecurityManagerMore.
Context `{Consts : Constants} `{Ext : Externals}.
Context `{MConsts : MoreConstants} `{MExt : MoreExternals}.

Definition HCI_ERR_CONNECTION_TOUT : tHCI_STATUS :=
  HCI_ERR_OTHER HCI_ERR_CONNECTION_TOUT_code.

(** ** Queries on a device record *)

(** The result and [*p_sec_flags], which holds [p_sec_flags] before the
    call. *)
Definition BTM_GetSecurityFlagsByTransport (addr : RawAddress)
    (p_sec_flags : Z) (transport : tBT_TRANSPORT) (cb : tBTM_CB) : bool * Z :=
  match btm_find_dev addr (sec_dev_rec cb) with
  | Some p =>
    if bool_decide (transport = BT_TRANSPORT_BR_EDR)
    then (true, u8 (sec_flags (dev cb p)))
    else (true, u8 (Z.shiftr (sec_flags (dev cb p)) 8))
  | None => (false, p_sec_flags)
  end.

Definition BTM_IsEncrypted (addr : RawAddress) (transport : tBT_TRANSPORT)
    (cb : tBTM_CB) : bool :=
  let flags := 0 in
  let flags := snd (BTM_GetSecurityFlagsByTransport addr flags transport cb) in
  negb (Z.land flags BTM_SEC_FLAG_ENCRYPTED =? 0).

Definition BTM_IsLinkKeyAuthed (addr : RawAddress) (transport : tBT_TRANSPORT)
    (cb : tBTM_CB) : bool :=
  let flags := 0 in
  let flags := snd (BTM_GetSecurityFlagsByTransport addr flags transport cb) in
  negb (Z.land flags BTM_SEC_FLAG_LKEY_AUTHED =? 0).

Definition BTM_IsLinkKeyKnown (addr : RawAddress) (transport : tBT_TRANSPORT)
    (cb : tBTM_CB) : bool :=
  let flags := 0 in
  let flags := snd (BTM_GetSecurityFlagsByTransport addr flags transport cb) in
  negb (Z.land flags BTM_SEC_FLAG_LKEY_KNOWN =? 0).

Definition BTM_IsAuthenticated (addr : RawAddress) (transport : tBT_TRANSPORT)
    (cb : tBTM_CB) : bool :=
  let flags := 0 in
  let flags := snd (BTM_GetSecurityFlagsByTransport addr flags transport cb) in
  negb (Z.land flags BTM_SEC_AUTHENTICATED =? 0).

Definition BTM_SecGetDeviceLinkKeyType (addr : RawAddress) (cb : tBTM_CB) : Z :=
  match btm_find_dev addr (sec_dev_rec cb) with
  | Some p =>
    if flag (sec_flags (dev cb p)) BTM_SEC_LINK_KEY_KNOWN
    then link_key_type (dev cb p)
    else BTM_LKEY_TYPE_IGNORE
  | None => BTM_LKEY_TYPE_IGNORE
  end.

Definition BTM_PeerSupportsSecureConnections (addr : RawAddress)
    (cb : tBTM_CB) : bool :=
  match btm_find_dev addr (sec_dev_rec cb) with
  | None => false
  | Some p => SupportsSecureConnections (dev cb p)
  end.

Definition BTM_BothEndsSupportSecureConnections (addr : RawAddress)
    (cb : tBTM_CB) : bool :=
  controller_supports_secure_connections
  && BTM_PeerSupportsSecureConnections addr cb.

Definition btm_sec_is_a_bonded_dev (bda : RawAddress) (cb : tBTM_CB) : bool :=
  let is_bonded := false in
  match btm_find_dev bda (sec_dev_rec cb) with
  | Some p =>
    if (negb (ble_key_type (dev cb p) =? 0)
        && flag (sec_flags (dev cb p)) BTM_SEC_LE_LINK_KEY_KNOWN)
       || flag (sec_flags (dev cb p)) BTM_SEC_LINK_KEY_KNOWN
    then true else is_bonded
  | None => is_bonded
  end.

(** ** The abort of an access request and the role change event *)

Definition btm_sec_abort_access_req (addr : RawAddress) (cb : tBTM_CB)
    : tBTM_CB :=
  match btm_find_dev addr (sec_dev_rec cb) with
  | None => cb
  | Some p =>
    if negb (bool_decide (sec_state (dev cb p) = BTM_SEC_STATE_AUTHORIZING))
       && negb (bool_decide
                  (sec_state (dev cb p) = BTM_SEC_STATE_AUTHENTICATING))
    then cb
    else
      let cb := upd_dev p (set_sec_state BTM_SEC_STATE_IDLE) cb in
      upd_dev p (set_p_callback None) cb
  end.


(** ** The PIN type *)


(** ** The service security records *)

(** the test that [BTM_SetSecurityLevel] makes on a record in use *)
Definition serv_rec_is_for (p_name : option (list Z))
    (service_id psm mx_proto_id : Z) (s : tBTM_SEC_SERV_REC) : bool :=
  (s_psm s =? psm) && (s_mx_proto_id s =? mx_proto_id)
  && (service_id =? s_service_id s)
  && match p_name with
     | Some name =>
       strncmp_eq name (s_orig_service_name s) (BT_MAX_SERVICE_NAME_LEN - 1)
       || strncmp_eq name (s_term_service_name s)
            (BT_MAX_SERVICE_NAME_LEN - 1)
     | None => false
     end.

(** The [for] loop of [BTM_SetSecurityLevel] from [index] on, over the
    records [recs] it has not visited yet.  It yields these records as
    the loop leaves them, the index at which it broke off, if it did,
    [record_allocated] and [first_unused_record]. *)
Fixpoint SetSecurityLevel_loop (p_name : option (list Z))
    (service_id psm mx_proto_id : Z) (recs : list tBTM_SEC_SERV_REC)
    (index : nat) (record_allocated : bool) (first_unused_record : Z)
    : list tBTM_SEC_SERV_REC * option nat * bool * Z :=
  match recs with
  | [] => ([], None, record_allocated, first_unused_record)
  | s :: recs =>
    (* Check if there is already a record for this service *)
    if flag (s_security_flags s) BTM_SEC_IN_USE then
      if serv_rec_is_for p_name service_id psm mx_proto_id s
      then (s :: recs, Some index, true, first_unused_record)
      else
        let '(recs, brk, record_allocated, first_unused_record) :=
          SetSecurityLevel_loop p_name service_id psm mx_proto_id recs
            (S index) record_allocated first_unused_record in
        (s :: recs, brk, record_allocated, first_unused_record)
    (* Mark the first available service record *)
    else if negb record_allocated then
      let '(recs, brk, record_allocated, first_unused_record) :=
        SetSecurityLevel_loop p_name service_id psm mx_proto_id recs
          (S index) true (u16 (Z.of_nat index)) in
      (serv_rec0 :: recs, brk, record_allocated, first_unused_record)
    else
      let '(recs, brk, record_allocated, first_unused_record) :=
        SetSecurityLevel_loop p_name service_id psm mx_proto_id recs
          (S index) record_allocated first_unused_record in
      (s :: recs, brk, record_allocated, first_unused_record)
  end.

(** [None] is the call that passes a NULL [p_name] to [strlcpy]. *)
Definition BTM_SetSecurityLevel (is_originator : bool)
    (p_name : option (list Z)) (service_id sec_level psm mx_proto_id
    mx_chan_id : Z) (x : tBTM_CB_EXT) : option (bool * tBTM_CB_EXT) :=
  (* See if the record can be reused (same service name, psm, mx_proto_id,
     service_id, and mx_chan_id), or obtain the next unused record *)
  let '(recs, brk, record_allocated, first_unused_record) :=
    SetSecurityLevel_loop p_name service_id psm mx_proto_id (sec_serv_rec x)
      0%nat false BTM_NO_AVAIL_SEC_SERVICES in
  let x := set_sec_serv_rec recs x in
  if negb record_allocated then Some (record_allocated, x)
  else
    (* If a duplicate service wasn't found, use the first available *)
    let index :=
      match brk with
      | Some index => index
      | None => Z.to_nat first_unused_record
      end in
    match p_name with
    | None => None
    | Some name =>
      let x := upd_serv index (set_s_psm psm) x in
      let x := upd_serv index (set_s_service_id service_id) x in
      let x := upd_serv index (set_s_mx_proto_id mx_proto_id) x in
      let '(sec_level, x) :=
        if is_originator then
          let x := upd_serv index (set_s_orig_mx_chan_id mx_chan_id) x in
          let x := upd_serv index (fun s => set_s_orig_service_name
            (strlcpy (s_orig_service_name s) name
               (BT_MAX_SERVICE_NAME_LEN + 1)) s) x in
          (* clear out the old setting, just in case it exists *)
          let x := upd_serv index (fun s => set_s_security_flags
            (clr16 (s_security_flags s)
               (Z.lor (Z.lor BTM_SEC_OUT_ENCRYPT BTM_SEC_OUT_AUTHENTICATE)
                  BTM_SEC_OUT_MITM)) s) x in
          (* Parameter validation.  Originator should not set requirements
             for incoming connections *)
          let sec_level :=
            clr16 sec_level
              (Z.lor (Z.lor (Z.lor BTM_SEC_IN_ENCRYPT BTM_SEC_IN_AUTHENTICATE)
                        BTM_SEC_IN_MITM) BTM_SEC_IN_MIN_16_DIGIT_PIN) in
          let sec_level :=
            if (security_mode (base_cb x) =? BTM_SEC_MODE_SP)
               || (security_mode (base_cb x) =? BTM_SEC_MODE_SC)
            then
              if flag sec_level BTM_SEC_OUT_AUTHENTICATE
              then set16 sec_level BTM_SEC_OUT_MITM else sec_level
            else sec_level in
          (* Make sure the authenticate bit is set, when encrypt bit is
             set *)
          let sec_level :=
            if flag sec_level BTM_SEC_OUT_ENCRYPT
            then set16 sec_level BTM_SEC_OUT_AUTHENTICATE else sec_level in
          (* outgoing connections usually set the security level right
             before the connection is initiated.  set it to be the outgoing
             service *)
          (sec_level, set_p_out_serv (Some index) x)
        else
          let x := upd_serv index (set_s_term_mx_chan_id mx_chan_id) x in
          let x := upd_serv index (fun s => set_s_term_service_name
            (strlcpy (s_term_service_name s) name
               (BT_MAX_SERVICE_NAME_LEN + 1)) s) x in
          (* clear out the old setting, just in case it exists *)
          let x := upd_serv index (fun s => set_s_security_flags
            (clr16 (s_security_flags s)
               (Z.lor (Z.lor (Z.lor BTM_SEC_IN_ENCRYPT BTM_SEC_IN_AUTHENTICATE)
                         BTM_SEC_IN_MITM) BTM_SEC_IN_MIN_16_DIGIT_PIN)) s) x in
          (* Parameter validation.  Acceptor should not set requirements
             for outgoing connections *)
          let sec_level :=
            clr16 sec_level
              (Z.lor (Z.lor BTM_SEC_OUT_ENCRYPT BTM_SEC_OUT_AUTHENTICATE)
                 BTM_SEC_OUT_MITM) in
          let sec_level :=
            if (security_mode (base_cb x) =? BTM_SEC_MODE_SP)
               || (security_mode (base_cb x) =? BTM_SEC_MODE_SC)
            then
              if flag sec_level BTM_SEC_IN_AUTHENTICATE
              then set16 sec_level BTM_SEC_IN_MITM else sec_level
            else sec_level in
          (* Make sure the authenticate bit is set, when encrypt bit is
             set *)
          let sec_level :=
            if flag sec_level BTM_SEC_IN_ENCRYPT
            then set16 sec_level BTM_SEC_IN_AUTHENTICATE else sec_level in
          (sec_level, x) in
      let x := upd_serv index (fun s => set_s_security_flags
        (set16 (s_security_flags s)
           (u16 (Z.lor sec_level BTM_SEC_IN_USE))) s) x in
      Some (record_allocated, x)
    end.

(** the [for] loop of [BTM_SecClrService]; [num_freed] is a [uint8_t] *)
Fixpoint SecClrService_loop (service_id : Z) (recs : list tBTM_SEC_SERV_REC)
    (num_freed : Z) : list tBTM_SEC_SERV_REC * Z :=
  match recs with
  | [] => ([], num_freed)
  | s :: recs =>
    (* Delete services with specified name (if in use and not SDP) *)
    if flag (s_security_flags s) BTM_SEC_IN_USE
       && negb (s_psm s =? BT_PSM_SDP)
       && ((service_id =? 0) || (service_id =? s_service_id s))
    then
      let '(recs, num_freed) :=
        SecClrService_loop service_id recs (u8 (num_freed + 1)) in
      (set_s_security_flags 0 s :: recs, num_freed)
    else
      let '(recs, num_freed) := SecClrService_loop service_id recs num_freed in
      (s :: recs, num_freed)
  end.

Definition BTM_SecClrService (service_id : Z) (x : tBTM_CB_EXT)
    : Z * tBTM_CB_EXT :=
  let '(recs, num_freed) := SecClrService_loop service_id (sec_serv_rec x) 0 in
  (num_freed, set_sec_serv_rec recs x).

Fixpoint SecClrServiceByPsm_loop (psm : Z) (recs : list tBTM_SEC_SERV_REC)
    (num_freed : Z) : list tBTM_SEC_SERV_REC * Z :=
  match recs with
  | [] => ([], num_freed)
  | s :: recs =>
    if flag (s_security_flags s) BTM_SEC_IN_USE && (s_psm s =? psm) then
      let '(recs, num_freed) :=
        SecClrServiceByPsm_loop psm recs (u8 (num_freed + 1)) in
      (set_s_security_flags 0 s :: recs, num_freed)
    else
      let '(recs, num_freed) := SecClrServiceByPsm_loop psm recs num_freed in
      (s :: recs, num_freed)
  end.

Definition BTM_SecClrServiceByPsm (psm : Z) (x : tBTM_CB_EXT)
    : Z * tBTM_CB_EXT :=
  let '(recs, num_freed) := SecClrServiceByPsm_loop psm (sec_serv_rec x) 0 in
  (num_freed, set_sec_serv_rec recs x).

(** the [for] loop of [btm_sec_find_first_serv] from the index [i] on *)
Fixpoint find_first_serv_loop (psm : Z) (recs : list tBTM_SEC_SERV_REC)
    (i : nat) : option nat :=
  match recs with
  | [] => None
  | s :: recs =>
    if flag (s_security_flags s) BTM_SEC_IN_USE && (s_psm s =? psm)
    then Some i
    else find_first_serv_loop psm recs (S i)
  end.

Definition btm_sec_find_first_serv (is_originator : bool) (psm : Z)
    (x : tBTM_CB_EXT) : option nat :=
  if is_originator && bool_decide (p_out_serv x <> None)
     && (s_psm (serv x (default 0%nat (p_out_serv x))) =? psm)
  then
    (* If this is outgoing connection and the PSM matches p_out_serv, use
       it as the current service *)
    p_out_serv x
  else
    (* otherwise, just find the first record with the specified PSM *)
    find_first_serv_loop psm (sec_serv_rec x) 0%nat.

Definition btm_sec_set_serv_level4_flags (cur_security : Z)
    (is_originator : bool) : Z :=
  let sec_level4_flags :=
    u16 (if is_originator
         then BTM_SEC_OUT_LEVEL4_FLAGS else BTM_SEC_IN_LEVEL4_FLAGS) in
  u16 (Z.lor cur_security sec_level4_flags).

(** ** The access request of L2CAP *)

Definition btm_sec_l2cap_access_req (addr : RawAddress) (psm : Z)
    (is_originator : bool) (callback : option tBTM_SEC_CALLBACK)
    (ref_data : RefData) (x : tBTM_CB_EXT) : tBTM_STATUS * tBTM_CB_EXT :=
  let transport := BT_TRANSPORT_BR_EDR in
  (* Find the service record for the PSM *)
  match btm_sec_find_first_serv is_originator psm x with
  | None =>
    (* If there is no application registered with this PSM do not allow
       connection *)
    (BTM_MODE_UNSUPPORTED,
     on_base (call_callback callback addr transport ref_data
                BTM_MODE_UNSUPPORTED) x)
  | Some p_serv_rec =>
    (* Services level0 by default have no security *)
    if psm =? BT_PSM_SDP then
      (BTM_SUCCESS,
       on_base (call_callback callback addr transport ref_data
                  BTM_SUCCESS_NO_SECURITY) x)
    else
      let security_required :=
        if security_mode (base_cb x) =? BTM_SEC_MODE_SC then
          btm_sec_set_serv_level4_flags
            (s_security_flags (serv x p_serv_rec)) is_originator
        else s_security_flags (serv x p_serv_rec) in
      on_base_ret
        (btm_sec_l2cap_access_req_by_requirement addr security_required
           is_originator callback ref_data) x
  end.

(** ** The replies of the user during a pairing *)

Definition BTM_ConfirmReqReply (res : tBTM_STATUS) (addr : RawAddress)
    (x : tBTM_CB_EXT) : tBTM_CB_EXT :=
  (* If timeout already expired or has been canceled, ignore the reply *)
  if negb (bool_decide
             (pairing_state (base_cb x) = BTM_PAIR_STATE_WAIT_NUMERIC_CONFIRM))
     || negb (pairing_bda (base_cb x) =? addr)
  then x
  else
    let x :=
      on_base (btm_sec_change_pairing_state BTM_PAIR_STATE_WAIT_AUTH_COMPLETE)
        x in
    if bool_decide (res = BTM_SUCCESS)
       || bool_decide (res = BTM_SUCCESS_NO_SECURITY)
    then
      let x := on_base (emit (E_acl_set_disconnect_reason HCI_SUCCESS)) x in
      emit_more (E_btsnd_hcic_user_conf_reply addr true) x
    else
      (* Report authentication failed event from state
         BTM_PAIR_STATE_WAIT_AUTH_COMPLETE *)
      let x :=
        on_base (emit (E_acl_set_disconnect_reason
                         HCI_ERR_HOST_REJECT_SECURITY)) x in
      emit_more (E_btsnd_hcic_user_conf_reply addr false) x.

Definition BTM_RemoteOobDataReply (res : tBTM_STATUS) (addr : RawAddress)
    (c r : list Z) (x : tBTM_CB_EXT) : tBTM_CB_EXT :=
  (* If timeout already expired or has been canceled, ignore the reply *)
  if negb (bool_decide
             (pairing_state (base_cb x) = BTM_PAIR_STATE_WAIT_LOCAL_OOB_RSP))
  then x
  else
    let x :=
      on_base (btm_sec_change_pairing_state BTM_PAIR_STATE_WAIT_AUTH_COMPLETE)
        x in
    if negb (bool_decide (res = BTM_SUCCESS)) then
      (* use BTM_PAIR_STATE_WAIT_AUTH_COMPLETE to report authentication
         failed event *)
      let x :=
        on_base (emit (E_acl_set_disconnect_reason
                         HCI_ERR_HOST_REJECT_SECURITY)) x in
      emit_more (E_btsnd_hcic_rem_oob_neg_reply addr) x
    else
      let x := on_base (emit (E_acl_set_disconnect_reason HCI_SUCCESS)) x in
      emit_more (E_btsnd_hcic_rem_oob_reply addr c r) x.

(** ** The cancellation of a bonding *)

Definition btm_sec_bond_cancel_complete (x : tBTM_CB_EXT) : tBTM_CB_EXT :=
  let cb := base_cb x in
  if flag (pairing_flags cb) BTM_PAIR_FLAGS_DISC_WHEN_DONE
     || (bool_decide (BTM_PAIR_STATE_WAIT_LOCAL_PIN = pairing_state cb)
         && flag BTM_PAIR_FLAGS_WE_STARTED_DD (pairing_flags cb))
     || (bool_decide (pairing_state cb = BTM_PAIR_STATE_GET_REM_NAME)
         && flag BTM_PAIR_FLAGS_WE_CANCEL_DD (pairing_flags cb))
  then
    let x :=
      match btm_find_dev (pairing_bda cb) (sec_dev_rec cb) with
      | Some p => on_base (upd_dev p (set_security_required BTM_SEC_NONE)) x
      | None => x
      end in
    let x := on_base (btm_sec_change_pairing_state BTM_PAIR_STATE_IDLE) x in
    (* Notify application that the cancel succeeded *)
    if api_p_bond_cancel_cmpl_callback x
    then emit_more (E_p_bond_cancel_cmpl_callback BTM_SUCCESS) x
    else x
  else x.

Definition BTM_SecBondCancel (addr : RawAddress) (x : tBTM_CB_EXT)
    : tBTM_STATUS * tBTM_CB_EXT :=
  let cb := base_cb x in
  match btm_find_dev addr (sec_dev_rec cb) with
  | None => (BTM_UNKNOWN_ADDR, x)
  | Some p =>
    if negb (pairing_bda cb =? addr) then (BTM_UNKNOWN_ADDR, x)
    else if flag (pairing_flags cb) BTM_PAIR_FLAGS_LE_ACTIVE then
      if bool_decide (sec_state (dev cb p) = BTM_SEC_STATE_AUTHENTICATING)
      then
        let x := emit_more (E_SMP_PairCancel addr) x in
        if SMP_PairCancel addr then (BTM_CMD_STARTED, x)
        else (BTM_WRONG_MODE, x)
      else (BTM_WRONG_MODE, x)
    else if bool_decide (BTM_PAIR_STATE_WAIT_LOCAL_PIN = pairing_state cb)
            && flag BTM_PAIR_FLAGS_WE_STARTED_DD (pairing_flags cb)
    then
      (* pre-fetching pin for dedicated bonding *)
      (BTM_SUCCESS, btm_sec_bond_cancel_complete x)
    (* If this BDA is in a bonding procedure *)
    else if negb (bool_decide (pairing_state cb = BTM_PAIR_STATE_IDLE))
            && flag (pairing_flags cb) BTM_PAIR_FLAGS_WE_STARTED_DD
    then
      (* If the HCI link is up *)
      if negb (hci_handle (dev cb p) =? HCI_INVALID_HANDLE) then
        (* If some other thread disconnecting, we do not send second
           command *)
        if bool_decide (sec_state (dev cb p) = BTM_SEC_STATE_DISCONNECTING)
           || bool_decide
                (sec_state (dev cb p) = BTM_SEC_STATE_DISCONNECTING_BOTH)
        then (BTM_CMD_STARTED, x)
        (* If the HCI link was set up by Bonding process *)
        else if flag (pairing_flags cb) BTM_PAIR_FLAGS_DISC_WHEN_DONE then
          on_base_ret
            (btm_sec_send_hci_disconnect p HCI_ERR_PEER_USER
               (hci_handle (dev cb p))) x
        else
          (BTM_NOT_AUTHORIZED,
           on_base (emit (E_l2cu_update_lcb_4_bonding addr false)) x)
      else
        (* If the HCI link creation was started by Bonding process *)
        if flag (pairing_flags cb) BTM_PAIR_FLAGS_DISC_WHEN_DONE then
          (BTM_CMD_STARTED, emit_more (E_btsnd_hcic_create_conn_cancel addr) x)
        else if bool_decide (pairing_state cb = BTM_PAIR_STATE_GET_REM_NAME)
        then
          let x := emit_more E_BTM_CancelRemoteDeviceName x in
          (BTM_CMD_STARTED,
           on_base (fun cb => set_pairing_flags
             (set8 (pairing_flags cb) BTM_PAIR_FLAGS_WE_CANCEL_DD) cb) x)
        else (BTM_NOT_AUTHORIZED, x)
    else (BTM_WRONG_MODE, x)
  end.

Definition BTM_PasskeyReqReply (res : tBTM_STATUS) (addr : RawAddress)
    (passkey : Z) (x : tBTM_CB_EXT) : tBTM_CB_EXT :=
  (* the reply itself, after the two tests on the pairing state *)
  let reply (x : tBTM_CB_EXT) : tBTM_CB_EXT :=
    let res :=
      if BTM_MAX_PASSKEY_VAL <? passkey then BTM_ILLEGAL_VALUE else res in
    let x :=
      on_base (btm_sec_change_pairing_state BTM_PAIR_STATE_WAIT_AUTH_COMPLETE)
        x in
    if negb (bool_decide (res = BTM_SUCCESS)) then
      (* use BTM_PAIR_STATE_WAIT_AUTH_COMPLETE to report authentication
         failed event *)
      let x :=
        on_base (emit (E_acl_set_disconnect_reason
                         HCI_ERR_HOST_REJECT_SECURITY)) x in
      emit_more (E_btsnd_hcic_user_passkey_neg_reply addr) x
    else
      let x := on_base (emit (E_acl_set_disconnect_reason HCI_SUCCESS)) x in
      emit_more (E_btsnd_hcic_user_passkey_reply addr passkey) x in
  if bool_decide (pairing_state (base_cb x) = BTM_PAIR_STATE_IDLE)
     || negb (pairing_bda (base_cb x) =? addr)
  then x
  (* If timeout already expired or has been canceled, ignore the reply *)
  else if bool_decide
            (pairing_state (base_cb x) = BTM_PAIR_STATE_WAIT_AUTH_COMPLETE)
          && negb (bool_decide (res = BTM_SUCCESS))
  then
    match btm_find_dev addr (sec_dev_rec (base_cb x)) with
    | Some p =>
      let x :=
        on_base (emit (E_acl_set_disconnect_reason
                         HCI_ERR_HOST_REJECT_SECURITY)) x in
      let x :=
        if negb (hci_handle (dev (base_cb x) p) =? HCI_INVALID_HANDLE) then
          snd (on_base_ret
                 (btm_sec_send_hci_disconnect p HCI_ERR_AUTH_FAILURE
                    (hci_handle (dev (base_cb x) p))) x)
        else snd (BTM_SecBondCancel addr x) in
      let x :=
        on_base (upd_dev p (fun r => set_sec_flags
          (clr16 (sec_flags r)
             (Z.lor BTM_SEC_LINK_KEY_AUTHED BTM_SEC_LINK_KEY_KNOWN)) r)) x in
      on_base (btm_sec_change_pairing_state BTM_PAIR_STATE_IDLE) x
    | None => reply x
    end
  else if negb (bool_decide
                  (pairing_state (base_cb x) = BTM_PAIR_STATE_KEY_ENTRY))
  then x
  else reply x.

(** ** The disconnection request *)


(** ** The pairing timeout *)

Definition btm_sec_pairing_timeout (x : tBTM_CB_EXT) : tBTM_CB_EXT :=
  let auth_req :=
    if devcb_loc_io_caps (base_cb x) =? BTM_IO_CAP_NONE
    then BTM_AUTH_AP_NO else BTM_AUTH_AP_YES in
  let p_dev_rec :=
    btm_find_dev (pairing_bda (base_cb x)) (sec_dev_rec (base_cb x)) in
  (* We need to notify the UI that timeout has happened; [name] is
     empty for an unknown peer *)
  let notify (cb : tBTM_CB) : tBTM_CB :=
    if api_p_auth_complete_callback cb then
      match p_dev_rec with
      | None =>
        emit (E_p_auth_complete_callback (pairing_bda cb)
                HCI_ERR_CONNECTION_TOUT) cb
      | Some p => NotifyBondingChange (dev cb p) HCI_ERR_CONNECTION_TOUT cb
      end
    else cb in
  match pairing_state (base_cb x) with
  | BTM_PAIR_STATE_WAIT_PIN_REQ => btm_sec_bond_cancel_complete x
  | BTM_PAIR_STATE_WAIT_LOCAL_PIN =>
    let x :=
      if Z.land (pairing_flags (base_cb x)) BTM_PAIR_FLAGS_PRE_FETCH_PIN =? 0
      then on_base (fun cb =>
             emit (E_btsnd_hcic_pin_code_neg_reply (pairing_bda cb)) cb) x
      else x in
    let x := on_base (btm_sec_change_pairing_state BTM_PAIR_STATE_IDLE) x in
    (* We need to notify the UI that no longer need the PIN *)
    on_base notify x
  | BTM_PAIR_STATE_WAIT_NUMERIC_CONFIRM =>
    emit_more (E_btsnd_hcic_user_conf_reply (pairing_bda (base_cb x)) false) x
  | BTM_PAIR_STATE_KEY_ENTRY =>
    if negb (devcb_loc_io_caps (base_cb x) =? BTM_IO_CAP_NONE) then
      emit_more
        (E_btsnd_hcic_user_passkey_neg_reply (pairing_bda (base_cb x))) x
    else on_base (btm_sec_change_pairing_state BTM_PAIR_STATE_IDLE) x
  | BTM_PAIR_STATE_WAIT_LOCAL_IOCAPS =>
    let x :=
      emit_more
        (E_btsnd_hcic_io_cap_req_reply (pairing_bda (base_cb x))
           (devcb_loc_io_caps (base_cb x)) BTM_OOB_NONE auth_req) x in
    on_base (btm_sec_change_pairing_state BTM_PAIR_STATE_IDLE) x
  | BTM_PAIR_STATE_WAIT_LOCAL_OOB_RSP =>
    let x :=
      emit_more (E_btsnd_hcic_rem_oob_neg_reply (pairing_bda (base_cb x))) x in
    on_base (btm_sec_change_pairing_state BTM_PAIR_STATE_IDLE) x
  | BTM_PAIR_STATE_WAIT_DISCONNECT =>
    (* simple pairing failed.  Started a 1-sec timer at simple pairing
       complete.  now it's time to tear down the ACL link *)
    match p_dev_rec with
    | None => x
    | Some p =>
      let x :=
        on_base (fun cb =>
          snd (btm_sec_send_hci_disconnect p HCI_ERR_AUTH_FAILURE
                 (hci_handle (dev cb p)) cb)) x in
      on_base (btm_sec_change_pairing_state BTM_PAIR_STATE_IDLE) x
    end
  | BTM_PAIR_STATE_WAIT_AUTH_COMPLETE
  | BTM_PAIR_STATE_GET_REM_NAME =>
    (* We need to notify the UI that timeout has happened while waiting for
       authentication *)
    let x := on_base (btm_sec_change_pairing_state BTM_PAIR_STATE_IDLE) x in
    on_base notify x
  | _ => on_base (btm_sec_change_pairing_state BTM_PAIR_STATE_IDLE) x
  end.

End SecurityManagerMore.

(** ** Concrete values for evaluation

    The values the constants have in the upstream headers, and a small
    environment: the device record store as a linear scan, the ACL link
    up for every address but 0, the controller ready, and security
    callbacks that do nothing but be recorded.  They serve to run the model on
    concrete inputs; no general statement below depends on them. *)

Definition aosp_constants : Constants := {|
  BTM_SEC_AUTHENTICATED := 0x0002;
  BTM_SEC_ENCRYPTED := 0x0004;
  BTM_SEC_NAME_KNOWN := 0x0008;
  BTM_SEC_LINK_KEY_KNOWN := 0x0010;
  BTM_SEC_LINK_KEY_AUTHED := 0x0020;
  BTM_SEC_ROLE_SWITCHED := 0x0040;
  BTM_SEC_16_DIGIT_PIN_AUTHED := 0x4000;
  BTM_SEC_LE_AUTHENTICATED := 0x0200;
  BTM_SEC_LE_ENCRYPTED := 0x0400;
  BTM_SEC_LE_LINK_KEY_KNOWN := 0x1000;
  BTM_SEC_LE_LINK_KEY_AUTHED := 0x2000;
  BTM_SEC_NONE := 0x0000;
  BTM_SEC_IN_AUTHENTICATE := 0x0002;
  BTM_SEC_IN_ENCRYPT := 0x0004;
  BTM_SEC_OUT_AUTHENTICATE := 0x0010;
  BTM_SEC_OUT_ENCRYPT := 0x0020;
  BTM_SEC_MODE4_LEVEL4 := 0x0040;
  BTM_SEC_IN_MITM := 0x1000;
  BTM_SEC_OUT_MITM := 0x2000;
  BTM_SEC_IN_MIN_16_DIGIT_PIN := 0x4000;
  BTM_SEC_OUT_FLAGS := 0x0030;
  BTM_SEC_IN_FLAGS := 0x0006;
  BTM_SM4_UNKNOWN := 0x00;
  BTM_SM4_KNOWN := 0x10;
  BTM_SM4_TRUE := 0x11;
  BTM_SM4_REQ_PEND := 0x08;
  BTM_SM4_UPGRADE := 0x04;
  BTM_SM4_RETRY := 0x02;
  BTM_SM4_CONN_PEND := 0x40;
  BTM_LKEY_TYPE_UNAUTH_COMB := 0x04;
  BTM_LKEY_TYPE_AUTH_COMB := 0x05;
  BTM_LKEY_TYPE_UNAUTH_COMB_P_256 := 0x07;
  BTM_LKEY_TYPE_AUTH_COMB_P_256 := 0x08;
  BTM_IO_CAP_MAX := 4;
  BTM_AUTH_SP_NO := 0;
  BTM_LE_KEY_NONE := 0;
  BTM_SEC_MODE_SERVICE := 2;
  BTM_SEC_MODE_SP := 4;
  BTM_SEC_MODE_SC := 6;
  BTM_PAIR_FLAGS_WE_STARTED_DD := 0x01;
  BTM_PAIR_FLAGS_PEER_STARTED_DD := 0x02;
  BTM_PAIR_FLAGS_DISC_WHEN_DONE := 0x04;
  BTM_PAIR_FLAGS_PIN_REQD := 0x08;
  BTM_PAIR_FLAGS_REJECTED_CONNECT := 0x20;
  BTM_PAIR_FLAGS_LE_ACTIVE := 0x80;
  BTM_COD_MAJOR_CLASS_MASK := 0x1F;
  BTM_COD_MINOR_CLASS_MASK := 0xFC;
  BTM_COD_MAJOR_PERIPHERAL := 0x05;
  BTM_COD_MAJOR_AUDIO := 0x04;
  BTM_COD_MINOR_KEYBOARD := 0x40;
  BTM_COD_MINOR_CONFM_HANDSFREE := 0x08;
  BTM_COD_MINOR_CAR_AUDIO := 0x20;
  BT_DEVICE_TYPE_BREDR := 0x01;
  BT_DEVICE_TYPE_BLE := 0x02;
  BLE_ADDR_PUBLIC := 0;
  HCI_INVALID_HANDLE := 0xFFFF;
  HCI_PIN_TYPE_FIXED := 1;
  PIN_CODE_LEN := 16;
  BT_PSM_SDP := 1;
  BT_PSM_RFCOMM := 3;
  BT_1SEC_TIMEOUT_MS := 1000;
  BTM_SEC_TIMEOUT_VALUE := 35;
  L2CAP_FIXED_CHNL_SMP_BR_BIT := 0x80;
  BTM_SEC_FORCE_RNR_FOR_DBOND := false;
  RawAddress_kAny := 0xFFFFFFFFFFFF
|}.

Fixpoint find_index {A : Type} (f : A -> bool) (l : list A) (i : nat)
    : option nat :=
  match l with
  | [] => None
  | x :: l => if f x then Some i else find_index f l (S i)
  end.

(** Modelled from the spec: [btm_find_dev] of btm_dev.cc, the lookup in
    the Device Record Store "keyed by Bluetooth address". *)
Definition store_find_dev (addr : RawAddress) (recs : list tBTM_SEC_DEV_REC)
    : option nat :=
  find_index (fun r => bd_addr r =? addr) recs 0%nat.

(** Modelled from the spec: [btm_find_dev_by_handle] of btm_dev.cc, the
    lookup by "active connection handle", BR/EDR or LE. *)
Definition store_find_dev_by_handle (handle : Z)
    (recs : list tBTM_SEC_DEV_REC) : option nat :=
  find_index (fun r => (hci_handle r =? handle) || (ble_hci_handle r =? handle))
    recs 0%nat.

(** Modelled from the spec: [btm_find_or_alloc_dev] of btm_dev.cc,
    "find-or-allocate", here in a store without a bound: a new record has
    the address, no connection handle and no flag. *)
Definition store_find_or_alloc_dev (addr : RawAddress)
    (recs : list tBTM_SEC_DEV_REC) : list tBTM_SEC_DEV_REC * option nat :=
  match store_find_dev addr recs with
  | Some p => (recs, Some p)
  | None =>
    (recs ++ [mk_dev_rec addr addr [0; 0; 0] 0xFFFF 0xFFFF 0 0 0 0 0 0 0 0 0
                BTM_SEC_STATE_IDLE HCI_SUCCESS false BOND_TYPE_UNKNOWN false
                false 0 None 0],
     Some (length recs))
  end.

(** An environment in which the clock reads [now], [BTM_ReadDevInfo]
    reports the device type [dev_type] and a security callback called in
    place does [body]. *)
Definition test_externals_with (now dev_type : Z)
    (body : tBTM_SEC_CALLBACK -> RawAddress -> tBT_TRANSPORT -> RefData ->
            tBTM_STATUS -> tBTM_CB -> tBTM_CB) : Externals := {|
  btm_find_dev := store_find_dev;
  btm_find_dev_by_handle := store_find_dev_by_handle;
  btm_find_or_alloc_dev := store_find_or_alloc_dev;
  BTM_ReadDevInfo := fun _ cb => (cb, dev_type, 0);
  btm_ble_init_pseudo_addr := fun r addr => set_ble_pseudo_addr addr r;
  BTM_IsDeviceUp := true;
  BTM_IsAclConnectionUp := fun addr _ => negb (addr =? 0);
  BTM_IsAclConnectionUpAndHandleValid := fun addr _ => negb (addr =? 0);
  BTM_GetHCIConnHandle := fun _ _ => 1;
  BTM_IsBleConnection := fun _ => false;
  BTM_UseLeLink := fun _ => false;
  BTM_GetRole := fun _ => HCI_ROLE_CENTRAL;
  controller_get_is_ready := true;
  controller_supports_simple_pairing := true;
  controller_supports_secure_connections := true;
  BTM_DeleteStoredLinkKey := fun _ => BTM_SUCCESS;
  BTM_ReadRemoteDeviceName := fun _ => BTM_CMD_STARTED;
  l2cu_ConnectAclForSecurity := fun _ => BTM_CMD_STARTED;
  L2CA_GetBleConnRole := fun _ => 0;
  L2CA_GetPeerFeatures := fun _ => None;
  SMP_Pair_started := fun _ _ => true;
  btm_ble_set_encryption := fun _ _ _ => BTM_CMD_STARTED;
  do_in_main_thread_delayed_ok := true;
  delay_auth := 0;
  time_get_os_boottime_ms := now;
  concurrentPeerAuthIsEnabled := true;
  handleUnexpectedEncryptionChange := false;
  callback_body := body
|}.

(** the environment whose security callbacks only get recorded *)
Definition test_externals (now dev_type : Z) : Externals :=
  test_externals_with now dev_type (fun _ _ _ _ _ cb => cb).

(** the environment whose security callbacks re-enter the security
    manager: each one calls [btm_sec_dev_rec_cback_event] for the first
    record again, with the status it was given *)
Definition reentrant_externals : Externals :=
  test_externals_with 0 3
    (fun _ _ _ _ status cb =>
       @btm_sec_dev_rec_cback_event aosp_constants (test_externals 0 3) 0
         status false cb).

(** A connected BR/EDR peer at address 1, handle 1, with the given flags,
    requirements and state, and a control block that holds it alone. *)
Definition test_dev (flags required : Z) (state : tSECURITY_STATE)
    (orig : bool) (callback : option tBTM_SEC_CALLBACK) : tBTM_SEC_DEV_REC :=
  mk_dev_rec 1 1 [0; 0; 0] 1 0xFFFF flags required 0 0 0 0 0x11 0 0 state
    HCI_SUCCESS orig BOND_TYPE_PERSISTENT true false 0 callback 7.

(** the same peer with a temporary bond *)
Definition test_dev_temp (flags required : Z) (state : tSECURITY_STATE)
    (orig : bool) (callback : option tBTM_SEC_CALLBACK) : tBTM_SEC_DEV_REC :=
  mk_dev_rec 1 1 [0; 0; 0] 1 0xFFFF flags required 0 0 0 0 0x11 0 0 state
    HCI_SUCCESS orig BOND_TYPE_TEMPORARY true false 0 callback 7.

(** a peer at address 2 that is connected over LE only (LE handle 2) *)
Definition test_dev_le (flags : Z) (state : tSECURITY_STATE)
    (callback : option tBTM_SEC_CALLBACK) : tBTM_SEC_DEV_REC :=
  mk_dev_rec 2 2 [0; 0; 0] 0xFFFF 2 flags 0 0 0 0 0 0x11 0 0 state
    HCI_SUCCESS false BOND_TYPE_PERSISTENT true false 0 callback 7.

Definition test_cb (pstate : tBTM_PAIRING_STATE)
    (recs : list tBTM_SEC_DEV_REC) (q : list tBTM_SEC_QUEUE_ENTRY) : tBTM_CB :=
  mk_btm_cb pstate 0 0 0 [] 4 false false 0 1 0 false false false q recs 0
    None [].

(** ** Vocabulary of the statements *)

(** the effects that a step from [cb] to [cb'] has added *)
Definition new_effects (cb cb' : tBTM_CB) : list Effect :=
  drop (length (effects cb)) (effects cb').

(** an effect that starts authentication: the deferred
    [btm_sec_auth_timer_timeout] or the HCI command itself *)
Definition starts_authentication (e : Effect) : bool :=
  match e with
  | E_do_in_main_thread_delayed_auth_timer _ _ => true
  | E_btsnd_hcic_auth_request _ => true
  | _ => false
  end.

Definition is_set_conn_encrypt (e : Effect) : bool :=
  match e with
  | E_btsnd_hcic_set_conn_encrypt _ _ => true
  | _ => false
  end.

(** an effect that reports a result to a requester or to the application *)
Definition is_notification (e : Effect) : bool :=
  match e with
  | E_callback _ _ _ _ _ => true
  | E_do_in_main_thread _ _ _ _ _ => true
  | E_p_auth_complete_callback _ _ => true
  | _ => false
  end.

Section Vocabulary.
Context `{Consts : Constants}.

(** The three tests of [btm_sec_execute_procedure], as it writes them:
    the name is to be fetched, authentication is to be started,
    encryption is to be started. *)
Definition name_needed (r : tBTM_SEC_DEV_REC) : bool :=
  negb (flag (sec_flags r) BTM_SEC_NAME_KNOWN)
  && negb (hci_handle r =? HCI_INVALID_HANDLE).

Definition authentication_needed (r : tBTM_SEC_DEV_REC) : bool :=
  negb (hci_handle r =? HCI_INVALID_HANDLE) && start_auth r.

Definition encryption_needed (r : tBTM_SEC_DEV_REC) : bool :=
  negb (flag (sec_flags r) BTM_SEC_ENCRYPTED)
  && ((IsLocallyInitiated r && flag (security_required r) BTM_SEC_OUT_ENCRYPT)
      || (negb (IsLocallyInitiated r)
          && flag (security_required r) BTM_SEC_IN_ENCRYPT))
  && negb (hci_handle r =? HCI_INVALID_HANDLE).

(** the name, authentication and encryption requirements are satisfied *)
Definition requirements_satisfied (r : tBTM_SEC_DEV_REC) : bool :=
  negb (name_needed r) && negb (authentication_needed r)
  && negb (encryption_needed r).

(** the authenticate and encrypt bits of [security_required] *)
Definition BTM_SEC_AUTH_ENCRYPT_BITS : Z :=
  Z.lor (Z.lor (Z.lor BTM_SEC_OUT_AUTHENTICATE BTM_SEC_IN_AUTHENTICATE)
           BTM_SEC_OUT_ENCRYPT) BTM_SEC_IN_ENCRYPT.

(** The evaluation that both access requests make on their busy path.
    [legacy_mode]: local is legacy, or the peer is, or SM4 without a
    possible link key upgrade; [requirements_met_by_link]: what the
    service asks for is what the link already has. *)
Definition legacy_mode (cb : tBTM_CB) (r : tBTM_SEC_DEV_REC) (is_orig : bool)
    : bool :=
  (security_mode cb =? BTM_SEC_MODE_SERVICE)
  || (BTM_SM4_KNOWN =? sm4 r)
  || (BTM_SEC_IS_SM4 (sm4 r) && negb (btm_sec_is_upgrade_possible r is_orig cb)).

Definition requirements_met_by_link (r : tBTM_SEC_DEV_REC) (is_orig : bool)
    (security_req : Z) : bool :=
  if is_orig then
    (Z.land security_req BTM_SEC_OUT_FLAGS =? 0)
    || ((Z.land security_req BTM_SEC_OUT_FLAGS =? BTM_SEC_OUT_AUTHENTICATE)
        && btm_dev_authenticated r)
    || ((Z.land security_req BTM_SEC_OUT_FLAGS
           =? Z.lor BTM_SEC_OUT_AUTHENTICATE BTM_SEC_OUT_ENCRYPT)
        && btm_dev_encrypted r)
  else
    ((Z.land security_req BTM_SEC_IN_FLAGS =? 0)
     || ((Z.land security_req BTM_SEC_IN_FLAGS =? BTM_SEC_IN_AUTHENTICATE)
         && btm_dev_authenticated r)
     || ((Z.land security_req BTM_SEC_IN_FLAGS
            =? Z.lor BTM_SEC_IN_AUTHENTICATE BTM_SEC_IN_ENCRYPT)
         && btm_dev_encrypted r))
    && ((Z.land security_req BTM_SEC_IN_MIN_16_DIGIT_PIN =? 0)
        || ((Z.land security_req BTM_SEC_IN_MIN_16_DIGIT_PIN
               =? BTM_SEC_IN_MIN_16_DIGIT_PIN)
            && btm_dev_16_digit_authenticated r)).

(** the busy path has computed BTM_SUCCESS *)
Definition busy_path_success (cb : tBTM_CB) (r : tBTM_SEC_DEV_REC)
    (is_orig : bool) (security_req : Z) : bool :=
  legacy_mode cb r is_orig
  && requirements_met_by_link r is_orig security_req
  && negb (flag security_req BTM_SEC_MODE4_LEVEL4
           && negb (link_key_type r =? BTM_LKEY_TYPE_AUTH_COMB_P_256)).

(** the control block in which [btm_sec_auth_retry] restarts the
    procedure for the record [p] *)
Definition retry_start (p : nat) (cb : tBTM_CB) : tBTM_CB :=
  let cb := upd_dev p (fun r => set_sm4 (clr8 (sm4 r) BTM_SM4_RETRY) r) cb in
  let cb := set_collision_start_time 0 cb in
  let cb := btm_restore_mode cb in
  let cb := upd_dev p (fun r => set_sm4 (set8 (sm4 r) BTM_SM4_RETRY) r) cb in
  let cb := upd_dev p (fun r => set_sec_flags
    (clr16 (sec_flags r) BTM_SEC_LINK_KEY_KNOWN) r) cb in
  upd_dev p (set_sec_state BTM_SEC_STATE_IDLE) cb.

End Vocabulary.

Section CollisionVocabulary.
Context `{Consts : Constants} `{Ext : Externals}.

(** the record a collision is charged to: the one of the handle, or,
    without a handle, the first one authenticating, else the first one
    encrypting *)
Definition collided_dev_rec (handle : Z) (cb : tBTM_CB) : option nat :=
  if handle =? HCI_INVALID_HANDLE then
    match btm_sec_find_dev_by_sec_state BTM_SEC_STATE_AUTHENTICATING cb with
    | None => btm_sec_find_dev_by_sec_state BTM_SEC_STATE_ENCRYPTING cb
    | Some p => Some p
    end
  else btm_find_dev_by_handle handle (sec_dev_rec cb).

(** the control block after [btm_sec_auth_collision] has noted the time
    of the first collision *)
Definition collision_noted (cb : tBTM_CB) : tBTM_CB :=
  if collision_start_time cb =? 0
  then set_collision_start_time time_get_os_boottime_ms cb
  else cb.

(** the time since the first collision, as [btm_sec_auth_collision]
    computes it *)
Definition collision_elapsed (cb : tBTM_CB) : Z :=
  u64_sub time_get_os_boottime_ms (collision_start_time (collision_noted cb)).

End CollisionVocabulary.

(** ** Concrete values for the further functions *)

Definition aosp_more_constants : MoreConstants := {|
  BTM_SEC_IN_USE := 0x8000;
  BTM_SEC_OUT_LEVEL4_FLAGS := 0x2070;
  BTM_SEC_IN_LEVEL4_FLAGS := 0x1046;
  BT_MAX_SERVICE_NAME_LEN := 21;
  BTM_SEC_SERVICE_RFC_MUX := 42;
  BTM_SEC_PROTO_RFCOMM := 3;
  BTM_SEC_FLAG_ENCRYPTED := 0x04;
  BTM_SEC_FLAG_LKEY_KNOWN := 0x10;
  BTM_SEC_FLAG_LKEY_AUTHED := 0x20;
  BTM_LKEY_TYPE_IGNORE := 0xff;
  BTM_PAIR_FLAGS_WE_CANCEL_DD := 0x10;
  BTM_PAIR_FLAGS_PRE_FETCH_PIN := 0x40;
  BTM_IO_CAP_NONE := 3;
  BTM_AUTH_AP_NO := 4;
  BTM_AUTH_AP_YES := 5;
  BTM_OOB_NONE := 0;
  BTM_MAX_PASSKEY_VAL := 999999;
  HCI_ERR_CONNECTION_TOUT_code := 0x08
|}.

(** an SMP layer that has a pairing to cancel for every peer *)
Definition test_more_externals : MoreExternals := {|
  SMP_PairCancel := fun _ => true
|}.

(** a service record in use for the service [id] on [psm], with the
    requirements [flags] (BTM_SEC_IN_USE is 0x8000) and the name [name]
    in both directions *)
Definition test_serv (id psm flags : Z) (name : list Z) : tBTM_SEC_SERV_REC :=
  mk_serv_rec 0 0 0 psm (Z.lor flags 0x8000) id name name.

(** a control block with the service records [servs], no outgoing
    service, no configured PIN and a bond cancel callback *)
Definition test_cb_ext (cb : tBTM_CB) (servs : list tBTM_SEC_SERV_REC)
    : tBTM_CB_EXT :=
  mk_btm_cb_ext cb servs None 0 [] true [].

(** the environment of the statements at concrete inputs *)
Definition test_env : Externals := test_externals 0 3.

(** the same environment, in which the handle 2 is an LE connection *)
Definition test_env_le : Externals := {|
  btm_find_dev := store_find_dev;
  btm_find_dev_by_handle := store_find_dev_by_handle;
  btm_find_or_alloc_dev := store_find_or_alloc_dev;
  BTM_ReadDevInfo := fun _ cb => (cb, 3, 0);
  btm_ble_init_pseudo_addr := fun r addr => set_ble_pseudo_addr addr r;
  BTM_IsDeviceUp := true;
  BTM_IsAclConnectionUp := fun addr _ => negb (addr =? 0);
  BTM_IsAclConnectionUpAndHandleValid := fun addr _ => negb (addr =? 0);
  BTM_GetHCIConnHandle := fun _ _ => 1;
  BTM_IsBleConnection := fun handle => handle =? 2;
  BTM_UseLeLink := fun _ => false;
  BTM_GetRole := fun _ => HCI_ROLE_CENTRAL;
  controller_get_is_ready := true;
  controller_supports_simple_pairing := true;
  controller_supports_secure_connections := true;
  BTM_DeleteStoredLinkKey := fun _ => BTM_SUCCESS;
  BTM_ReadRemoteDeviceName := fun _ => BTM_CMD_STARTED;
  l2cu_ConnectAclForSecurity := fun _ => BTM_CMD_STARTED;
  L2CA_GetBleConnRole := fun _ => 0;
  L2CA_GetPeerFeatures := fun _ => None;
  SMP_Pair_started := fun _ _ => true;
  btm_ble_set_encryption := fun _ _ _ => BTM_CMD_STARTED;
  do_in_main_thread_delayed_ok := true;
  delay_auth := 0;
  time_get_os_boottime_ms := 0;
  concurrentPeerAuthIsEnabled := true;
  handleUnexpectedEncryptionChange := false;
  callback_body := fun _ _ _ _ _ cb => cb
|}.

(** a control block in a pairing with the peer [bda], in the state
    [pstate] with the pairing flags [flags]; the application has
    registered its authentication callback *)
Definition test_cb_pairing (pstate : tBTM_PAIRING_STATE) (bda flags : Z)
    (recs : list tBTM_SEC_DEV_REC) : tBTM_CB :=
  mk_btm_cb pstate bda flags 0 [] 4 false false 0 1 0 true false false []
    recs 0 None [].

(** an idle control block in the security mode [mode] *)
Definition test_cb_mode (mode : Z) (recs : list tBTM_SEC_DEV_REC) : tBTM_CB :=
  mk_btm_cb BTM_PAIR_STATE_IDLE 0 0 0 [] mode false false 0 1 0 false false
    false [] recs 0 None [].

(** a connected BR/EDR peer at address 1 with a link key of the type
    [key_type] and the IO capabilities [rmt_io] *)
Definition test_dev_key (flags required key_type rmt_io : Z)
    : tBTM_SEC_DEV_REC :=
  mk_dev_rec 1 1 [0; 0; 0] 1 0xFFFF flags required 0 key_type 0 0 0x11 rmt_io
    0 BTM_SEC_STATE_IDLE HCI_SUCCESS true BOND_TYPE_PERSISTENT true false 0
    None 7.

(** the control block that a call of [BTM_SetSecurityLevel] has left,
    [x] itself when the call did not return *)
Definition registered (r : option (bool * tBTM_CB_EXT)) (x : tBTM_CB_EXT)
    : tBTM_CB_EXT :=
  match r with
  | Some (_, x') => x'
  | None => x
  end.

(** ** Vocabulary of the statements about the further functions *)

(** the commands by which [btm_restore_mode] undoes the changes that a
    pairing made to the authentication mode and to the PIN type *)
Definition restore_mode_commands (cb : tBTM_CB) : list Effect :=
  (if security_mode_changed cb
   then [E_btsnd_hcic_write_auth_enable false] else [])
  ++ (if pin_type_changed cb
      then [E_btsnd_hcic_write_pin_type (cfg_pin_type cb)] else []).

(** what [btm_sec_change_pairing_state] does on the way to IDLE when no
    request is pending: the pairing timer is cancelled, L2CAP is told
    that the peer is not bonding, the mode is restored and the inquiry
    database is cleared of its simple pairing state *)
Definition pairing_idle_effects (cb : tBTM_CB) : list Effect :=
  [E_alarm_cancel pairing_timer;
   E_l2cu_update_lcb_4_bonding (pairing_bda cb) false]
  ++ restore_mode_commands cb ++ [E_btm_inq_clear_ssp].

(** the commands and calls of the second log that a step from [x] to
    [x'] has added *)
Definition new_more_effects (x x' : tBTM_CB_EXT) : list MoreEffect :=
  snd <$> drop (length (more_effects x)) (more_effects x').

Section MoreVocabulary.
Context `{Consts : Constants} `{MConsts : MoreConstants}.

(** a service record that is in use for [psm]: the test of
    [BTM_SecClrServiceByPsm] and of [btm_sec_find_first_serv] *)
Definition serv_in_use_on (psm : Z) (s : tBTM_SEC_SERV_REC) : bool :=
  flag (s_security_flags s) BTM_SEC_IN_USE && (s_psm s =? psm).

(** the test of [BTM_SecClrService] *)
Definition serv_cleared_by (service_id : Z) (s : tBTM_SEC_SERV_REC) : bool :=
  flag (s_security_flags s) BTM_SEC_IN_USE && negb (s_psm s =? BT_PSM_SDP)
  && ((service_id =? 0) || (service_id =? s_service_id s)).

(** the index of the record that [BTM_SetSecurityLevel] writes to: where
    its loop broke off, else [first_unused_record] *)
Definition SetSecurityLevel_index (p_name : option (list Z))
    (service_id psm mx_proto_id : Z) (x : tBTM_CB_EXT) : nat :=
  let '(_, brk, _, first_unused_record) :=
    SetSecurityLevel_loop p_name service_id psm mx_proto_id (sec_serv_rec x)
      0%nat false BTM_NO_AVAIL_SEC_SERVICES in
  match brk with
  | Some index => index
  | None => Z.to_nat first_unused_record
  end.

(** The requirements that [BTM_SetSecurityLevel] stores for a request
    [sec_level]: those of the other direction dropped, MITM added to
    authentication in the modes SP and SC, then authentication added to
    encryption. *)
Definition stored_sec_level (is_originator : bool) (mode sec_level : Z) : Z :=
  if is_originator then
    let sec_level :=
      clr16 sec_level
        (Z.lor (Z.lor (Z.lor BTM_SEC_IN_ENCRYPT BTM_SEC_IN_AUTHENTICATE)
                  BTM_SEC_IN_MITM) BTM_SEC_IN_MIN_16_DIGIT_PIN) in
    let sec_level :=
      if (mode =? BTM_SEC_MODE_SP) || (mode =? BTM_SEC_MODE_SC) then
        if flag sec_level BTM_SEC_OUT_AUTHENTICATE
        then set16 sec_level BTM_SEC_OUT_MITM else sec_level
      else sec_level in
    if flag sec_level BTM_SEC_OUT_ENCRYPT
    then set16 sec_level BTM_SEC_OUT_AUTHENTICATE else sec_level
  else
    let sec_level :=
      clr16 sec_level
        (Z.lor (Z.lor BTM_SEC_OUT_ENCRYPT BTM_SEC_OUT_AUTHENTICATE)
           BTM_SEC_OUT_MITM) in
    let sec_level :=
      if (mode =? BTM_SEC_MODE_SP) || (mode =? BTM_SEC_MODE_SC) then
        if flag sec_level BTM_SEC_IN_AUTHENTICATE
        then set16 sec_level BTM_SEC_IN_MITM else sec_level
      else sec_level in
    if flag sec_level BTM_SEC_IN_ENCRYPT
    then set16 sec_level BTM_SEC_IN_AUTHENTICATE else sec_level.

(** the requirement bits of one direction, which a registration for that
    direction replaces *)
Definition direction_bits (is_originator : bool) : Z :=
  if is_originator then
    Z.lor (Z.lor BTM_SEC_OUT_ENCRYPT BTM_SEC_OUT_AUTHENTICATE) BTM_SEC_OUT_MITM
  else
    Z.lor (Z.lor (Z.lor BTM_SEC_IN_ENCRYPT BTM_SEC_IN_AUTHENTICATE)
             BTM_SEC_IN_MITM) BTM_SEC_IN_MIN_16_DIGIT_PIN.

(** the name and the channel id that a record holds for one direction *)
Definition service_name_of (is_originator : bool) (s : tBTM_SEC_SERV_REC)
    : list Z :=
  if is_originator then s_orig_service_name s else s_term_service_name s.

Definition mx_chan_id_of (is_originator : bool) (s : tBTM_SEC_SERV_REC) : Z :=
  if is_originator then s_orig_mx_chan_id s else s_term_mx_chan_id s.

(** a mask of a 16-bit field with at least one bit *)
Definition mask16 (m : Z) : Prop := 0 < m < 65536.

(** a mask of an 8-bit field with at least one bit *)
Definition mask8 (m : Z) : Prop := 0 < m < 256.

(** the encrypt, authenticate and MITM requirement of one direction *)
Definition encrypt_bit (is_originator : bool) : Z :=
  if is_originator then BTM_SEC_OUT_ENCRYPT else BTM_SEC_IN_ENCRYPT.

Definition authenticate_bit (is_originator : bool) : Z :=
  if is_originator then BTM_SEC_OUT_AUTHENTICATE else BTM_SEC_IN_AUTHENTICATE.

Definition mitm_bit (is_originator : bool) : Z :=
  if is_originator then BTM_SEC_OUT_MITM else BTM_SEC_IN_MITM.

(** the masks of [l] are masks of a 16-bit field, with at least one bit
    each and no bit in common *)
Fixpoint distinct_masks16 (l : list Z) : bool :=
  match l with
  | [] => true
  | m :: l =>
    (0 <? m) && (m <? 65536) && forallb (fun a => Z.land m a =? 0) l
    && distinct_masks16 l
  end.

(** the bits of [tBTM_SEC_SERV_REC::security_flags] that
    [BTM_SetSecurityLevel] handles *)
Definition service_flag_bits : list Z :=
  [BTM_SEC_IN_USE; BTM_SEC_OUT_ENCRYPT; BTM_SEC_OUT_AUTHENTICATE;
   BTM_SEC_OUT_MITM; BTM_SEC_IN_ENCRYPT; BTM_SEC_IN_AUTHENTICATE;
   BTM_SEC_IN_MITM; BTM_SEC_IN_MIN_16_DIGIT_PIN].

(** the bit of [tBTM_SEC_DEV_REC::sec_flags] that stands for the flag [m]
    of one transport: the flags of BR/EDR are the lower byte, those of LE
    the upper one *)
Definition transport_bit (transport : tBT_TRANSPORT) (m : Z) : Z :=
  if bool_decide (transport = BT_TRANSPORT_BR_EDR) then m else Z.shiftl m 8.

(** The test that [btm_sec_check_pending_enc_req] makes on a queued
    request: it is an encryption request for the record [r] on
    [transport], and the event answers it. *)
Definition enc_req_answered (r : tBTM_SEC_DEV_REC) (transport : tBT_TRANSPORT)
    (encr_enable : Z) (p_e : tBTM_SEC_QUEUE_ENTRY) : bool :=
  (e_bd_addr p_e =? bd_addr r) && (e_psm p_e =? 0)
  && bool_decide (e_transport p_e = transport)
  && ((encr_enable =? 0)
      || bool_decide (transport = BT_TRANSPORT_BR_EDR)
      || bool_decide (e_sec_act p_e = BTM_BLE_SEC_ENCRYPT)
      || bool_decide (e_sec_act p_e = BTM_BLE_SEC_ENCRYPT_NO_MITM)
      || (bool_decide (e_sec_act p_e = BTM_BLE_SEC_ENCRYPT_MITM)
          && flag (sec_flags r) BTM_SEC_LE_AUTHENTICATED)).

(** the calls of the callbacks of the requests [q], in their order, for
    the record [r] with the result [res] *)
Definition enc_req_callbacks (r : tBTM_SEC_DEV_REC) (transport : tBT_TRANSPORT)
    (res : tBTM_STATUS) (q : list tBTM_SEC_QUEUE_ENTRY) : list Effect :=
  omap (fun p_e =>
          (fun f => E_callback f (bd_addr r) transport (e_p_ref_data p_e) res)
          <$> e_p_callback p_e) q.

End MoreVocabulary.


Section PairingVocabulary.
Context `{Consts : Constants} `{Ext : Externals} `{MConsts : MoreConstants}.

(** The states in which the expiry of the pairing timer leaves the
    pairing as it is: it answers the controller in the negative and waits
    for the events that follow, or, in the states WAIT_PIN_REQ and
    WAIT_DISCONNECT, finds nothing to do. *)
Definition timeout_keeps_pairing (x : tBTM_CB_EXT) : bool :=
  let cb := base_cb x in
  match pairing_state cb with
  | BTM_PAIR_STATE_WAIT_PIN_REQ =>
    negb (flag (pairing_flags cb) BTM_PAIR_FLAGS_DISC_WHEN_DONE)
  | BTM_PAIR_STATE_WAIT_NUMERIC_CONFIRM => true
  | BTM_PAIR_STATE_KEY_ENTRY =>
    negb (devcb_loc_io_caps cb =? BTM_IO_CAP_NONE)
  | BTM_PAIR_STATE_WAIT_DISCONNECT =>
    bool_decide (btm_find_dev (pairing_bda cb) (sec_dev_rec cb) = None)
  | _ => false
  end.

(** the pairing is over in [c] *)
Definition pairing_over (c : tBTM_CB) : Prop :=
  pairing_state c = BTM_PAIR_STATE_IDLE /\ pairing_flags c = 0
  /\ pairing_bda c = RawAddress_kAny.

End PairingVocabulary.
(** * Properties *)

(** ** Basic facts about the control block *)

Section Basics.
Context `{Consts : Constants} `{Ext : Externals}.

Lemma flag_true (x m : Z) : flag x m = true <-> Z.land x m <> 0.
Proof.
  unfold flag. rewrite negb_true_iff, Z.eqb_neq. reflexivity.
Qed.

Lemma flag_false (x m : Z) : flag x m = false <-> Z.land x m = 0.
Proof.
  unfold flag. rewrite negb_false_iff, Z.eqb_eq. reflexivity.
Qed.

Lemma flag_lor_l (x a b : Z) : flag x a = true -> flag x (Z.lor a b) = true.
Proof.
  rewrite !flag_true, Z.land_lor_distr_r. intros Ha Hor.
  apply Z.lor_eq_0_iff in Hor. tauto.
Qed.

Lemma flag_lor_r (x a b : Z) : flag x b = true -> flag x (Z.lor a b) = true.
Proof.
  rewrite !flag_true, Z.land_lor_distr_r. intros Hb Hor.
  apply Z.lor_eq_0_iff in Hor. tauto.
Qed.

Lemma flag_0_l (m : Z) : flag 0 m = false.
Proof. reflexivity. Qed.

Lemma dev_emit (e : Effect) (cb : tBTM_CB) (p : nat) :
  dev (emit e cb) p = dev cb p.
Proof. reflexivity. Qed.

Lemma dev_upd_dev (p : nat) f (cb : tBTM_CB) :
  dev (upd_dev p f cb) p = default dev0 (f <$> sec_dev_rec cb !! p).
Proof.
  unfold dev, upd_dev. cbn. rewrite list_lookup_alter_eq. reflexivity.
Qed.

Lemma dev_upd_dev_valid (p : nat) f (cb : tBTM_CB) :
  (p < length (sec_dev_rec cb))%nat ->
  dev (upd_dev p f cb) p = f (dev cb p).
Proof.
  intros Hp. rewrite dev_upd_dev. unfold dev.
  destruct (lookup_lt_is_Some_2 _ _ Hp) as [r ->]. reflexivity.
Qed.

Lemma dev_upd_dev_ne (p q : nat) f (cb : tBTM_CB) :
  p <> q -> dev (upd_dev p f cb) q = dev cb q.
Proof.
  intros Hne. unfold dev, upd_dev. cbn.
  rewrite list_lookup_alter_ne by exact Hne. reflexivity.
Qed.

Lemma length_upd_dev (p : nat) f (cb : tBTM_CB) :
  length (sec_dev_rec (upd_dev p f cb)) = length (sec_dev_rec cb).
Proof. unfold upd_dev. cbn. apply length_alter. Qed.

(** a field that [f] leaves alone reads the same through [upd_dev] *)
Lemma dev_upd_dev_field {A : Type} (g : tBTM_SEC_DEV_REC -> A) (p : nat) f
    (cb : tBTM_CB) :
  (forall r, g (f r) = g r) -> g (dev (upd_dev p f cb) p) = g (dev cb p).
Proof.
  intros Hg. rewrite dev_upd_dev. unfold dev.
  destruct (sec_dev_rec cb !! p); cbn; [apply Hg | reflexivity].
Qed.

Lemma new_effects_refl (cb : tBTM_CB) : new_effects cb cb = [].
Proof. unfold new_effects. apply drop_all. Qed.

Lemma new_effects_app (cb cb' : tBTM_CB) (l : list Effect) :
  effects cb' = effects cb ++ l -> new_effects cb cb' = l.
Proof. unfold new_effects. intros ->. apply drop_app_length. Qed.

End Basics.

(** ** The security procedure engine *)

Section Engine.
Context `{Consts : Constants} `{Ext : Externals}.

Lemma auth_timer_timeout_effects (addr : RawAddress) (cb : tBTM_CB) :
  effects (btm_sec_auth_timer_timeout addr cb) = effects cb
  \/ exists h,
       effects (btm_sec_auth_timer_timeout addr cb)
       = effects cb ++ [E_btsnd_hcic_auth_request h].
Proof.
  unfold btm_sec_auth_timer_timeout.
  destruct (btm_find_dev addr (sec_dev_rec cb)) as [q|]; [|by left].
  destruct (btm_dev_authenticated (dev cb q)); [by left|].
  case_bool_decide; [by left|].
  right. eexists. reflexivity.
Qed.

Lemma wait_and_start_authentication_effects (p : nat) (cb : tBTM_CB) :
  exists l,
    effects (btm_sec_wait_and_start_authentication p cb) = effects cb ++ l
    /\ (length l <= 1)%nat
    /\ Forall (fun e => is_set_conn_encrypt e = false
                        /\ is_notification e = false) l.
Proof.
  unfold btm_sec_wait_and_start_authentication.
  destruct do_in_main_thread_delayed_ok.
  - eexists [_]. cbn. split; [reflexivity|]. split; [lia|].
    by repeat constructor.
  - destruct (auth_timer_timeout_effects (bd_addr (dev cb p)) cb) as [E|[h E]].
    + exists []. rewrite E, app_nil_r. split; [done|]. split; [cbn; lia|].
      constructor.
    + exists [E_btsnd_hcic_auth_request h]. split; [done|]. split; [cbn; lia|].
      by repeat constructor.
Qed.

(** the encryption command is sent only to an authenticated link *)
Lemma start_auth_false_authenticated (r : tBTM_SEC_DEV_REC) :
  start_auth r = false ->
  (IsLocallyInitiated r && flag (security_required r) BTM_SEC_OUT_ENCRYPT)
  || (negb (IsLocallyInitiated r)
      && flag (security_required r) BTM_SEC_IN_ENCRYPT) = true ->
  btm_dev_authenticated r = true.
Proof.
  unfold start_auth, btm_dev_authenticated.
  destruct (flag (sec_flags r) BTM_SEC_AUTHENTICATED) eqn:Ha; [done|].
  cbn [negb]. intros Hs Hreq.
  destruct (IsLocallyInitiated r); cbn in Hreq.
  - rewrite orb_false_r in Hreq.
    rewrite (flag_lor_r _ _ _ Hreq) in Hs.
    cbn in Hs. by destruct (flag (sec_flags r) BTM_SEC_16_DIGIT_PIN_AUTHED).
  - rewrite (flag_lor_r _ _ _ Hreq) in Hs.
    repeat case_match; done.
Qed.

(** C1.  [btm_sec_execute_procedure] sends the HCI set-connection-encryption
    command only for a record whose [sec_flags] contain
    BTM_SEC_AUTHENTICATED, on entry and on return; it takes at most one
    action per call; and while the remote name is unknown and a connection
    handle exists it starts no authentication and no encryption: the
    remote name request is what it issues (when the device is up). *)
Theorem execute_procedure_ordering (p : nat) (cb : tBTM_CB) :
  let res := btm_sec_execute_procedure p cb in
  (forall e, e ∈ new_effects cb (snd res) -> is_set_conn_encrypt e = true ->
     btm_dev_authenticated (dev cb p) = true
     /\ btm_dev_authenticated (dev (snd res) p) = true)
  /\ (length (new_effects cb (snd res)) <= 1)%nat
  /\ (flag (sec_flags (dev cb p)) BTM_SEC_NAME_KNOWN = false ->
      hci_handle (dev cb p) <> HCI_INVALID_HANDLE ->
      (forall e, e ∈ new_effects cb (snd res) ->
         starts_authentication e = false /\ is_set_conn_encrypt e = false)
      /\ (sec_state (dev cb p) = BTM_SEC_STATE_IDLE
          \/ sec_state (dev cb p) = BTM_SEC_STATE_LE_ENCRYPTING ->
          BTM_IsDeviceUp = true ->
          fst res = BTM_CMD_STARTED
          /\ new_effects cb (snd res)
             = [E_SendRemoteNameRequest (bd_addr (dev cb p))])).
Proof.
  cbn zeta. unfold btm_sec_execute_procedure.
  set (r := dev cb p).
  destruct (negb (bool_decide (sec_state r = BTM_SEC_STATE_IDLE))
            && negb (bool_decide (sec_state r = BTM_SEC_STATE_LE_ENCRYPTING)))
    eqn:Hbusy.
  { (* busy: nothing is done *)
    cbn [fst snd]. rewrite new_effects_refl. split; [|split].
    - intros e He. by apply elem_of_nil in He.
    - cbn; lia.
    - intros _ _. split.
      + intros e He. by apply elem_of_nil in He.
      + intros [Hs|Hs] _; rewrite Hs in Hbusy; discriminate. }
  destruct (negb (flag (sec_flags r) BTM_SEC_NAME_KNOWN)
            && negb (hci_handle r =? HCI_INVALID_HANDLE)) eqn:Hname.
  { (* the name is fetched first *)
    unfold btm_sec_start_get_name.
    destruct BTM_IsDeviceUp eqn:Hup; cbn [negb fst snd].
    - rewrite (new_effects_app cb _ [E_SendRemoteNameRequest
        (bd_addr (dev (upd_dev p (set_sec_state BTM_SEC_STATE_GETTING_NAME) cb)
                    p))]) by reflexivity.
      rewrite (dev_upd_dev_field bd_addr) by reflexivity.
      split; [|split].
      + intros e He. apply list_elem_of_singleton in He. by subst.
      + cbn; lia.
      + intros _ _. split; [|done].
        intros e He. apply list_elem_of_singleton in He. by subst.
    - rewrite new_effects_refl. split; [|split].
      + intros e He. by apply elem_of_nil in He.
      + cbn; lia.
      + intros _ _. split; [|done].
        intros e He. by apply elem_of_nil in He. }
  assert (Hknown : flag (sec_flags r) BTM_SEC_NAME_KNOWN = false ->
                   hci_handle r <> HCI_INVALID_HANDLE -> False).
  { intros Hn Hh. rewrite Hn in Hname. apply Z.eqb_neq in Hh.
    rewrite Hh in Hname. discriminate. }
  destruct (negb (hci_handle r =? HCI_INVALID_HANDLE) && start_auth r)
    eqn:Hauth.
  { (* authentication is started *)
    cbn [fst snd].
    match goal with
    | |- context [btm_sec_wait_and_start_authentication p ?c] =>
      destruct (wait_and_start_authentication_effects p c)
        as (l & El & Hlen & Hl);
      assert (Ee : effects c = effects cb) by (by case_match);
      rewrite Ee in El; rewrite (new_effects_app cb _ l El)
    end.
    split; [|split].
    - intros e He Henc. rewrite list.Forall_forall in Hl.
      destruct (Hl e He) as [Hl' _]. rewrite Hl' in Henc. discriminate.
    - exact Hlen.
    - intros Hn Hh. destruct (Hknown Hn Hh). }
  match goal with
  | |- context [if ?c then (BTM_CMD_STARTED, _) else _] =>
    destruct c eqn:Henc
  end.
  { (* encryption is started *)
    cbn [fst snd].
    rewrite (new_effects_app cb _
               [E_btsnd_hcic_set_conn_encrypt (hci_handle r) true])
      by reflexivity.
    apply andb_true_iff in Henc as [Henc Hh].
    apply andb_true_iff in Henc as [_ Hreq].
    rewrite Hh in Hauth. cbn in Hauth.
    pose proof (start_auth_false_authenticated r Hauth Hreq) as Hyes.
    split; [|split].
    - intros e _ _. split; [exact Hyes|].
      unfold btm_dev_authenticated.
      rewrite (dev_upd_dev_field sec_flags) by reflexivity.
      exact Hyes.
    - cbn; lia.
    - intros Hn Hh'. destruct (Hknown Hn Hh'). }
  (* nothing is started *)
  assert (Hnone : forall st c,
    effects c = effects cb ->
    (forall e, e ∈ new_effects cb (snd (st, c)) -> is_set_conn_encrypt e = true ->
       btm_dev_authenticated (dev cb p) = true
       /\ btm_dev_authenticated (dev (snd (st, c)) p) = true)
    /\ (length (new_effects cb (snd (st, c))) <= 1)%nat
    /\ (flag (sec_flags (dev cb p)) BTM_SEC_NAME_KNOWN = false ->
        hci_handle (dev cb p) <> HCI_INVALID_HANDLE ->
        (forall e, e ∈ new_effects cb (snd (st, c)) ->
           starts_authentication e = false /\ is_set_conn_encrypt e = false)
        /\ (sec_state (dev cb p) = BTM_SEC_STATE_IDLE
            \/ sec_state (dev cb p) = BTM_SEC_STATE_LE_ENCRYPTING ->
            BTM_IsDeviceUp = true ->
            fst (st, c) = BTM_CMD_STARTED
            /\ new_effects cb (snd (st, c))
               = [E_SendRemoteNameRequest (bd_addr (dev cb p))]))).
  { intros st c Ec. cbn [fst snd].
    rewrite (new_effects_app cb c []) by (by rewrite app_nil_r).
    split; [|split].
    - intros e He. by apply elem_of_nil in He.
    - cbn; lia.
    - intros Hn Hh. destruct (Hknown Hn Hh). }
  repeat case_match; apply Hnone; reflexivity.
Qed.

(** a link whose name is known and which is authenticated (16-digit PIN
    or MITM included) and encrypted satisfies every requirement; so does
    a record without a connection handle *)
Lemma requirements_satisfied_secure_link (r : tBTM_SEC_DEV_REC) :
  flag (sec_flags r) BTM_SEC_NAME_KNOWN = true ->
  flag (sec_flags r) BTM_SEC_AUTHENTICATED = true ->
  flag (sec_flags r) BTM_SEC_16_DIGIT_PIN_AUTHED = true ->
  flag (sec_flags r) BTM_SEC_ENCRYPTED = true ->
  requirements_satisfied r = true.
Proof.
  intros Hn Ha Hp He.
  unfold requirements_satisfied, name_needed, authentication_needed,
    encryption_needed, start_auth.
  rewrite Hn, Ha, Hp, He. cbn. by rewrite andb_false_r.
Qed.

Lemma requirements_satisfied_no_handle (r : tBTM_SEC_DEV_REC) :
  hci_handle r = HCI_INVALID_HANDLE -> requirements_satisfied r = true.
Proof.
  intros Hh.
  unfold requirements_satisfied, name_needed, authentication_needed,
    encryption_needed.
  rewrite Hh, Z.eqb_refl. cbn. by rewrite !andb_false_r.
Qed.

Lemma flag_clr16_same (x m : Z) : flag (clr16 x m) m = false.
Proof.
  apply flag_false. unfold clr16, u16. apply Z.bits_inj'. intros n Hn.
  rewrite !Z.land_spec, Z.lnot_spec, Z.bits_0 by exact Hn.
  destruct (Z.testbit m n); cbn; [|by rewrite andb_false_r].
  by rewrite andb_false_r.
Qed.

Lemma flag_lor_false (x a b : Z) :
  flag x (Z.lor a b) = false -> flag x a = false /\ flag x b = false.
Proof.
  intros H. split.
  - destruct (flag x a) eqn:E; [|done]. by rewrite (flag_lor_l _ _ b E) in H.
  - destruct (flag x b) eqn:E; [|done]. by rewrite (flag_lor_r _ a _ E) in H.
Qed.

(** C5.  On a record whose [sec_state] is neither IDLE nor LE_ENCRYPTING,
    [btm_sec_execute_procedure] returns BTM_CMD_STARTED and leaves the
    control block as it is.  On an idle record whose name, authentication
    and encryption requirements are satisfied it returns
    BTM_FAILED_ON_SECURITY, again without any action, when mode 4 level 4
    is required and the link key type is not BTM_LKEY_TYPE_AUTH_COMB_P_256,
    and also when the request is not locally initiated, asks for incoming
    authentication and the bond is temporary; otherwise it returns
    BTM_SUCCESS, and all it changes is [security_required] of the record,
    from which the authenticate and encrypt bits are cleared. *)
Theorem execute_procedure_outcomes (p : nat) (cb : tBTM_CB) :
  let r := dev cb p in
  (sec_state r <> BTM_SEC_STATE_IDLE ->
   sec_state r <> BTM_SEC_STATE_LE_ENCRYPTING ->
   btm_sec_execute_procedure p cb = (BTM_CMD_STARTED, cb))
  /\ (sec_state r = BTM_SEC_STATE_IDLE
      \/ sec_state r = BTM_SEC_STATE_LE_ENCRYPTING ->
      requirements_satisfied r = true ->
      (flag (security_required r) BTM_SEC_MODE4_LEVEL4 = true ->
       link_key_type r <> BTM_LKEY_TYPE_AUTH_COMB_P_256 ->
       btm_sec_execute_procedure p cb = (BTM_FAILED_ON_SECURITY, cb))
      /\ (IsLocallyInitiated r = false ->
          flag (security_required r) BTM_SEC_IN_AUTHENTICATE = true ->
          bond_type r = BOND_TYPE_TEMPORARY ->
          btm_sec_execute_procedure p cb = (BTM_FAILED_ON_SECURITY, cb))
      /\ (flag (security_required r) BTM_SEC_MODE4_LEVEL4
            && negb (link_key_type r =? BTM_LKEY_TYPE_AUTH_COMB_P_256) = false ->
          access_secure_service_from_temp_bond r (IsLocallyInitiated r)
            (security_required r) = false ->
          btm_sec_execute_procedure p cb
          = (BTM_SUCCESS,
             upd_dev p (fun r => set_security_required
               (clr16 (security_required r) BTM_SEC_AUTH_ENCRYPT_BITS) r) cb)
          /\ forall r',
               sec_dev_rec (snd (btm_sec_execute_procedure p cb)) !! p = Some r' ->
               flag (security_required r') BTM_SEC_OUT_AUTHENTICATE = false
               /\ flag (security_required r') BTM_SEC_IN_AUTHENTICATE = false
               /\ flag (security_required r') BTM_SEC_OUT_ENCRYPT = false
               /\ flag (security_required r') BTM_SEC_IN_ENCRYPT = false)).
Proof.
  cbn zeta. set (r := dev cb p). split.
  - intros H1 H2. unfold btm_sec_execute_procedure. fold r.
    rewrite !bool_decide_eq_false_2 by assumption. reflexivity.
  - intros Hidle Hsat.
    apply andb_true_iff in Hsat as [Hsat Henc].
    apply andb_true_iff in Hsat as [Hname Hauth].
    apply negb_true_iff in Hname, Hauth, Henc.
    unfold name_needed in Hname. unfold authentication_needed in Hauth.
    unfold encryption_needed in Henc.
    assert (Hstep : btm_sec_execute_procedure p cb
      = if flag (security_required r) BTM_SEC_MODE4_LEVEL4
           && negb (link_key_type r =? BTM_LKEY_TYPE_AUTH_COMB_P_256)
        then (BTM_FAILED_ON_SECURITY, cb)
        else if access_secure_service_from_temp_bond r (IsLocallyInitiated r)
                  (security_required r)
        then (BTM_FAILED_ON_SECURITY, cb)
        else (BTM_SUCCESS,
              upd_dev p (fun r => set_security_required
                (clr16 (security_required r) BTM_SEC_AUTH_ENCRYPT_BITS) r) cb)).
    { unfold btm_sec_execute_procedure. fold r.
      rewrite Hname, Hauth, Henc.
      assert (Hb : negb (bool_decide (sec_state r = BTM_SEC_STATE_IDLE))
                   && negb (bool_decide
                              (sec_state r = BTM_SEC_STATE_LE_ENCRYPTING))
                   = false).
      { destruct Hidle as [-> | ->]; reflexivity. }
      rewrite Hb. reflexivity. }
    rewrite Hstep. split; [|split].
    + intros Hm Hk. apply Z.eqb_neq in Hk. by rewrite Hm, Hk.
    + intros Hl Hin Hb. unfold access_secure_service_from_temp_bond.
      unfold is_bond_type_temporary. rewrite Hl, Hin, Hb.
      by case_match.
    + intros Hm Ht. rewrite Hm, Ht. split; [reflexivity|].
      cbn [snd]. unfold upd_dev. cbn [sec_dev_rec set_sec_dev_rec].
      intros r' Hr'. rewrite list_lookup_alter_eq in Hr'.
      destruct (sec_dev_rec cb !! p) as [r0|]; [|discriminate].
      cbn in Hr'. injection Hr' as <-. cbn [security_required set_security_required].
      pose proof (flag_clr16_same (security_required r0)
                    BTM_SEC_AUTH_ENCRYPT_BITS) as Hc.
      unfold BTM_SEC_AUTH_ENCRYPT_BITS in Hc at 2.
      apply flag_lor_false in Hc as [Hc H4].
      apply flag_lor_false in Hc as [Hc H3].
      apply flag_lor_false in Hc as [H1 H2].
      done.
Qed.

(** what one run of the engine can add to the effects: at most one
    command or task, never a notification *)
Lemma execute_procedure_effects (p : nat) (cb : tBTM_CB) :
  exists l,
    effects (snd (btm_sec_execute_procedure p cb)) = effects cb ++ l
    /\ (length l <= 1)%nat
    /\ Forall (fun e => is_notification e = false) l.
Proof.
  unfold btm_sec_execute_procedure.
  assert (Hnil : forall (st : tBTM_STATUS) c, effects c = effects cb ->
    exists l, effects (snd (st, c)) = effects cb ++ l
              /\ (length l <= 1)%nat
              /\ Forall (fun e => is_notification e = false) l).
  { intros st c Ec. exists []. rewrite app_nil_r. cbn. split; [done|].
    split; [lia|constructor]. }
  assert (Hone : forall (st : tBTM_STATUS) c e,
    effects c = effects cb ++ [e] ->
    is_notification e = false ->
    exists l, effects (snd (st, c)) = effects cb ++ l
              /\ (length l <= 1)%nat
              /\ Forall (fun e => is_notification e = false) l).
  { intros st c e Ec He. exists [e]. cbn. split; [done|].
    split; [lia|by repeat constructor]. }
  case_match; [by apply Hnil|].
  case_match.
  { unfold btm_sec_start_get_name. destruct BTM_IsDeviceUp; cbn [negb].
    - eapply Hone; reflexivity.
    - by apply Hnil. }
  case_match.
  { match goal with
    | |- context [btm_sec_wait_and_start_authentication p ?c] =>
      destruct (wait_and_start_authentication_effects p c)
        as (l & El & Hlen & Hl);
      assert (Ee : effects c = effects cb) by (by case_match);
      rewrite Ee in El
    end.
    exists l. cbn [snd]. split; [exact El|]. split; [exact Hlen|].
    eapply Forall_impl; [|exact Hl]. by intros e [_ He]. }
  case_match; [eapply Hone; reflexivity|].
  repeat case_match; by apply Hnil.
Qed.

Lemma restore_mode_effects (cb : tBTM_CB) :
  exists l,
    effects (btm_restore_mode cb) = effects cb ++ l
    /\ Forall (fun e => is_notification e = false) l.
Proof.
  unfold btm_restore_mode.
  destruct (security_mode_changed cb) eqn:H1.
  - destruct (pin_type_changed _) eqn:H2.
    + eexists [_; _]. cbn. rewrite <- app_assoc. split; [reflexivity|].
      by repeat constructor.
    + eexists [_]. cbn. split; [reflexivity|]. by repeat constructor.
  - destruct (pin_type_changed cb) eqn:H2.
    + eexists [_]. cbn. split; [reflexivity|]. by repeat constructor.
    + exists []. rewrite app_nil_r. split; [done|constructor].
Qed.

Lemma restore_mode_frame (cb : tBTM_CB) :
  sec_dev_rec (btm_restore_mode cb) = sec_dev_rec cb
  /\ pairing_state (btm_restore_mode cb) = pairing_state cb
  /\ pairing_flags (btm_restore_mode cb) = pairing_flags cb
  /\ pairing_bda (btm_restore_mode cb) = pairing_bda cb
  /\ api_p_auth_complete_callback (btm_restore_mode cb)
     = api_p_auth_complete_callback cb
  /\ sec_pending_q (btm_restore_mode cb) = sec_pending_q cb.
Proof.
  unfold btm_restore_mode.
  destruct (security_mode_changed cb); cbn;
    destruct (pin_type_changed cb); cbn; done.
Qed.

End Engine.

(** ** BTM_SetEncryption *)

Section SetEncryption.
Context `{Consts : Constants} `{Ext : Externals}.

(** a posted callback adds one [do_in_main_thread] task and touches
    nothing else *)
Lemma post_callback_frame callback addr transport ref_data status
    (cb : tBTM_CB) :
  sec_dev_rec (post_callback callback addr transport ref_data status cb)
  = sec_dev_rec cb
  /\ sec_pending_q (post_callback callback addr transport ref_data status cb)
     = sec_pending_q cb
  /\ new_effects cb (post_callback callback addr transport ref_data status cb)
     = match callback with
       | Some f => [E_do_in_main_thread f addr transport ref_data status]
       | None => []
       end.
Proof.
  destruct callback as [f|]; cbn.
  - split; [done|]. split; [done|]. by apply new_effects_app.
  - split; [done|]. split; [done|]. apply new_effects_refl.
Qed.

(** C10.  Called with an address that has no device record,
    [BTM_SetEncryption] returns BTM_WRONG_MODE and leaves the control
    block as it is: the callback is neither called nor posted.  For a
    known device without a connection on the requested transport (BR/EDR
    or LE) it posts the callback, when one is given, with BTM_WRONG_MODE
    to the main thread, changes nothing else, and returns
    BTM_WRONG_MODE. *)
Theorem SetEncryption_unknown_vs_not_connected (addr : RawAddress)
    (transport : tBT_TRANSPORT) (callback : option tBTM_SEC_CALLBACK)
    (ref_data : RefData) (sec_act : tBTM_BLE_SEC_ACT) (cb : tBTM_CB) :
  (btm_find_dev addr (sec_dev_rec cb) = None ->
   BTM_SetEncryption addr transport callback ref_data sec_act cb
   = (BTM_WRONG_MODE, cb))
  /\ (forall p,
       btm_find_dev addr (sec_dev_rec cb) = Some p ->
       (transport = BT_TRANSPORT_BR_EDR
        /\ hci_handle (dev cb p) = HCI_INVALID_HANDLE)
       \/ (transport = BT_TRANSPORT_LE
           /\ ble_hci_handle (dev cb p) = HCI_INVALID_HANDLE) ->
       let res := BTM_SetEncryption addr transport callback ref_data sec_act cb in
       fst res = BTM_WRONG_MODE
       /\ snd res = post_callback callback addr transport ref_data
                      BTM_WRONG_MODE cb
       /\ new_effects cb (snd res)
          = match callback with
            | Some f =>
              [E_do_in_main_thread f addr transport ref_data BTM_WRONG_MODE]
            | None => []
            end).
Proof.
  split.
  - intros Hnone. unfold BTM_SetEncryption. by rewrite Hnone.
  - intros p Hp Hdown. cbn zeta. unfold BTM_SetEncryption. rewrite Hp.
    assert (He : BTM_SetEncryption_early (dev cb p) transport
                 = Some BTM_WRONG_MODE).
    { destruct Hdown as [[-> Hh]|[-> Hh]]; cbn; by rewrite Hh, Z.eqb_refl. }
    rewrite He. cbn [fst snd]. split; [done|]. split; [done|].
    apply post_callback_frame.
Qed.

(** C4, as amended.  For a known device that is connected on the
    requested transport and already encrypted there, [BTM_SetEncryption]
    returns BTM_SUCCESS, posts the callback (when one is given) with
    BTM_SUCCESS to the main thread and does nothing else: no HCI command,
    no change to any device record or to the queue.  For a known device
    that passes the first switch (connected and not yet encrypted on
    BR/EDR or LE, or any other transport value) while its record holds a
    callback or its [sec_state] is not IDLE, the request is appended to
    the pending queue, nothing else changes, and BTM_CMD_STARTED is
    returned. *)
Theorem SetEncryption_encrypted_or_busy (addr : RawAddress)
    (transport : tBT_TRANSPORT) (callback : option tBTM_SEC_CALLBACK)
    (ref_data : RefData) (sec_act : tBTM_BLE_SEC_ACT) (cb : tBTM_CB) (p : nat) :
  btm_find_dev addr (sec_dev_rec cb) = Some p ->
  let res := BTM_SetEncryption addr transport callback ref_data sec_act cb in
  ((transport = BT_TRANSPORT_BR_EDR
    /\ hci_handle (dev cb p) <> HCI_INVALID_HANDLE
    /\ flag (sec_flags (dev cb p)) BTM_SEC_ENCRYPTED = true)
   \/ (transport = BT_TRANSPORT_LE
       /\ ble_hci_handle (dev cb p) <> HCI_INVALID_HANDLE
       /\ flag (sec_flags (dev cb p)) BTM_SEC_LE_ENCRYPTED = true) ->
   fst res = BTM_SUCCESS
   /\ snd res = post_callback callback addr transport ref_data BTM_SUCCESS cb
   /\ sec_dev_rec (snd res) = sec_dev_rec cb
   /\ sec_pending_q (snd res) = sec_pending_q cb
   /\ new_effects cb (snd res)
      = match callback with
        | Some f => [E_do_in_main_thread f addr transport ref_data BTM_SUCCESS]
        | None => []
        end)
  /\ ((transport = BT_TRANSPORT_BR_EDR ->
       hci_handle (dev cb p) <> HCI_INVALID_HANDLE
       /\ flag (sec_flags (dev cb p)) BTM_SEC_ENCRYPTED = false) ->
      (transport = BT_TRANSPORT_LE ->
       ble_hci_handle (dev cb p) <> HCI_INVALID_HANDLE
       /\ flag (sec_flags (dev cb p)) BTM_SEC_LE_ENCRYPTED = false) ->
      p_callback (dev cb p) <> None
      \/ sec_state (dev cb p) <> BTM_SEC_STATE_IDLE ->
      fst res = BTM_CMD_STARTED
      /\ snd res
         = set_sec_pending_q
             (sec_pending_q cb
              ++ [mk_queue_entry addr 0 false callback ref_data 0 transport
                    sec_act]) cb).
Proof.
  intros Hp. cbn zeta. unfold BTM_SetEncryption. rewrite Hp. split.
  - intros Henc.
    assert (He : BTM_SetEncryption_early (dev cb p) transport
                 = Some BTM_SUCCESS).
    { destruct Henc as [(-> & Hh & Hf)|(-> & Hh & Hf)]; cbn;
        apply Z.eqb_neq in Hh; by rewrite Hh, Hf. }
    rewrite He. cbn [fst snd]. split; [done|]. split; [done|].
    apply post_callback_frame.
  - intros Hbr Hle Hbusy.
    assert (He : BTM_SetEncryption_early (dev cb p) transport = None).
    { destruct transport; cbn; [done| |].
      - destruct Hbr as [Hh Hf]; [done|]. apply Z.eqb_neq in Hh.
        by rewrite Hh, Hf.
      - destruct Hle as [Hh Hf]; [done|]. apply Z.eqb_neq in Hh.
        by rewrite Hh, Hf. }
    rewrite He.
    assert (Hb : bool_decide (p_callback (dev cb p) <> None)
                 || negb (bool_decide
                            (sec_state (dev cb p) = BTM_SEC_STATE_IDLE))
                 = true).
    { destruct Hbusy as [Hc|Hs].
      - by rewrite (bool_decide_eq_true_2 _ Hc).
      - rewrite (bool_decide_eq_false_2 _ Hs). apply orb_true_r. }
    rewrite Hb. cbn [fst snd]. split; reflexivity.
Qed.

End SetEncryption.

(** ** Callback delivery and the pending request queue *)

Section Delivery.
Context `{Consts : Constants} `{Ext : Externals}.

Lemma set_p_callback_None_id (r : tBTM_SEC_DEV_REC) :
  p_callback r = None -> set_p_callback None r = r.
Proof. destruct r. cbn. by intros ->. Qed.

Lemma set_sec_dev_rec_id (cb : tBTM_CB) : set_sec_dev_rec (sec_dev_rec cb) cb = cb.
Proof. by destruct cb. Qed.

Lemma upd_dev_clear_callback_id (p : nat) (cb : tBTM_CB) :
  p_callback (dev cb p) = None -> upd_dev p (set_p_callback None) cb = cb.
Proof.
  intros Hnone. unfold upd_dev.
  enough (alter (set_p_callback None) p (sec_dev_rec cb) = sec_dev_rec cb)
    as -> by apply set_sec_dev_rec_id.
  apply list_eq. intros i. destruct (decide (p = i)) as [<-|Hne].
  - rewrite list_lookup_alter_eq. unfold dev in Hnone.
    destruct (sec_dev_rec cb !! p) as [r|]; [|done]. cbn in *.
    by rewrite set_p_callback_None_id.
  - by rewrite list_lookup_alter_ne.
Qed.

Lemma p_callback_cleared (p : nat) (cb : tBTM_CB) :
  p_callback (dev (upd_dev p (set_p_callback None) cb) p) = None.
Proof.
  rewrite dev_upd_dev. by destruct (sec_dev_rec cb !! p).
Qed.

(** a record without a stored callback: nothing is delivered, the pending
    requests are looked at all the same *)
Lemma dev_rec_cback_event_no_callback (p : nat) (status : tBTM_STATUS)
    (is_le : bool) (cb : tBTM_CB) :
  p_callback (dev cb p) = None ->
  btm_sec_dev_rec_cback_event p status is_le cb = btm_sec_check_pending_reqs cb.
Proof.
  intros Hnone. unfold btm_sec_dev_rec_cback_event.
  by rewrite Hnone, upd_dev_clear_callback_id.
Qed.

(** C2.  [btm_sec_dev_rec_cback_event] runs the stored callback in a
    control block [cb1] in which the record's [p_callback] is already
    NULL, so a call of [btm_sec_dev_rec_cback_event] on the same record
    from inside the callback delivers nothing; whether or not a callback
    was stored, [btm_sec_check_pending_reqs] runs afterwards on what the
    callback left. *)
Theorem dev_rec_cback_event_clears_before_call (p : nat)
    (status : tBTM_STATUS) (is_le : bool) (cb : tBTM_CB) :
  let addr := if is_le then ble_pseudo_addr (dev cb p) else bd_addr (dev cb p) in
  let transport := if is_le then BT_TRANSPORT_LE else BT_TRANSPORT_BR_EDR in
  let cb0 := upd_dev p (set_p_callback None) cb in
  match p_callback (dev cb p) with
  | Some f =>
    let cb1 := emit (E_callback f addr transport (p_ref_data (dev cb p)) status)
                 cb0 in
    p_callback (dev cb1 p) = None
    /\ (forall status' is_le',
          btm_sec_dev_rec_cback_event p status' is_le' cb1
          = btm_sec_check_pending_reqs cb1)
    /\ btm_sec_dev_rec_cback_event p status is_le cb
       = btm_sec_check_pending_reqs
           (callback_body f addr transport (p_ref_data (dev cb p)) status cb1)
  | None =>
    btm_sec_dev_rec_cback_event p status is_le cb
    = btm_sec_check_pending_reqs cb0
  end.
Proof.
  cbn zeta. unfold btm_sec_dev_rec_cback_event.
  destruct (p_callback (dev cb p)) as [f|] eqn:Hf; [|reflexivity].
  assert (Hnone : p_callback
            (dev (emit (E_callback f
                          (if is_le then ble_pseudo_addr (dev cb p)
                           else bd_addr (dev cb p))
                          (if is_le then BT_TRANSPORT_LE
                           else BT_TRANSPORT_BR_EDR)
                          (p_ref_data (dev cb p)) status)
                    (upd_dev p (set_p_callback None) cb)) p) = None).
  { rewrite dev_emit. apply p_callback_cleared. }
  split; [exact Hnone|]. split.
  - intros status' is_le'.
    apply (dev_rec_cback_event_no_callback p status' is_le' _ Hnone).
  - rewrite !(dev_upd_dev_field ble_pseudo_addr), !(dev_upd_dev_field bd_addr),
      !(dev_upd_dev_field p_ref_data) by reflexivity.
    by destruct is_le.
Qed.

(** a callback that re-enters [btm_sec_dev_rec_cback_event] for its own
    record is called once all the same *)
Example dev_rec_cback_event_reentrant_once :
  let cb := test_cb BTM_PAIR_STATE_IDLE
              [test_dev 0x1E 0x00 BTM_SEC_STATE_IDLE true (Some 5%nat)] [] in
  let after := @btm_sec_dev_rec_cback_event aosp_constants reentrant_externals
                 0 BTM_SUCCESS false cb in
  effects after = [E_callback 5%nat 1 BT_TRANSPORT_BR_EDR 7 BTM_SUCCESS]
  /\ p_callback (dev after 0) = None.
Proof. split; reflexivity. Qed.

Lemma drain_pending_reqs_fold (bq : list tBTM_SEC_QUEUE_ENTRY) (cb : tBTM_CB) :
  drain_pending_reqs bq cb
  = fold_left (fun c p_e => resubmit_pending_req p_e c) bq cb.
Proof. revert cb. induction bq as [|e bq IH]; intros cb; cbn; [done|apply IH]. Qed.

Lemma drain_all_links_down (bq : list tBTM_SEC_QUEUE_ENTRY) (cb : tBTM_CB) :
  Forall (fun p_e =>
            BTM_IsAclConnectionUp (e_bd_addr p_e) (e_transport p_e) = false) bq ->
  drain_pending_reqs bq cb = cb.
Proof.
  induction 1 as [|e bq He _ IH]; cbn; [done|].
  unfold resubmit_pending_req. by rewrite He.
Qed.

(** C8.  [btm_sec_check_pending_reqs] does nothing unless the pairing
    state is IDLE.  When it is IDLE the queue is detached and emptied and
    its entries are handled in queue order: an entry whose ACL link is
    down is dropped with the control block untouched (no callback, no
    error), an entry with [psm <> 0] whose link is up goes through
    [btm_sec_mx_access_request], one with [psm = 0] through
    [BTM_SetEncryption].  If every link has dropped the whole queue
    vanishes silently. *)
Theorem check_pending_reqs_drain (cb : tBTM_CB) :
  let cb0 :=
    set_sec_pending_q []
      (if sec_req_pending cb
       then emit (E_l2cu_resubmit_pending_sec_req None)
              (set_sec_req_pending false cb)
       else cb) in
  (pairing_state cb <> BTM_PAIR_STATE_IDLE ->
   btm_sec_check_pending_reqs cb = cb)
  /\ (pairing_state cb = BTM_PAIR_STATE_IDLE ->
      btm_sec_check_pending_reqs cb
      = fold_left (fun c p_e => resubmit_pending_req p_e c)
          (sec_pending_q cb) cb0)
  /\ (forall p_e c,
        BTM_IsAclConnectionUp (e_bd_addr p_e) (e_transport p_e) = false ->
        resubmit_pending_req p_e c = c)
  /\ (forall p_e c,
        BTM_IsAclConnectionUp (e_bd_addr p_e) (e_transport p_e) = true ->
        e_psm p_e <> 0 ->
        resubmit_pending_req p_e c
        = snd (btm_sec_mx_access_request (e_bd_addr p_e) (e_is_orig p_e)
                 (e_rfcomm_security_requirement p_e) (e_p_callback p_e)
                 (e_p_ref_data p_e) c))
  /\ (forall p_e c,
        BTM_IsAclConnectionUp (e_bd_addr p_e) (e_transport p_e) = true ->
        e_psm p_e = 0 ->
        resubmit_pending_req p_e c
        = snd (BTM_SetEncryption (e_bd_addr p_e) (e_transport p_e)
                 (e_p_callback p_e) (e_p_ref_data p_e) (e_sec_act p_e) c))
  /\ (pairing_state cb = BTM_PAIR_STATE_IDLE ->
      Forall (fun p_e =>
                BTM_IsAclConnectionUp (e_bd_addr p_e) (e_transport p_e) = false)
        (sec_pending_q cb) ->
      btm_sec_check_pending_reqs cb = cb0).
Proof.
  cbn zeta. repeat split.
  - intros Hbusy. unfold btm_sec_check_pending_reqs.
    by rewrite (bool_decide_eq_false_2 _ Hbusy).
  - intros Hidle. unfold btm_sec_check_pending_reqs.
    rewrite (bool_decide_eq_true_2 _ Hidle), drain_pending_reqs_fold.
    by destruct (sec_req_pending cb).
  - intros e c Hdown. unfold resubmit_pending_req. by rewrite Hdown.
  - intros e c Hup Hpsm. unfold resubmit_pending_req. rewrite Hup.
    apply Z.eqb_neq in Hpsm. by rewrite Hpsm.
  - intros e c Hup Hpsm. unfold resubmit_pending_req. by rewrite Hup, Hpsm.
  - intros Hidle Hdown. unfold btm_sec_check_pending_reqs.
    rewrite (bool_decide_eq_true_2 _ Hidle).
    destruct (sec_req_pending cb); cbn [sec_pending_q set_sec_req_pending emit
      set_effects]; by rewrite drain_all_links_down.
Qed.

End Delivery.

(** ** Bonding *)

Section Bonding.
Context `{Consts : Constants} `{Ext : Externals}.

(** C3, as amended.  While the pairing state is not IDLE,
    [btm_sec_bond_by_transport] returns BTM_WRONG_MODE and leaves the
    control block as it is: no pairing context, device record or queue is
    touched.  [BTM_SecBond] first asks [BTM_ReadDevInfo] for the device
    type; when the transport (after resolving BT_TRANSPORT_AUTO) does not
    fit the device type it returns BTM_ILLEGAL_ACTION, otherwise
    BTM_WRONG_MODE, and in both cases the control block is the one
    [BTM_ReadDevInfo] returned. *)
Theorem bond_rejected_while_pairing (addr : RawAddress) (addr_type : Z)
    (transport : tBT_TRANSPORT) (device_type pin_len : Z)
    (p_pin : option (list Z)) (cb : tBTM_CB) :
  (pairing_state cb <> BTM_PAIR_STATE_IDLE ->
   btm_sec_bond_by_transport addr addr_type transport pin_len p_pin cb
   = (BTM_WRONG_MODE, cb))
  /\ (pairing_state (BTM_ReadDevInfo addr cb).1.1 <> BTM_PAIR_STATE_IDLE ->
      let transport' :=
        if bool_decide (transport = BT_TRANSPORT_AUTO) then
          if addr_type =? BLE_ADDR_PUBLIC then
            if BTM_UseLeLink addr then BT_TRANSPORT_LE else BT_TRANSPORT_BR_EDR
          else BT_TRANSPORT_LE
        else transport in
      let dev_type := (BTM_ReadDevInfo addr cb).1.2 in
      let mismatch :=
        (bool_decide (transport' = BT_TRANSPORT_LE)
         && (Z.land dev_type BT_DEVICE_TYPE_BLE =? 0))
        || (bool_decide (transport' = BT_TRANSPORT_BR_EDR)
            && (Z.land dev_type BT_DEVICE_TYPE_BREDR =? 0)) in
      BTM_SecBond addr addr_type transport device_type pin_len p_pin cb
      = (if mismatch then BTM_ILLEGAL_ACTION else BTM_WRONG_MODE,
         (BTM_ReadDevInfo addr cb).1.1)).
Proof.
  split.
  - intros Hbusy. unfold btm_sec_bond_by_transport.
    by rewrite (bool_decide_eq_false_2 _ Hbusy).
  - intros Hbusy. cbn zeta. unfold BTM_SecBond.
    destruct (BTM_ReadDevInfo addr cb) as [[cb1 dev_type] addr_type'].
    cbn [fst snd] in *.
    match goal with |- (if ?c then _ else _) = _ => destruct c end;
      [reflexivity|].
    unfold btm_sec_bond_by_transport.
    by rewrite (bool_decide_eq_false_2 _ Hbusy).
Qed.

End Bonding.

(** ** The busy paths of the two access requests *)

Section AccessRequests.
Context `{Consts : Constants} `{Ext : Externals}.

Lemma find_or_alloc_unchecked_found (addr : RawAddress) (cb : tBTM_CB)
    (p : nat) :
  btm_find_or_alloc_dev addr (sec_dev_rec cb) = (sec_dev_rec cb, Some p) ->
  find_or_alloc_unchecked addr cb = (p, cb).
Proof.
  intros H. unfold find_or_alloc_unchecked. rewrite H. cbn.
  by rewrite set_sec_dev_rec_id.
Qed.

Lemma dev_lookup (cb : tBTM_CB) (p : nat) (r : tBTM_SEC_DEV_REC) :
  sec_dev_rec cb !! p = Some r -> dev cb p = r.
Proof. unfold dev. by intros ->. Qed.

Lemma busy_true (cb : tBTM_CB) (r : tBTM_SEC_DEV_REC) :
  p_callback r <> None \/ pairing_state cb <> BTM_PAIR_STATE_IDLE ->
  bool_decide (p_callback r <> None)
  || negb (bool_decide (pairing_state cb = BTM_PAIR_STATE_IDLE)) = true.
Proof.
  intros [Hc|Hs].
  - by rewrite (bool_decide_eq_true_2 _ Hc).
  - rewrite (bool_decide_eq_false_2 _ Hs). apply orb_true_r.
Qed.

(** C9.  On the busy path (the record holds a callback, or the pairing
    state is not IDLE) [btm_sec_mx_access_request] looks at [sec_state]
    after the legacy-mode evaluation: when it is not IDLE the request is
    queued and BTM_CMD_STARTED returned, whatever the evaluation gave;
    when it is IDLE a computed success is delivered to the callback at
    once.  [btm_sec_l2cap_access_req_by_requirement] has no such test: a
    computed success is delivered to the callback at once, whatever
    [sec_state] is (as BTM_FAILED_ON_SECURITY when the temporary-bond
    guard applies).  So for a record that is not idle and for which the
    evaluation succeeds the two disagree. *)
Theorem busy_paths_differ (addr : RawAddress) (is_orig : bool)
    (security_req : Z) (callback : option tBTM_SEC_CALLBACK)
    (ref_data : RefData) (cb : tBTM_CB) (p : nat) (r : tBTM_SEC_DEV_REC) :
  btm_find_or_alloc_dev addr (sec_dev_rec cb) = (sec_dev_rec cb, Some p) ->
  sec_dev_rec cb !! p = Some r ->
  p_callback r <> None \/ pairing_state cb <> BTM_PAIR_STATE_IDLE ->
  let mx :=
    btm_sec_mx_access_request addr is_orig security_req callback ref_data cb in
  let l2cap :=
    btm_sec_l2cap_access_req_by_requirement addr security_req is_orig callback
      ref_data cb in
  let l2cap_cb :=
    upd_dev p (set_hci_handle (BTM_GetHCIConnHandle addr BT_TRANSPORT_BR_EDR))
      cb in
  let rc :=
    if access_secure_service_from_temp_bond r is_orig security_req
    then BTM_FAILED_ON_SECURITY else BTM_SUCCESS in
  let level4_refused :=
    negb is_orig && flag security_req BTM_SEC_MODE4_LEVEL4
    && (negb controller_supports_secure_connections
        || negb (SupportsSecureConnections r)) in
  (sec_state r <> BTM_SEC_STATE_IDLE ->
   mx = (BTM_CMD_STARTED,
         btm_sec_queue_mx_request addr BT_PSM_RFCOMM is_orig security_req
           callback ref_data cb))
  /\ (sec_state r = BTM_SEC_STATE_IDLE ->
      busy_path_success cb r is_orig security_req = true ->
      mx = (rc, call_callback callback addr BT_TRANSPORT_AUTO ref_data rc cb))
  /\ (busy_path_success cb r is_orig security_req = true ->
      level4_refused = false ->
      l2cap = (rc, call_callback callback addr BT_TRANSPORT_BR_EDR ref_data rc
                     l2cap_cb))
  /\ (sec_state r <> BTM_SEC_STATE_IDLE ->
      busy_path_success cb r is_orig security_req = true ->
      level4_refused = false ->
      access_secure_service_from_temp_bond r is_orig security_req = false ->
      fst mx = BTM_CMD_STARTED /\ fst l2cap = BTM_SUCCESS).
Proof.
  intros Hfind Hr Hbusy. cbn zeta.
  assert (Hmx_busy : sec_state r <> BTM_SEC_STATE_IDLE ->
    btm_sec_mx_access_request addr is_orig security_req callback ref_data cb
    = (BTM_CMD_STARTED,
       btm_sec_queue_mx_request addr BT_PSM_RFCOMM is_orig security_req
         callback ref_data cb)).
  { intros Hstate. unfold btm_sec_mx_access_request.
    rewrite (find_or_alloc_unchecked_found _ _ _ Hfind).
    rewrite (dev_lookup _ _ _ Hr), (busy_true _ _ Hbusy).
    rewrite (bool_decide_eq_false_2 _ Hstate). cbn [negb]. reflexivity. }
  assert (Hl2cap : busy_path_success cb r is_orig security_req = true ->
    negb is_orig && flag security_req BTM_SEC_MODE4_LEVEL4
    && (negb controller_supports_secure_connections
        || negb (SupportsSecureConnections r)) = false ->
    btm_sec_l2cap_access_req_by_requirement addr security_req is_orig callback
      ref_data cb
    = (if access_secure_service_from_temp_bond r is_orig security_req
       then BTM_FAILED_ON_SECURITY else BTM_SUCCESS,
       call_callback callback addr BT_TRANSPORT_BR_EDR ref_data
         (if access_secure_service_from_temp_bond r is_orig security_req
          then BTM_FAILED_ON_SECURITY else BTM_SUCCESS)
         (upd_dev p
            (set_hci_handle (BTM_GetHCIConnHandle addr BT_TRANSPORT_BR_EDR))
            cb))).
  { intros Hs Hl4. unfold btm_sec_l2cap_access_req_by_requirement.
    rewrite (find_or_alloc_unchecked_found _ _ _ Hfind).
    set (cb' := upd_dev p _ cb).
    assert (Hd : dev cb' p
                 = set_hci_handle
                     (BTM_GetHCIConnHandle addr BT_TRANSPORT_BR_EDR) r).
    { unfold cb'. rewrite dev_upd_dev_valid by (by eapply lookup_lt_Some).
      by rewrite (dev_lookup _ _ _ Hr). }
    rewrite Hd. clear Hd.
    change (SupportsSecureConnections (set_hci_handle ?h ?x))
      with (SupportsSecureConnections x).
    change (p_callback (set_hci_handle ?h ?x)) with (p_callback x).
    change (sm4 (set_hci_handle ?h ?x)) with (sm4 x).
    change (link_key_type (set_hci_handle ?h ?x)) with (link_key_type x).
    change (btm_dev_authenticated (set_hci_handle ?h ?x))
      with (btm_dev_authenticated x).
    change (btm_dev_encrypted (set_hci_handle ?h ?x))
      with (btm_dev_encrypted x).
    change (btm_dev_16_digit_authenticated (set_hci_handle ?h ?x))
      with (btm_dev_16_digit_authenticated x).
    change (access_secure_service_from_temp_bond (set_hci_handle ?h ?x) ?a ?b)
      with (access_secure_service_from_temp_bond x a b).
    change (btm_sec_is_upgrade_possible (set_hci_handle ?h ?x) ?a cb')
      with (btm_sec_is_upgrade_possible x a cb).
    change (security_mode cb') with (security_mode cb).
    change (pairing_state cb') with (pairing_state cb).
    rewrite Hl4, (busy_true _ _ Hbusy).
    apply andb_true_iff in Hs as [Hs Hmk].
    apply andb_true_iff in Hs as [Hleg Hmet].
    apply negb_true_iff in Hmk.
    unfold legacy_mode in Hleg. rewrite Hleg.
    unfold requirements_met_by_link in Hmet.
    assert (Hok : bool_decide (BTM_SUCCESS = BTM_SUCCESS) = true)
      by reflexivity.
    destruct is_orig.
    - rewrite Hmet, Hok. cbn [andb]. rewrite Hmk, Hok. reflexivity.
    - apply andb_true_iff in Hmet as [Hin Hpin].
      rewrite Hin, Hpin, Hok. cbn [andb]. rewrite Hmk, Hok. reflexivity. }
  assert (Hmx_idle : sec_state r = BTM_SEC_STATE_IDLE ->
    busy_path_success cb r is_orig security_req = true ->
    btm_sec_mx_access_request addr is_orig security_req callback ref_data cb
    = (if access_secure_service_from_temp_bond r is_orig security_req
       then BTM_FAILED_ON_SECURITY else BTM_SUCCESS,
       call_callback callback addr BT_TRANSPORT_AUTO ref_data
         (if access_secure_service_from_temp_bond r is_orig security_req
          then BTM_FAILED_ON_SECURITY else BTM_SUCCESS) cb)).
  { intros Hstate Hs. unfold btm_sec_mx_access_request.
    rewrite (find_or_alloc_unchecked_found _ _ _ Hfind).
    rewrite (dev_lookup _ _ _ Hr), (busy_true _ _ Hbusy).
    apply andb_true_iff in Hs as [Hs Hmk].
    apply andb_true_iff in Hs as [Hleg Hmet].
    apply negb_true_iff in Hmk.
    unfold legacy_mode in Hleg. rewrite Hleg.
    unfold requirements_met_by_link in Hmet.
    rewrite (bool_decide_eq_true_2 _ Hstate). cbn [negb].
    assert (Hok : bool_decide (BTM_SUCCESS = BTM_SUCCESS) = true)
      by reflexivity.
    assert (Hno : bool_decide (BTM_SUCCESS = BTM_CMD_STARTED) = false)
      by reflexivity.
    destruct is_orig.
    - rewrite Hmet, Hok. cbn [andb]. rewrite Hmk, Hno. reflexivity.
    - apply andb_true_iff in Hmet as [Hin Hpin].
      rewrite Hin, Hpin, Hok. cbn [andb]. rewrite Hmk, Hno. reflexivity. }
  split; [exact Hmx_busy|]. split; [exact Hmx_idle|]. split; [exact Hl2cap|].
  intros Hstate Hs Hl4 Htemp.
  rewrite (Hmx_busy Hstate), (Hl2cap Hs Hl4), Htemp. done.
Qed.

End AccessRequests.

(** ** Retry on a missing key *)

Section Retry.
Context `{Consts : Constants} `{Ext : Externals}.

Lemma land_set8_same (x m : Z) : Z.land m 255 = m -> Z.land (set8 x m) m = m.
Proof.
  intros Hm. unfold set8, u8. apply Z.bits_inj'. intros n Hn.
  rewrite !Z.land_spec, Z.lor_spec.
  assert (Hb : Z.testbit m n = Z.testbit m n && Z.testbit 255 n)
    by (by rewrite <- Z.land_spec, Hm).
  destruct (Z.testbit m n); [|by rewrite andb_false_r].
  cbn in Hb. rewrite <- Hb. by rewrite orb_true_r.
Qed.

Lemma dev_retry_start (p : nat) (cb : tBTM_CB) (r : tBTM_SEC_DEV_REC) :
  sec_dev_rec cb !! p = Some r ->
  dev (retry_start p cb) p
  = set_sec_state BTM_SEC_STATE_IDLE
      (set_sec_flags (clr16 (sec_flags r) BTM_SEC_LINK_KEY_KNOWN)
         (set_sm4 (set8 (clr8 (sm4 r) BTM_SM4_RETRY) BTM_SM4_RETRY) r)).
Proof.
  intros Hr. unfold retry_start, dev, upd_dev.
  cbn [sec_dev_rec set_sec_dev_rec].
  destruct (restore_mode_frame
    (set_collision_start_time 0
       (set_sec_dev_rec
          (alter (fun r => set_sm4 (clr8 (sm4 r) BTM_SM4_RETRY) r) p
             (sec_dev_rec cb)) cb))) as (-> & _).
  cbn [sec_dev_rec set_sec_dev_rec set_collision_start_time].
  rewrite !list_lookup_alter_eq, Hr. reflexivity.
Qed.

Lemma dev_same_records (c1 c2 : tBTM_CB) (p : nat) :
  sec_dev_rec c1 = sec_dev_rec c2 -> dev c1 p = dev c2 p.
Proof. unfold dev. by intros ->. Qed.

Lemma auth_retry_not_retried (handle : Z) (status : tHCI_STATUS)
    (cb : tBTM_CB) (p : nat) (r : tBTM_SEC_DEV_REC) :
  btm_find_dev_by_handle handle (sec_dev_rec cb) = Some p ->
  sec_dev_rec cb !! p = Some r ->
  pairing_state cb <> BTM_PAIR_STATE_IDLE
  \/ Z.land (sm4 r) BTM_SM4_RETRY <> 0
  \/ status <> HCI_ERR_KEY_MISSING ->
  btm_sec_auth_retry handle status cb
  = (false, upd_dev p (fun r => set_sm4 (clr8 (sm4 r) BTM_SM4_RETRY) r) cb).
Proof.
  intros Hfind Hr Hno. unfold btm_sec_auth_retry. rewrite Hfind.
  rewrite (dev_lookup _ _ _ Hr).
  change (pairing_state (upd_dev ?q ?f cb)) with (pairing_state cb).
  destruct Hno as [Hp|[Hs|Hk]].
  - by rewrite (bool_decide_eq_false_2 _ Hp).
  - apply Z.eqb_neq in Hs. rewrite Hs. by rewrite andb_false_r.
  - rewrite (bool_decide_eq_false_2 (HCI_ERR_KEY_MISSING = status))
      by congruence.
    by rewrite andb_false_r.
Qed.

(** a failed authentication of a record that was authenticating, outside
    of any pairing: the stored callback gets BTM_ERR_PROCESSING *)
Lemma auth_complete_known_key_missing (old_state : tBTM_PAIRING_STATE)
    (p : nat) (c : tBTM_CB) (r3 : tBTM_SEC_DEV_REC) :
  sec_dev_rec c !! p = Some r3 ->
  sec_state r3 = BTM_SEC_STATE_AUTHENTICATING ->
  pairing_state c = BTM_PAIR_STATE_IDLE ->
  exists cb5,
    btm_sec_auth_complete_known old_state p HCI_ERR_KEY_MISSING c
    = (let cb6 := btm_sec_dev_rec_cback_event p BTM_ERR_PROCESSING false cb5 in
       if flag (pairing_flags cb6) BTM_PAIR_FLAGS_DISC_WHEN_DONE
       then snd (btm_sec_send_hci_disconnect p HCI_ERR_AUTH_FAILURE
                   (hci_handle (dev cb6 p)) cb6)
       else cb6)
    /\ p_callback (dev cb5 p) = p_callback r3
    /\ bd_addr (dev cb5 p) = bd_addr r3
    /\ p_ref_data (dev cb5 p) = p_ref_data r3.
Proof.
  intros Hr Hauth Hidle. unfold btm_sec_auth_complete_known.
  rewrite (dev_lookup _ _ _ Hr), (bool_decide_eq_true_2 _ Hauth).
  change (bool_decide (HCI_ERR_KEY_MISSING = HCI_ERR_COMMAND_DISALLOWED))
    with false.
  cbn [andb].
  change (bool_decide (HCI_ERR_KEY_MISSING = HCI_SUCCESS)) with false.
  cbv iota beta.
  change (pairing_state (upd_dev ?q ?f c)) with (pairing_state c).
  rewrite (bool_decide_eq_true_2 _ Hidle). cbn [negb andb orb].
  change (bool_decide (HCI_ERR_KEY_MISSING = HCI_SUCCESS)) with false.
  cbn [negb].
  set (cb4 := upd_dev p (set_sec_state BTM_SEC_STATE_IDLE) c).
  assert (Hd : dev cb4 p = set_sec_state BTM_SEC_STATE_IDLE r3).
  { unfold cb4. rewrite dev_upd_dev_valid by (by eapply lookup_lt_Some).
    by rewrite (dev_lookup _ _ _ Hr). }
  eexists. split; [reflexivity|].
  match goal with
  | |- context [if ?c then emit _ cb4 else cb4] => destruct c
  end; rewrite ?dev_emit, Hd; done.
Qed.

(** C7, as amended.  For the record [p] of the handle:
    with the pairing state IDLE, the retry bit of [sm4] clear and an SM4
    peer, a key-missing status makes [btm_sec_auth_retry] restart the
    procedure from [retry_start]: retry bit set, BTM_SEC_LINK_KEY_KNOWN
    cleared, [sec_state] IDLE; [btm_sec_auth_complete] then stops there,
    and nothing it has done is a notification.  With the retry bit
    already set (or the pairing state not IDLE) [btm_sec_auth_retry]
    only clears the retry bit and reports "no retry"; for a record that
    was authenticating, with the pairing state IDLE,
    [btm_sec_auth_complete] then delivers BTM_ERR_PROCESSING through
    [btm_sec_dev_rec_cback_event] to the callback the record held. *)
Theorem auth_retry_on_key_missing (handle : Z) (cb : tBTM_CB) (p : nat)
    (r : tBTM_SEC_DEV_REC) :
  btm_find_dev_by_handle handle (sec_dev_rec cb) = Some p ->
  sec_dev_rec cb !! p = Some r ->
  (pairing_state cb = BTM_PAIR_STATE_IDLE ->
   Z.land (sm4 r) BTM_SM4_RETRY = 0 ->
   BTM_SEC_IS_SM4 (clr8 (sm4 r) BTM_SM4_RETRY) = true ->
   btm_sec_auth_retry handle HCI_ERR_KEY_MISSING cb
   = (true, snd (btm_sec_execute_procedure p (retry_start p cb)))
   /\ btm_sec_auth_complete handle HCI_ERR_KEY_MISSING cb
      = snd (btm_sec_execute_procedure p (retry_start p cb))
   /\ sec_state (dev (retry_start p cb) p) = BTM_SEC_STATE_IDLE
   /\ flag (sec_flags (dev (retry_start p cb) p)) BTM_SEC_LINK_KEY_KNOWN
      = false
   /\ (Z.land BTM_SM4_RETRY 255 = BTM_SM4_RETRY ->
       Z.land (sm4 (dev (retry_start p cb) p)) BTM_SM4_RETRY = BTM_SM4_RETRY)
   /\ Forall (fun e => is_notification e = false)
        (new_effects cb (btm_sec_auth_complete handle HCI_ERR_KEY_MISSING cb)))
  /\ (pairing_state cb <> BTM_PAIR_STATE_IDLE
      \/ Z.land (sm4 r) BTM_SM4_RETRY <> 0 ->
      btm_sec_auth_retry handle HCI_ERR_KEY_MISSING cb
      = (false, upd_dev p (fun r => set_sm4 (clr8 (sm4 r) BTM_SM4_RETRY) r) cb))
  /\ (Z.land (sm4 r) BTM_SM4_RETRY <> 0 ->
      sec_state r = BTM_SEC_STATE_AUTHENTICATING ->
      pairing_state cb = BTM_PAIR_STATE_IDLE ->
      exists cb5,
        btm_sec_auth_complete handle HCI_ERR_KEY_MISSING cb
        = (let cb6 :=
             btm_sec_dev_rec_cback_event p BTM_ERR_PROCESSING false cb5 in
           if flag (pairing_flags cb6) BTM_PAIR_FLAGS_DISC_WHEN_DONE
           then snd (btm_sec_send_hci_disconnect p HCI_ERR_AUTH_FAILURE
                       (hci_handle (dev cb6 p)) cb6)
           else cb6)
        /\ p_callback (dev cb5 p) = p_callback r
        /\ bd_addr (dev cb5 p) = bd_addr r
        /\ p_ref_data (dev cb5 p) = p_ref_data r).
Proof.
  intros Hfind Hr. split; [|split].
  - intros Hidle Hfirst Hsm4.
    assert (Hretry : btm_sec_auth_retry handle HCI_ERR_KEY_MISSING cb
      = (true, snd (btm_sec_execute_procedure p (retry_start p cb)))).
    { unfold btm_sec_auth_retry. rewrite Hfind.
      rewrite (dev_lookup _ _ _ Hr).
      change (pairing_state (upd_dev ?q ?f cb)) with (pairing_state cb).
      rewrite (bool_decide_eq_true_2 _ Hidle), Hfirst, Z.eqb_refl.
      rewrite dev_upd_dev_valid by (by eapply lookup_lt_Some).
      rewrite (dev_lookup _ _ _ Hr). cbn [sm4 set_sm4]. rewrite Hsm4.
      reflexivity. }
    assert (Hcomplete : btm_sec_auth_complete handle HCI_ERR_KEY_MISSING cb
        = snd (btm_sec_execute_procedure p (retry_start p cb))).
    { unfold btm_sec_auth_complete.
      change (is_collision HCI_ERR_KEY_MISSING) with false.
      by rewrite Hretry. }
    split; [exact Hretry|]. split; [exact Hcomplete|].
    rewrite (dev_retry_start _ _ _ Hr).
    cbn [sec_state set_sec_state sec_flags set_sec_flags sm4 set_sm4].
    split; [reflexivity|]. split; [apply flag_clr16_same|].
    split; [apply land_set8_same|].
    rewrite Hcomplete.
    destruct (execute_procedure_effects p (retry_start p cb))
      as (l & El & _ & Hl).
    assert (Es : exists l0, effects (retry_start p cb) = effects cb ++ l0
                   /\ Forall (fun e => is_notification e = false) l0).
    { unfold retry_start.
      change (effects (upd_dev ?q ?f ?c)) with (effects c).
      destruct (restore_mode_effects
        (set_collision_start_time 0
           (upd_dev p (fun r => set_sm4 (clr8 (sm4 r) BTM_SM4_RETRY) r) cb)))
        as (l0 & E0 & H0).
      exists l0. split; [exact E0|exact H0]. }
    destruct Es as (l0 & E0 & H0).
    rewrite E0, <- app_assoc in El.
    rewrite (new_effects_app _ _ _ El).
    by apply Forall_app.
  - intros Hno. apply (auth_retry_not_retried _ _ _ _ _ Hfind Hr).
    destruct Hno; auto.
  - intros Hused Hauth Hidle.
    unfold btm_sec_auth_complete.
    change (is_collision HCI_ERR_KEY_MISSING) with false.
    rewrite (auth_retry_not_retried _ HCI_ERR_KEY_MISSING _ _ _ Hfind Hr)
      by auto.
    rewrite Hfind. cbv iota beta.
    set (cb1 := upd_dev p (fun r => set_sm4 (clr8 (sm4 r) BTM_SM4_RETRY) r) cb).
    set (cb2 := btm_restore_mode (set_collision_start_time 0 cb1)).
    destruct (restore_mode_frame (set_collision_start_time 0 cb1))
      as (Hrecs & Hps & _).
    fold cb2 in Hrecs, Hps.
    assert (Hr2 : sec_dev_rec cb2 !! p
                  = Some (set_sm4 (clr8 (sm4 r) BTM_SM4_RETRY) r)).
    { rewrite Hrecs. unfold cb1, upd_dev. cbn.
      by rewrite list_lookup_alter_eq, Hr. }
    assert (Hp2 : pairing_state cb2 = BTM_PAIR_STATE_IDLE).
    { rewrite Hps. exact Hidle. }
    match goal with
    | |- context [btm_sec_auth_complete_known _ _ _ (if ?c then _ else _)] =>
      destruct c
    end.
    + edestruct (auth_complete_known_key_missing (pairing_state cb) p)
        as (cb5 & E & H1 & H2 & H3); [| | |exists cb5; split; [exact E|]].
      * unfold upd_dev, emit. cbn. rewrite list_lookup_alter_eq, Hr2.
        reflexivity.
      * exact Hauth.
      * exact Hp2.
      * rewrite H1, H2, H3. done.
    + edestruct (auth_complete_known_key_missing (pairing_state cb) p)
        as (cb5 & E & H1 & H2 & H3); [exact Hr2| | |exists cb5; split; [exact E|]].
      * exact Hauth.
      * exact Hp2.
      * rewrite H1, H2, H3. done.
Qed.

End Retry.

(** ** LMP transaction collisions *)

Section Collision.
Context `{Consts : Constants} `{Ext : Externals}.

Lemma set_collision_start_time_id (cb : tBTM_CB) :
  set_collision_start_time (collision_start_time cb) cb = cb.
Proof. by destruct cb. Qed.

Lemma execute_procedure_p_collided (p : nat) (cb : tBTM_CB) :
  p_collided_dev_rec (snd (btm_sec_execute_procedure p cb))
  = p_collided_dev_rec cb.
Proof.
  unfold btm_sec_execute_procedure, btm_sec_start_get_name,
    btm_sec_wait_and_start_authentication, btm_sec_auth_timer_timeout.
  repeat case_match; simplify_eq; reflexivity.
Qed.

(** C6, as amended.  An authentication-complete or encryption-change
    event with a transaction-collision status does what
    [btm_sec_auth_collision] does and nothing else; none of its effects
    is a notification.  While less than BTM_SEC_MAX_COLLISION_DELAY
    (5000 ms) have passed since the first collision and a record is found
    for the collision, that record is reset to IDLE if it was
    AUTHENTICATING or ENCRYPTING (and left in its state otherwise), it
    becomes [p_collided_dev_rec], and [sec_collision_timer] is armed for
    BT_1SEC_TIMEOUT_MS; its expiry runs [btm_sec_execute_procedure] on
    the collided record and reports a result other than BTM_CMD_STARTED.
    Once the window has passed nothing is done at all: no timer is
    armed, and every record, the collided one included, keeps the
    [sec_state] it had. *)
Theorem collision_retry_window (handle : Z) (status : tHCI_STATUS)
    (encr_enable : Z) (cb : tBTM_CB) :
  is_collision status = true ->
  let after := btm_sec_auth_collision handle cb in
  btm_sec_auth_complete handle status cb = after
  /\ btm_sec_encrypt_change handle status encr_enable cb = after
  /\ Forall (fun e => is_notification e = false) (new_effects cb after)
  /\ (collision_elapsed cb < BTM_SEC_MAX_COLLISION_DELAY ->
      forall p r,
        collided_dev_rec handle cb = Some p ->
        sec_dev_rec cb !! p = Some r ->
        let r' :=
          if bool_decide (sec_state r = BTM_SEC_STATE_AUTHENTICATING)
             || bool_decide (sec_state r = BTM_SEC_STATE_ENCRYPTING)
          then set_sec_state BTM_SEC_STATE_IDLE r else r in
        sec_dev_rec after = <[p := r']> (sec_dev_rec cb)
        /\ p_collided_dev_rec after = Some p
        /\ new_effects cb after
           = [E_alarm_set_on_mloop sec_collision_timer BT_1SEC_TIMEOUT_MS
                alarm_btm_sec_collision_timeout])
  /\ (BTM_SEC_MAX_COLLISION_DELAY <= collision_elapsed cb ->
      after = collision_noted cb
      /\ sec_dev_rec after = sec_dev_rec cb
      /\ new_effects cb after = [])
  /\ (forall c p,
        p_collided_dev_rec c = Some p ->
        btm_sec_collision_timeout c
        = (let res := btm_sec_execute_procedure p c in
           if bool_decide (fst res = BTM_CMD_STARTED) then snd res
           else btm_sec_dev_rec_cback_event p (fst res) false (snd res))).
Proof.
  intros Hcoll. cbn zeta.
  assert (Hnoted : sec_dev_rec (collision_noted cb) = sec_dev_rec cb
                   /\ effects (collision_noted cb) = effects cb).
  { unfold collision_noted. by case_match. }
  destruct Hnoted as [Hrecs Heff].
  assert (Hin : collision_elapsed cb < BTM_SEC_MAX_COLLISION_DELAY ->
    forall p r, collided_dev_rec handle cb = Some p ->
    sec_dev_rec cb !! p = Some r ->
    btm_sec_auth_collision handle cb
    = emit (E_alarm_set_on_mloop sec_collision_timer BT_1SEC_TIMEOUT_MS
              alarm_btm_sec_collision_timeout)
        (set_p_collided_dev_rec (Some p)
           (if bool_decide (sec_state r = BTM_SEC_STATE_AUTHENTICATING)
               || bool_decide (sec_state r = BTM_SEC_STATE_ENCRYPTING)
            then upd_dev p (set_sec_state BTM_SEC_STATE_IDLE)
                   (collision_noted cb)
            else collision_noted cb))).
  { intros Hlt p r Hp Hr. unfold btm_sec_auth_collision.
    fold (collision_noted cb).
    apply Z.ltb_lt in Hlt. unfold collision_elapsed in Hlt. rewrite Hlt.
    assert (Hc : (if handle =? HCI_INVALID_HANDLE
                  then match btm_sec_find_dev_by_sec_state
                               BTM_SEC_STATE_AUTHENTICATING (collision_noted cb)
                       with
                       | None => btm_sec_find_dev_by_sec_state
                                   BTM_SEC_STATE_ENCRYPTING (collision_noted cb)
                       | Some p => Some p
                       end
                  else btm_find_dev_by_handle handle
                         (sec_dev_rec (collision_noted cb))) = Some p).
    { unfold btm_sec_find_dev_by_sec_state. rewrite Hrecs. exact Hp. }
    rewrite Hc.
    assert (Hd : dev (collision_noted cb) p = r).
    { apply dev_lookup. by rewrite Hrecs. }
    rewrite Hd. reflexivity. }
  assert (Hout : BTM_SEC_MAX_COLLISION_DELAY <= collision_elapsed cb ->
    btm_sec_auth_collision handle cb = collision_noted cb).
  { intros Hge. unfold btm_sec_auth_collision. fold (collision_noted cb).
    apply Z.ltb_ge in Hge. unfold collision_elapsed in Hge. by rewrite Hge. }
  split; [|split; [|split; [|split; [|split]]]].
  - unfold btm_sec_auth_complete. by rewrite Hcoll.
  - unfold btm_sec_encrypt_change. by rewrite Hcoll.
  - unfold btm_sec_auth_collision. fold (collision_noted cb).
    assert (Hnil : forall c, effects c = effects cb ->
              Forall (fun e => is_notification e = false) (new_effects cb c)).
    { intros c Ec. rewrite (new_effects_app cb c []); [constructor|].
      by rewrite app_nil_r. }
    repeat case_match; try (apply Hnil; by rewrite ?Heff);
      (erewrite new_effects_app; [|cbn; rewrite ?Heff; reflexivity]);
      by repeat constructor.
  - intros Hlt p r Hp Hr. rewrite (Hin Hlt p r Hp Hr).
    split; [|split].
    + case_match; cbn; rewrite Hrecs.
      * apply list_eq. intros i. destruct (decide (p = i)) as [<-|Hne].
        -- rewrite list_lookup_alter_eq, Hr.
           by rewrite list_lookup_insert_eq by (by eapply lookup_lt_Some).
        -- by rewrite list_lookup_alter_ne, list_lookup_insert_ne.
      * by rewrite list_insert_id.
    + reflexivity.
    + apply new_effects_app. cbn. case_match; cbn; by rewrite Heff.
  - intros Hge. rewrite (Hout Hge). split; [done|]. split; [done|].
    apply new_effects_app. by rewrite app_nil_r.
  - intros c p Hp. unfold btm_sec_collision_timeout. rewrite Hp.
    pose proof (execute_procedure_p_collided p c) as Hsame.
    destruct (btm_sec_execute_procedure p c) as [st c'].
    cbn [fst snd] in *. rewrite Hsame, Hp.
    by case_bool_decide.
Qed.

End Collision.

(** * The statements at concrete inputs

    The constants are those of the upstream headers, the environment is
    [test_externals]. *)

Lemma execute_procedure_ordering_witness :
  let cb1 := test_cb BTM_PAIR_STATE_IDLE
               [test_dev 0x0A 0x30 BTM_SEC_STATE_IDLE true None] [] in
  let res1 := @btm_sec_execute_procedure aosp_constants (test_externals 0 3)
                0 cb1 in
  let cb2 := test_cb BTM_PAIR_STATE_IDLE
               [test_dev 0x00 0x30 BTM_SEC_STATE_IDLE true None] [] in
  let res2 := @btm_sec_execute_procedure aosp_constants (test_externals 0 3)
                0 cb2 in
  (new_effects cb1 (snd res1) = [E_btsnd_hcic_set_conn_encrypt 1 true]
   /\ @btm_dev_authenticated aosp_constants (dev cb1 0) = true)
  /\ (fst res2 = BTM_CMD_STARTED
      /\ new_effects cb2 (snd res2) = [E_SendRemoteNameRequest 1]).
Proof.
  cbn zeta. split.
  - split; [reflexivity|].
    destruct (@execute_procedure_ordering aosp_constants (test_externals 0 3)
                0 (test_cb BTM_PAIR_STATE_IDLE
                     [test_dev 0x0A 0x30 BTM_SEC_STATE_IDLE true None] []))
      as (Henc & _ & _).
    apply (Henc (E_btsnd_hcic_set_conn_encrypt 1 true)).
    + vm_compute. apply list_elem_of_here.
    + reflexivity.
  - destruct (@execute_procedure_ordering aosp_constants (test_externals 0 3)
                0 (test_cb BTM_PAIR_STATE_IDLE
                     [test_dev 0x00 0x30 BTM_SEC_STATE_IDLE true None] []))
      as (_ & _ & Hname).
    destruct Hname as [_ Hname]; [reflexivity|discriminate|].
    apply Hname; [left; reflexivity|reflexivity].
Defined.

Lemma execute_procedure_outcomes_witness :
  let run := @btm_sec_execute_procedure aosp_constants (test_externals 0 3) 0 in
  let busy := test_cb BTM_PAIR_STATE_IDLE
                [test_dev 0x00 0x30 BTM_SEC_STATE_AUTHENTICATING true None] [] in
  let level4 := test_cb BTM_PAIR_STATE_IDLE
                  [test_dev 0x0E 0x70 BTM_SEC_STATE_IDLE true None] [] in
  let temp := test_cb BTM_PAIR_STATE_IDLE
                [test_dev_temp 0x0E 0x02 BTM_SEC_STATE_IDLE false None] [] in
  let done := test_cb BTM_PAIR_STATE_IDLE
                [test_dev 0x0E 0x30 BTM_SEC_STATE_IDLE true None] [] in
  run busy = (BTM_CMD_STARTED, busy)
  /\ run level4 = (BTM_FAILED_ON_SECURITY, level4)
  /\ run temp = (BTM_FAILED_ON_SECURITY, temp)
  /\ run done
     = (BTM_SUCCESS,
        test_cb BTM_PAIR_STATE_IDLE
          [test_dev 0x0E 0x00 BTM_SEC_STATE_IDLE true None] []).
Proof.
  cbn zeta. split; [|split; [|split]].
  - apply (@execute_procedure_outcomes aosp_constants (test_externals 0 3) 0
             (test_cb BTM_PAIR_STATE_IDLE
                [test_dev 0x00 0x30 BTM_SEC_STATE_AUTHENTICATING true None] []));
      discriminate.
  - destruct (@execute_procedure_outcomes aosp_constants (test_externals 0 3) 0
                (test_cb BTM_PAIR_STATE_IDLE
                   [test_dev 0x0E 0x70 BTM_SEC_STATE_IDLE true None] []))
      as [_ H].
    destruct H as (H & _ & _); [left; reflexivity|reflexivity|].
    apply H; [reflexivity|discriminate].
  - destruct (@execute_procedure_outcomes aosp_constants (test_externals 0 3) 0
                (test_cb BTM_PAIR_STATE_IDLE
                   [test_dev_temp 0x0E 0x02 BTM_SEC_STATE_IDLE false None] []))
      as [_ H].
    destruct H as (_ & H & _); [left; reflexivity|reflexivity|].
    apply H; reflexivity.
  - destruct (@execute_procedure_outcomes aosp_constants (test_externals 0 3) 0
                (test_cb BTM_PAIR_STATE_IDLE
                   [test_dev 0x0E 0x30 BTM_SEC_STATE_IDLE true None] []))
      as [_ H].
    destruct H as (_ & _ & H); [left; reflexivity|reflexivity|].
    destruct H as [H _]; [reflexivity|reflexivity|].
    rewrite H. reflexivity.
Defined.

Lemma SetEncryption_encrypted_or_busy_witness :
  let run := @BTM_SetEncryption aosp_constants (test_externals 0 3) 1
               BT_TRANSPORT_BR_EDR (Some 5%nat) 9 BTM_BLE_SEC_NONE in
  let encrypted := test_cb BTM_PAIR_STATE_IDLE
                     [test_dev 0x0E 0x00 BTM_SEC_STATE_IDLE true None] [] in
  let busy := test_cb BTM_PAIR_STATE_IDLE
                [test_dev 0x0A 0x30 BTM_SEC_STATE_AUTHENTICATING true None] [] in
  (fst (run encrypted) = BTM_SUCCESS
   /\ sec_dev_rec (snd (run encrypted)) = sec_dev_rec encrypted
   /\ new_effects encrypted (snd (run encrypted))
      = [E_do_in_main_thread 5%nat 1 BT_TRANSPORT_BR_EDR 9 BTM_SUCCESS])
  /\ (fst (run busy) = BTM_CMD_STARTED
      /\ sec_pending_q (snd (run busy))
         = [mk_queue_entry 1 0 false (Some 5%nat) 9 0 BT_TRANSPORT_BR_EDR
              BTM_BLE_SEC_NONE]).
Proof.
  cbn zeta. split.
  - destruct (@SetEncryption_encrypted_or_busy aosp_constants
                (test_externals 0 3) 1 BT_TRANSPORT_BR_EDR (Some 5%nat) 9
                BTM_BLE_SEC_NONE
                (test_cb BTM_PAIR_STATE_IDLE
                   [test_dev 0x0E 0x00 BTM_SEC_STATE_IDLE true None] [])
                0%nat eq_refl) as [H _].
    destruct H as (H1 & _ & H3 & _ & H5).
    + left. split; [reflexivity|]. split; [discriminate|reflexivity].
    + split; [exact H1|]. split; [exact H3|exact H5].
  - destruct (@SetEncryption_encrypted_or_busy aosp_constants
                (test_externals 0 3) 1 BT_TRANSPORT_BR_EDR (Some 5%nat) 9
                BTM_BLE_SEC_NONE
                (test_cb BTM_PAIR_STATE_IDLE
                   [test_dev 0x0A 0x30 BTM_SEC_STATE_AUTHENTICATING true None]
                   [])
                0%nat eq_refl) as [_ H].
    destruct H as (H1 & H2).
    + intros _. split; [discriminate|reflexivity].
    + discriminate.
    + right. discriminate.
    + split; [exact H1|]. rewrite H2. reflexivity.
Defined.

(** C4 as stated fails for a device without a connection on the
    requested transport: a record that carries BTM_SEC_ENCRYPTED but has
    no BR/EDR handle gets BTM_WRONG_MODE, not BTM_SUCCESS; and a record
    that is busy (here encrypting over LE) but has no BR/EDR handle gets
    BTM_WRONG_MODE as well, and the request is not queued. *)
Lemma SetEncryption_not_connected_counterexample :
  let run := @BTM_SetEncryption aosp_constants (test_externals 0 3) 2
               BT_TRANSPORT_BR_EDR (Some 5%nat) 9 BTM_BLE_SEC_NONE in
  let flagged := test_cb BTM_PAIR_STATE_IDLE
                   [test_dev_le 0x0004 BTM_SEC_STATE_IDLE None] [] in
  let busy := test_cb BTM_PAIR_STATE_IDLE
                [test_dev_le 0x0000 BTM_SEC_STATE_LE_ENCRYPTING None] [] in
  (@flag (sec_flags (dev flagged 0)) (@BTM_SEC_ENCRYPTED aosp_constants) = true
   /\ fst (run flagged) = BTM_WRONG_MODE
   /\ fst (run flagged) <> BTM_SUCCESS)
  /\ (sec_state (dev busy 0) <> BTM_SEC_STATE_IDLE
      /\ fst (run busy) = BTM_WRONG_MODE
      /\ fst (run busy) <> BTM_CMD_STARTED
      /\ sec_pending_q (snd (run busy)) = []).
Proof.
  cbn zeta. split.
  - split; [reflexivity|]. split; [reflexivity|discriminate].
  - split; [discriminate|]. split; [reflexivity|].
    split; [discriminate|reflexivity].
Qed.

Lemma SetEncryption_unknown_vs_not_connected_witness :
  let run := @BTM_SetEncryption aosp_constants (test_externals 0 3) in
  let cb := test_cb BTM_PAIR_STATE_IDLE
              [test_dev_le 0x0000 BTM_SEC_STATE_IDLE None] [] in
  run 9 BT_TRANSPORT_BR_EDR (Some 5%nat) 9 BTM_BLE_SEC_NONE cb
  = (BTM_WRONG_MODE, cb)
  /\ (fst (run 2 BT_TRANSPORT_BR_EDR (Some 5%nat) 9 BTM_BLE_SEC_NONE cb)
      = BTM_WRONG_MODE
      /\ new_effects cb
           (snd (run 2 BT_TRANSPORT_BR_EDR (Some 5%nat) 9 BTM_BLE_SEC_NONE cb))
         = [E_do_in_main_thread 5%nat 2 BT_TRANSPORT_BR_EDR 9 BTM_WRONG_MODE]).
Proof.
  cbn zeta. split.
  - by apply (@SetEncryption_unknown_vs_not_connected aosp_constants
                (test_externals 0 3)).
  - destruct (@SetEncryption_unknown_vs_not_connected aosp_constants
                (test_externals 0 3) 2 BT_TRANSPORT_BR_EDR (Some 5%nat) 9
                BTM_BLE_SEC_NONE
                (test_cb BTM_PAIR_STATE_IDLE
                   [test_dev_le 0x0000 BTM_SEC_STATE_IDLE None] []))
      as [_ H].
    destruct (H 0%nat eq_refl) as (H1 & _ & H3).
    + left. split; reflexivity.
    + split; [exact H1|exact H3].
Defined.

Lemma bond_rejected_while_pairing_witness :
  let cb := test_cb BTM_PAIR_STATE_WAIT_PIN_REQ
              [test_dev 0x00 0x00 BTM_SEC_STATE_IDLE true None] [] in
  @btm_sec_bond_by_transport aosp_constants (test_externals 0 3) 1 0
    BT_TRANSPORT_BR_EDR 0 None cb = (BTM_WRONG_MODE, cb)
  /\ @BTM_SecBond aosp_constants (test_externals 0 3) 1 0 BT_TRANSPORT_BR_EDR
       1 0 None cb = (BTM_WRONG_MODE, cb).
Proof.
  cbn zeta. split.
  - by apply (@bond_rejected_while_pairing aosp_constants (test_externals 0 3)
                1 0 BT_TRANSPORT_BR_EDR 1 0 None).
  - destruct (@bond_rejected_while_pairing aosp_constants (test_externals 0 3)
                1 0 BT_TRANSPORT_BR_EDR 1 0 None
                (test_cb BTM_PAIR_STATE_WAIT_PIN_REQ
                   [test_dev 0x00 0x00 BTM_SEC_STATE_IDLE true None] []))
      as [_ H].
    rewrite H by discriminate. reflexivity.
Defined.

(** C3 as stated fails for [BTM_SecBond] when the transport does not fit
    the device type: with a pairing in WAIT_PIN_REQ, a request to bond
    over LE with a peer that [BTM_ReadDevInfo] reports as BR/EDR only is
    answered BTM_ILLEGAL_ACTION, not BTM_WRONG_MODE. *)
Lemma SecBond_illegal_action_counterexample :
  let cb := test_cb BTM_PAIR_STATE_WAIT_PIN_REQ
              [test_dev 0x00 0x00 BTM_SEC_STATE_IDLE true None] [] in
  let res := @BTM_SecBond aosp_constants (test_externals 0 1) 1 0
               BT_TRANSPORT_LE 1 0 None cb in
  pairing_state cb <> BTM_PAIR_STATE_IDLE
  /\ res = (BTM_ILLEGAL_ACTION, cb)
  /\ fst res <> BTM_WRONG_MODE.
Proof.
  cbn zeta. split; [discriminate|]. split; [reflexivity|discriminate].
Qed.

Lemma collision_retry_window_witness :
  let status := HCI_ERR_LMP_ERR_TRANS_COLLISION in
  let cb := test_cb BTM_PAIR_STATE_IDLE
              [test_dev 0x08 0x30 BTM_SEC_STATE_AUTHENTICATING true (Some 5%nat)]
              [] in
  let early := @btm_sec_auth_complete aosp_constants (test_externals 100 3) 1
                 status cb in
  let late := @btm_sec_encrypt_change aosp_constants (test_externals 7000 3) 1
                status 1 (set_collision_start_time 1000 cb) in
  (sec_dev_rec early
   = [test_dev 0x08 0x30 BTM_SEC_STATE_IDLE true (Some 5%nat)]
   /\ p_collided_dev_rec early = Some 0%nat
   /\ new_effects cb early
      = [E_alarm_set_on_mloop sec_collision_timer 1000
           alarm_btm_sec_collision_timeout])
  /\ (late = set_collision_start_time 1000 cb).
Proof.
  cbn zeta. split.
  - destruct (@collision_retry_window aosp_constants (test_externals 100 3) 1
                HCI_ERR_LMP_ERR_TRANS_COLLISION 1
                (test_cb BTM_PAIR_STATE_IDLE
                   [test_dev 0x08 0x30 BTM_SEC_STATE_AUTHENTICATING true
                      (Some 5%nat)] []) eq_refl)
      as (E1 & _ & _ & Hin & _).
    rewrite E1.
    destruct (Hin eq_refl 0%nat
                (test_dev 0x08 0x30 BTM_SEC_STATE_AUTHENTICATING true
                   (Some 5%nat)) eq_refl eq_refl) as (H1 & H2 & H3).
    split; [rewrite H1; reflexivity|]. split; [exact H2|exact H3].
  - destruct (@collision_retry_window aosp_constants (test_externals 7000 3) 1
                HCI_ERR_LMP_ERR_TRANS_COLLISION 1
                (set_collision_start_time 1000
                   (test_cb BTM_PAIR_STATE_IDLE
                      [test_dev 0x08 0x30 BTM_SEC_STATE_AUTHENTICATING true
                         (Some 5%nat)] [])) eq_refl)
      as (_ & E2 & _ & _ & Hout & _).
    rewrite E2.
    destruct Hout as (H1 & _); [vm_compute; discriminate|].
    rewrite H1. reflexivity.
Defined.

(** C6 as stated fails once the collision window has passed: the first
    collision was noted at 1000 ms, the clock reads 7000 ms, and the
    record that was AUTHENTICATING is still AUTHENTICATING after the
    event, not IDLE; no timer is armed.  Inside the window it fails for
    a collision on an LE link: the record stays LE_ENCRYPTING while the
    timer is armed. *)
Lemma collision_window_elapsed_counterexample :
  let status := HCI_ERR_LMP_ERR_TRANS_COLLISION in
  let cb := set_collision_start_time 1000
              (test_cb BTM_PAIR_STATE_IDLE
                 [test_dev 0x08 0x30 BTM_SEC_STATE_AUTHENTICATING true
                    (Some 5%nat)] []) in
  let after := @btm_sec_auth_complete aosp_constants (test_externals 7000 3) 1
                 status cb in
  let cb_le := test_cb BTM_PAIR_STATE_IDLE
                 [test_dev_le 0x00 BTM_SEC_STATE_LE_ENCRYPTING (Some 5%nat)]
                 [] in
  let after_le := @btm_sec_encrypt_change aosp_constants (test_externals 100 3)
                    2 status 1 cb_le in
  (sec_state (dev after 0) = BTM_SEC_STATE_AUTHENTICATING
   /\ sec_state (dev after 0) <> BTM_SEC_STATE_IDLE
   /\ new_effects cb after = [])
  /\ (sec_state (dev after_le 0) = BTM_SEC_STATE_LE_ENCRYPTING
      /\ sec_state (dev after_le 0) <> BTM_SEC_STATE_IDLE
      /\ new_effects cb_le after_le
         = [E_alarm_set_on_mloop sec_collision_timer 1000
              alarm_btm_sec_collision_timeout]).
Proof.
  cbn zeta. split.
  - split; [reflexivity|]. split; [discriminate|reflexivity].
  - split; [reflexivity|]. split; [discriminate|reflexivity].
Qed.

Lemma auth_retry_on_key_missing_witness :
  let first := test_cb BTM_PAIR_STATE_IDLE
                 [test_dev 0x18 0x30 BTM_SEC_STATE_AUTHENTICATING true
                    (Some 5%nat)] [] in
  let second := test_cb BTM_PAIR_STATE_IDLE
                  [mk_dev_rec 1 1 [0; 0; 0] 1 0xFFFF 0x08 0x30 0 0 0 0 0x13 0
                     0 BTM_SEC_STATE_AUTHENTICATING HCI_SUCCESS true
                     BOND_TYPE_PERSISTENT true false 0 (Some 5%nat) 7] [] in
  (fst (@btm_sec_auth_retry aosp_constants (test_externals 0 3) 1
          HCI_ERR_KEY_MISSING first) = true
   /\ sec_dev_rec (@btm_sec_auth_complete aosp_constants (test_externals 0 3) 1
                     HCI_ERR_KEY_MISSING first)
      = [mk_dev_rec 1 1 [0; 0; 0] 1 0xFFFF 0x08 0x30 0 0 0 0 0x13 0 0
           BTM_SEC_STATE_IDLE HCI_SUCCESS true BOND_TYPE_PERSISTENT true false
           0 (Some 5%nat) 7]
   /\ new_effects first
        (@btm_sec_auth_complete aosp_constants (test_externals 0 3) 1
           HCI_ERR_KEY_MISSING first)
      = [E_do_in_main_thread_delayed_auth_timer 1 0])
  /\ (fst (@btm_sec_auth_retry aosp_constants (test_externals 0 3) 1
             HCI_ERR_KEY_MISSING second) = false
      /\ new_effects second
           (@btm_sec_auth_complete aosp_constants (test_externals 0 3) 1
              HCI_ERR_KEY_MISSING second)
         = [E_callback 5%nat 1 BT_TRANSPORT_BR_EDR 7 BTM_ERR_PROCESSING]).
Proof.
  cbn zeta. split.
  - destruct (@auth_retry_on_key_missing aosp_constants (test_externals 0 3) 1
                (test_cb BTM_PAIR_STATE_IDLE
                   [test_dev 0x18 0x30 BTM_SEC_STATE_AUTHENTICATING true
                      (Some 5%nat)] [])
                0%nat _ eq_refl eq_refl) as (H & _ & _).
    destruct (H eq_refl eq_refl eq_refl) as (H1 & H2 & _).
    rewrite H1, H2. split; [reflexivity|]. split; reflexivity.
  - destruct (@auth_retry_on_key_missing aosp_constants (test_externals 0 3) 1
                (test_cb BTM_PAIR_STATE_IDLE
                   [mk_dev_rec 1 1 [0; 0; 0] 1 0xFFFF 0x08 0x30 0 0 0 0 0x13 0
                      0 BTM_SEC_STATE_AUTHENTICATING HCI_SUCCESS true
                      BOND_TYPE_PERSISTENT true false 0 (Some 5%nat) 7] [])
                0%nat _ eq_refl eq_refl) as (_ & H & _).
    rewrite H by (right; discriminate). split; reflexivity.
Defined.

(** C7 as stated fails while a pairing is in progress: key missing, an
    SM4 peer, the retry bit clear, and yet no retry: [btm_sec_auth_retry]
    answers false and the record stays as it was, still AUTHENTICATING.
    And a key-missing failure that finds the retry bit set is not
    reported to anyone when the record was not authenticating and no
    pairing is in progress: the event leaves no effect at all. *)
Lemma auth_retry_while_pairing_counterexample :
  let cb := test_cb BTM_PAIR_STATE_WAIT_AUTH_COMPLETE
              [test_dev 0x18 0x30 BTM_SEC_STATE_AUTHENTICATING true
                 (Some 5%nat)] [] in
  let res := @btm_sec_auth_retry aosp_constants (test_externals 0 3) 1
               HCI_ERR_KEY_MISSING cb in
  let used := test_cb BTM_PAIR_STATE_IDLE
                [mk_dev_rec 1 1 [0; 0; 0] 1 0xFFFF 0x08 0x30 0 0 0 0 0x13 0 0
                   BTM_SEC_STATE_IDLE HCI_SUCCESS true BOND_TYPE_PERSISTENT
                   true false 0 (Some 5%nat) 7] [] in
  (@BTM_SEC_IS_SM4 aosp_constants (sm4 (dev cb 0)) = true
   /\ Z.land (sm4 (dev cb 0)) (@BTM_SM4_RETRY aosp_constants) = 0
   /\ res = (false, cb)
   /\ fst res <> true)
  /\ (Z.land (sm4 (dev used 0)) (@BTM_SM4_RETRY aosp_constants) <> 0
      /\ effects (@btm_sec_auth_complete aosp_constants (test_externals 0 3) 1
                    HCI_ERR_KEY_MISSING used) = []).
Proof.
  cbn zeta. split.
  - split; [reflexivity|]. split; [reflexivity|].
    split; [reflexivity|discriminate].
  - split; [discriminate|reflexivity].
Qed.

Lemma check_pending_reqs_drain_witness :
  let dropped := mk_queue_entry 0 3 true (Some 4%nat) 8 0x30
                   BT_TRANSPORT_BR_EDR BTM_BLE_SEC_NONE in
  let mux := mk_queue_entry 1 3 true (Some 5%nat) 9 0x30 BT_TRANSPORT_BR_EDR
               BTM_BLE_SEC_NONE in
  let recs := [test_dev 0x1E 0x00 BTM_SEC_STATE_IDLE true None] in
  let run := @btm_sec_check_pending_reqs aosp_constants (test_externals 0 3) in
  run (test_cb BTM_PAIR_STATE_WAIT_PIN_REQ recs [dropped; mux])
  = test_cb BTM_PAIR_STATE_WAIT_PIN_REQ recs [dropped; mux]
  /\ run (test_cb BTM_PAIR_STATE_IDLE recs [dropped])
     = test_cb BTM_PAIR_STATE_IDLE recs []
  /\ new_effects (test_cb BTM_PAIR_STATE_IDLE recs [dropped; mux])
       (run (test_cb BTM_PAIR_STATE_IDLE recs [dropped; mux]))
     = [E_callback 5%nat 1 BT_TRANSPORT_AUTO 9 BTM_SUCCESS].
Proof.
  cbn zeta. split; [|split].
  - apply (@check_pending_reqs_drain aosp_constants (test_externals 0 3)
             (test_cb BTM_PAIR_STATE_WAIT_PIN_REQ
                [test_dev 0x1E 0x00 BTM_SEC_STATE_IDLE true None]
                [mk_queue_entry 0 3 true (Some 4%nat) 8 0x30
                   BT_TRANSPORT_BR_EDR BTM_BLE_SEC_NONE;
                 mk_queue_entry 1 3 true (Some 5%nat) 9 0x30
                   BT_TRANSPORT_BR_EDR BTM_BLE_SEC_NONE])).
    discriminate.
  - destruct (@check_pending_reqs_drain aosp_constants (test_externals 0 3)
                (test_cb BTM_PAIR_STATE_IDLE
                   [test_dev 0x1E 0x00 BTM_SEC_STATE_IDLE true None]
                   [mk_queue_entry 0 3 true (Some 4%nat) 8 0x30
                      BT_TRANSPORT_BR_EDR BTM_BLE_SEC_NONE]))
      as (_ & _ & _ & _ & _ & H).
    rewrite H; [reflexivity|reflexivity|].
    repeat constructor.
  - destruct (@check_pending_reqs_drain aosp_constants (test_externals 0 3)
                (test_cb BTM_PAIR_STATE_IDLE
                   [test_dev 0x1E 0x00 BTM_SEC_STATE_IDLE true None]
                   [mk_queue_entry 0 3 true (Some 4%nat) 8 0x30
                      BT_TRANSPORT_BR_EDR BTM_BLE_SEC_NONE;
                    mk_queue_entry 1 3 true (Some 5%nat) 9 0x30
                      BT_TRANSPORT_BR_EDR BTM_BLE_SEC_NONE]))
      as (_ & H & _).
    rewrite H by reflexivity. reflexivity.
Defined.

Lemma busy_paths_differ_witness :
  let cb := test_cb BTM_PAIR_STATE_IDLE
              [test_dev 0x1E 0x30 BTM_SEC_STATE_AUTHENTICATING true
                 (Some 4%nat)] [] in
  let mx := @btm_sec_mx_access_request aosp_constants (test_externals 0 3) 1
              true 0x30 (Some 5%nat) 9 cb in
  let l2cap := @btm_sec_l2cap_access_req_by_requirement aosp_constants
                 (test_externals 0 3) 1 0x30 true (Some 5%nat) 9 cb in
  (fst mx = BTM_CMD_STARTED
   /\ sec_pending_q (snd mx)
      = [mk_queue_entry 1 3 true (Some 5%nat) 9 0x30 BT_TRANSPORT_BR_EDR
           BTM_BLE_SEC_NONE]
   /\ new_effects cb (snd mx) = [])
  /\ (fst l2cap = BTM_SUCCESS
      /\ sec_pending_q (snd l2cap) = []
      /\ new_effects cb (snd l2cap)
         = [E_callback 5%nat 1 BT_TRANSPORT_BR_EDR 9 BTM_SUCCESS]).
Proof.
  cbn zeta.
  destruct (@busy_paths_differ aosp_constants (test_externals 0 3) 1 true 0x30
              (Some 5%nat) 9
              (test_cb BTM_PAIR_STATE_IDLE
                 [test_dev 0x1E 0x30 BTM_SEC_STATE_AUTHENTICATING true
                    (Some 4%nat)] [])
              0%nat _ eq_refl eq_refl) as (Hmx & _ & Hl2cap & _).
  { left. discriminate. }
  split.
  - rewrite Hmx by discriminate. split; [reflexivity|]. split; reflexivity.
  - rewrite Hl2cap by reflexivity. split; [reflexivity|]. split; reflexivity.
Defined.
(** * Properties of the further functions *)

(** ** Bit masks *)

Section Masks.
Context `{Consts : Constants} `{Ext : Externals}.

Lemma u16_mask16 (m : Z) : mask16 m -> u16 m = m.
Proof.
  intros [H0 H1]. unfold u16. change 65535 with (Z.ones 16).
  rewrite Z.land_ones by lia. apply Z.mod_small. lia.
Qed.

Lemma u8_mask8 (m : Z) : mask8 m -> u8 m = m.
Proof.
  intros [H0 H1]. unfold u8. change 255 with (Z.ones 8).
  rewrite Z.land_ones by lia. apply Z.mod_small. lia.
Qed.

Lemma land_u16_l (x m : Z) : mask16 m -> Z.land (u16 x) m = Z.land x m.
Proof.
  intros Hm. unfold u16. rewrite <- Z.land_assoc.
  rewrite (Z.land_comm 65535 m). fold (u16 m). by rewrite u16_mask16.
Qed.

Lemma land_u8_l (x m : Z) : mask8 m -> Z.land (u8 x) m = Z.land x m.
Proof.
  intros Hm. unfold u8. rewrite <- Z.land_assoc.
  rewrite (Z.land_comm 255 m). fold (u8 m). by rewrite u8_mask8.
Qed.

Lemma flag_u16 (x m : Z) : mask16 m -> flag (u16 x) m = flag x m.
Proof. intros Hm. unfold flag. by rewrite land_u16_l. Qed.

Lemma flag_same (m : Z) : m <> 0 -> flag m m = true.
Proof. intros Hm. apply flag_true. by rewrite Z.land_diag. Qed.

(** a bit that has been set is set *)
Lemma flag_set16_same (x m : Z) : mask16 m -> flag (set16 x m) m = true.
Proof.
  intros Hm. unfold set16. rewrite flag_u16 by exact Hm.
  apply flag_true. rewrite Z.land_lor_distr_l, Z.land_diag.
  intros H. apply Z.lor_eq_0_iff in H as [_ H]. destruct Hm. lia.
Qed.


(** a bit that was set stays set when others are set *)
Lemma flag_set16_keep (x a m : Z) :
  mask16 m -> flag x m = true -> flag (set16 x a) m = true.
Proof.
  intros Hm Hx. unfold set16. rewrite flag_u16 by exact Hm.
  apply flag_true. apply flag_true in Hx. rewrite Z.land_lor_distr_l.
  intros H. apply Z.lor_eq_0_iff in H as [H _]. done.
Qed.

(** clearing bits sets none *)
Lemma flag_clr16_false (x a m : Z) :
  flag x m = false -> flag (clr16 x a) m = false.
Proof.
  rewrite !flag_false. intros Hx. unfold clr16, u16.
  apply Z.bits_inj'. intros n Hn.
  apply (f_equal (fun z => Z.testbit z n)) in Hx.
  rewrite Z.land_spec, Z.bits_0 in Hx.
  rewrite !Z.land_spec, Z.bits_0.
  destruct (Z.testbit x n), (Z.testbit m n); cbn in *; try done.
  by rewrite !andb_false_r.
Qed.

(** the bits of a disjunction that is cleared are clear *)
Lemma flag_clr16_lor_l (x a b : Z) : flag (clr16 x (Z.lor a b)) a = false.
Proof.
  pose proof (flag_clr16_same x (Z.lor a b)) as H.
  by apply flag_lor_false in H as [H _].
Qed.

Lemma flag_clr16_lor_r (x a b : Z) : flag (clr16 x (Z.lor a b)) b = false.
Proof.
  pose proof (flag_clr16_same x (Z.lor a b)) as H.
  by apply flag_lor_false in H as [_ H].
Qed.

Lemma flag_set16 (x a m : Z) :
  mask16 m -> flag (set16 x a) m = flag x m || flag a m.
Proof.
  intros Hm. unfold set16. rewrite flag_u16 by exact Hm.
  unfold flag. rewrite Z.land_lor_distr_l.
  destruct (Z.land x m =? 0) eqn:E1, (Z.land a m =? 0) eqn:E2; cbn;
    [apply negb_false_iff|apply negb_true_iff..]; rewrite ?Z.eqb_eq, ?Z.eqb_neq;
    rewrite Z.lor_eq_0_iff; lia.
Qed.

Lemma flag_lor (x a m : Z) : flag (Z.lor x a) m = flag x m || flag a m.
Proof.
  unfold flag. rewrite Z.land_lor_distr_l.
  destruct (Z.land x m =? 0) eqn:E1, (Z.land a m =? 0) eqn:E2; cbn;
    [apply negb_false_iff|apply negb_true_iff..]; rewrite ?Z.eqb_eq, ?Z.eqb_neq;
    rewrite Z.lor_eq_0_iff; lia.
Qed.

(** clearing bits leaves the bits outside of the mask as they are *)
Lemma flag_clr16_other (x a m : Z) :
  mask16 m -> Z.land a m = 0 -> flag (clr16 x a) m = flag x m.
Proof.
  intros Hm Hd. unfold clr16. rewrite flag_u16 by exact Hm.
  unfold flag. f_equal. f_equal. apply Z.bits_inj'. intros n Hn.
  apply (f_equal (fun z => Z.testbit z n)) in Hd.
  rewrite Z.land_spec, Z.bits_0 in Hd.
  rewrite !Z.land_spec, Z.lnot_spec by exact Hn.
  destruct (Z.testbit a n), (Z.testbit m n); cbn in *; try done.
  all: by rewrite ?andb_true_r, ?andb_false_r.
Qed.

Lemma land_lor_0 (a b m : Z) :
  Z.land (Z.lor a b) m = 0 <-> Z.land a m = 0 /\ Z.land b m = 0.
Proof. by rewrite Z.land_lor_distr_l, Z.lor_eq_0_iff. Qed.

Lemma distinct_masks16_cons (m : Z) (l : list Z) :
  distinct_masks16 (m :: l) = true ->
  mask16 m /\ Forall (fun a => Z.land m a = 0) l /\ distinct_masks16 l = true.
Proof.
  cbn. rewrite !andb_true_iff. intros [[[H1 H2] H3] H4].
  split; [unfold mask16; lia|]. split; [|done].
  apply list.Forall_forall. intros a Ha.
  rewrite forallb_forall in H3. apply Z.eqb_eq, H3.
  by apply list_elem_of_In.
Qed.

End Masks.

(** ** The service security records *)

Section ServiceRecords.
Context `{Consts : Constants} `{Ext : Externals}.
Context `{MConsts : MoreConstants} `{MExt : MoreExternals}.

Lemma set_sec_serv_rec_id (x : tBTM_CB_EXT) :
  set_sec_serv_rec (sec_serv_rec x) x = x.
Proof. by destruct x. Qed.

Lemma set_base_cb_id (x : tBTM_CB_EXT) : set_base_cb (base_cb x) x = x.
Proof. by destruct x. Qed.

(** once a record is allocated the loop keeps it so *)
Lemma SetSecurityLevel_loop_allocated (p_name : option (list Z))
    (service_id psm mx_proto_id : Z) (recs : list tBTM_SEC_SERV_REC) :
  forall index fu recs' brk alloc' fu',
    SetSecurityLevel_loop p_name service_id psm mx_proto_id recs index true fu
    = (recs', brk, alloc', fu') ->
    alloc' = true /\ (brk = None -> fu' = fu /\ recs' = recs).
Proof.
  induction recs as [|s recs IH]; intros index fu recs' brk alloc' fu' E;
    cbn in E.
  - by injection E as <- <- <- <-.
  - destruct (flag (s_security_flags s) BTM_SEC_IN_USE).
    + destruct (serv_rec_is_for _ _ _ _ s).
      * by injection E as <- <- <- <-.
      * destruct (SetSecurityLevel_loop _ _ _ _ recs (S index) true fu)
          as [[[recs1 brk1] alloc1] fu1] eqn:E1.
        injection E as <- <- <- <-.
        destruct (IH _ _ _ _ _ _ E1) as [-> H]. split; [done|].
        intros Hb. by destruct (H Hb) as [-> ->].
    + cbn [negb] in E.
      destruct (SetSecurityLevel_loop _ _ _ _ recs (S index) true fu)
        as [[[recs1 brk1] alloc1] fu1] eqn:E1.
      injection E as <- <- <- <-.
      destruct (IH _ _ _ _ _ _ E1) as [-> H]. split; [done|].
      intros Hb. by destruct (H Hb) as [-> ->].
Qed.

(** the loop allocates nothing exactly when every record is in use for
    another service, and then it changes nothing *)
Lemma SetSecurityLevel_loop_none (p_name : option (list Z))
    (service_id psm mx_proto_id : Z) (recs : list tBTM_SEC_SERV_REC) :
  forall index fu,
    (exists recs' brk fu',
       SetSecurityLevel_loop p_name service_id psm mx_proto_id recs index
         false fu = (recs', brk, false, fu'))
    <-> Forall (fun s => flag (s_security_flags s) BTM_SEC_IN_USE = true
                         /\ serv_rec_is_for p_name service_id psm mx_proto_id s
                            = false) recs.
Proof.
  induction recs as [|s recs IH]; intros index fu; cbn.
  - split; [constructor|]. intros _. by eexists _, _, _.
  - destruct (flag (s_security_flags s) BTM_SEC_IN_USE) eqn:Eu.
    + destruct (serv_rec_is_for _ _ _ _ s) eqn:Em.
      * split.
        -- intros (recs' & brk & fu' & E). discriminate.
        -- intros H. apply list.Forall_cons in H as [[_ H] _]. congruence.
      * destruct (SetSecurityLevel_loop _ _ _ _ recs (S index) false fu)
          as [[[recs1 brk1] alloc1] fu1] eqn:E1.
        split.
        -- intros (recs' & brk & fu' & E). injection E as <- <- -> <-.
           constructor; [done|]. apply (IH (S index) fu).
           rewrite E1. by eexists _, _, _.
        -- intros H. apply list.Forall_cons in H as [_ H].
           apply (IH (S index) fu) in H as (recs' & brk & fu' & E).
           rewrite E1 in E. injection E as <- <- -> <-. by eexists _, _, _.
    + cbn [negb].
      destruct (SetSecurityLevel_loop _ _ _ _ recs (S index) true _)
        as [[[recs1 brk1] alloc1] fu1] eqn:E1.
      destruct (SetSecurityLevel_loop_allocated _ _ _ _ _ _ _ _ _ _ _ E1)
        as [-> _].
      split.
      * intros (recs' & brk & fu' & E). discriminate.
      * intros H. apply list.Forall_cons in H as [[H _] _]. congruence.
Qed.

Lemma SetSecurityLevel_loop_none_same (p_name : option (list Z))
    (service_id psm mx_proto_id : Z) (recs : list tBTM_SEC_SERV_REC) :
  forall index fu recs' brk fu',
    SetSecurityLevel_loop p_name service_id psm mx_proto_id recs index false fu
    = (recs', brk, false, fu') ->
    recs' = recs /\ brk = None.
Proof.
  induction recs as [|s recs IH]; intros index fu recs' brk fu' E; cbn in E.
  - by injection E as <- <- <-.
  - destruct (flag (s_security_flags s) BTM_SEC_IN_USE).
    + destruct (serv_rec_is_for _ _ _ _ s); [discriminate|].
      destruct (SetSecurityLevel_loop _ _ _ _ recs (S index) false fu)
        as [[[recs1 brk1] alloc1] fu1] eqn:E1.
      injection E as <- <- -> <-.
      by destruct (IH _ _ _ _ _ E1) as [-> ->].
    + cbn [negb] in E.
      destruct (SetSecurityLevel_loop _ _ _ _ recs (S index) true _)
        as [[[recs1 brk1] alloc1] fu1] eqn:E1.
      destruct (SetSecurityLevel_loop_allocated _ _ _ _ _ _ _ _ _ _ _ E1)
        as [-> _].
      discriminate.
Qed.

(** X1.  [BTM_SetSecurityLevel] returns false exactly when every service
    record is in use for another service (no record is free and none is
    for the same PSM, protocol, service id and name); it then leaves the
    control block as it is. *)
Theorem SetSecurityLevel_out_of_records (is_originator : bool)
    (p_name : option (list Z)) (service_id sec_level psm mx_proto_id
    mx_chan_id : Z) (x : tBTM_CB_EXT) :
  (Forall (fun s => flag (s_security_flags s) BTM_SEC_IN_USE = true
                    /\ serv_rec_is_for p_name service_id psm mx_proto_id s
                       = false) (sec_serv_rec x)
   <-> exists x',
         BTM_SetSecurityLevel is_originator p_name service_id sec_level psm
           mx_proto_id mx_chan_id x = Some (false, x'))
  /\ forall x',
       BTM_SetSecurityLevel is_originator p_name service_id sec_level psm
         mx_proto_id mx_chan_id x = Some (false, x') ->
       x' = x.
Proof.
  unfold BTM_SetSecurityLevel.
  destruct (SetSecurityLevel_loop p_name service_id psm mx_proto_id
              (sec_serv_rec x) 0 false BTM_NO_AVAIL_SEC_SERVICES)
    as [[[recs brk] alloc] fu] eqn:E.
  destruct alloc; cbn [negb].
  - split.
    + split.
      * intros H.
        apply (SetSecurityLevel_loop_none p_name service_id psm mx_proto_id
                 _ 0%nat BTM_NO_AVAIL_SEC_SERVICES) in H
          as (recs' & brk' & fu' & E').
        rewrite E in E'. discriminate.
      * intros [x' H]. destruct p_name; [|discriminate].
        destruct is_originator; discriminate.
    + intros x' H. destruct p_name; [|discriminate].
      destruct is_originator; discriminate.
  - destruct (SetSecurityLevel_loop_none_same _ _ _ _ _ _ _ _ _ _ E)
      as [-> ->].
    rewrite set_sec_serv_rec_id. split.
    + split; [by eexists|]. intros _.
      apply (SetSecurityLevel_loop_none p_name service_id psm mx_proto_id
               _ 0%nat BTM_NO_AVAIL_SEC_SERVICES).
      by eexists _, _, _.
    + intros x' [= <-]. reflexivity.
Qed.

(** *** Freeing service records *)

Lemma u8_range (z : Z) : 0 <= u8 z < 256.
Proof.
  unfold u8. change 255 with (Z.ones 8). rewrite Z.land_ones by lia.
  apply Z.mod_pos_bound. lia.
Qed.

Lemma u8_mod (z : Z) : u8 z = z mod 256.
Proof. unfold u8. change 255 with (Z.ones 8). by rewrite Z.land_ones by lia. Qed.

Lemma SecClrServiceByPsm_loop_spec (psm : Z) (recs : list tBTM_SEC_SERV_REC) :
  forall n, 0 <= n < 256 ->
    SecClrServiceByPsm_loop psm recs n
    = (map (fun s => if serv_in_use_on psm s
                     then set_s_security_flags 0 s else s) recs,
       (n + Z.of_nat (length (List.filter (serv_in_use_on psm) recs)))
       mod 256).
Proof.
  induction recs as [|s recs IH]; intros n Hn; cbn.
  - by rewrite Z.add_0_r, Z.mod_small.
  - fold (serv_in_use_on psm s). destruct (serv_in_use_on psm s).
    + rewrite IH by apply u8_range. cbn [length]. f_equal.
      rewrite u8_mod, Zplus_mod_idemp_l. f_equal. lia.
    + by rewrite IH.
Qed.

Lemma SecClrService_loop_spec (service_id : Z)
    (recs : list tBTM_SEC_SERV_REC) :
  forall n, 0 <= n < 256 ->
    SecClrService_loop service_id recs n
    = (map (fun s => if serv_cleared_by service_id s
                     then set_s_security_flags 0 s else s) recs,
       (n + Z.of_nat (length (List.filter (serv_cleared_by service_id) recs)))
       mod 256).
Proof.
  induction recs as [|s recs IH]; intros n Hn; cbn.
  - by rewrite Z.add_0_r, Z.mod_small.
  - fold (serv_cleared_by service_id s).
    destruct (serv_cleared_by service_id s).
    + rewrite IH by apply u8_range. cbn [length]. f_equal.
      rewrite u8_mod, Zplus_mod_idemp_l. f_equal. lia.
    + by rewrite IH.
Qed.

(** a record whose flags are reset is in use for nothing *)
Lemma serv_in_use_on_reset (psm : Z) (s : tBTM_SEC_SERV_REC) :
  serv_in_use_on psm (set_s_security_flags 0 s) = false.
Proof. reflexivity. Qed.

Lemma serv_cleared_by_reset (service_id : Z) (s : tBTM_SEC_SERV_REC) :
  serv_cleared_by service_id (set_s_security_flags 0 s) = false.
Proof. reflexivity. Qed.

Lemma find_first_serv_loop_None (psm : Z) (recs : list tBTM_SEC_SERV_REC) :
  forall i,
    find_first_serv_loop psm recs i = None
    <-> Forall (fun s => serv_in_use_on psm s = false) recs.
Proof.
  induction recs as [|s recs IH]; intros i; cbn.
  - split; [constructor|done].
  - fold (serv_in_use_on psm s). rewrite list.Forall_cons.
    destruct (serv_in_use_on psm s).
    + split; [done|]. by intros [? _].
    + rewrite IH. tauto.
Qed.

Lemma find_first_serv_loop_Some (psm : Z) (recs : list tBTM_SEC_SERV_REC) :
  forall i k,
    find_first_serv_loop psm recs i = Some k ->
    (i <= k)%nat
    /\ exists s, recs !! (k - i)%nat = Some s /\ serv_in_use_on psm s = true.
Proof.
  induction recs as [|s recs IH]; intros i k E; cbn in E; [done|].
  fold (serv_in_use_on psm s) in E.
  destruct (serv_in_use_on psm s) eqn:Es.
  - injection E as <-. split; [lia|]. exists s. by rewrite Nat.sub_diag.
  - destruct (IH _ _ E) as (Hle & s' & Hs' & Hu). split; [lia|].
    exists s'. split; [|done].
    replace (k - i)%nat with (S (k - S i)) by lia. exact Hs'.
Qed.

Lemma filter_none {A : Type} (f : A -> bool) (l : list A) :
  Forall (fun a => f a = false) l -> List.filter f l = [].
Proof.
  induction 1 as [|a l Ha _ IH]; cbn; [done|]. by rewrite Ha.
Qed.

Lemma map_id_when {A : Type} (f : A -> bool) (g : A -> A) (l : list A) :
  Forall (fun a => f a = false) l ->
  map (fun a => if f a then g a else a) l = l.
Proof.
  induction 1 as [|a l Ha _ IH]; cbn; [done|]. by rewrite Ha, IH.
Qed.

(** X2.  [BTM_SecClrServiceByPsm] frees exactly the records that are in
    use for the PSM: it returns their number (modulo 256, the result is a
    [uint8_t]), resets [security_flags] of each of them to 0 and leaves
    every other record and the rest of the control block as they are.
    Afterwards the lookup of an acceptor for the PSM finds no record, and
    a second call frees nothing. *)
Theorem SecClrServiceByPsm_frees (psm : Z) (x : tBTM_CB_EXT) :
  let n := fst (BTM_SecClrServiceByPsm psm x) in
  let x' := snd (BTM_SecClrServiceByPsm psm x) in
  n = Z.of_nat (length (List.filter (serv_in_use_on psm) (sec_serv_rec x)))
      mod 256
  /\ x' = set_sec_serv_rec
            (map (fun s => if serv_in_use_on psm s
                           then set_s_security_flags 0 s else s)
               (sec_serv_rec x)) x
  /\ btm_sec_find_first_serv false psm x' = None
  /\ BTM_SecClrServiceByPsm psm x' = (0, x').
Proof.
  cbn zeta. unfold BTM_SecClrServiceByPsm.
  rewrite SecClrServiceByPsm_loop_spec by lia. cbn [fst snd].
  split; [by rewrite Z.add_0_l|]. split; [done|].
  set (recs' := map _ (sec_serv_rec x)).
  assert (Hnone : Forall (fun s => serv_in_use_on psm s = false) recs').
  { unfold recs'. apply list.Forall_forall. intros s Hs.
    apply list_elem_of_fmap in Hs as (s0 & -> & _).
    destruct (serv_in_use_on psm s0) eqn:E; [reflexivity|exact E]. }
  split.
  - unfold btm_sec_find_first_serv. cbn [andb].
    cbn [sec_serv_rec set_sec_serv_rec]. by apply find_first_serv_loop_None.
  - cbn [sec_serv_rec set_sec_serv_rec].
    rewrite SecClrServiceByPsm_loop_spec by lia.
    rewrite (filter_none _ _ Hnone), (map_id_when _ _ _ Hnone).
    reflexivity.
Qed.

(** X3.  [BTM_SecClrService] frees the records in use for the service id
    (for every service when the id is 0), but never one on the SDP PSM:
    it returns the number of records freed (modulo 256), a record on
    BT_PSM_SDP is left as it is, a record that is still in use afterwards
    is on BT_PSM_SDP or belongs to another service than the one asked
    for, and a second call frees nothing. *)
Theorem SecClrService_spares_sdp (service_id : Z) (x : tBTM_CB_EXT) :
  let n := fst (BTM_SecClrService service_id x) in
  let x' := snd (BTM_SecClrService service_id x) in
  n = Z.of_nat (length (List.filter (serv_cleared_by service_id)
                          (sec_serv_rec x))) mod 256
  /\ length (sec_serv_rec x') = length (sec_serv_rec x)
  /\ (forall i s,
        sec_serv_rec x !! i = Some s -> s_psm s = BT_PSM_SDP ->
        sec_serv_rec x' !! i = Some s)
  /\ (forall i s',
        sec_serv_rec x' !! i = Some s' ->
        flag (s_security_flags s') BTM_SEC_IN_USE = true ->
        s_psm s' = BT_PSM_SDP
        \/ (service_id <> 0 /\ s_service_id s' <> service_id))
  /\ BTM_SecClrService service_id x' = (0, x').
Proof.
  cbn zeta. unfold BTM_SecClrService.
  rewrite SecClrService_loop_spec by lia. cbn [fst snd].
  split; [by rewrite Z.add_0_l|].
  cbn [sec_serv_rec set_sec_serv_rec].
  split; [apply length_map|].
  set (clr := fun s => if serv_cleared_by service_id s
                       then set_s_security_flags 0 s else s).
  split; [|split].
  - intros i s Hs Hsdp.
    change (map clr (sec_serv_rec x)) with (clr <$> sec_serv_rec x).
    rewrite list_lookup_fmap, Hs. cbn. f_equal. unfold clr.
    unfold serv_cleared_by. rewrite Hsdp, Z.eqb_refl. cbn.
    by rewrite andb_false_r.
  - intros i s' Hs' Hu.
    change (map clr (sec_serv_rec x)) with (clr <$> sec_serv_rec x) in Hs'.
    rewrite list_lookup_fmap in Hs'.
    destruct (sec_serv_rec x !! i) as [s|]; [|discriminate].
    injection Hs' as <-. unfold clr in *.
    destruct (serv_cleared_by service_id s) eqn:E; [discriminate|].
    unfold serv_cleared_by in E. rewrite Hu in E. cbn in E.
    destruct (s_psm s =? BT_PSM_SDP) eqn:Ep; [left; lia|right].
    cbn in E. apply orb_false_iff in E as [E1 E2]. split; lia.
  - assert (Hnone : Forall (fun s => serv_cleared_by service_id s = false)
                      (map clr (sec_serv_rec x))).
    { apply list.Forall_forall. intros s Hs.
      apply list_elem_of_fmap in Hs as (s0 & -> & _). unfold clr.
      destruct (serv_cleared_by service_id s0) eqn:E; [reflexivity|exact E]. }
    rewrite SecClrService_loop_spec by lia.
    rewrite (filter_none _ _ Hnone), (map_id_when _ _ _ Hnone).
    reflexivity.
Qed.

(** *** Registering a service *)

Lemma u16_small (z : Z) : 0 <= z < 65536 -> u16 z = z.
Proof.
  intros Hz. unfold u16. change 65535 with (Z.ones 16).
  rewrite Z.land_ones by lia. apply Z.mod_small. lia.
Qed.

Lemma serv_rec0_unused : flag (s_security_flags serv_rec0) BTM_SEC_IN_USE = false.
Proof. reflexivity. Qed.

(** where the loop of [BTM_SetSecurityLevel] stops: at a record in use
    for the service, or else with the first unused record cleared *)
Lemma SetSecurityLevel_loop_target (p_name : option (list Z))
    (service_id psm mx_proto_id : Z) (recs : list tBTM_SEC_SERV_REC) :
  forall index alloc fu recs' brk alloc' fu',
    SetSecurityLevel_loop p_name service_id psm mx_proto_id recs index alloc fu
    = (recs', brk, alloc', fu') ->
    length recs' = length recs
    /\ (forall j, brk = Some j ->
          (index <= j < index + length recs)%nat
          /\ exists s, recs' !! (j - index)%nat = Some s
                       /\ recs !! (j - index)%nat = Some s)
    /\ (brk = None -> alloc = false -> alloc' = true ->
        Z.of_nat index + Z.of_nat (length recs) <= 65536 ->
        (index <= Z.to_nat fu' < index + length recs)%nat
        /\ recs' !! (Z.to_nat fu' - index)%nat = Some serv_rec0).
Proof.
  induction recs as [|s recs IH]; intros index alloc fu recs' brk alloc' fu' E;
    cbn in E.
  - injection E as <- <- <- <-. split; [done|]. split; [done|]. congruence.
  - destruct (flag (s_security_flags s) BTM_SEC_IN_USE).
    + destruct (serv_rec_is_for _ _ _ _ s).
      * injection E as <- <- <- <-. split; [done|]. split; [|done].
        intros j [= <-]. cbn [length]. split; [lia|].
        exists s. by rewrite Nat.sub_diag.
      * destruct (SetSecurityLevel_loop _ _ _ _ recs (S index) alloc fu)
          as [[[recs1 brk1] alloc1] fu1] eqn:E1.
        injection E as <- <- <- <-.
        destruct (IH _ _ _ _ _ _ _ E1) as (Hlen & Hbrk & Hfu).
        cbn [length]. split; [by rewrite Hlen|]. split.
        -- intros j Hj. destruct (Hbrk j Hj) as (Hr & s' & H1 & H2).
           split; [lia|]. exists s'.
           replace (j - index)%nat with (S (j - S index)) by lia. done.
        -- intros Hb Ha Ha' Hlim.
           cbn [length] in Hlim.
           destruct (Hfu Hb Ha Ha') as (Hr & H1); [lia|]. split; [lia|].
           by replace (Z.to_nat fu1 - index)%nat
             with (S (Z.to_nat fu1 - S index)) by lia.
    + destruct alloc; cbn [negb] in E.
      * destruct (SetSecurityLevel_loop _ _ _ _ recs (S index) true fu)
          as [[[recs1 brk1] alloc1] fu1] eqn:E1.
        injection E as <- <- <- <-.
        destruct (IH _ _ _ _ _ _ _ E1) as (Hlen & Hbrk & Hfu).
        cbn [length]. split; [by rewrite Hlen|]. split; [|done].
        intros j Hj. destruct (Hbrk j Hj) as (Hr & s' & H1 & H2).
        split; [lia|]. exists s'.
        replace (j - index)%nat with (S (j - S index)) by lia. done.
      * destruct (SetSecurityLevel_loop _ _ _ _ recs (S index) true
                    (u16 (Z.of_nat index)))
          as [[[recs1 brk1] alloc1] fu1] eqn:E1.
        injection E as <- <- <- <-.
        destruct (IH _ _ _ _ _ _ _ E1) as (Hlen & Hbrk & _).
        cbn [length]. split; [by rewrite Hlen|]. split.
        -- intros j Hj. destruct (Hbrk j Hj) as (Hr & s' & H1 & H2).
           split; [lia|].
           replace (j - index)%nat with (S (j - S index)) by lia.
           cbn. (* the cleared record is not the one the loop stops at *)
           exists s'. done.
        -- intros Hb _ _ Hlim. cbn [length] in Hlim.
           destruct (SetSecurityLevel_loop_allocated _ _ _ _ _ _ _ _ _ _ _ E1)
             as (_ & H). destruct (H Hb) as [-> _].
           rewrite u16_small by lia. rewrite Nat2Z.id.
           split; [lia|]. by rewrite Nat.sub_diag.
Qed.

(** The loop run again finds the record it has chosen, once that record
    is in use for the service, and changes nothing. *)
Lemma SetSecurityLevel_loop_rescan (p_name : option (list Z))
    (service_id psm mx_proto_id : Z) (recs : list tBTM_SEC_SERV_REC) :
  forall index alloc fu recs' brk fu',
    SetSecurityLevel_loop p_name service_id psm mx_proto_id recs index alloc fu
    = (recs', brk, true, fu') ->
    brk <> None \/ alloc = false ->
    Z.of_nat index + Z.of_nat (length recs) <= 65536 ->
    let i := match brk with Some j => j | None => Z.to_nat fu' end in
    forall g : tBTM_SEC_SERV_REC -> tBTM_SEC_SERV_REC,
      (forall s, recs' !! (i - index)%nat = Some s ->
         flag (s_security_flags (g s)) BTM_SEC_IN_USE = true
         /\ serv_rec_is_for p_name service_id psm mx_proto_id (g s) = true) ->
      exists fu'',
        SetSecurityLevel_loop p_name service_id psm mx_proto_id
          (alter g (i - index)%nat recs') index alloc fu
        = (alter g (i - index)%nat recs', Some i, true, fu'').
Proof.
  induction recs as [|s recs IH];
    intros index alloc fu recs' brk fu' E Hcase Hlim i g Hg; cbn in E;
    cbn [length] in Hlim.
  - injection E as <- <- -> <-. destruct Hcase; done.
  - destruct (flag (s_security_flags s) BTM_SEC_IN_USE) eqn:Eu.
    + destruct (serv_rec_is_for _ _ _ _ s) eqn:Em.
      * injection E as <- <- <-. subst i. rewrite Nat.sub_diag in *.
        cbn in Hg |- *. destruct (Hg s eq_refl) as [-> ->]. by eexists.
      * destruct (SetSecurityLevel_loop _ _ _ _ recs (S index) alloc fu)
          as [[[recs1 brk1] alloc1] fu1] eqn:E1.
        injection E as <- <- -> <-.
        destruct (SetSecurityLevel_loop_target _ _ _ _ _ _ _ _ _ _ _ _ E1)
          as (Hlen & Hbrk & Hfu).
        assert (Hi : (S index <= i)%nat).
        { subst i. destruct brk1 as [j|].
          - by destruct (Hbrk j eq_refl) as ((? & _) & _).
          - destruct Hcase as [Hcase|Hcase]; [done|]. subst alloc.
            destruct Hfu as ((? & _) & _); try done. lia. }
        replace (i - index)%nat with (S (i - S index)) in * by lia.
        cbn in Hg |- *. rewrite Eu, Em.
        edestruct (IH _ _ _ _ _ _ E1 Hcase) as (fu'' & ->);
          [lia|exact Hg|]. by eexists.
    + destruct alloc; cbn [negb] in E.
      * destruct (SetSecurityLevel_loop _ _ _ _ recs (S index) true fu)
          as [[[recs1 brk1] alloc1] fu1] eqn:E1.
        injection E as <- <- -> <-.
        destruct (SetSecurityLevel_loop_target _ _ _ _ _ _ _ _ _ _ _ _ E1)
          as (Hlen & Hbrk & _).
        destruct Hcase as [Hcase|]; [|done].
        destruct brk1 as [j|]; [|done]. subst i.
        destruct (Hbrk j eq_refl) as ((? & _) & _).
        replace (j - index)%nat with (S (j - S index)) in * by lia.
        cbn in Hg |- *. rewrite Eu. cbn [negb].
        edestruct (IH _ _ _ _ _ _ E1) as (fu'' & ->);
          [by left|lia|exact Hg|]. by eexists.
      * destruct (SetSecurityLevel_loop _ _ _ _ recs (S index) true
                    (u16 (Z.of_nat index)))
          as [[[recs1 brk1] alloc1] fu1] eqn:E1.
        injection E as <- <- -> <-.
        destruct (SetSecurityLevel_loop_target _ _ _ _ _ _ _ _ _ _ _ _ E1)
          as (Hlen & Hbrk & _).
        destruct brk1 as [j|].
        -- subst i. destruct (Hbrk j eq_refl) as ((? & _) & _).
           replace (j - index)%nat with (S (j - S index)) in * by lia.
           cbn in Hg |- *.
           edestruct (IH _ _ _ _ _ _ E1) as (fu'' & ->);
             [by left|lia|exact Hg|]. by eexists.
        -- destruct (SetSecurityLevel_loop_allocated _ _ _ _ _ _ _ _ _ _ _ E1)
             as (_ & H). destruct (H eq_refl) as [-> ->]. subst i.
           rewrite u16_small in * by lia.
           rewrite Nat2Z.id, Nat.sub_diag in *.
           cbn in Hg |- *. destruct (Hg serv_rec0 eq_refl) as [-> ->].
           by eexists.
Qed.

Lemma alter_as_insert {A : Type} (f : A -> A) (l : list A) (i : nat) (a : A) :
  l !! i = Some a -> alter f i l = <[i := f a]> l.
Proof.
  intros Ha. rewrite list_insert_alter. apply list_alter_ext; [|done].
  intros a' Ha'. congruence.
Qed.

Lemma serv_lookup (x : tBTM_CB_EXT) (i : nat) (s : tBTM_SEC_SERV_REC) :
  sec_serv_rec x !! i = Some s -> serv x i = s.
Proof. unfold serv. by intros ->. Qed.

(** What a successful [BTM_SetSecurityLevel] has written: one record, at
    [SetSecurityLevel_index], of the records as its loop left them. *)
Lemma SetSecurityLevel_written (is_originator : bool) (name : list Z)
    (service_id sec_level psm mx_proto_id mx_chan_id : Z)
    (x x' : tBTM_CB_EXT) :
  BTM_SetSecurityLevel is_originator (Some name) service_id sec_level psm
    mx_proto_id mx_chan_id x = Some (true, x') ->
  Z.of_nat (length (sec_serv_rec x)) <= 65536 ->
  let i := SetSecurityLevel_index (Some name) service_id psm mx_proto_id x in
  exists recs' brk fu s0 s1,
    SetSecurityLevel_loop (Some name) service_id psm mx_proto_id
      (sec_serv_rec x) 0%nat false BTM_NO_AVAIL_SEC_SERVICES
    = (recs', brk, true, fu)
    /\ recs' !! i = Some s0
    /\ x' = set_p_out_serv (if is_originator then Some i else p_out_serv x)
              (set_sec_serv_rec (<[i := s1]> recs') x)
    /\ s_psm s1 = psm /\ s_service_id s1 = service_id
    /\ s_mx_proto_id s1 = mx_proto_id
    /\ mx_chan_id_of is_originator s1 = mx_chan_id
    /\ mx_chan_id_of (negb is_originator) s1
       = mx_chan_id_of (negb is_originator) s0
    /\ service_name_of is_originator s1
       = strlcpy (service_name_of is_originator s0) name
           (BT_MAX_SERVICE_NAME_LEN + 1)
    /\ service_name_of (negb is_originator) s1
       = service_name_of (negb is_originator) s0
    /\ s_security_flags s1
       = set16 (clr16 (s_security_flags s0) (direction_bits is_originator))
           (u16 (Z.lor (stored_sec_level is_originator
                          (security_mode (base_cb x)) sec_level)
                   BTM_SEC_IN_USE)).
Proof.
  intros E Hlim i. unfold BTM_SetSecurityLevel in E.
  unfold SetSecurityLevel_index in i.
  destruct (SetSecurityLevel_loop (Some name) service_id psm mx_proto_id
              (sec_serv_rec x) 0 false BTM_NO_AVAIL_SEC_SERVICES)
    as [[[recs' brk] alloc] fu] eqn:El.
  destruct alloc; cbn [negb] in E;
    [|destruct x; discriminate].
  destruct (SetSecurityLevel_loop_target _ _ _ _ _ _ _ _ _ _ _ _ El)
    as (Hlen & Hbrk & Hfu).
  assert (Hs0 : exists s0, recs' !! i = Some s0).
  { subst i. destruct brk as [j|].
    - destruct (Hbrk j eq_refl) as (_ & s & Hs & _).
      rewrite Nat.sub_0_r in Hs. by exists s.
    - destruct (Hfu eq_refl eq_refl eq_refl) as (_ & Hs); [lia|].
      rewrite Nat.sub_0_r in Hs. by eexists. }
  destruct Hs0 as [s0 Hs0].
  fold i in E. exists recs', brk, fu, s0.
  destruct is_originator; injection E as <-; eexists;
    (split; [reflexivity|]); (split; [exact Hs0|]);
    unfold upd_serv;
    cbn [sec_serv_rec set_sec_serv_rec set_p_out_serv base_cb p_out_serv
         cfg_pin_code_len cfg_pin_code api_p_bond_cancel_cmpl_callback
         more_effects];
    rewrite !list_alter_alter_eq;
    rewrite (alter_as_insert _ _ _ _ Hs0);
    (split; [reflexivity|]); cbn; done.
Qed.

Lemma stored_flags_in_use (f level : Z) :
  mask16 BTM_SEC_IN_USE ->
  flag (set16 f (u16 (Z.lor level BTM_SEC_IN_USE))) BTM_SEC_IN_USE = true.
Proof.
  intros Hm. rewrite flag_set16, flag_u16, flag_lor by exact Hm.
  rewrite (flag_same BTM_SEC_IN_USE) by (destruct Hm; lia).
  by rewrite !orb_true_r.
Qed.

(** X4.  A service that [BTM_SetSecurityLevel] has registered is found:
    after a successful registration [btm_sec_find_first_serv] returns, for
    the same direction and PSM, a record that is in use for the PSM; for
    an originator it is the record just written, to which [p_out_serv]
    points. *)
Theorem SetSecurityLevel_then_find (is_originator : bool) (name : list Z)
    (service_id sec_level psm mx_proto_id mx_chan_id : Z)
    (x x' : tBTM_CB_EXT) :
  mask16 BTM_SEC_IN_USE ->
  Z.of_nat (length (sec_serv_rec x)) <= 65536 ->
  BTM_SetSecurityLevel is_originator (Some name) service_id sec_level psm
    mx_proto_id mx_chan_id x = Some (true, x') ->
  exists k,
    btm_sec_find_first_serv is_originator psm x' = Some k
    /\ (k < length (sec_serv_rec x'))%nat
    /\ serv_in_use_on psm (serv x' k) = true
    /\ (is_originator = true ->
        k = SetSecurityLevel_index (Some name) service_id psm mx_proto_id x
        /\ p_out_serv x' = Some k).
Proof.
  intros Hiu Hlim E.
  destruct (SetSecurityLevel_written _ _ _ _ _ _ _ _ _ E Hlim)
    as (recs' & brk & fu & s0 & s1 & El & Hs0 & -> & Hpsm & _ & _ & _ & _ & _
        & _ & Hflags).
  set (i := SetSecurityLevel_index (Some name) service_id psm mx_proto_id x)
    in *.
  assert (Hi : (i < length recs')%nat) by (by eapply lookup_lt_Some).
  assert (Hs1 : serv_in_use_on psm s1 = true).
  { unfold serv_in_use_on. rewrite Hflags, stored_flags_in_use by exact Hiu.
    rewrite Hpsm. cbn. apply Z.eqb_refl. }
  assert (Hl1 : <[i := s1]> recs' !! i = Some s1)
    by (by apply list_lookup_insert_eq).
  destruct is_originator.
  - exists i. unfold btm_sec_find_first_serv, serv.
    cbn [p_out_serv set_p_out_serv sec_serv_rec set_sec_serv_rec andb].
    change (default 0%nat (Some i)) with i. rewrite Hl1.
    change (default serv_rec0 (Some s1)) with s1. rewrite Hpsm, Z.eqb_refl.
    rewrite bool_decide_eq_true_2 by done.
    rewrite length_insert. done.
  - unfold btm_sec_find_first_serv. cbn [andb].
    cbn [sec_serv_rec set_sec_serv_rec set_p_out_serv].
    destruct (find_first_serv_loop psm (<[i := s1]> recs') 0) as [k|] eqn:Ef.
    + destruct (find_first_serv_loop_Some _ _ _ _ Ef) as (_ & s & Hs & Hu).
      rewrite Nat.sub_0_r in Hs. exists k. split; [done|].
      split; [by eapply lookup_lt_Some|]. split; [|done].
      unfold serv. cbn [sec_serv_rec set_sec_serv_rec set_p_out_serv].
      by rewrite Hs.
    + apply find_first_serv_loop_None in Ef.
      rewrite list.Forall_forall in Ef.
      specialize (Ef s1 (list_elem_of_lookup_2 _ _ _ Hl1)). congruence.
Qed.

Lemma strlcpy_name (dst name : list Z) :
  0 < BT_MAX_SERVICE_NAME_LEN < 2 ^ 32 ->
  strlcpy dst name (BT_MAX_SERVICE_NAME_LEN + 1)
  = take (Z.to_nat BT_MAX_SERVICE_NAME_LEN) name.
Proof.
  intros Hn. unfold strlcpy, size_t. rewrite Z.mod_small by lia.
  replace (Z.to_nat (BT_MAX_SERVICE_NAME_LEN + 1))
    with (S (Z.to_nat BT_MAX_SERVICE_NAME_LEN)) by lia.
  reflexivity.
Qed.

Lemma strncmp_eq_stored_name (name : list Z) :
  0 < BT_MAX_SERVICE_NAME_LEN < 2 ^ 32 ->
  strncmp_eq name (take (Z.to_nat BT_MAX_SERVICE_NAME_LEN) name)
    (BT_MAX_SERVICE_NAME_LEN - 1) = true.
Proof.
  intros Hn. unfold strncmp_eq, size_t. rewrite Z.mod_small by lia.
  apply bool_decide_eq_true_2. rewrite take_take. f_equal. lia.
Qed.

(** a record that holds the name of the service for one direction is a
    record for the service *)
Lemma serv_rec_is_for_written (d : bool) (name : list Z)
    (service_id psm mx_proto_id : Z) (s : tBTM_SEC_SERV_REC) :
  0 < BT_MAX_SERVICE_NAME_LEN < 2 ^ 32 ->
  s_psm s = psm -> s_service_id s = service_id ->
  s_mx_proto_id s = mx_proto_id ->
  service_name_of d s = take (Z.to_nat BT_MAX_SERVICE_NAME_LEN) name ->
  serv_rec_is_for (Some name) service_id psm mx_proto_id s = true.
Proof.
  intros Hn <- <- <- Hname. unfold serv_rec_is_for.
  rewrite !Z.eqb_refl. cbn [andb].
  destruct d; cbn in Hname; rewrite Hname, strncmp_eq_stored_name by exact Hn.
  - reflexivity.
  - apply orb_true_r.
Qed.

(** X5.  The two directions of a service share one record.  After a
    successful registration, a registration with the same name, service
    id, PSM and protocol id, for either direction, succeeds and writes to
    the same record; no other record changes.  The record then holds the
    name, cut to BT_MAX_SERVICE_NAME_LEN characters, for both directions
    when they differ, the channel id of the second call for its
    direction, and still the channel id of the first call for the other
    one. *)
Theorem SetSecurityLevel_shares_record (d1 d2 : bool) (name : list Z)
    (service_id lvl1 lvl2 psm mx_proto_id chan1 chan2 : Z)
    (x x1 : tBTM_CB_EXT) :
  mask16 BTM_SEC_IN_USE ->
  0 < BT_MAX_SERVICE_NAME_LEN < 2 ^ 32 ->
  Z.of_nat (length (sec_serv_rec x)) <= 65536 ->
  BTM_SetSecurityLevel d1 (Some name) service_id lvl1 psm mx_proto_id chan1 x
  = Some (true, x1) ->
  let i := SetSecurityLevel_index (Some name) service_id psm mx_proto_id x in
  exists x2,
    BTM_SetSecurityLevel d2 (Some name) service_id lvl2 psm mx_proto_id chan2
      x1 = Some (true, x2)
    /\ SetSecurityLevel_index (Some name) service_id psm mx_proto_id x1 = i
    /\ length (sec_serv_rec x2) = length (sec_serv_rec x1)
    /\ (forall j, j <> i -> sec_serv_rec x2 !! j = sec_serv_rec x1 !! j)
    /\ service_name_of d1 (serv x2 i)
       = take (Z.to_nat BT_MAX_SERVICE_NAME_LEN) name
    /\ service_name_of d2 (serv x2 i)
       = take (Z.to_nat BT_MAX_SERVICE_NAME_LEN) name
    /\ mx_chan_id_of d2 (serv x2 i) = chan2
    /\ (d2 = negb d1 -> mx_chan_id_of d1 (serv x2 i) = chan1).
Proof.
  intros Hiu Hn Hlim E1 i.
  destruct (SetSecurityLevel_written _ _ _ _ _ _ _ _ _ E1 Hlim)
    as (recs' & brk & fu & s0 & s1 & El & Hs0 & -> & Hpsm & Hid & Hproto
        & Hchan & _ & Hname & _ & Hflags).
  fold i in Hs0 |- *. rewrite strlcpy_name in Hname by exact Hn.
  destruct (SetSecurityLevel_loop_target _ _ _ _ _ _ _ _ _ _ _ _ El)
    as (Hlen & _ & _).
  assert (Hi : (i < length recs')%nat) by (by eapply lookup_lt_Some).
  (* the loop of the second call stops at the same record *)
  assert (Hscan : exists fu2,
    SetSecurityLevel_loop (Some name) service_id psm mx_proto_id
      (<[i := s1]> recs') 0 false BTM_NO_AVAIL_SEC_SERVICES
    = (<[i := s1]> recs', Some i, true, fu2)).
  { edestruct (SetSecurityLevel_loop_rescan (Some name) service_id psm
                 mx_proto_id (sec_serv_rec x) 0%nat false
                 BTM_NO_AVAIL_SEC_SERVICES recs' brk fu El)
      as [fu2 Hfu2]; [by right|lia| |].
    - intros s _. split.
      + instantiate (1 := fun _ => s1). cbn beta.
        rewrite Hflags. by apply stored_flags_in_use.
      + by apply (serv_rec_is_for_written d1).
    - exists fu2.
      assert (Hi_eq : i = match brk with
                          | Some j => j
                          | None => Z.to_nat fu
                          end).
      { unfold i, SetSecurityLevel_index. by rewrite El. }
      cbn zeta in Hfu2. rewrite <- Hi_eq in Hfu2.
      rewrite Nat.sub_0_r, <- list_insert_alter in Hfu2. exact Hfu2. }
  destruct Hscan as [fu2 Hscan].
  set (x1 := set_p_out_serv _ _) in *.
  assert (Hrecs1 : sec_serv_rec x1 = <[i := s1]> recs') by reflexivity.
  assert (Hlim1 : Z.of_nat (length (sec_serv_rec x1)) <= 65536).
  { rewrite Hrecs1, length_insert. lia. }
  assert (Hidx : SetSecurityLevel_index (Some name) service_id psm
                   mx_proto_id x1 = i).
  { unfold SetSecurityLevel_index at 1. by rewrite Hrecs1, Hscan. }
  assert (E2 : exists x2,
    BTM_SetSecurityLevel d2 (Some name) service_id lvl2 psm mx_proto_id chan2
      x1 = Some (true, x2)).
  { unfold BTM_SetSecurityLevel. rewrite Hrecs1, Hscan. cbn [negb].
    destruct d2; eexists; reflexivity. }
  destruct E2 as [x2 E2]. exists x2. split; [exact E2|]. split; [exact Hidx|].
  destruct (SetSecurityLevel_written _ _ _ _ _ _ _ _ _ E2 Hlim1)
    as (recs2 & brk2 & fu3 & t0 & t1 & El2 & Ht0 & -> & _ & _ & _
        & Hchan2 & Hchan2' & Hname2 & Hname2' & _).
  rewrite Hidx in *. rewrite Hrecs1, Hscan in El2.
  injection El2 as <- <- <-.
  rewrite list_lookup_insert_eq in Ht0 by exact Hi. injection Ht0 as <-.
  rewrite strlcpy_name in Hname2 by exact Hn.
  cbn [sec_serv_rec set_sec_serv_rec set_p_out_serv].
  rewrite Hrecs1, !length_insert. split; [done|].
  split; [intros j Hj; by rewrite list_lookup_insert_ne by done|].
  unfold serv. cbn [sec_serv_rec set_sec_serv_rec set_p_out_serv].
  rewrite list_lookup_insert_eq by (by rewrite length_insert).
  change (default serv_rec0 (Some t1)) with t1.
  split; [|split; [exact Hname2|split; [exact Hchan2|]]].
  - destruct d1, d2; cbn [negb] in *; congruence.
  - intros ->. rewrite negb_involutive in Hchan2'. congruence.
Qed.


(** *** The requirements that a registration stores *)

Lemma flag_if (c : bool) (a b m : Z) :
  flag (if c then a else b) m = if c then flag a m else flag b m.
Proof. by destruct c. Qed.

(** the facts that [distinct_masks16 service_flag_bits] stands for *)
Ltac service_flag_facts H :=
  unfold service_flag_bits in H;
  repeat (apply distinct_masks16_cons in H as (? & ? & H));
  repeat match goal with
         | F : Forall _ (_ :: _) |- _ => apply list.Forall_cons in F as [? F]
         end;
  repeat match goal with
         | F : Z.land ?a ?b = 0 |- _ =>
           lazymatch goal with
           | _ : flag a b = false |- _ => fail
           | _ =>
             pose proof (proj2 (flag_false a b) F);
             pose proof (proj2 (flag_false b a)
                           (eq_trans (Z.land_comm b a) F))
           end
         | F : mask16 ?a |- _ =>
           lazymatch goal with
           | _ : flag a a = true |- _ => fail
           | _ => assert (flag a a = true)
                    by (apply flag_same; destruct F; lia)
           end
         end.

(** [Z.land a m = 0] for a disjunction [a] of masks other than [m] *)
Ltac disjoint_masks :=
  rewrite ?land_lor_0; repeat split;
  first [assumption | rewrite Z.land_comm; assumption].

(** [flag (clr16 x a) m = false] for every mask [m] of the disjunction
    [a] *)
Ltac cleared_bits x a :=
  let H := fresh "Hc" in
  pose proof (flag_clr16_same x a) as H;
  repeat match goal with
         | H' : flag _ (Z.lor _ _) = false |- _ =>
           apply flag_lor_false in H' as [? ?]
         end.

(** one step in the evaluation of [flag e m], for an expression [e] of
    [set16], [clr16], [u16], [Z.lor] and conditionals over masks *)
Ltac flag_step :=
  match goal with
  | H : flag ?a ?b = _ |- context [flag ?a ?b] => rewrite H
  | |- context [flag (set16 ?x ?a) ?m] =>
    rewrite (flag_set16 x a m) by assumption
  | |- context [flag (u16 ?x) ?m] => rewrite (flag_u16 x m) by assumption
  | |- context [flag (Z.lor ?x ?a) ?m] => rewrite (flag_lor x a m)
  | |- context [flag (clr16 ?x ?a) ?m] =>
    rewrite (flag_clr16_other x a m) by first [assumption | disjoint_masks]
  | |- context [flag (if ?c then ?a else ?b) ?m] => rewrite (flag_if c a b m)
  end.

Ltac flag_cases :=
  repeat flag_step;
  repeat match goal with
         | |- context [flag ?x ?m] => destruct (flag x m)
         end;
  cbn; try done.

(** X7.  What [BTM_SetSecurityLevel] stores in [security_flags] of the
    record it writes, for masks that have no bit in common: the record is
    in use; of the direction registered, the encrypt bit is the one of the
    request, the authenticate bit is set when the request asks for
    authentication or for encryption, and the MITM bit is set when the
    request asks for it or, in the modes SP and SC, for authentication (a
    request for encryption alone gets the authenticate bit but not the
    MITM bit); for an acceptor the 16 digit PIN bit is the one of the
    request; and a bit of the other direction is set only if the record
    held it before, whatever the request says. *)
Theorem SetSecurityLevel_stored_requirements (d : bool) (name : list Z)
    (service_id sec_level psm mx_proto_id mx_chan_id : Z)
    (x x' : tBTM_CB_EXT) :
  distinct_masks16 service_flag_bits = true ->
  Z.of_nat (length (sec_serv_rec x)) <= 65536 ->
  BTM_SetSecurityLevel d (Some name) service_id sec_level psm mx_proto_id
    mx_chan_id x = Some (true, x') ->
  let i := SetSecurityLevel_index (Some name) service_id psm mx_proto_id x in
  let f := s_security_flags (serv x' i) in
  let f0 := s_security_flags (serv x i) in
  let sp := (security_mode (base_cb x) =? BTM_SEC_MODE_SP)
            || (security_mode (base_cb x) =? BTM_SEC_MODE_SC) in
  flag f BTM_SEC_IN_USE = true
  /\ flag f (encrypt_bit d) = flag sec_level (encrypt_bit d)
  /\ flag f (authenticate_bit d)
     = flag sec_level (authenticate_bit d) || flag sec_level (encrypt_bit d)
  /\ flag f (mitm_bit d)
     = flag sec_level (mitm_bit d) || (sp && flag sec_level (authenticate_bit d))
  /\ (d = false ->
      flag f BTM_SEC_IN_MIN_16_DIGIT_PIN
      = flag sec_level BTM_SEC_IN_MIN_16_DIGIT_PIN)
  /\ (flag f (encrypt_bit (negb d)) = true ->
      flag f0 (encrypt_bit (negb d)) = true)
  /\ (flag f (authenticate_bit (negb d)) = true ->
      flag f0 (authenticate_bit (negb d)) = true)
  /\ (flag f (mitm_bit (negb d)) = true -> flag f0 (mitm_bit (negb d)) = true).
Proof.
  intros Hd Hlim E i f f0 sp.
  destruct (SetSecurityLevel_written _ _ _ _ _ _ _ _ _ E Hlim)
    as (recs' & brk & fu & s0 & s1 & El & Hs0 & -> & _ & _ & _ & _ & _ & _
        & _ & Hflags).
  fold i in Hs0.
  assert (Hi : (i < length recs')%nat) by (by eapply lookup_lt_Some).
  assert (Hf : f = s_security_flags s1).
  { unfold f, serv. cbn [sec_serv_rec set_sec_serv_rec set_p_out_serv].
    by rewrite list_lookup_insert_eq by exact Hi. }
  (* the record before: the one the loop stopped at, or a cleared one *)
  assert (H0 : forall m, flag (s_security_flags s0) m = true ->
                         flag f0 m = true).
  { intros m Hm.
    destruct (SetSecurityLevel_loop_target _ _ _ _ _ _ _ _ _ _ _ _ El)
      as (_ & Hbrk & Hfu).
    assert (Hi_eq : i = match brk with
                        | Some j => j
                        | None => Z.to_nat fu
                        end).
    { unfold i, SetSecurityLevel_index. by rewrite El. }
    destruct brk as [j|].
    - destruct (Hbrk j eq_refl) as (_ & s & H1 & H2).
      rewrite Nat.sub_0_r, <- Hi_eq in H1, H2.
      unfold f0, serv. rewrite H2. cbn. congruence.
    - destruct (Hfu eq_refl eq_refl eq_refl) as (_ & H1); [lia|].
      rewrite Nat.sub_0_r, <- Hi_eq in H1.
      assert (s0 = serv_rec0) by congruence. subst s0. discriminate. }
  clearbody f f0. subst f. rewrite Hflags. clear Hflags.
  unfold stored_sec_level. fold sp. clearbody sp.
  set (g0 := s_security_flags s0) in *. clearbody g0.
  clear E El Hs0 Hi. service_flag_facts Hd.
  destruct d; unfold direction_bits, encrypt_bit, authenticate_bit, mitm_bit;
    cbn [negb].
  - cleared_bits g0
      (Z.lor (Z.lor BTM_SEC_OUT_ENCRYPT BTM_SEC_OUT_AUTHENTICATE)
         BTM_SEC_OUT_MITM).
    cleared_bits sec_level
      (Z.lor (Z.lor (Z.lor BTM_SEC_IN_ENCRYPT BTM_SEC_IN_AUTHENTICATE)
                BTM_SEC_IN_MITM) BTM_SEC_IN_MIN_16_DIGIT_PIN).
    repeat split; try discriminate.
    + destruct sp; flag_cases.
    + destruct sp; flag_cases.
    + destruct sp; flag_cases.
    + destruct sp; flag_cases.
    + intros Hm. apply H0. revert Hm. destruct sp; flag_cases.
    + intros Hm. apply H0. revert Hm. destruct sp; flag_cases.
    + intros Hm. apply H0. revert Hm. destruct sp; flag_cases.
  - cleared_bits g0
      (Z.lor (Z.lor (Z.lor BTM_SEC_IN_ENCRYPT BTM_SEC_IN_AUTHENTICATE)
                BTM_SEC_IN_MITM) BTM_SEC_IN_MIN_16_DIGIT_PIN).
    cleared_bits sec_level
      (Z.lor (Z.lor BTM_SEC_OUT_ENCRYPT BTM_SEC_OUT_AUTHENTICATE)
         BTM_SEC_OUT_MITM).
    repeat split.
    + destruct sp; flag_cases.
    + destruct sp; flag_cases.
    + destruct sp; flag_cases.
    + destruct sp; flag_cases.
    + intros _. destruct sp; flag_cases.
    + intros Hm. apply H0. revert Hm. destruct sp; flag_cases.
    + intros Hm. apply H0. revert Hm. destruct sp; flag_cases.
    + intros Hm. apply H0. revert Hm. destruct sp; flag_cases.
Qed.

(** *** The access request of L2CAP *)

(** X8.  In the mode SC an incoming L2CAP access request for a registered
    service, other than SDP, is refused when the controller or the peer
    does not support Secure Connections, whatever the service asked for
    when it registered: [btm_sec_l2cap_access_req] adds the level 4
    requirements of an acceptor to those of the service, calls the
    callback with BTM_MODE4_LEVEL4_NOT_SUPPORTED and returns it; the
    device record has got the connection handle and nothing else. *)
Theorem l2cap_access_req_sc_only (addr : RawAddress) (psm : Z)
    (callback : option tBTM_SEC_CALLBACK) (ref_data : RefData)
    (x : tBTM_CB_EXT) (k : nat) :
  mask16 BTM_SEC_MODE4_LEVEL4 ->
  flag BTM_SEC_IN_LEVEL4_FLAGS BTM_SEC_MODE4_LEVEL4 = true ->
  btm_sec_find_first_serv false psm x = Some k ->
  psm <> BT_PSM_SDP ->
  security_mode (base_cb x) = BTM_SEC_MODE_SC ->
  let p := fst (find_or_alloc_unchecked addr (base_cb x)) in
  let cb1 := snd (find_or_alloc_unchecked addr (base_cb x)) in
  controller_supports_secure_connections = false
  \/ SupportsSecureConnections (dev cb1 p) = false ->
  btm_sec_l2cap_access_req addr psm false callback ref_data x
  = (BTM_MODE4_LEVEL4_NOT_SUPPORTED,
     set_base_cb
       (call_callback callback addr BT_TRANSPORT_BR_EDR ref_data
          BTM_MODE4_LEVEL4_NOT_SUPPORTED
          (upd_dev p
             (set_hci_handle (BTM_GetHCIConnHandle addr BT_TRANSPORT_BR_EDR))
             cb1)) x).
Proof.
  intros Hm Hl4 Hfind Hsdp Hmode p cb1 Hsc.
  unfold btm_sec_l2cap_access_req. rewrite Hfind.
  apply Z.eqb_neq in Hsdp. rewrite Hsdp, Hmode, Z.eqb_refl.
  assert (Hreq : flag (btm_sec_set_serv_level4_flags
                         (s_security_flags (serv x k)) false)
                   BTM_SEC_MODE4_LEVEL4 = true).
  { unfold btm_sec_set_serv_level4_flags.
    rewrite flag_u16, flag_lor, flag_u16, Hl4 by exact Hm.
    apply orb_true_r. }
  unfold on_base_ret, btm_sec_l2cap_access_req_by_requirement.
  subst p cb1.
  destruct (find_or_alloc_unchecked addr (base_cb x)) as [p cb1].
  cbn [fst snd] in Hsc |- *. rewrite Hreq. cbn [negb andb].
  assert (Hcond : negb controller_supports_secure_connections
                  || negb (SupportsSecureConnections
                             (dev (upd_dev p
                                     (set_hci_handle
                                        (BTM_GetHCIConnHandle addr
                                           BT_TRANSPORT_BR_EDR)) cb1) p))
                  = true).
  { destruct Hsc as [-> | Hp]; [reflexivity|].
    rewrite (dev_upd_dev_field SupportsSecureConnections) by done.
    rewrite Hp. apply orb_true_r. }
  rewrite Hcond. reflexivity.
Qed.

End ServiceRecords.

(** ** The security procedure engine, continued *)

Section EngineSteps.
Context `{Consts : Constants} `{Ext : Externals}.


(** the engine on an idle record whose requirements are satisfied *)
Lemma execute_procedure_satisfied (p : nat) (cb : tBTM_CB) :
  let r := dev cb p in
  sec_state r = BTM_SEC_STATE_IDLE
  \/ sec_state r = BTM_SEC_STATE_LE_ENCRYPTING ->
  requirements_satisfied r = true ->
  btm_sec_execute_procedure p cb
  = if flag (security_required r) BTM_SEC_MODE4_LEVEL4
       && negb (link_key_type r =? BTM_LKEY_TYPE_AUTH_COMB_P_256)
    then (BTM_FAILED_ON_SECURITY, cb)
    else if access_secure_service_from_temp_bond r (IsLocallyInitiated r)
              (security_required r)
    then (BTM_FAILED_ON_SECURITY, cb)
    else (BTM_SUCCESS,
          upd_dev p (fun r => set_security_required
            (clr16 (security_required r) BTM_SEC_AUTH_ENCRYPT_BITS) r) cb).
Proof.
  intros r Hidle Hsat.
  apply andb_true_iff in Hsat as [Hsat Henc].
  apply andb_true_iff in Hsat as [Hname Hauth].
  apply negb_true_iff in Hname, Hauth, Henc.
  unfold name_needed in Hname. unfold authentication_needed in Hauth.
  unfold encryption_needed in Henc.
  unfold btm_sec_execute_procedure. fold r. rewrite Hname, Hauth, Henc.
  assert (Hb : negb (bool_decide (sec_state r = BTM_SEC_STATE_IDLE))
               && negb (bool_decide
                          (sec_state r = BTM_SEC_STATE_LE_ENCRYPTING))
               = false).
  { destruct Hidle as [-> | ->]; reflexivity. }
  by rewrite Hb.
Qed.

Lemma set_sec_pending_q_id (cb : tBTM_CB) :
  set_sec_pending_q (sec_pending_q cb) cb = cb.
Proof. by destruct cb. Qed.

(** with nothing pending, [btm_sec_check_pending_reqs] does nothing *)
Lemma check_pending_reqs_nothing (cb : tBTM_CB) :
  sec_req_pending cb = false -> sec_pending_q cb = [] ->
  btm_sec_check_pending_reqs cb = cb.
Proof.
  intros Hp Hq. unfold btm_sec_check_pending_reqs. rewrite Hp, Hq.
  case_bool_decide; [|done]. cbn. rewrite <- Hq. apply set_sec_pending_q_id.
Qed.

End EngineSteps.

(** ** Disconnecting, aborting, changing role *)

Section Links.
Context `{Consts : Constants} `{Ext : Externals}.
Context `{MConsts : MoreConstants} `{MExt : MoreExternals}.

(** what a call of [btm_sec_send_hci_disconnect] for a handle of the
    record leaves *)
Lemma send_hci_disconnect_result (p : nat) (reason : tHCI_STATUS) (h : Z)
    (cb : tBTM_CB) :
  (p < length (sec_dev_rec cb))%nat ->
  h = hci_handle (dev cb p) \/ h = ble_hci_handle (dev cb p) ->
  exists c,
    btm_sec_send_hci_disconnect p reason h cb = (BTM_CMD_STARTED, c)
    /\ (new_effects cb c = []
        \/ new_effects cb c = [E_acl_disconnect_after_role_switch h reason])
    /\ hci_handle (dev c p) = hci_handle (dev cb p)
    /\ ble_hci_handle (dev c p) = ble_hci_handle (dev cb p)
    /\ bd_addr (dev c p) = bd_addr (dev cb p)
    /\ (sec_state (dev c p) = BTM_SEC_STATE_DISCONNECTING
        /\ h = hci_handle (dev cb p)
        \/ sec_state (dev c p) = BTM_SEC_STATE_DISCONNECTING_BLE
           /\ h = ble_hci_handle (dev cb p)
        \/ sec_state (dev c p) = BTM_SEC_STATE_DISCONNECTING_BOTH).
Proof.
  intros Hp Hh.
  assert (Hsent : forall s,
    let c := emit (E_acl_disconnect_after_role_switch h reason)
               (upd_dev p (set_sec_state s) cb) in
    (new_effects cb c = []
     \/ new_effects cb c = [E_acl_disconnect_after_role_switch h reason])
    /\ hci_handle (dev c p) = hci_handle (dev cb p)
    /\ ble_hci_handle (dev c p) = ble_hci_handle (dev cb p)
    /\ bd_addr (dev c p) = bd_addr (dev cb p)
    /\ sec_state (dev c p) = s).
  { intros s c. subst c. rewrite dev_emit, dev_upd_dev_valid by exact Hp.
    split; [right; by apply new_effects_app|done]. }
  unfold btm_sec_send_hci_disconnect.
  destruct (sec_state (dev cb p)) eqn:Es;
    destruct (h =? hci_handle (dev cb p)) eqn:E1;
    destruct (h =? ble_hci_handle (dev cb p)) eqn:E2;
    first [apply Z.eqb_eq in E1|apply Z.eqb_neq in E1];
    first [apply Z.eqb_eq in E2|apply Z.eqb_neq in E2];
    eexists; (split; [reflexivity|]);
    first
      [ match goal with
        | |- context [upd_dev p (set_sec_state ?s) cb] =>
          pose proof (Hsent s) as Hx; cbv zeta in Hx;
          destruct Hx as (He & Hh1 & Hh2 & Hb & Hs);
          split; [exact He|]; split; [exact Hh1|]; split; [exact Hh2|];
          split; [exact Hb|];
          rewrite Hs; clear -Hh E1 E2; by intuition congruence
        end
      | split; [left; apply new_effects_refl|];
        split; [reflexivity|]; split; [reflexivity|]; split; [reflexivity|];
        rewrite Es; clear -Hh E1 E2; by intuition congruence ].
Qed.

(** a record that is disconnecting on the transport of the handle: the
    call sends nothing *)
Lemma send_hci_disconnect_settled (p : nat) (reason : tHCI_STATUS) (h : Z)
    (c : tBTM_CB) :
  sec_state (dev c p) = BTM_SEC_STATE_DISCONNECTING /\ h = hci_handle (dev c p)
  \/ sec_state (dev c p) = BTM_SEC_STATE_DISCONNECTING_BLE
     /\ h = ble_hci_handle (dev c p)
  \/ sec_state (dev c p) = BTM_SEC_STATE_DISCONNECTING_BOTH ->
  btm_sec_send_hci_disconnect p reason h c = (BTM_CMD_STARTED, c).
Proof.
  unfold btm_sec_send_hci_disconnect.
  intros [[Hs Hh]|[[Hs Hh]|Hs]]; rewrite Hs.
  - by rewrite <- Hh, Z.eqb_refl.
  - by rewrite <- Hh, Z.eqb_refl.
  - reflexivity.
Qed.

(** X9.  [btm_sec_send_hci_disconnect] sends the HCI disconnect on a
    transport only once.  For a handle of the record, BR/EDR or LE, the
    call returns BTM_CMD_STARTED, sends at most one disconnect, for this
    handle, and leaves the record in one of the disconnecting states; a
    second call for the same handle sends nothing and changes nothing. *)
Theorem send_hci_disconnect_once (p : nat) (reason reason' : tHCI_STATUS)
    (h : Z) (cb : tBTM_CB) :
  (p < length (sec_dev_rec cb))%nat ->
  h = hci_handle (dev cb p) \/ h = ble_hci_handle (dev cb p) ->
  let cb1 := snd (btm_sec_send_hci_disconnect p reason h cb) in
  fst (btm_sec_send_hci_disconnect p reason h cb) = BTM_CMD_STARTED
  /\ (new_effects cb cb1 = []
      \/ new_effects cb cb1 = [E_acl_disconnect_after_role_switch h reason])
  /\ (sec_state (dev cb1 p) = BTM_SEC_STATE_DISCONNECTING
      \/ sec_state (dev cb1 p) = BTM_SEC_STATE_DISCONNECTING_BLE
      \/ sec_state (dev cb1 p) = BTM_SEC_STATE_DISCONNECTING_BOTH)
  /\ btm_sec_send_hci_disconnect p reason' h cb1 = (BTM_CMD_STARTED, cb1).
Proof.
  intros Hp Hh cb1.
  destruct (send_hci_disconnect_result p reason h cb Hp Hh)
    as (c & E & He & Hh1 & Hh2 & _ & Hs).
  subst cb1. rewrite E. cbn [fst snd]. split; [done|]. split; [exact He|].
  split; [tauto|]. apply send_hci_disconnect_settled.
  rewrite Hh1, Hh2. exact Hs.
Qed.

(** X10.  [btm_sec_abort_access_req] drops the callback of an authorizing
    or authenticating record without calling it: the record becomes IDLE
    with no callback, nothing is sent or delivered, the other records
    stay as they are, and a later completion event for the record
    delivers nothing.  A record in any other state, an encrypting one
    included, is left as it is. *)
Theorem abort_access_req_drops_callback (addr : RawAddress) (p : nat)
    (status : tBTM_STATUS) (is_le : bool) (cb : tBTM_CB) :
  btm_find_dev addr (sec_dev_rec cb) = Some p ->
  (p < length (sec_dev_rec cb))%nat ->
  let cb1 := btm_sec_abort_access_req addr cb in
  if bool_decide (sec_state (dev cb p) = BTM_SEC_STATE_AUTHORIZING)
     || bool_decide (sec_state (dev cb p) = BTM_SEC_STATE_AUTHENTICATING)
  then
    sec_state (dev cb1 p) = BTM_SEC_STATE_IDLE
    /\ p_callback (dev cb1 p) = None
    /\ effects cb1 = effects cb
    /\ (forall q, q <> p -> dev cb1 q = dev cb q)
    /\ btm_sec_dev_rec_cback_event p status is_le cb1
       = btm_sec_check_pending_reqs cb1
  else cb1 = cb.
Proof.
  intros Hfind Hp cb1. subst cb1. unfold btm_sec_abort_access_req.
  rewrite Hfind.
  destruct (bool_decide (sec_state (dev cb p) = BTM_SEC_STATE_AUTHORIZING));
    destruct (bool_decide
                (sec_state (dev cb p) = BTM_SEC_STATE_AUTHENTICATING));
    cbn [negb andb orb]; try reflexivity.
  all: assert (Hnone : p_callback
         (dev (upd_dev p (set_p_callback None)
                 (upd_dev p (set_sec_state BTM_SEC_STATE_IDLE) cb)) p) = None)
         by apply p_callback_cleared.
  all: split;
    [by rewrite (dev_upd_dev_field sec_state), dev_upd_dev_valid by done|].
  all: split; [exact Hnone|]. all: split; [reflexivity|].
  all: split; [by intros q Hq; rewrite !dev_upd_dev_ne by done|].
  all: by apply dev_rec_cback_event_no_callback.
Qed.


End Links.


(** ** Queries on a device record *)

Section Queries.
Context `{Consts : Constants} `{Ext : Externals}.
Context `{MConsts : MoreConstants} `{MExt : MoreExternals}.

Lemma land_shiftr_shiftl (x m n : Z) :
  0 <= n -> Z.land x (Z.shiftl m n) = Z.shiftl (Z.land (Z.shiftr x n) m) n.
Proof.
  intros Hn. apply Z.bits_inj'. intros i Hi.
  rewrite Z.land_spec. destruct (Z.lt_ge_cases i n) as [Hlt|Hge].
  - rewrite !Z.shiftl_spec_low by exact Hlt. apply andb_false_r.
  - rewrite !Z.shiftl_spec by exact Hi. rewrite Z.land_spec.
    rewrite Z.shiftr_spec by lia. by replace (i - n + n) with i by lia.
Qed.

(** the flag [m] of a transport, read in the byte that
    [BTM_GetSecurityFlagsByTransport] returns *)
Lemma flag_of_transport_byte (flags m : Z) (transport : tBT_TRANSPORT) :
  mask8 m ->
  flag (if bool_decide (transport = BT_TRANSPORT_BR_EDR)
        then u8 flags else u8 (Z.shiftr flags 8)) m
  = flag flags (transport_bit transport m).
Proof.
  intros Hm. unfold flag, transport_bit. case_bool_decide.
  - by rewrite land_u8_l.
  - rewrite land_u8_l by exact Hm. rewrite land_shiftr_shiftl by lia.
    f_equal. destruct (Z.land (Z.shiftr flags 8) m =? 0) eqn:E.
    + apply Z.eqb_eq in E. rewrite E. by rewrite Z.shiftl_0_l.
    + apply Z.eqb_neq in E. symmetry. apply Z.eqb_neq.
      intros H0. apply Z.shiftl_eq_0_iff in H0; [done|lia].
Qed.

(** X12.  The queries [BTM_IsEncrypted], [BTM_IsLinkKeyAuthed],
    [BTM_IsLinkKeyKnown] and [BTM_IsAuthenticated] answer false for an
    address without a device record; for a known device they read the
    flag in the lower byte of [sec_flags] for BR/EDR and, for any other
    transport, the same flag eight bits higher.
    [BTM_GetSecurityFlagsByTransport] leaves the caller's byte alone for
    an unknown address. *)
Theorem queries_read_transport_byte (addr : RawAddress)
    (transport : tBT_TRANSPORT) (cb : tBTM_CB) :
  mask8 BTM_SEC_FLAG_ENCRYPTED -> mask8 BTM_SEC_FLAG_LKEY_AUTHED ->
  mask8 BTM_SEC_FLAG_LKEY_KNOWN -> mask8 BTM_SEC_AUTHENTICATED ->
  let stored (m : Z) : bool :=
    match btm_find_dev addr (sec_dev_rec cb) with
    | Some p => flag (sec_flags (dev cb p)) (transport_bit transport m)
    | None => false
    end in
  BTM_IsEncrypted addr transport cb = stored BTM_SEC_FLAG_ENCRYPTED
  /\ BTM_IsLinkKeyAuthed addr transport cb = stored BTM_SEC_FLAG_LKEY_AUTHED
  /\ BTM_IsLinkKeyKnown addr transport cb = stored BTM_SEC_FLAG_LKEY_KNOWN
  /\ BTM_IsAuthenticated addr transport cb = stored BTM_SEC_AUTHENTICATED
  /\ (btm_find_dev addr (sec_dev_rec cb) = None ->
      forall byte,
        BTM_GetSecurityFlagsByTransport addr byte transport cb
        = (false, byte)).
Proof.
  intros He Ha Hk Hau stored.
  assert (Hq : forall m, mask8 m ->
    negb (Z.land (snd (BTM_GetSecurityFlagsByTransport addr 0 transport cb)) m
          =? 0) = stored m).
  { intros m Hm. subst stored. unfold BTM_GetSecurityFlagsByTransport.
    destruct (btm_find_dev addr (sec_dev_rec cb)) as [p|]; [|reflexivity].
    rewrite <- (flag_of_transport_byte _ m transport Hm).
    by case_bool_decide. }
  unfold BTM_IsEncrypted, BTM_IsLinkKeyAuthed, BTM_IsLinkKeyKnown,
    BTM_IsAuthenticated. cbn zeta.
  rewrite !Hq by assumption. repeat (split; [reflexivity|]).
  intros Hnone byte. unfold BTM_GetSecurityFlagsByTransport.
  by rewrite Hnone.
Qed.

End Queries.

(** ** The queued encryption requests *)

Section PendingEncryption.
Context `{Consts : Constants} `{Ext : Externals}.
Context `{MConsts : MoreConstants} `{MExt : MoreExternals}.

Lemma remove_from_queue_app (e : tBTM_SEC_QUEUE_ENTRY)
    (pre q : list tBTM_SEC_QUEUE_ENTRY) :
  e ∉ pre -> remove_from_queue e (pre ++ e :: q) = pre ++ q.
Proof.
  induction pre as [|a pre IH]; intros Hnot; cbn.
  - by rewrite decide_True.
  - apply not_elem_of_cons in Hnot as [Hne Hnot].
    rewrite decide_False by congruence. by rewrite IH.
Qed.

(** the loop of [btm_sec_check_pending_enc_req] when the callbacks leave
    the queue, the records and the log alone *)
Lemma check_pending_enc_req_loop_spec (p : nat) (transport : tBT_TRANSPORT)
    (encr_enable : Z) (res : tBTM_STATUS)
    (nodes : list tBTM_SEC_QUEUE_ENTRY) :
  (forall f a t r s c,
     sec_pending_q (callback_body f a t r s c) = sec_pending_q c
     /\ sec_dev_rec (callback_body f a t r s c) = sec_dev_rec c
     /\ effects (callback_body f a t r s c) = effects c) ->
  forall (cb : tBTM_CB) (pre : list tBTM_SEC_QUEUE_ENTRY),
    sec_pending_q cb = pre ++ nodes ->
    Forall (fun e => enc_req_answered (dev cb p) transport encr_enable e
                     = false) pre ->
    let cb' := check_pending_enc_req_loop nodes p transport encr_enable res
                 cb in
    sec_pending_q cb'
    = pre ++ List.filter
               (fun e => negb (enc_req_answered (dev cb p) transport
                                 encr_enable e)) nodes
    /\ sec_dev_rec cb' = sec_dev_rec cb
    /\ effects cb'
       = effects cb
         ++ enc_req_callbacks (dev cb p) transport res
              (List.filter (enc_req_answered (dev cb p) transport encr_enable)
                 nodes).
Proof.
  intros Hbody. induction nodes as [|e nodes IH]; intros cb pre Hq Hpre.
  - cbn. rewrite Hq. by rewrite !app_nil_r.
  - cbn [check_pending_enc_req_loop List.filter].
    change ((e_bd_addr e =? bd_addr (dev cb p)) && (e_psm e =? 0)
            && bool_decide (e_transport e = transport)
            && ((encr_enable =? 0)
                || bool_decide (transport = BT_TRANSPORT_BR_EDR)
                || bool_decide (e_sec_act e = BTM_BLE_SEC_ENCRYPT)
                || bool_decide (e_sec_act e = BTM_BLE_SEC_ENCRYPT_NO_MITM)
                || (bool_decide (e_sec_act e = BTM_BLE_SEC_ENCRYPT_MITM)
                    && flag (sec_flags (dev cb p)) BTM_SEC_LE_AUTHENTICATED)))
      with (enc_req_answered (dev cb p) transport encr_enable e).
    destruct (enc_req_answered (dev cb p) transport encr_enable e) eqn:Ea;
      cbn [negb].
    + set (cb1 := call_callback (e_p_callback e) (bd_addr (dev cb p)) transport
                    (e_p_ref_data e) res cb).
      assert (H1 : sec_pending_q cb1 = sec_pending_q cb
                   /\ sec_dev_rec cb1 = sec_dev_rec cb
                   /\ effects cb1
                      = effects cb
                        ++ enc_req_callbacks (dev cb p) transport res [e]).
      { subst cb1. unfold call_callback, enc_req_callbacks.
        destruct (e_p_callback e) as [f|] eqn:Ef.
        - destruct (Hbody f (bd_addr (dev cb p)) transport (e_p_ref_data e) res
                      (emit (E_callback f (bd_addr (dev cb p)) transport
                               (e_p_ref_data e) res) cb))
            as (E1 & E2 & E3).
          rewrite E1, E2, E3. cbn. by rewrite Ef.
        - cbn. by rewrite Ef, app_nil_r. }
      destruct H1 as (Hq1 & Hr1 & He1).
      set (cb2 := set_sec_pending_q _ cb1).
      assert (Hdev2 : dev cb2 p = dev cb p).
      { unfold dev. subst cb2. cbn. by rewrite Hr1. }
      assert (Hq2 : sec_pending_q cb2 = pre ++ nodes).
      { subst cb2. cbn. rewrite Hq1, Hq. apply remove_from_queue_app.
        intros Hin. rewrite list.Forall_forall in Hpre.
        specialize (Hpre e Hin). congruence. }
      destruct (IH cb2 pre Hq2) as (IHq & IHr & IHe).
      { by rewrite Hdev2. }
      rewrite Hdev2 in IHq, IHe. split; [exact IHq|].
      split; [by rewrite IHr; subst cb2; cbn|].
      rewrite IHe. subst cb2. cbn [effects set_sec_pending_q]. rewrite He1.
      rewrite <- app_assoc. f_equal. unfold enc_req_callbacks. cbn.
      by destruct (e_p_callback e).
    + destruct (IH cb (pre ++ [e])) as (IHq & IHr & IHe).
      { by rewrite <- app_assoc. }
      { apply Forall_app. split; [exact Hpre|]. by apply Forall_singleton. }
      rewrite <- app_assoc in IHq. done.
Qed.

(** X13.  When the security callbacks leave the queue, the records and
    the log alone, [btm_sec_check_pending_enc_req] answers exactly the
    queued encryption requests (PSM 0) of the record on the transport
    that the event settles: their callbacks are called in queue order,
    with BTM_SUCCESS when encryption is on and BTM_ERR_PROCESSING when
    it is off, and they leave the queue; every other request stays
    queued, in its order. *)
Theorem check_pending_enc_req_answers (p : nat) (transport : tBT_TRANSPORT)
    (encr_enable : Z) (cb : tBTM_CB) :
  (forall f a t r s c,
     sec_pending_q (callback_body f a t r s c) = sec_pending_q c
     /\ sec_dev_rec (callback_body f a t r s c) = sec_dev_rec c
     /\ effects (callback_body f a t r s c) = effects c) ->
  let cb' := btm_sec_check_pending_enc_req p transport encr_enable cb in
  let answered := enc_req_answered (dev cb p) transport encr_enable in
  let res :=
    if encr_enable =? 0 then BTM_ERR_PROCESSING else BTM_SUCCESS in
  sec_pending_q cb'
  = List.filter (fun e => negb (answered e)) (sec_pending_q cb)
  /\ sec_dev_rec cb' = sec_dev_rec cb
  /\ new_effects cb cb'
     = enc_req_callbacks (dev cb p) transport res
         (List.filter answered (sec_pending_q cb)).
Proof.
  intros Hbody cb' answered res. subst cb' answered.
  unfold btm_sec_check_pending_enc_req.
  destruct (check_pending_enc_req_loop_spec p transport encr_enable
              (if negb (encr_enable =? 0)
               then BTM_SUCCESS else BTM_ERR_PROCESSING)
              (sec_pending_q cb) Hbody cb [] eq_refl (Forall_nil_2 _))
    as (Hq & Hr & He).
  split; [exact Hq|]. split; [exact Hr|].
  apply new_effects_app. rewrite He. subst res.
  by destruct (encr_enable =? 0).
Qed.

End PendingEncryption.

(** ** The encryption change event and the bond *)

Section EncryptionEvents.
Context `{Consts : Constants} `{Ext : Externals}.
Context `{MConsts : MoreConstants} `{MExt : MoreExternals}.

Lemma dev_same_store (c1 c2 : tBTM_CB) (p : nat) :
  sec_dev_rec c1 = sec_dev_rec c2 -> dev c1 p = dev c2 p.
Proof. unfold dev. by intros ->. Qed.

(** X14.  An encryption change event on an LE link that reports a missing
    key, an authentication failure or an unacceptable encryption mode
    makes the device forget its LE key: [BTM_SEC_LE_LINK_KEY_KNOWN] is
    cleared, the LE key type is BTM_LE_KEY_NONE and the status is kept in
    [sec_status]; a device without a BR/EDR link key is no longer bonded
    for [btm_sec_is_a_bonded_dev].  The queued encryption requests of the
    link are answered first, then the BLE layer is told.  (The security
    callbacks are taken to leave the queue, the records and the log
    alone.) *)
Theorem le_encryption_failure_unbonds (handle : Z) (status : tHCI_STATUS)
    (encr_enable : Z) (p : nat) (cb : tBTM_CB) :
  (forall f a t r s c,
     sec_pending_q (callback_body f a t r s c) = sec_pending_q c
     /\ sec_dev_rec (callback_body f a t r s c) = sec_dev_rec c
     /\ effects (callback_body f a t r s c) = effects c) ->
  BTM_LE_KEY_NONE = 0 ->
  status = HCI_ERR_KEY_MISSING \/ status = HCI_ERR_AUTH_FAILURE
  \/ status = HCI_ERR_ENCRY_MODE_NOT_ACCEPTABLE ->
  BTM_IsBleConnection handle = true ->
  btm_find_dev_by_handle handle (sec_dev_rec cb) = Some p ->
  (p < length (sec_dev_rec cb))%nat ->
  let cb' := btm_sec_encrypt_change handle status encr_enable cb in
  let res :=
    if encr_enable =? 0 then BTM_ERR_PROCESSING else BTM_SUCCESS in
  flag (sec_flags (dev cb' p)) BTM_SEC_LE_LINK_KEY_KNOWN = false
  /\ ble_key_type (dev cb' p) = BTM_LE_KEY_NONE
  /\ sec_status (dev cb' p) = status
  /\ new_effects cb cb'
     = enc_req_callbacks (dev cb p) BT_TRANSPORT_LE res
         (List.filter (enc_req_answered (dev cb p) BT_TRANSPORT_LE encr_enable)
            (sec_pending_q cb))
       ++ [E_btm_ble_link_encrypted (ble_pseudo_addr (dev cb p))
             (negb (encr_enable =? 0))]
  /\ (flag (sec_flags (dev cb p)) BTM_SEC_LINK_KEY_KNOWN = false ->
      forall bda, btm_find_dev bda (sec_dev_rec cb') = Some p ->
        btm_sec_is_a_bonded_dev bda cb' = false).
Proof.
  intros Hbody Hnone Hst Hble Hfind Hp cb' res.
  assert (Hcol : is_collision status = false).
  { by destruct Hst as [->|[->| ->]]. }
  assert (Hns : bool_decide (status = HCI_SUCCESS) = false).
  { by destruct Hst as [->|[->| ->]]. }
  assert (Hfail : bool_decide (status = HCI_ERR_KEY_MISSING)
                  || bool_decide (status = HCI_ERR_AUTH_FAILURE)
                  || bool_decide (status = HCI_ERR_ENCRY_MODE_NOT_ACCEPTABLE)
                  = true).
  { by destruct Hst as [->|[->| ->]]. }
  set (cb0 := set_collision_start_time 0 cb).
  set (cbq := btm_sec_check_pending_enc_req p BT_TRANSPORT_LE encr_enable cb0).
  destruct (check_pending_enc_req_loop_spec p BT_TRANSPORT_LE encr_enable
              (if negb (encr_enable =? 0)
               then BTM_SUCCESS else BTM_ERR_PROCESSING)
              (sec_pending_q cb0) Hbody cb0 [] eq_refl (Forall_nil_2 _))
    as (_ & Hrq & Heq).
  fold (btm_sec_check_pending_enc_req p BT_TRANSPORT_LE encr_enable cb0)
    in Hrq, Heq. fold cbq in Hrq, Heq.
  change (dev cb0 p) with (dev cb p) in Heq.
  change (sec_dev_rec cb0) with (sec_dev_rec cb) in Hrq.
  change (effects cb0) with (effects cb) in Heq.
  change (sec_pending_q cb0) with (sec_pending_q cb) in Heq.
  assert (Hdq : dev cbq p = dev cb p) by (by apply dev_same_store).
  assert (Hlq : (p < length (sec_dev_rec cbq))%nat) by (by rewrite Hrq).
  set (cb2 := upd_dev p (set_sec_status status)
                (upd_dev p (set_ble_key_type BTM_LE_KEY_NONE)
                   (upd_dev p (fun r => set_sec_flags
                      (clr16 (sec_flags r) BTM_SEC_LE_LINK_KEY_KNOWN) r) cbq))).
  assert (Hcb' : cb'
    = emit (E_btm_ble_link_encrypted (ble_pseudo_addr (dev cb2 p))
              (negb (encr_enable =? 0))) cb2).
  { subst cb'. unfold btm_sec_encrypt_change. rewrite Hcol. fold cb0.
    change (sec_dev_rec cb0) with (sec_dev_rec cb). rewrite Hfind, Hble.
    rewrite Hns. cbn [andb]. fold cbq.
    change (bool_decide (BT_TRANSPORT_LE = BT_TRANSPORT_LE)) with true.
    cbn iota. by rewrite Hfail. }
  assert (Hd2 : dev cb2 p
    = set_sec_status status
        (set_ble_key_type BTM_LE_KEY_NONE
           (set_sec_flags
              (clr16 (sec_flags (dev cb p)) BTM_SEC_LE_LINK_KEY_KNOWN)
              (dev cb p)))).
  { subst cb2. rewrite !dev_upd_dev_valid; rewrite ?length_upd_dev;
      [by rewrite Hdq|done..]. }
  assert (Hd' : dev cb' p = dev cb2 p) by (by rewrite Hcb', dev_emit).
  rewrite Hd', Hd2. cbn [sec_flags ble_key_type sec_status set_sec_status
    set_ble_key_type set_sec_flags].
  split; [apply flag_clr16_same|]. split; [done|]. split; [done|]. split.
  - apply new_effects_app. rewrite Hcb'. rewrite Hd2.
    cbn [effects emit set_effects ble_pseudo_addr set_sec_status
      set_ble_key_type set_sec_flags].
    change (effects cb2) with (effects cbq). rewrite Heq.
    rewrite <- app_assoc. subst res. by destruct (encr_enable =? 0).
  - intros Hk bda Hb. unfold btm_sec_is_a_bonded_dev. rewrite Hb.
    rewrite Hd', Hd2. cbn [sec_flags ble_key_type set_sec_status
      set_ble_key_type set_sec_flags]. rewrite Hnone. cbn [Z.eqb negb andb orb].
    by rewrite (flag_clr16_false _ _ _ Hk).
Qed.

End EncryptionEvents.

(** ** The replies of the user *)

Section Replies.
Context `{Consts : Constants} `{Ext : Externals}.
Context `{MConsts : MoreConstants} `{MExt : MoreExternals}.

Lemma new_more_effects_app (x x' : tBTM_CB_EXT) (l : list (nat * MoreEffect)) :
  more_effects x' = more_effects x ++ l -> new_more_effects x x' = snd <$> l.
Proof. unfold new_more_effects. intros ->. by rewrite drop_app_length. Qed.

(** what a step appends to the second log satisfies [P] *)
Definition appends (P : MoreEffect -> Prop) (x x' : tBTM_CB_EXT) : Prop :=
  exists l, more_effects x' = more_effects x ++ l
            /\ Forall (fun e => P (snd e)) l.

Lemma appends_refl P (x x' : tBTM_CB_EXT) :
  more_effects x' = more_effects x -> appends P x x'.
Proof. intros H. exists []. by rewrite app_nil_r. Qed.

Lemma appends_trans P (x1 x2 x3 : tBTM_CB_EXT) :
  appends P x1 x2 -> appends P x2 x3 -> appends P x1 x3.
Proof.
  intros (l1 & H1 & F1) (l2 & H2 & F2). exists (l1 ++ l2).
  split; [by rewrite H2, H1, app_assoc|by apply Forall_app].
Qed.

Lemma appends_emit_more P (e : MoreEffect) (x : tBTM_CB_EXT) :
  P e -> appends P x (emit_more e x).
Proof.
  intros He. exists [(length (effects (base_cb x)), e)]. split; [done|].
  by apply Forall_singleton.
Qed.

Lemma appends_emit_more_after P (e : MoreEffect) (x y : tBTM_CB_EXT) :
  more_effects y = more_effects x -> P e -> appends P x (emit_more e y).
Proof.
  intros Hy He. exists [(length (effects (base_cb y)), e)].
  split; [unfold emit_more; cbn; by rewrite Hy|by apply Forall_singleton].
Qed.

Lemma appends_on_base P f (x : tBTM_CB_EXT) : appends P x (on_base f x).
Proof. by apply appends_refl. Qed.

Lemma appends_elem P (x x' : tBTM_CB_EXT) (e : MoreEffect) :
  appends P x x' -> e ∈ new_more_effects x x' -> P e.
Proof.
  intros (l & H & F) Hin. rewrite (new_more_effects_app _ _ _ H) in Hin.
  apply list_elem_of_fmap in Hin as ([n e'] & -> & Hin).
  rewrite list.Forall_forall in F. by apply (F _ Hin).
Qed.

Lemma bond_cancel_complete_appends P (x : tBTM_CB_EXT) :
  P (E_p_bond_cancel_cmpl_callback BTM_SUCCESS) ->
  appends P x (btm_sec_bond_cancel_complete x).
Proof.
  intros HP. unfold btm_sec_bond_cancel_complete.
  destruct (_ || _); [|by apply appends_refl].
  destruct (api_p_bond_cancel_cmpl_callback _) eqn:E.
  - eapply appends_trans; [|by apply appends_emit_more].
    apply appends_refl. by destruct (btm_find_dev _ _).
  - apply appends_refl. by destruct (btm_find_dev _ _).
Qed.

Lemma SecBondCancel_appends P (addr : RawAddress) (x : tBTM_CB_EXT) :
  P (E_p_bond_cancel_cmpl_callback BTM_SUCCESS) ->
  P (E_SMP_PairCancel addr) -> P (E_btsnd_hcic_create_conn_cancel addr) ->
  P E_BTM_CancelRemoteDeviceName ->
  appends P x (snd (BTM_SecBondCancel addr x)).
Proof.
  intros H1 H2 H3 H4. unfold BTM_SecBondCancel.
  repeat first
    [ progress cbn [fst snd]
    | by apply appends_refl
    | by apply appends_emit_more
    | by apply bond_cancel_complete_appends
    | match goal with
      | |- appends _ _ (snd (match ?c with _ => _ end)) => destruct c
      | |- appends _ _ (snd (if ?c then _ else _)) => destruct c
      end ].
Qed.

(** X15.  [BTM_PasskeyReqReply] never sends a passkey above
    BTM_MAX_PASSKEY_VAL to the controller: every passkey reply it issues
    is for the address and the passkey it was given, with the result
    BTM_SUCCESS, a passkey of at most BTM_MAX_PASSKEY_VAL, during a
    pairing with that address. *)
Theorem passkey_reply_in_range (res : tBTM_STATUS) (addr : RawAddress)
    (passkey : Z) (x : tBTM_CB_EXT) (a : RawAddress) (v : Z) :
  E_btsnd_hcic_user_passkey_reply a v
    ∈ new_more_effects x (BTM_PasskeyReqReply res addr passkey x) ->
  a = addr /\ v = passkey /\ passkey <= BTM_MAX_PASSKEY_VAL
  /\ res = BTM_SUCCESS /\ pairing_bda (base_cb x) = addr
  /\ pairing_state (base_cb x) <> BTM_PAIR_STATE_IDLE.
Proof.
  set (P := fun e : MoreEffect =>
    match e with
    | E_btsnd_hcic_user_passkey_reply a v =>
      a = addr /\ v = passkey /\ passkey <= BTM_MAX_PASSKEY_VAL
      /\ res = BTM_SUCCESS /\ pairing_bda (base_cb x) = addr
      /\ pairing_state (base_cb x) <> BTM_PAIR_STATE_IDLE
    | _ => True
    end).
  intros Hin. apply (appends_elem P _ _ _) in Hin; [exact Hin|]. clear Hin.
  unfold BTM_PasskeyReqReply.
  destruct (bool_decide (pairing_state (base_cb x) = BTM_PAIR_STATE_IDLE))
    eqn:Eidle; cbn [orb]; [by apply appends_refl|].
  destruct (pairing_bda (base_cb x) =? addr) eqn:Ebda; cbn [negb];
    [|by apply appends_refl].
  apply Z.eqb_eq in Ebda. apply bool_decide_eq_false in Eidle.
  assert (Hreply : forall y, more_effects y = more_effects x ->
    appends P x
      (if negb (bool_decide
                  ((if BTM_MAX_PASSKEY_VAL <? passkey
                    then BTM_ILLEGAL_VALUE else res) = BTM_SUCCESS))
       then emit_more (E_btsnd_hcic_user_passkey_neg_reply addr)
              (on_base (emit (E_acl_set_disconnect_reason
                                HCI_ERR_HOST_REJECT_SECURITY))
                 (on_base (btm_sec_change_pairing_state
                             BTM_PAIR_STATE_WAIT_AUTH_COMPLETE) y))
       else emit_more (E_btsnd_hcic_user_passkey_reply addr passkey)
              (on_base (emit (E_acl_set_disconnect_reason HCI_SUCCESS))
                 (on_base (btm_sec_change_pairing_state
                             BTM_PAIR_STATE_WAIT_AUTH_COMPLETE) y)))).
  { intros y Hy. case_bool_decide as Hres; cbn [negb].
    - apply appends_emit_more_after; [exact Hy|]. subst P. cbn.
      destruct (BTM_MAX_PASSKEY_VAL <? passkey) eqn:El; [done|].
      apply Z.ltb_ge in El. done.
    - by apply appends_emit_more_after. }
  destruct (bool_decide
              (pairing_state (base_cb x) = BTM_PAIR_STATE_WAIT_AUTH_COMPLETE)
            && negb (bool_decide (res = BTM_SUCCESS))).
  - destruct (btm_find_dev addr (sec_dev_rec (base_cb x))) as [p|];
      [|by apply Hreply].
    eapply appends_trans; [|by apply appends_on_base].
    eapply appends_trans; [|by apply appends_on_base].
    destruct (negb (hci_handle _ =? HCI_INVALID_HANDLE)).
    + apply appends_refl. reflexivity.
    + eapply appends_trans; [|by apply SecBondCancel_appends].
      by apply appends_on_base.
  - destruct (negb (bool_decide
                      (pairing_state (base_cb x) = BTM_PAIR_STATE_KEY_ENTRY)));
      [by apply appends_refl|by apply Hreply].
Qed.

(** X16.  A reply of the user is taken once.  In the state
    WAIT_NUMERIC_CONFIRM [BTM_ConfirmReqReply] for the pairing peer sends
    one user confirmation reply, positive for BTM_SUCCESS and
    BTM_SUCCESS_NO_SECURITY and negative otherwise; in the state
    WAIT_LOCAL_OOB_RSP [BTM_RemoteOobDataReply] sends one OOB reply,
    for the address it is given, with the data for BTM_SUCCESS and
    negative otherwise.  Both restart the pairing timer and leave the
    pairing in WAIT_AUTH_COMPLETE, where a further reply of the same
    kind changes nothing. *)
Theorem user_reply_taken_once (res res' : tBTM_STATUS) (addr addr' : RawAddress)
    (c r c' r' : list Z) (x : tBTM_CB_EXT) :
  let timer :=
    E_alarm_set_on_mloop pairing_timer (BTM_SEC_TIMEOUT_VALUE * 1000)
      alarm_btm_sec_pairing_timeout in
  (pairing_state (base_cb x) = BTM_PAIR_STATE_WAIT_NUMERIC_CONFIRM ->
   pairing_bda (base_cb x) = addr ->
   let yes :=
     bool_decide (res = BTM_SUCCESS)
     || bool_decide (res = BTM_SUCCESS_NO_SECURITY) in
   let x' := BTM_ConfirmReqReply res addr x in
   new_more_effects x x' = [E_btsnd_hcic_user_conf_reply addr yes]
   /\ new_effects (base_cb x) (base_cb x')
      = [timer;
         E_acl_set_disconnect_reason
           (if yes then HCI_SUCCESS else HCI_ERR_HOST_REJECT_SECURITY)]
   /\ pairing_state (base_cb x') = BTM_PAIR_STATE_WAIT_AUTH_COMPLETE
   /\ BTM_ConfirmReqReply res' addr' x' = x')
  /\ (pairing_state (base_cb x) = BTM_PAIR_STATE_WAIT_LOCAL_OOB_RSP ->
      let x' := BTM_RemoteOobDataReply res addr c r x in
      new_more_effects x x'
      = [if bool_decide (res = BTM_SUCCESS)
         then E_btsnd_hcic_rem_oob_reply addr c r
         else E_btsnd_hcic_rem_oob_neg_reply addr]
      /\ new_effects (base_cb x) (base_cb x')
         = [timer;
            E_acl_set_disconnect_reason
              (if bool_decide (res = BTM_SUCCESS)
               then HCI_SUCCESS else HCI_ERR_HOST_REJECT_SECURITY)]
      /\ pairing_state (base_cb x') = BTM_PAIR_STATE_WAIT_AUTH_COMPLETE
      /\ BTM_RemoteOobDataReply res' addr' c' r' x' = x').
Proof.
  intros timer. split.
  - intros Hs Hb yes x'.
    assert (Hx : x'
      = emit_more (E_btsnd_hcic_user_conf_reply addr yes)
          (on_base (fun cb =>
             emit (E_acl_set_disconnect_reason
                     (if yes then HCI_SUCCESS
                      else HCI_ERR_HOST_REJECT_SECURITY))
               (emit timer
                  (set_pairing_state BTM_PAIR_STATE_WAIT_AUTH_COMPLETE cb)))
             x)).
    { subst x'. unfold BTM_ConfirmReqReply. rewrite Hs, Hb, Z.eqb_refl.
      change (bool_decide (BTM_PAIR_STATE_WAIT_NUMERIC_CONFIRM
                           = BTM_PAIR_STATE_WAIT_NUMERIC_CONFIRM)) with true.
      cbn [negb orb]. fold yes.
      unfold btm_sec_change_pairing_state, on_base.
      cbn [base_cb set_base_cb]. rewrite Hs.
      change (bool_decide (BTM_PAIR_STATE_WAIT_AUTH_COMPLETE
                           = BTM_PAIR_STATE_IDLE)) with false.
      change (bool_decide (BTM_PAIR_STATE_WAIT_NUMERIC_CONFIRM
                           = BTM_PAIR_STATE_IDLE)) with false.
      cbn iota. by destruct yes. }
    clearbody x' yes. subst x'.
    split; [eapply (new_more_effects_app _ _ [(_, _)]); reflexivity|].
    split; [apply new_effects_app; cbn; by rewrite <- app_assoc|].
    split; [reflexivity|]. unfold BTM_ConfirmReqReply. reflexivity.
  - intros Hs x'.
    assert (Hx : x'
      = emit_more (if bool_decide (res = BTM_SUCCESS)
                   then E_btsnd_hcic_rem_oob_reply addr c r
                   else E_btsnd_hcic_rem_oob_neg_reply addr)
          (on_base (fun cb =>
             emit (E_acl_set_disconnect_reason
                     (if bool_decide (res = BTM_SUCCESS) then HCI_SUCCESS
                      else HCI_ERR_HOST_REJECT_SECURITY))
               (emit timer
                  (set_pairing_state BTM_PAIR_STATE_WAIT_AUTH_COMPLETE cb)))
             x)).
    { subst x'. unfold BTM_RemoteOobDataReply. rewrite Hs.
      change (bool_decide (BTM_PAIR_STATE_WAIT_LOCAL_OOB_RSP
                           = BTM_PAIR_STATE_WAIT_LOCAL_OOB_RSP)) with true.
      cbn [negb].
      unfold btm_sec_change_pairing_state, on_base.
      cbn [base_cb set_base_cb]. rewrite Hs.
      change (bool_decide (BTM_PAIR_STATE_WAIT_AUTH_COMPLETE
                           = BTM_PAIR_STATE_IDLE)) with false.
      change (bool_decide (BTM_PAIR_STATE_WAIT_LOCAL_OOB_RSP
                           = BTM_PAIR_STATE_IDLE)) with false.
      cbn iota. by destruct (bool_decide (res = BTM_SUCCESS)). }
    clearbody x'. subst x'.
    split; [eapply (new_more_effects_app _ _ [(_, _)]); reflexivity|].
    split; [apply new_effects_app; cbn; by rewrite <- app_assoc|].
    split; [reflexivity|]. unfold BTM_RemoteOobDataReply. reflexivity.
Qed.

End Replies.

(** ** The end of a pairing *)

Section Pairing.
Context `{Consts : Constants} `{Ext : Externals}.
Context `{MConsts : MoreConstants} `{MExt : MoreExternals}.

Lemma restore_mode_commands_spec (cb : tBTM_CB) :
  effects (btm_restore_mode cb) = effects cb ++ restore_mode_commands cb
  /\ sec_req_pending (btm_restore_mode cb) = sec_req_pending cb
  /\ pin_code (btm_restore_mode cb) = pin_code cb
  /\ pin_code_len (btm_restore_mode cb) = pin_code_len cb.
Proof.
  unfold btm_restore_mode, restore_mode_commands.
  destruct (security_mode_changed cb) eqn:H1; cbn;
    destruct (pin_type_changed cb) eqn:H2; cbn;
    rewrite <- ?app_assoc, ?app_nil_r; done.
Qed.

(** the way to IDLE when no request is pending *)
Lemma change_pairing_state_idle (cb : tBTM_CB) :
  sec_req_pending cb = false -> sec_pending_q cb = [] ->
  let cb' := btm_sec_change_pairing_state BTM_PAIR_STATE_IDLE cb in
  pairing_state cb' = BTM_PAIR_STATE_IDLE
  /\ pairing_flags cb' = 0 /\ pin_code_len cb' = 0
  /\ pairing_bda cb' = RawAddress_kAny
  /\ sec_dev_rec cb' = sec_dev_rec cb
  /\ effects cb' = effects cb ++ pairing_idle_effects cb
  /\ sec_req_pending cb' = false /\ sec_pending_q cb' = []
  /\ api_p_auth_complete_callback cb' = api_p_auth_complete_callback cb
  /\ pin_code cb' = pin_code cb.
Proof.
  intros Hp Hq cb'. subst cb'. unfold btm_sec_change_pairing_state.
  change (bool_decide (BTM_PAIR_STATE_IDLE = BTM_PAIR_STATE_IDLE)) with true.
  cbn iota.
  set (c1 := emit (E_l2cu_update_lcb_4_bonding _ false) _).
  assert (Hc1 : pairing_state c1 = BTM_PAIR_STATE_IDLE
                /\ pairing_flags c1 = 0 /\ pin_code_len c1 = 0
                /\ sec_dev_rec c1 = sec_dev_rec cb
                /\ effects c1
                   = effects cb
                     ++ [E_alarm_cancel pairing_timer;
                         E_l2cu_update_lcb_4_bonding (pairing_bda cb) false]
                /\ sec_req_pending c1 = false /\ sec_pending_q c1 = []
                /\ api_p_auth_complete_callback c1
                   = api_p_auth_complete_callback cb
                /\ pin_code c1 = pin_code cb
                /\ restore_mode_commands c1 = restore_mode_commands cb).
  { subst c1. cbn. rewrite <- app_assoc. done. }
  clearbody c1.
  destruct Hc1 as (H1 & H2 & H3 & H4 & H5 & H6 & H7 & H8 & H9 & H10).
  destruct (restore_mode_frame c1) as (Hr & Hs & Hf & Hb & Ha & Hq').
  destruct (restore_mode_commands_spec c1) as (He & Hp' & Hpc & Hpl).
  rewrite (check_pending_reqs_nothing (btm_restore_mode c1))
    by (rewrite ?Hp', ?Hq'; done).
  cbn [pairing_state pairing_flags pin_code_len pairing_bda sec_dev_rec
       effects sec_req_pending sec_pending_q api_p_auth_complete_callback
       pin_code set_pairing_bda emit set_effects].
  rewrite Hr, Hs, Hf, He, Hp', Hq', Ha, Hpc, Hpl.
  rewrite H1, H2, H3, H4, H5, H6, H7, H8, H9, H10.
  unfold pairing_idle_effects. rewrite <- !app_assoc. done.
Qed.


Lemma send_hci_disconnect_frame (p : nat) (reason : tHCI_STATUS) (h : Z)
    (cb : tBTM_CB) :
  let cb' := snd (btm_sec_send_hci_disconnect p reason h cb) in
  sec_req_pending cb' = sec_req_pending cb
  /\ sec_pending_q cb' = sec_pending_q cb
  /\ pairing_state cb' = pairing_state cb
  /\ pairing_flags cb' = pairing_flags cb
  /\ pairing_bda cb' = pairing_bda cb.
Proof.
  unfold btm_sec_send_hci_disconnect.
  destruct (sec_state (dev cb p)); repeat case_match; done.
Qed.

Lemma base_cb_on_base (f : tBTM_CB -> tBTM_CB) (x : tBTM_CB_EXT) :
  base_cb (on_base f x) = f (base_cb x).
Proof. reflexivity. Qed.

Lemma base_cb_emit_more (e : MoreEffect) (x : tBTM_CB_EXT) :
  base_cb (emit_more e x) = base_cb x.
Proof. reflexivity. Qed.

Lemma pairing_over_idle (c : tBTM_CB) :
  sec_req_pending c = false -> sec_pending_q c = [] ->
  pairing_over (btm_sec_change_pairing_state BTM_PAIR_STATE_IDLE c).
Proof.
  intros H1 H2.
  destruct (change_pairing_state_idle c H1 H2) as (? & ? & _ & ? & _).
  by split.
Qed.

(** the notification of [btm_sec_pairing_timeout] leaves the pairing
    over *)
Lemma pairing_over_notify (o : option nat) (c : tBTM_CB) :
  pairing_over c ->
  pairing_over
    (if api_p_auth_complete_callback c then
       match o with
       | None =>
         emit (E_p_auth_complete_callback (pairing_bda c)
                 HCI_ERR_CONNECTION_TOUT) c
       | Some p => NotifyBondingChange (dev c p) HCI_ERR_CONNECTION_TOUT c
       end
     else c).
Proof.
  intros H. unfold NotifyBondingChange.
  destruct (api_p_auth_complete_callback c); [|exact H].
  destruct o; exact H.
Qed.

(** X18.  The expiry of the pairing timer ends the pairing, unless it
    only answers the controller or finds nothing to do.  With no request
    pending, [btm_sec_pairing_timeout] leaves the pairing state, the
    pairing peer and the device records as they are in the state
    WAIT_NUMERIC_CONFIRM, in KEY_ENTRY when the local device has IO
    capabilities, in WAIT_PIN_REQ when the link is not marked to be
    dropped, and in WAIT_DISCONNECT for an unknown peer; in every other
    case the pairing state is IDLE afterwards, the pairing flags are
    cleared and the pairing peer is [RawAddress::kAny]. *)
Theorem pairing_timeout_outcome (x : tBTM_CB_EXT) :
  sec_req_pending (base_cb x) = false -> sec_pending_q (base_cb x) = [] ->
  let x' := btm_sec_pairing_timeout x in
  if timeout_keeps_pairing x then
    pairing_state (base_cb x') = pairing_state (base_cb x)
    /\ pairing_bda (base_cb x') = pairing_bda (base_cb x)
    /\ pairing_flags (base_cb x') = pairing_flags (base_cb x)
    /\ sec_dev_rec (base_cb x') = sec_dev_rec (base_cb x)
  else
    pairing_state (base_cb x') = BTM_PAIR_STATE_IDLE
    /\ pairing_flags (base_cb x') = 0
    /\ pairing_bda (base_cb x') = RawAddress_kAny.
Proof.
  intros Hp Hq x'. fold (pairing_over (base_cb x')).
  subst x'. unfold btm_sec_pairing_timeout, timeout_keeps_pairing.
  destruct (pairing_state (base_cb x)) eqn:Es; cbv beta iota.
  - (* IDLE *) rewrite base_cb_on_base. by apply pairing_over_idle.
  - (* GET_REM_NAME *)
    rewrite !base_cb_on_base. apply pairing_over_notify.
    by apply pairing_over_idle.
  - (* WAIT_PIN_REQ *)
    unfold btm_sec_bond_cancel_complete. rewrite Es.
    change (bool_decide (BTM_PAIR_STATE_WAIT_LOCAL_PIN
                         = BTM_PAIR_STATE_WAIT_PIN_REQ)) with false.
    change (bool_decide (BTM_PAIR_STATE_WAIT_PIN_REQ
                         = BTM_PAIR_STATE_GET_REM_NAME)) with false.
    cbn [andb orb].
    destruct (flag (pairing_flags (base_cb x)) BTM_PAIR_FLAGS_DISC_WHEN_DONE);
      cbn [negb]; cbv beta iota; [|by rewrite ?Es].
    assert (Hx : forall y, sec_req_pending (base_cb y) = false ->
      sec_pending_q (base_cb y) = [] ->
      pairing_over
        (base_cb
           (if api_p_bond_cancel_cmpl_callback
                 (on_base (btm_sec_change_pairing_state BTM_PAIR_STATE_IDLE) y)
            then emit_more (E_p_bond_cancel_cmpl_callback BTM_SUCCESS)
                   (on_base (btm_sec_change_pairing_state BTM_PAIR_STATE_IDLE)
                      y)
            else on_base (btm_sec_change_pairing_state BTM_PAIR_STATE_IDLE)
                   y))).
    { intros y H1 H2.
      destruct (api_p_bond_cancel_cmpl_callback _);
        rewrite ?base_cb_emit_more, base_cb_on_base;
        by apply pairing_over_idle. }
    destruct (btm_find_dev _ _); apply Hx; rewrite ?base_cb_on_base; done.
  - (* WAIT_LOCAL_PIN *)
    rewrite !base_cb_on_base. apply pairing_over_notify.
    apply pairing_over_idle;
      destruct (_ =? 0); rewrite ?base_cb_on_base; done.
  - (* WAIT_NUMERIC_CONFIRM *) rewrite base_cb_emit_more. by rewrite ?Es.
  - (* KEY_ENTRY *)
    destruct (devcb_loc_io_caps (base_cb x) =? BTM_IO_CAP_NONE); cbn [negb];
      cbv beta iota.
    + rewrite base_cb_on_base. by apply pairing_over_idle.
    + rewrite base_cb_emit_more. by rewrite ?Es.
  - (* WAIT_LOCAL_OOB_RSP *)
    rewrite base_cb_on_base, base_cb_emit_more. by apply pairing_over_idle.
  - (* WAIT_LOCAL_IOCAPS *)
    rewrite base_cb_on_base, base_cb_emit_more. by apply pairing_over_idle.
  - (* INCOMING_SSP *) rewrite base_cb_on_base. by apply pairing_over_idle.
  - (* WAIT_AUTH_COMPLETE *)
    rewrite !base_cb_on_base. apply pairing_over_notify.
    by apply pairing_over_idle.
  - (* WAIT_DISCONNECT *)
    destruct (btm_find_dev (pairing_bda (base_cb x))
                (sec_dev_rec (base_cb x))) as [p|] eqn:Ef.
    + rewrite bool_decide_eq_false_2 by done. cbv beta iota.
      rewrite !base_cb_on_base.
      destruct (send_hci_disconnect_frame p HCI_ERR_AUTH_FAILURE
                  (hci_handle (dev (base_cb x) p)) (base_cb x))
        as (H1 & H2 & _).
      apply pairing_over_idle; [by rewrite H1|by rewrite H2].
    + rewrite bool_decide_eq_true_2 by done. cbv beta iota. by rewrite ?Es.
Qed.






End Pairing.

(** ** The PIN type *)

Section Configuration.
Context `{Consts : Constants} `{Ext : Externals}.
Context `{MConsts : MoreConstants} `{MExt : MoreExternals}.


End Configuration.

(** ** Link key upgrade and the request queue *)

Section Requests.
Context `{Consts : Constants} `{Ext : Externals}.
Context `{MConsts : MoreConstants} `{MExt : MoreExternals}.

(** X22.  [btm_sec_check_upgrade] makes the device pair again when a
    better link key can be had.  For a record with a link key for which
    [btm_sec_is_upgrade_possible] holds, the flags LINK_KEY_KNOWN,
    LINK_KEY_AUTHED and AUTHENTICATED are cleared and BTM_SM4_UPGRADE is
    set in [sm4], nothing is sent, and [BTM_SecGetDeviceLinkKeyType]
    answers BTM_LKEY_TYPE_IGNORE from then on; such a record asks for
    MITM protection in the direction of the request, holds an
    unauthenticated combination key, and the peer's IO capabilities are
    valid.  In every other case the control block is left as it is. *)
Theorem check_upgrade_forgets_key (p : nat) (is_orig : bool) (cb : tBTM_CB) :
  (p < length (sec_dev_rec cb))%nat ->
  let r := dev cb p in
  let cb' := btm_sec_check_upgrade p is_orig cb in
  if flag (sec_flags r) BTM_SEC_LINK_KEY_KNOWN
     && btm_sec_is_upgrade_possible r is_orig cb
  then
    flag (sec_flags (dev cb' p)) BTM_SEC_LINK_KEY_KNOWN = false
    /\ flag (sec_flags (dev cb' p)) BTM_SEC_LINK_KEY_AUTHED = false
    /\ btm_dev_authenticated (dev cb' p) = false
    /\ sm4 (dev cb' p) = set8 (sm4 r) BTM_SM4_UPGRADE
    /\ effects cb' = effects cb
    /\ (forall addr, btm_find_dev addr (sec_dev_rec cb') = Some p ->
          BTM_SecGetDeviceLinkKeyType addr cb' = BTM_LKEY_TYPE_IGNORE)
    /\ flag (security_required r)
         (if is_orig then BTM_SEC_OUT_MITM else BTM_SEC_IN_MITM) = true
    /\ (link_key_type r = BTM_LKEY_TYPE_UNAUTH_COMB
        \/ link_key_type r = BTM_LKEY_TYPE_UNAUTH_COMB_P_256)
    /\ rmt_io_caps r < BTM_IO_CAP_MAX
  else cb' = cb.
Proof.
  intros Hp r cb'. subst cb'. unfold btm_sec_check_upgrade. fold r.
  destruct (flag (sec_flags r) BTM_SEC_LINK_KEY_KNOWN) eqn:Hk;
    cbn [negb andb]; [|reflexivity].
  destruct (btm_sec_is_upgrade_possible r is_orig cb) eqn:Hu; [|reflexivity].
  set (cb' := upd_dev p _ (upd_dev p _ (upd_dev p _ cb))).
  assert (Hd : dev cb' p
    = set_sec_flags
        (clr16 (clr16 (sec_flags r)
                  (Z.lor BTM_SEC_LINK_KEY_KNOWN BTM_SEC_LINK_KEY_AUTHED))
           BTM_SEC_AUTHENTICATED)
        (set_sm4 (set8 (sm4 r) BTM_SM4_UPGRADE) r)).
  { subst cb'. rewrite !dev_upd_dev_valid; rewrite ?length_upd_dev; done. }
  assert (Hkn : flag (sec_flags (dev cb' p)) BTM_SEC_LINK_KEY_KNOWN = false).
  { rewrite Hd. cbn. apply flag_clr16_false, flag_clr16_lor_l. }
  split; [exact Hkn|].
  split; [rewrite Hd; cbn; apply flag_clr16_false, flag_clr16_lor_r|].
  split; [unfold btm_dev_authenticated; rewrite Hd; cbn;
          apply flag_clr16_same|].
  split; [by rewrite Hd|]. split; [reflexivity|]. split.
  - intros addr Hf. unfold BTM_SecGetDeviceLinkKeyType. by rewrite Hf, Hkn.
  - unfold btm_sec_is_upgrade_possible in Hu. rewrite Hk in Hu.
    destruct (flag (security_required r) _) eqn:Hm; [|done].
    destruct (link_key_type r =? BTM_LKEY_TYPE_UNAUTH_COMB) eqn:H1;
      destruct (link_key_type r =? BTM_LKEY_TYPE_UNAUTH_COMB_P_256) eqn:H2;
      destruct (rmt_io_caps r <? BTM_IO_CAP_MAX) eqn:H3;
      cbn in Hu; try done.
    all: split; [done|]; split; [|by apply Z.ltb_lt].
    all: first [left; by apply Z.eqb_eq|right; by apply Z.eqb_eq].
Qed.

Lemma drain_pending_reqs_app (q1 q2 : list tBTM_SEC_QUEUE_ENTRY)
    (cb : tBTM_CB) :
  drain_pending_reqs (q1 ++ q2) cb
  = drain_pending_reqs q2 (drain_pending_reqs q1 cb).
Proof. revert cb. induction q1 as [|e q1 IH]; intros cb; cbn; [done|apply IH]. Qed.

(** a request that has just been queued is the last one resubmitted *)
Lemma check_pending_reqs_queued (e : tBTM_SEC_QUEUE_ENTRY) (cb : tBTM_CB) :
  btm_sec_check_pending_reqs (set_sec_pending_q (sec_pending_q cb ++ [e]) cb)
  = if bool_decide (pairing_state cb = BTM_PAIR_STATE_IDLE)
    then resubmit_pending_req e (btm_sec_check_pending_reqs cb)
    else set_sec_pending_q (sec_pending_q cb ++ [e]) cb.
Proof.
  unfold btm_sec_check_pending_reqs.
  change (pairing_state (set_sec_pending_q _ cb)) with (pairing_state cb).
  case_bool_decide; [|reflexivity].
  change (sec_req_pending (set_sec_pending_q _ cb)) with (sec_req_pending cb).
  destruct (sec_req_pending cb); cbn; by rewrite drain_pending_reqs_app.
Qed.

(** X23.  A queued request comes back with the arguments it was queued
    with.  While a pairing is going on [btm_sec_check_pending_reqs]
    leaves a request that [btm_sec_queue_mx_request] or
    [btm_sec_queue_encrypt_request] has queued in the queue; with the
    pairing state IDLE it resubmits it after the requests queued before
    it, if the ACL link of its transport is still up: a request queued
    with a PSM other than 0 through [btm_sec_mx_access_request], an
    encryption request through [BTM_SetEncryption], each with the
    address, the requirements, the callback and the reference data it
    was queued with; if the link is down the request is dropped. *)
Theorem queued_request_resubmitted (addr : RawAddress) (psm : Z)
    (is_orig : bool) (security_req : Z) (callback : option tBTM_SEC_CALLBACK)
    (ref_data : RefData) (transport : tBT_TRANSPORT)
    (sec_act : tBTM_BLE_SEC_ACT) (cb : tBTM_CB) :
  psm <> 0 ->
  let queued_mx :=
    btm_sec_queue_mx_request addr psm is_orig security_req callback ref_data
      cb in
  let queued_enc :=
    btm_sec_queue_encrypt_request addr transport callback ref_data sec_act
      cb in
  let cb0 := btm_sec_check_pending_reqs cb in
  if bool_decide (pairing_state cb = BTM_PAIR_STATE_IDLE) then
    btm_sec_check_pending_reqs queued_mx
    = (if BTM_IsAclConnectionUp addr BT_TRANSPORT_BR_EDR
       then snd (btm_sec_mx_access_request addr is_orig security_req callback
                   ref_data cb0)
       else cb0)
    /\ btm_sec_check_pending_reqs queued_enc
       = (if BTM_IsAclConnectionUp addr transport
          then snd (BTM_SetEncryption addr transport callback ref_data sec_act
                      cb0)
          else cb0)
  else
    btm_sec_check_pending_reqs queued_mx = queued_mx
    /\ btm_sec_check_pending_reqs queued_enc = queued_enc.
Proof.
  intros Hpsm queued_mx queued_enc cb0. subst queued_mx queued_enc cb0.
  unfold btm_sec_queue_mx_request, btm_sec_queue_encrypt_request.
  rewrite !check_pending_reqs_queued.
  case_bool_decide; [|done].
  unfold resubmit_pending_req. cbn [e_bd_addr e_transport e_psm e_is_orig
    e_rfcomm_security_requirement e_p_callback e_p_ref_data e_sec_act].
  apply Z.eqb_neq in Hpsm. rewrite Hpsm. cbn [negb Z.eqb]. done.
Qed.

End Requests.

(** ** The disconnection request *)

Section Disconnection.
Context `{Consts : Constants} `{Ext : Externals}.
Context `{MConsts : MoreConstants} `{MExt : MoreExternals}.




End Disconnection.

(** * The further statements at concrete inputs

    The constants are those of the upstream headers, the environment is
    [test_env]. *)

#[local] Existing Instance aosp_constants.
#[local] Existing Instance aosp_more_constants.
#[local] Existing Instance test_env.
#[local] Existing Instance test_more_externals.

Lemma SetSecurityLevel_out_of_records_witness :
  let x := test_cb_ext (test_cb BTM_PAIR_STATE_IDLE [] [])
             [test_serv 1 5 0 [65]] in
  BTM_SetSecurityLevel true (Some [66]) 2 0x30 7 0 0 x = Some (false, x).
Proof.
  cbn zeta.
  destruct (SetSecurityLevel_out_of_records true (Some [66]) 2 0x30 7 0 0
              (test_cb_ext (test_cb BTM_PAIR_STATE_IDLE [] [])
                 [test_serv 1 5 0 [65]])) as [[Hfull _] Hsame].
  destruct Hfull as [x' E]; [repeat constructor|].
  rewrite E. by rewrite (Hsame x' E).
Defined.

Lemma SecClrService_spares_sdp_witness :
  let x := test_cb_ext (test_cb BTM_PAIR_STATE_IDLE [] [])
             [test_serv 1 1 0 [65]; test_serv 2 5 0 [66]] in
  fst (BTM_SecClrService 0 x) = 1
  /\ sec_serv_rec (snd (BTM_SecClrService 0 x)) !! 0%nat
     = Some (test_serv 1 1 0 [65]).
Proof.
  cbn zeta.
  destruct (SecClrService_spares_sdp 0
              (test_cb_ext (test_cb BTM_PAIR_STATE_IDLE [] [])
                 [test_serv 1 1 0 [65]; test_serv 2 5 0 [66]]))
    as (Hn & _ & Hsdp & _).
  split; [rewrite Hn; reflexivity|]. apply Hsdp; reflexivity.
Defined.

Lemma SetSecurityLevel_then_find_witness :
  let x := test_cb_ext (test_cb BTM_PAIR_STATE_IDLE [] [])
             [test_serv 1 5 0 [65]; serv_rec0] in
  let x' := registered (BTM_SetSecurityLevel true (Some [66]) 2 0x30 7 0 0 x)
              x in
  btm_sec_find_first_serv true 7 x' = Some 1%nat.
Proof.
  cbn zeta.
  destruct (SetSecurityLevel_then_find true [66] 2 0x30 7 0 0
              (test_cb_ext (test_cb BTM_PAIR_STATE_IDLE [] [])
                 [test_serv 1 5 0 [65]; serv_rec0])
              (registered
                 (BTM_SetSecurityLevel true (Some [66]) 2 0x30 7 0 0
                    (test_cb_ext (test_cb BTM_PAIR_STATE_IDLE [] [])
                       [test_serv 1 5 0 [65]; serv_rec0]))
                 (test_cb_ext (test_cb BTM_PAIR_STATE_IDLE [] [])
                    [test_serv 1 5 0 [65]; serv_rec0])))
    as (k & Hk & _ & _ & Hout).
  - unfold mask16. cbn. lia.
  - cbn. lia.
  - vm_compute. reflexivity.
  - destruct (Hout eq_refl) as [-> _]. rewrite Hk. reflexivity.
Defined.

Lemma SetSecurityLevel_shares_record_witness :
  let x := test_cb_ext (test_cb BTM_PAIR_STATE_IDLE [] [])
             [serv_rec0; serv_rec0] in
  let x1 := registered
              (BTM_SetSecurityLevel true (Some [83; 80; 80]) 2 0x30 3 3 1 x)
              x in
  let x2 := registered
              (BTM_SetSecurityLevel false (Some [83; 80; 80]) 2 0x06 3 3 2 x1)
              x1 in
  s_orig_mx_chan_id (serv x2 0) = 1 /\ s_term_mx_chan_id (serv x2 0) = 2.
Proof.
  cbn zeta.
  destruct (SetSecurityLevel_shares_record true false [83; 80; 80] 2 0x30 0x06
              3 3 1 2
              (test_cb_ext (test_cb BTM_PAIR_STATE_IDLE [] [])
                 [serv_rec0; serv_rec0])
              (registered
                 (BTM_SetSecurityLevel true (Some [83; 80; 80]) 2 0x30 3 3 1
                    (test_cb_ext (test_cb BTM_PAIR_STATE_IDLE [] [])
                       [serv_rec0; serv_rec0]))
                 (test_cb_ext (test_cb BTM_PAIR_STATE_IDLE [] [])
                    [serv_rec0; serv_rec0])))
    as (x2 & E2 & _ & _ & _ & _ & _ & H2 & H1).
  - unfold mask16. cbn. lia.
  - cbn. lia.
  - cbn. lia.
  - vm_compute. reflexivity.
  - rewrite E2. cbn [registered]. split; [exact (H1 eq_refl)|exact H2].
Defined.


Lemma SetSecurityLevel_stored_requirements_witness :
  let x := test_cb_ext (test_cb BTM_PAIR_STATE_IDLE [] []) [serv_rec0] in
  let x' := registered (BTM_SetSecurityLevel true (Some [66]) 2 0x20 7 0 0 x)
              x in
  let f := s_security_flags (serv x' 0) in
  flag f BTM_SEC_OUT_ENCRYPT = true /\ flag f BTM_SEC_OUT_AUTHENTICATE = true
  /\ flag f BTM_SEC_OUT_MITM = false.
Proof.
  cbn zeta.
  destruct (SetSecurityLevel_stored_requirements true [66] 2 0x20 7 0 0
              (test_cb_ext (test_cb BTM_PAIR_STATE_IDLE [] []) [serv_rec0])
              (registered
                 (BTM_SetSecurityLevel true (Some [66]) 2 0x20 7 0 0
                    (test_cb_ext (test_cb BTM_PAIR_STATE_IDLE [] [])
                       [serv_rec0]))
                 (test_cb_ext (test_cb BTM_PAIR_STATE_IDLE [] []) [serv_rec0])))
    as (_ & He & Ha & Hm & _).
  - vm_compute. reflexivity.
  - cbn. lia.
  - vm_compute. reflexivity.
  - split; [exact He|]. split; [exact Ha|exact Hm].
Defined.

Lemma l2cap_access_req_sc_only_witness :
  let x := test_cb_ext (test_cb_mode 6 []) [test_serv 2 7 0x06 [66]] in
  fst (btm_sec_l2cap_access_req 9 7 false (Some 5%nat) 0 x)
  = BTM_MODE4_LEVEL4_NOT_SUPPORTED.
Proof.
  cbn zeta.
  rewrite (l2cap_access_req_sc_only 9 7 (Some 5%nat) 0
             (test_cb_ext (test_cb_mode 6 []) [test_serv 2 7 0x06 [66]])
             0%nat).
  - reflexivity.
  - unfold mask16. cbn. lia.
  - reflexivity.
  - reflexivity.
  - cbn. lia.
  - reflexivity.
  - right. reflexivity.
Defined.

Lemma send_hci_disconnect_once_witness :
  let cb := test_cb BTM_PAIR_STATE_IDLE
              [test_dev 0x1E 0x00 BTM_SEC_STATE_IDLE true None] [] in
  let cb1 := snd (btm_sec_send_hci_disconnect 0 HCI_ERR_PEER_USER 1 cb) in
  new_effects cb cb1 = [E_acl_disconnect_after_role_switch 1 HCI_ERR_PEER_USER]
  /\ btm_sec_send_hci_disconnect 0 HCI_ERR_AUTH_FAILURE 1 cb1
     = (BTM_CMD_STARTED, cb1).
Proof.
  cbn zeta.
  destruct (send_hci_disconnect_once 0 HCI_ERR_PEER_USER HCI_ERR_AUTH_FAILURE 1
              (test_cb BTM_PAIR_STATE_IDLE
                 [test_dev 0x1E 0x00 BTM_SEC_STATE_IDLE true None] []))
    as (_ & _ & _ & Hagain).
  - cbn. lia.
  - left. reflexivity.
  - split; [reflexivity|exact Hagain].
Defined.

Lemma abort_access_req_drops_callback_witness :
  let cb := test_cb BTM_PAIR_STATE_IDLE
              [test_dev 0x08 0x30 BTM_SEC_STATE_AUTHENTICATING true
                 (Some 4%nat)] [] in
  let cb1 := btm_sec_abort_access_req 1 cb in
  p_callback (dev cb1 0) = None /\ effects cb1 = []
  /\ btm_sec_dev_rec_cback_event 0 BTM_SUCCESS false cb1 = cb1.
Proof.
  cbn zeta.
  pose proof (abort_access_req_drops_callback 1 0 BTM_SUCCESS false
                (test_cb BTM_PAIR_STATE_IDLE
                   [test_dev 0x08 0x30 BTM_SEC_STATE_AUTHENTICATING true
                      (Some 4%nat)] []) eq_refl) as H.
  destruct H as (_ & Hc & He & _ & Hev); [cbn; lia|].
  split; [exact Hc|]. split; [exact He|]. rewrite Hev. reflexivity.
Defined.


Lemma queries_read_transport_byte_witness :
  let cb := test_cb BTM_PAIR_STATE_IDLE
              [test_dev_le 0x0400 BTM_SEC_STATE_IDLE None] [] in
  BTM_IsEncrypted 2 BT_TRANSPORT_LE cb = true
  /\ BTM_IsEncrypted 2 BT_TRANSPORT_BR_EDR cb = false
  /\ BTM_IsEncrypted 3 BT_TRANSPORT_LE cb = false.
Proof.
  cbn zeta. split; [|split].
  - destruct (queries_read_transport_byte 2 BT_TRANSPORT_LE
                (test_cb BTM_PAIR_STATE_IDLE
                   [test_dev_le 0x0400 BTM_SEC_STATE_IDLE None] []))
      as (He & _); [unfold mask8; cbn; lia..|].
    rewrite He. reflexivity.
  - destruct (queries_read_transport_byte 2 BT_TRANSPORT_BR_EDR
                (test_cb BTM_PAIR_STATE_IDLE
                   [test_dev_le 0x0400 BTM_SEC_STATE_IDLE None] []))
      as (He & _); [unfold mask8; cbn; lia..|].
    rewrite He. reflexivity.
  - destruct (queries_read_transport_byte 3 BT_TRANSPORT_LE
                (test_cb BTM_PAIR_STATE_IDLE
                   [test_dev_le 0x0400 BTM_SEC_STATE_IDLE None] []))
      as (He & _); [unfold mask8; cbn; lia..|].
    rewrite He. reflexivity.
Defined.

Lemma check_pending_enc_req_answers_witness :
  let mine := mk_queue_entry 1 0 false (Some 5%nat) 9 0 BT_TRANSPORT_BR_EDR
                BTM_BLE_SEC_NONE in
  let other := mk_queue_entry 3 0 false (Some 6%nat) 8 0 BT_TRANSPORT_BR_EDR
                 BTM_BLE_SEC_NONE in
  let cb := test_cb BTM_PAIR_STATE_IDLE
              [test_dev 0x1E 0x00 BTM_SEC_STATE_IDLE true None]
              [other; mine] in
  let cb' := btm_sec_check_pending_enc_req 0 BT_TRANSPORT_BR_EDR 1 cb in
  sec_pending_q cb' = [other]
  /\ new_effects cb cb' = [E_callback 5%nat 1 BT_TRANSPORT_BR_EDR 9 BTM_SUCCESS].
Proof.
  cbn zeta.
  destruct (check_pending_enc_req_answers 0 BT_TRANSPORT_BR_EDR 1
              (test_cb BTM_PAIR_STATE_IDLE
                 [test_dev 0x1E 0x00 BTM_SEC_STATE_IDLE true None]
                 [mk_queue_entry 3 0 false (Some 6%nat) 8 0 BT_TRANSPORT_BR_EDR
                    BTM_BLE_SEC_NONE;
                  mk_queue_entry 1 0 false (Some 5%nat) 9 0 BT_TRANSPORT_BR_EDR
                    BTM_BLE_SEC_NONE]))
    as (Hq & _ & He).
  - intros f a t r s c. repeat split.
  - rewrite Hq, He. split; reflexivity.
Defined.

Lemma le_encryption_failure_unbonds_witness :
  let cb := test_cb BTM_PAIR_STATE_IDLE
              [test_dev_le 0x1400 BTM_SEC_STATE_IDLE None] [] in
  let cb' := @btm_sec_encrypt_change aosp_constants test_env_le 2
               HCI_ERR_KEY_MISSING 0 cb in
  @btm_sec_is_a_bonded_dev aosp_constants test_env_le 2 cb' = false
  /\ new_effects cb cb' = [E_btm_ble_link_encrypted 2 false].
Proof.
  cbn zeta.
  destruct (@le_encryption_failure_unbonds aosp_constants test_env_le 2
              HCI_ERR_KEY_MISSING 0 0
              (test_cb BTM_PAIR_STATE_IDLE
                 [test_dev_le 0x1400 BTM_SEC_STATE_IDLE None] []))
    as (_ & _ & _ & He & Hbond).
  - intros f a t r s c. repeat split.
  - reflexivity.
  - left. reflexivity.
  - reflexivity.
  - reflexivity.
  - cbn. lia.
  - split; [apply Hbond; reflexivity|]. rewrite He. reflexivity.
Defined.

Lemma passkey_reply_in_range_witness :
  let x := test_cb_ext
             (test_cb_pairing BTM_PAIR_STATE_KEY_ENTRY 1 0
                [test_dev 0x08 0x00 BTM_SEC_STATE_IDLE true None]) [] in
  new_more_effects x (BTM_PasskeyReqReply BTM_SUCCESS 1 123456 x)
  = [E_btsnd_hcic_user_passkey_reply 1 123456]
  /\ 123456 <= BTM_MAX_PASSKEY_VAL
  /\ new_more_effects x (BTM_PasskeyReqReply BTM_SUCCESS 1 1000000 x)
     = [E_btsnd_hcic_user_passkey_neg_reply 1].
Proof.
  cbn zeta. split; [reflexivity|]. split; [|reflexivity].
  destruct (passkey_reply_in_range BTM_SUCCESS 1 123456
              (test_cb_ext
                 (test_cb_pairing BTM_PAIR_STATE_KEY_ENTRY 1 0
                    [test_dev 0x08 0x00 BTM_SEC_STATE_IDLE true None]) [])
              1 123456) as (_ & _ & Hmax & _).
  - vm_compute. apply list_elem_of_here.
  - exact Hmax.
Defined.

Lemma user_reply_taken_once_witness :
  let x := test_cb_ext
             (test_cb_pairing BTM_PAIR_STATE_WAIT_NUMERIC_CONFIRM 1 0
                [test_dev 0x08 0x00 BTM_SEC_STATE_IDLE true None]) [] in
  let x' := BTM_ConfirmReqReply BTM_SUCCESS 1 x in
  new_more_effects x x' = [E_btsnd_hcic_user_conf_reply 1 true]
  /\ BTM_ConfirmReqReply BTM_ERR_PROCESSING 1 x' = x'.
Proof.
  cbn zeta.
  destruct (user_reply_taken_once BTM_SUCCESS BTM_ERR_PROCESSING 1 1 [] [] []
              []
              (test_cb_ext
                 (test_cb_pairing BTM_PAIR_STATE_WAIT_NUMERIC_CONFIRM 1 0
                    [test_dev 0x08 0x00 BTM_SEC_STATE_IDLE true None]) []))
    as [Hconfirm _].
  destruct (Hconfirm eq_refl eq_refl) as (He & _ & _ & Hagain).
  split; [exact He|exact Hagain].
Defined.


Lemma pairing_timeout_outcome_witness :
  let ended := test_cb_ext
                 (test_cb_pairing BTM_PAIR_STATE_WAIT_AUTH_COMPLETE 1 0x01
                    [test_dev 0x08 0x00 BTM_SEC_STATE_IDLE true None]) [] in
  let kept := test_cb_ext
                (test_cb_pairing BTM_PAIR_STATE_WAIT_PIN_REQ 1 0x01
                   [test_dev 0x08 0x00 BTM_SEC_STATE_IDLE true None]) [] in
  pairing_state (base_cb (btm_sec_pairing_timeout ended))
  = BTM_PAIR_STATE_IDLE
  /\ pairing_state (base_cb (btm_sec_pairing_timeout kept))
     = BTM_PAIR_STATE_WAIT_PIN_REQ.
Proof.
  cbn zeta. split.
  - destruct (pairing_timeout_outcome
                (test_cb_ext
                   (test_cb_pairing BTM_PAIR_STATE_WAIT_AUTH_COMPLETE 1 0x01
                      [test_dev 0x08 0x00 BTM_SEC_STATE_IDLE true None]) [])
                eq_refl eq_refl) as (Hs & _).
    exact Hs.
  - destruct (pairing_timeout_outcome
                (test_cb_ext
                   (test_cb_pairing BTM_PAIR_STATE_WAIT_PIN_REQ 1 0x01
                      [test_dev 0x08 0x00 BTM_SEC_STATE_IDLE true None]) [])
                eq_refl eq_refl) as (Hs & _).
    exact Hs.
Defined.




Lemma check_upgrade_forgets_key_witness :
  let cb := test_cb BTM_PAIR_STATE_IDLE [test_dev_key 0x1A 0x2000 4 1] [] in
  let cb' := btm_sec_check_upgrade 0 true cb in
  sec_flags (dev cb' 0) = 0x08
  /\ BTM_SecGetDeviceLinkKeyType 1 cb = 4
  /\ BTM_SecGetDeviceLinkKeyType 1 cb' = BTM_LKEY_TYPE_IGNORE.
Proof.
  cbn zeta.
  pose proof (check_upgrade_forgets_key 0 true
                (test_cb BTM_PAIR_STATE_IDLE [test_dev_key 0x1A 0x2000 4 1] []))
    as H.
  destruct H as (_ & _ & _ & _ & _ & Hkey & _); [cbn; lia|].
  split; [reflexivity|]. split; [reflexivity|]. apply Hkey. reflexivity.
Defined.

Lemma queued_request_resubmitted_witness :
  let cb := test_cb BTM_PAIR_STATE_IDLE
              [test_dev 0x1E 0x00 BTM_SEC_STATE_IDLE true None] [] in
  let queued := btm_sec_queue_mx_request 1 3 true 0x30 (Some 5%nat) 9 cb in
  btm_sec_check_pending_reqs queued
  = snd (btm_sec_mx_access_request 1 true 0x30 (Some 5%nat) 9 cb)
  /\ new_effects cb (btm_sec_check_pending_reqs queued)
     = [E_callback 5%nat 1 BT_TRANSPORT_AUTO 9 BTM_SUCCESS].
Proof.
  cbn zeta.
  pose proof (queued_request_resubmitted 1 3 true 0x30 (Some 5%nat) 9
                BT_TRANSPORT_BR_EDR BTM_BLE_SEC_NONE
                (test_cb BTM_PAIR_STATE_IDLE
                   [test_dev 0x1E 0x00 BTM_SEC_STATE_IDLE true None] [])) as H.
  destruct H as [Hmx _]; [discriminate|].
  rewrite Hmx. split; reflexivity.
Defined.

